(** * Creact: a shallow embedding of the fiber reconciler

    The development follows [src/creact.js]: element construction
    ([createElement]), the fiber heap and the reconciler
    ([reconcileChildren]), the hook store ([useState] and the [setState]
    closures it hands out), the work loop ([performUnitOfWork],
    [workLoop]) and the committer ([commitRoot], [commitWork],
    [commitDeletion]).

    Fibers and hook cells are mutable JavaScript objects that the program
    shares through references, so both live in an explicit store (an
    arena addressed by index) and every operation is a computation over
    the record of the module-level variables of the source. *)

From Stdlib Require Import ZArith String List Lia DecimalString.
From stdpp Require Import base list.
Import ListNotations.

Local Open Scope string_scope.
Local Open Scope list_scope.
Set Warnings "-register-all".

(** ** JavaScript values *)

(** Addresses into the fiber arena and the hook arena. *)
Abbreviation loc := nat (only parsing).

(** Handles of the nodes owned by the rendering backend (the DOM). *)
Abbreviation node := nat (only parsing).

(** Function values.  A function is identified by what created it: a
    top-level function of the application (a component such as
    [Counter]), the [setState] closure built by [useState] for one hook
    cell, or a closure built at some site of a component body over the
    values it captures. *)
Inductive value : Type :=
| VUndefined
| VNull
| VBool (b : bool)
| VNum (n : Z)
| VStr (s : string)
| VFun (f : func)
| VArr (items : list value)
| VObj (fields : list (string * value))
with func : Type :=
| FNamed (name : string)
| FSetState (hook : loc)
| FClosure (site : string) (captured : list value).

(** [typeof v], as a string. Note that [typeof null] is ["object"]. *)
Definition typeof (v : value) : string :=
  match v with
  | VUndefined => "undefined"
  | VNull => "object"
  | VBool _ => "boolean"
  | VNum _ => "number"
  | VStr _ => "string"
  | VFun _ => "function"
  | VArr _ => "object"
  | VObj _ => "object"
  end.

(** Truthiness, as used by [&&], [!] and [if]. *)
Definition truthy (v : value) : bool :=
  match v with
  | VUndefined | VNull => false
  | VBool b => b
  | VNum n => negb (n =? 0)%Z
  | VStr s => negb (s =? "")
  | VFun _ | VArr _ | VObj _ => true
  end.

(** Object records are association lists in key order. *)
Fixpoint lookup_field (k : string) (fs : list (string * value)) : option value :=
  match fs with
  | [] => None
  | (k', v) :: fs' => if k' =? k then Some v else lookup_field k fs'
  end.

(** [{ ...fs, k: v }]: an existing key keeps its place, a new one goes last. *)
Fixpoint set_field (k : string) (v : value) (fs : list (string * value))
  : list (string * value) :=
  match fs with
  | [] => [(k, v)]
  | (k', v') :: fs' =>
      if k' =? k then (k, v) :: fs' else (k', v') :: set_field k v fs'
  end.

(** Decimal rendering of an index, for the keys of spread arrays and strings. *)
Definition index_key (i : nat) : string :=
  DecimalString.NilEmpty.string_of_uint (Nat.to_uint i).

Fixpoint indexed (i : nat) (vs : list value) : list (string * value) :=
  match vs with
  | [] => []
  | v :: vs' => (index_key i, v) :: indexed (S i) vs'
  end.

Fixpoint chars (s : string) : list value :=
  match s with
  | EmptyString => []
  | String c s' => VStr (String c EmptyString) :: chars s'
  end.

(** The own enumerable properties copied by [...props]. *)
Definition spread (props : value) : list (string * value) :=
  match props with
  | VObj fs => fs
  | VArr vs => indexed 0 vs
  | VStr s => indexed 0 (chars s)
  | VUndefined | VNull | VBool _ | VNum _ | VFun _ => []
  end.

(** ** Element construction (creact.js, lines 1-25) *)

Definition createTextElement (text : value) : value :=
  VObj [("type", VStr "TEXT_ELEMENT");
        ("props", VObj [("nodeValue", text); ("children", VArr [])])].

Definition wrapChild (child : value) : value :=
  if typeof child =? "object" then child else createTextElement child.

Definition createElement (type props : value) (children : list value) : value :=
  VObj [("type", type);
        ("props", VObj (set_field "children" (VArr (map wrapChild children))
                                  (spread props)))].

(** ** The store: fibers, hook cells and the module-level variables *)

Inductive effect := PLACEMENT | UPDATE | DELETION.

(** A fiber object.  A reference field is [None] when the property is
    [null] or was never set ([undefined]); the source only ever tests such
    fields for truthiness or with [!= null], which do not tell the two
    apart. *)
Record fiber := Fiber {
  type : value;
  props : value;
  dom : option node;
  parent : option loc;
  child : option loc;
  sibling : option loc;
  alternate : option loc;
  effectTag : option effect;
  hooks : option (list loc);
}.

(** A hook cell [{ state, queue }]; queued actions are updater functions. *)
Record hook := Hook {
  state : value;
  queue : list (value -> value);
}.

(** Calls made on the rendering backend, in the order they happen.
    [updateDom] (creact.js, lines 41-84) only talks to the backend node it
    is given, so it is recorded as one call with its three arguments. *)
Inductive dom_event :=
| CreateTextNode (n : node)
| CreateElementNode (tag : value) (n : node)
| UpdateDom (n : node) (prevProps nextProps : value)
| AppendChild (domParent n : node)
| RemoveChild (domParent n : node).

(** The module-level variables (creact.js, lines 144-147 and 189-190)
    together with the two arenas and the backend. *)
Record engine := Engine {
  fibers : list fiber;
  cells : list hook;
  nextUnitOfWork : option loc;
  currentRoot : option loc;
  wipRoot : option loc;
  deletions : option (list loc);
  wipFiber : option loc;
  hookIndex : option nat;
  nextNode : node;
  log : list dom_event;
}.

(** The state in which the script starts. Backend nodes below
    [firstNode] exist beforehand (the container is one of them). *)
Definition initial (firstNode : node) : engine :=
  {| fibers := []; cells := [];
     nextUnitOfWork := None; currentRoot := None; wipRoot := None;
     deletions := None; wipFiber := None; hookIndex := None;
     nextNode := firstNode; log := [] |}.

(** *** Field updates *)

Definition set_dom (d : option node) (f : fiber) : fiber :=
  {| type := type f; props := props f; dom := d; parent := parent f;
     child := child f; sibling := sibling f; alternate := alternate f;
     effectTag := effectTag f; hooks := hooks f |}.

Definition set_child (c : option loc) (f : fiber) : fiber :=
  {| type := type f; props := props f; dom := dom f; parent := parent f;
     child := c; sibling := sibling f; alternate := alternate f;
     effectTag := effectTag f; hooks := hooks f |}.

Definition set_sibling (c : option loc) (f : fiber) : fiber :=
  {| type := type f; props := props f; dom := dom f; parent := parent f;
     child := child f; sibling := c; alternate := alternate f;
     effectTag := effectTag f; hooks := hooks f |}.

Definition set_effectTag (t : option effect) (f : fiber) : fiber :=
  {| type := type f; props := props f; dom := dom f; parent := parent f;
     child := child f; sibling := sibling f; alternate := alternate f;
     effectTag := t; hooks := hooks f |}.

Definition set_hooks (h : option (list loc)) (f : fiber) : fiber :=
  {| type := type f; props := props f; dom := dom f; parent := parent f;
     child := child f; sibling := sibling f; alternate := alternate f;
     effectTag := effectTag f; hooks := h |}.

Definition with_fibers (fs : list fiber) (s : engine) : engine :=
  {| fibers := fs; cells := cells s; nextUnitOfWork := nextUnitOfWork s;
     currentRoot := currentRoot s; wipRoot := wipRoot s;
     deletions := deletions s; wipFiber := wipFiber s;
     hookIndex := hookIndex s; nextNode := nextNode s; log := log s |}.

Definition with_cells (cs : list hook) (s : engine) : engine :=
  {| fibers := fibers s; cells := cs; nextUnitOfWork := nextUnitOfWork s;
     currentRoot := currentRoot s; wipRoot := wipRoot s;
     deletions := deletions s; wipFiber := wipFiber s;
     hookIndex := hookIndex s; nextNode := nextNode s; log := log s |}.

Definition with_nextUnitOfWork (n : option loc) (s : engine) : engine :=
  {| fibers := fibers s; cells := cells s; nextUnitOfWork := n;
     currentRoot := currentRoot s; wipRoot := wipRoot s;
     deletions := deletions s; wipFiber := wipFiber s;
     hookIndex := hookIndex s; nextNode := nextNode s; log := log s |}.

Definition with_currentRoot (r : option loc) (s : engine) : engine :=
  {| fibers := fibers s; cells := cells s; nextUnitOfWork := nextUnitOfWork s;
     currentRoot := r; wipRoot := wipRoot s;
     deletions := deletions s; wipFiber := wipFiber s;
     hookIndex := hookIndex s; nextNode := nextNode s; log := log s |}.

Definition with_wipRoot (r : option loc) (s : engine) : engine :=
  {| fibers := fibers s; cells := cells s; nextUnitOfWork := nextUnitOfWork s;
     currentRoot := currentRoot s; wipRoot := r;
     deletions := deletions s; wipFiber := wipFiber s;
     hookIndex := hookIndex s; nextNode := nextNode s; log := log s |}.

Definition with_deletions (d : option (list loc)) (s : engine) : engine :=
  {| fibers := fibers s; cells := cells s; nextUnitOfWork := nextUnitOfWork s;
     currentRoot := currentRoot s; wipRoot := wipRoot s;
     deletions := d; wipFiber := wipFiber s;
     hookIndex := hookIndex s; nextNode := nextNode s; log := log s |}.

Definition with_wipFiber (w : option loc) (s : engine) : engine :=
  {| fibers := fibers s; cells := cells s; nextUnitOfWork := nextUnitOfWork s;
     currentRoot := currentRoot s; wipRoot := wipRoot s;
     deletions := deletions s; wipFiber := w;
     hookIndex := hookIndex s; nextNode := nextNode s; log := log s |}.

Definition with_hookIndex (i : option nat) (s : engine) : engine :=
  {| fibers := fibers s; cells := cells s; nextUnitOfWork := nextUnitOfWork s;
     currentRoot := currentRoot s; wipRoot := wipRoot s;
     deletions := deletions s; wipFiber := wipFiber s;
     hookIndex := i; nextNode := nextNode s; log := log s |}.

Definition with_backend (n : node) (l : list dom_event) (s : engine) : engine :=
  {| fibers := fibers s; cells := cells s; nextUnitOfWork := nextUnitOfWork s;
     currentRoot := currentRoot s; wipRoot := wipRoot s;
     deletions := deletions s; wipFiber := wipFiber s;
     hookIndex := hookIndex s; nextNode := n; log := l |}.

(** ** Computations *)

(** How a call can fail: a [TypeError] thrown by the script (a property
    read on [null] or [undefined]), a loop that needs more steps than it
    was given, or behaviour of JavaScript that lies outside this model. *)
Inductive error := TypeError | OutOfFuel | Unmodelled.

Inductive result (A : Type) :=
| Ok (a : A)
| Err (e : error).
Arguments Ok {A} a.
Arguments Err {A} e.

Definition M (A : Type) : Type := engine -> result (A * engine).

Definition ret {A} (a : A) : M A := fun s => Ok (a, s).

Definition bind {A B} (c : M A) (k : A -> M B) : M B :=
  fun s => match c s with
           | Ok (a, s') => k a s'
           | Err e => Err e
           end.

Definition fail {A} (e : error) : M A := fun _ => Err e.

Definition gets {A} (f : engine -> A) : M A := fun s => Ok (f s, s).

Definition modify (f : engine -> engine) : M unit := fun s => Ok (tt, f s).

Declare Scope js_scope.
Delimit Scope js_scope with js.
Notation "x <- c ;; k" := (bind c (fun x => k))
  (at level 20, c at level 99, k at level 200, only parsing) : js_scope.
Notation "c ;; k" := (bind c (fun _ => k))
  (at level 100, k at level 200, right associativity, only parsing) : js_scope.
Local Open Scope js_scope.

(** Dereferencing a reference that may be [null] or [undefined]. *)
Definition deref (p : option loc) : M loc :=
  match p with
  | Some l => ret l
  | None => fail TypeError
  end.

Definition readFiber (l : loc) : M fiber :=
  fun s => match fibers s !! l with
           | Some f => Ok (f, s)
           | None => Err Unmodelled
           end.

Definition updateFiber (l : loc) (g : fiber -> fiber) : M unit :=
  f <- readFiber l ;;
  modify (fun s => with_fibers (<[l := g f]> (fibers s)) s).

(** A new object literal: the next free address of the arena. *)
Definition newFiber (f : fiber) : M loc :=
  fun s => Ok (length (fibers s), with_fibers (fibers s ++ [f]) s).

Definition readHook (l : loc) : M hook :=
  fun s => match cells s !! l with
           | Some h => Ok (h, s)
           | None => Err Unmodelled
           end.

Definition newHook (h : hook) : M loc :=
  fun s => Ok (length (cells s), with_cells (cells s ++ [h]) s).

Definition emit (e : dom_event) : M unit :=
  modify (fun s => with_backend (nextNode s) (log s ++ [e]) s).

(** [v.k] for the keys the engine reads ([type], [props], [children]):
    a [TypeError] on [null] and [undefined], the field of an object
    record, and [undefined] on any other value, none of which has such a
    property. *)
Definition getField (k : string) (v : value) : M value :=
  match v with
  | VUndefined | VNull => fail TypeError
  | VObj fs => ret (default VUndefined (lookup_field k fs))
  | _ => ret VUndefined
  end.

(** [a == b] where the engine uses it (comparing two [type]s).  Functions
    are equal when they are the same function; a string never equals a
    function here, the source text of functions not being represented.
    Comparisons that need coercions between primitives, or the identity
    of object records or of closures, are outside the model. *)
Definition looseEq (a b : value) : M bool :=
  match a, b with
  | (VUndefined | VNull), (VUndefined | VNull) => ret true
  | (VUndefined | VNull), _ | _, (VUndefined | VNull) => ret false
  | VStr x, VStr y => ret (x =? y)
  | VNum x, VNum y => ret (x =? y)%Z
  | VBool x, VBool y => ret (Bool.eqb x y)
  | VFun (FNamed x), VFun (FNamed y) => ret (x =? y)
  | VFun (FSetState x), VFun (FSetState y) => ret (x =? y)%nat
  | VFun (FNamed _), VFun (FSetState _)
  | VFun (FSetState _), VFun (FNamed _) => ret false
  | VFun (FClosure _ _), VFun (FNamed _ | FSetState _)
  | VFun (FNamed _ | FSetState _), VFun (FClosure _ _) => ret false
  | VStr _, VFun _ | VFun _, VStr _ => ret false
  | _, _ => fail Unmodelled
  end.

(** What [elements.length] and [elements[index]] see of [elements]. *)
Definition arrayOf (elements : value) : M (list value) :=
  match elements with
  | VArr items => ret items
  | VStr s => ret (chars s)
  | VUndefined | VNull => fail TypeError
  | VBool _ | VNum _ => ret []
  | VObj fs => match lookup_field "length" fs with
               | None => ret []
               | Some _ => fail Unmodelled
               end
  | VFun _ => fail Unmodelled
  end.

Definition updateHook (l : loc) (g : hook -> hook) : M unit :=
  h <- readHook l ;;
  modify (fun s => with_cells (<[l := g h]> (cells s)) s).

Fixpoint forEach {A} (f : A -> M unit) (l : list A) : M unit :=
  match l with
  | [] => ret tt
  | a :: l' => f a ;; forEach f l'
  end.

(** ** The backend side (creact.js, lines 27-84) *)

(** [updateDom] walks [Object.keys] of both property records, which
    throws on [null] and [undefined]; on records it is one backend call. *)
Definition updateDom (d : node) (prevProps nextProps : value) : M unit :=
  match prevProps, nextProps with
  | (VUndefined | VNull), _ | _, (VUndefined | VNull) => fail TypeError
  | VObj _, VObj _ => emit (UpdateDom d prevProps nextProps)
  | _, _ => fail Unmodelled
  end.

Definition createDom (f : fiber) : M node :=
  isText <- looseEq (type f) (VStr "TEXT_ELEMENT") ;;
  n <- gets nextNode ;;
  modify (fun s => with_backend (S n) (log s) s) ;;
  emit (if isText then CreateTextNode n else CreateElementNode (type f) n) ;;
  updateDom n (VObj []) (props f) ;;
  ret n.

(** ** The committer (creact.js, lines 86-128) *)

Fixpoint commitDeletion (fuel : nat) (fiber : option loc) (domParent : node)
  : M unit :=
  match fuel with
  | 0 => fail OutOfFuel
  | S fuel' =>
      l <- deref fiber ;;
      f <- readFiber l ;;
      match dom f with
      | Some d => emit (RemoveChild domParent d)
      | None => commitDeletion fuel' (child f) domParent
      end
  end.

(** The [while (!domParentFiber.dom)] loop of [commitWork]. *)
Fixpoint domParentOf (fuel : nat) (domParentFiber : option loc) : M node :=
  match fuel with
  | 0 => fail OutOfFuel
  | S fuel' =>
      l <- deref domParentFiber ;;
      f <- readFiber l ;;
      match dom f with
      | Some d => ret d
      | None => domParentOf fuel' (parent f)
      end
  end.

Fixpoint commitWork (fuel : nat) (fiber : option loc) : M unit :=
  match fiber with
  | None => ret tt
  | Some l =>
      match fuel with
      | 0 => fail OutOfFuel
      | S fuel' =>
          f <- readFiber l ;;
          domParent <- domParentOf fuel (parent f) ;;
          match effectTag f, dom f with
          | Some PLACEMENT, Some d => emit (AppendChild domParent d)
          | Some UPDATE, Some d =>
              a <- deref (alternate f) ;;
              old <- readFiber a ;;
              updateDom d (props old) (props f)
          | Some DELETION, _ => commitDeletion fuel (Some l) domParent
          | _, _ => ret tt
          end ;;
          commitWork fuel' (child f) ;;
          commitWork fuel' (sibling f)
      end
  end.

Definition commitRoot (fuel : nat) : M unit :=
  d <- gets deletions ;;
  match d with
  | None => fail TypeError
  | Some ds =>
      forEach (fun l => commitWork fuel (Some l)) ds ;;
      w <- gets wipRoot ;;
      root <- deref w ;;
      f <- readFiber root ;;
      commitWork fuel (child f) ;;
      modify (with_currentRoot w) ;;
      modify (with_wipRoot None)
  end.

(** ** Starting a pass (creact.js, lines 130-141) *)

(** An object literal that sets only some of the fiber fields. *)
Definition rootFiber (d : option node) (p : value) (alt : option loc) : fiber :=
  {| type := VUndefined; props := p; dom := d; parent := None; child := None;
     sibling := None; alternate := alt; effectTag := None; hooks := None |}.

Definition render (element : value) (container : option node) : M unit :=
  cur <- gets currentRoot ;;
  r <- newFiber (rootFiber container (VObj [("children", VArr [element])]) cur) ;;
  modify (with_wipRoot (Some r)) ;;
  modify (with_deletions (Some [])) ;;
  modify (with_nextUnitOfWork (Some r)).

(** ** The reconciler (creact.js, lines 241-294) *)

Definition pushDeletion (l : loc) : M unit :=
  d <- gets deletions ;;
  match d with
  | None => fail TypeError
  | Some ds => modify (with_deletions (Some (ds ++ [l])))
  end.

(** [oldFiber && element && element.type == oldFiber.type], as a boolean. *)
Definition sameTypeOf (oldFiber : option loc) (element : value) : M bool :=
  match oldFiber with
  | None => ret false
  | Some o =>
      if truthy element then
        t <- getField "type" element ;;
        old <- readFiber o ;;
        looseEq t (type old)
      else ret false
  end.

Fixpoint reconcileLoop (fuel : nat) (wipFiber : loc) (elements : list value)
    (index : nat) (oldFiber prevSibling : option loc) : M unit :=
  if (index <? length elements)%nat || bool_decide (is_Some oldFiber) then
    match fuel with
    | 0 => fail OutOfFuel
    | S fuel' =>
        let element := nth index elements VUndefined in
        sameType <- sameTypeOf oldFiber element ;;
        updated <-
          (if sameType then
             o <- deref oldFiber ;;
             old <- readFiber o ;;
             p <- getField "props" element ;;
             n <- newFiber {| type := type old; props := p; dom := dom old;
                              parent := Some wipFiber; child := None;
                              sibling := None; alternate := Some o;
                              effectTag := Some UPDATE; hooks := None |} ;;
             ret (Some n)
           else ret None) ;;
        new <-
          (if truthy element && negb sameType then
             t <- getField "type" element ;;
             p <- getField "props" element ;;
             n <- newFiber {| type := t; props := p; dom := None;
                              parent := Some wipFiber; child := None;
                              sibling := None; alternate := None;
                              effectTag := Some PLACEMENT; hooks := None |} ;;
             ret (Some n)
           else ret updated) ;;
        match oldFiber with
        | Some o =>
            if negb sameType then
              updateFiber o (set_effectTag (Some DELETION)) ;;
              pushDeletion o
            else ret tt
        | None => ret tt
        end ;;
        next <-
          match oldFiber with
          | Some o => old <- readFiber o ;; ret (sibling old)
          | None => ret None
          end ;;
        (if (index =? 0)%nat then updateFiber wipFiber (set_child new)
         else if truthy element then
           p <- deref prevSibling ;;
           updateFiber p (set_sibling new)
         else ret tt) ;;
        reconcileLoop fuel' wipFiber elements (S index) next new
    end
  else ret tt.

Definition reconcileChildren (fuel : nat) (wipFiber : loc) (elements : value)
  : M unit :=
  w <- readFiber wipFiber ;;
  oldFiber <-
    match alternate w with
    | Some a => alt <- readFiber a ;; ret (child alt)
    | None => ret None
    end ;;
  items <- arrayOf elements ;;
  reconcileLoop fuel wipFiber items 0 oldFiber None.

(** ** The hook store (creact.js, lines 188-231) *)

(** [wipFiber.alternate && wipFiber.alternate.hooks &&
    wipFiber.alternate.hooks[hookIndex]] *)
Definition oldHookOf (w : fiber) : M (option loc) :=
  match alternate w with
  | None => ret None
  | Some a =>
      alt <- readFiber a ;;
      match hooks alt with
      | None => ret None
      | Some hs =>
          i <- gets hookIndex ;;
          ret (match i with Some i => hs !! i | None => None end)
      end
  end.

Definition applyAction (h : loc) (action : value -> value) : M unit :=
  updateHook h (fun c => {| state := action (state c); queue := queue c |}).

Definition useState (initial : value) : M (value * value) :=
  wf <- gets wipFiber ;;
  w <- deref wf ;;
  wfiber <- readFiber w ;;
  oldHook <- oldHookOf wfiber ;;
  old <- match oldHook with
         | Some o => c <- readHook o ;; ret (Some c)
         | None => ret None
         end ;;
  h <- newHook {| state := match old with Some c => state c | None => initial end;
                  queue := [] |} ;;
  let actions := match old with Some c => queue c | None => [] end in
  forEach (applyAction h) actions ;;
  wfiber <- readFiber w ;;
  match hooks wfiber with
  | None => fail TypeError
  | Some hs =>
      updateFiber w (set_hooks (Some (hs ++ [h]))) ;;
      i <- gets hookIndex ;;
      modify (with_hookIndex (Some (S (default 0 i)))) ;;
      c <- readHook h ;;
      ret (state c, VFun (FSetState h))
  end.

(** The closure [setState] that [useState] returns for the hook cell [h]. *)
Definition setState (h : loc) (action : value -> value) : M unit :=
  updateHook h (fun c => {| state := state c; queue := queue c ++ [action] |}) ;;
  cur <- gets currentRoot ;;
  c <- deref cur ;;
  root <- readFiber c ;;
  r <- newFiber (rootFiber (dom root) (props root) cur) ;;
  modify (with_wipRoot (Some r)) ;;
  modify (with_nextUnitOfWork (Some r)) ;;
  modify (with_deletions (Some [])).

(** A component body: a function of its props that calls [useState] some
    number of times and returns the element it renders. *)
Inductive prog :=
| Return (element : value)
| UseState (initial : value) (k : value -> value -> prog).

Fixpoint runProg (p : prog) : M value :=
  match p with
  | Return element => ret element
  | UseState initial k =>
      r <- useState initial ;;
      runProg (k (fst r) (snd r))
  end.

Section Engine.

(** The top-level functions of the application, by name. *)
Variable components : string -> option (value -> prog).

(** [fiber.type(fiber.props)] *)
Definition callComponent (f : fiber) : M value :=
  match type f with
  | VFun (FNamed name) =>
      match components name with
      | Some body => runProg (body (props f))
      | None => fail Unmodelled
      end
  | _ => fail Unmodelled
  end.

(** ** The work loop (creact.js, lines 149-199 and 233-239) *)

Definition updateFunctionComponent (fuel : nat) (fiber : loc) : M unit :=
  modify (with_wipFiber (Some fiber)) ;;
  modify (with_hookIndex (Some 0)) ;;
  updateFiber fiber (set_hooks (Some [])) ;;
  f <- readFiber fiber ;;
  element <- callComponent f ;;
  reconcileChildren fuel fiber (VArr [element]).

Definition updateHostComponent (fuel : nat) (fiber : loc) : M unit :=
  f <- readFiber fiber ;;
  match dom f with
  | None => d <- createDom f ;; updateFiber fiber (set_dom (Some d))
  | Some _ => ret tt
  end ;;
  f <- readFiber fiber ;;
  children <- getField "children" (props f) ;;
  reconcileChildren fuel fiber children.

(** The [while (nextFiber)] loop of [performUnitOfWork]. *)
Fixpoint nextOf (fuel : nat) (nextFiber : option loc) : M (option loc) :=
  match nextFiber with
  | None => ret None
  | Some l =>
      match fuel with
      | 0 => fail OutOfFuel
      | S fuel' =>
          f <- readFiber l ;;
          match sibling f with
          | Some sb => ret (Some sb)
          | None => nextOf fuel' (parent f)
          end
      end
  end.

Definition performUnitOfWork (fuel : nat) (fiber : loc) : M (option loc) :=
  f <- readFiber fiber ;;
  match type f with
  | VFun _ => updateFunctionComponent fuel fiber
  | _ => updateHostComponent fuel fiber
  end ;;
  f <- readFiber fiber ;;
  match child f with
  | Some c => ret (Some c)
  | None => nextOf fuel (Some fiber)
  end.

(** The [while (nextUnitOfWork && !shouldYield)] loop; [deadline k] is
    what the [k]-th call of [deadline.timeRemaining()] returns.  [units]
    bounds the number of units of work, [fuel] the loops inside each. *)
Fixpoint workUnits (fuel units : nat) (deadline : nat -> Z) (calls : nat)
    (shouldYield : bool) : M unit :=
  n <- gets nextUnitOfWork ;;
  match n with
  | Some fiber =>
      if shouldYield then ret tt
      else
        match units with
        | 0 => fail OutOfFuel
        | S units' =>
            next <- performUnitOfWork fuel fiber ;;
            modify (with_nextUnitOfWork next) ;;
            workUnits fuel units' deadline (S calls) (deadline calls <? 1)%Z
        end
  | None => ret tt
  end.

(** One tick of the work loop.  Re-arming it by [requestIdleCallback]
    is the host's side: each later tick is another call. *)
Definition workLoop (fuel : nat) (deadline : nat -> Z) : M unit :=
  workUnits fuel fuel deadline 0 false ;;
  n <- gets nextUnitOfWork ;;
  w <- gets wipRoot ;;
  match n, w with
  | None, Some _ => commitRoot fuel
  | _, _ => ret tt
  end.

End Engine.

(** ** Reading descriptions and stores back *)

Definition field (k : string) (v : value) : option value :=
  match v with
  | VObj fs => lookup_field k fs
  | _ => None
  end.

Definition kindOf (description : value) : option value :=
  field "type" description.

Definition attribute (k : string) (description : value) : option value :=
  match field "props" description with
  | Some p => field k p
  | None => None
  end.

Definition childrenOf (description : value) : option (list value) :=
  match attribute "children" description with
  | Some (VArr items) => Some items
  | _ => None
  end.

(** The queue of a hook cell applied to a state, oldest action first. *)
Definition applyAll (actions : list (value -> value)) (v : value) : value :=
  fold_left (fun st action => action st) actions v.

Definition fiberAt (s : engine) (l : option loc) : option fiber :=
  match l with
  | Some l => fibers s !! l
  | None => None
  end.

(** The state of the [i]-th hook of the fiber [l]. *)
Definition hookState (s : engine) (l : loc) (i : nat) : option value :=
  match fibers s !! l with
  | Some f =>
      match hooks f with
      | Some hs =>
          match hs !! i with
          | Some h => option_map state (cells s !! h)
          | None => None
          end
      | None => None
      end
  | None => None
  end.

(** The first child of the current root: where the application's single
    top-level component sits once a pass has committed. *)
Definition currentComponent (s : engine) : option loc :=
  match fiberAt s (currentRoot s) with
  | Some root => child root
  | None => None
  end.

(** The address of the [i]-th hook cell of the committed component. *)
Definition currentHook (s : engine) (i : nat) : option loc :=
  match fiberAt s (currentComponent s) with
  | Some f =>
      match hooks f with
      | Some hs => hs !! i
      | None => None
      end
  | None => None
  end.

(** Running a computation for its final store. *)
Definition exec {A} (c : M A) (s : engine) : result engine :=
  match c s with
  | Ok (_, s') => Ok s'
  | Err e => Err e
  end.

(** A deadline that never asks the loop to yield. *)
Definition unhurried : nat -> Z := fun _ => 50%Z.

(** ** The application of the repository (creact.js, lines 303-316) *)

(** The numbers of the source are IEEE 754 doubles; [VNum n] stands for
    the double whose value is the integer [n].  [double x] is the
    integer [x] rounded to 53 significant bits, ties to even: what the
    sum or the product of two such numbers is when the exact result is
    [x].  Up to [2^53] in magnitude nothing is rounded; results of
    magnitude [2^1024] and above ([Infinity]) are not represented. *)

(** [p] without its [n] lowest bits, with the highest bit that was
    dropped and whether any bit below that one was set. *)
Fixpoint dropBits (n : nat) (p : positive) (round sticky : bool)
  : positive * bool * bool :=
  match n with
  | O => (p, round, sticky)
  | S n' =>
      match p with
      | xH => (xH, round, sticky)
      | xO p' => dropBits n' p' false (round || sticky)
      | xI p' => dropBits n' p' true (round || sticky)
      end
  end.

Definition isOdd (p : positive) : bool :=
  match p with
  | xI _ | xH => true
  | xO _ => false
  end.

Definition round53 (p : positive) : positive :=
  let n := (Pos.size_nat p - 53)%nat in
  match dropBits n p false false with
  | (q, round, sticky) =>
      Nat.iter n xO (if round && (sticky || isOdd q) then Pos.succ q else q)
  end.

Definition double (x : Z) : Z :=
  match x with
  | Z0 => Z0
  | Zpos p => Zpos (round53 p)
  | Zneg p => Zneg (round53 p)
  end.

(** [c => c + k] and [c => c * k] on numbers; sums and products with
    other operands (string concatenation, [NaN]) are not represented. *)
Definition plus (k : Z) (c : value) : value :=
  match c with
  | VNum n => VNum (double (n + k))
  | _ => VUndefined
  end.

Definition times (k : Z) (c : value) : value :=
  match c with
  | VNum n => VNum (double (n * k))
  | _ => VUndefined
  end.

(** [function Counter()], with the argument of its [useState] call left
    open; the source has [useState(1)].  The heading has three
    children: the text ["Count: "], the state, and the blank that
    follows [{state}] on its line (the comment container after it
    gives no child, and the line break before [</h1>] is dropped). *)
Definition CounterFrom (start : value) (p : value) : prog :=
  UseState start (fun state setState =>
    Return (createElement (VStr "h1")
              (VObj [("onClick",
                      VFun (FClosure "() => setState(c => c + 1)" [setState]))])
              [VStr "Count: "; state; VStr " "])).

Definition Counter : value -> prog := CounterFrom (VNum 1).

Definition counterApp (start : value) (name : string) : option (value -> prog) :=
  if name =? "Counter" then Some (CounterFrom start) else None.

(** [<Counter />] *)
Definition element : value := createElement (VFun (FNamed "Counter")) VNull [].

(** [document.getElementById("root")]: a node the backend already has. *)
Definition container : option node := Some 0.

(** The first pass of the script: [Creact.render(element, container)]
    followed by one tick of the work loop that is given the time to
    finish, commit included. *)
Definition mounted (start : value) : result engine :=
  exec (render element container ;; workLoop (counterApp start) 20 unhurried)
       (initial 1).

(** Calling the [setState] of the committed component's first hook with
    each of [actions] in turn, then a tick that renders and commits. *)
Definition dispatch (start : value) (actions : list (value -> value))
    (s : engine) : result engine :=
  match currentHook s 0 with
  | Some h =>
      exec (forEach (setState h) actions ;;
            workLoop (counterApp start) 20 unhurried) s
  | None => Err Unmodelled
  end.

Definition andThen {A} (r : result A) (k : A -> result A) : result A :=
  match r with
  | Ok a => k a
  | Err e => Err e
  end.

(** ** Further scenarios *)

(** A store caught in the middle of re-evaluating a component: the fiber
    under evaluation (address 1) has an alternate (address 0) whose only
    hook cell holds state 3 and two queued actions. *)
Definition reevaluating : engine :=
  {| fibers :=
       [ {| type := VFun (FNamed "Counter"); props := VObj [];
            dom := None; parent := None; child := None; sibling := None;
            alternate := None; effectTag := Some PLACEMENT;
            hooks := Some [0] |};
         {| type := VFun (FNamed "Counter"); props := VObj [];
            dom := None; parent := None; child := None; sibling := None;
            alternate := Some 0; effectTag := Some UPDATE;
            hooks := Some [] |} ];
     cells := [ {| state := VNum 3; queue := [times 2; plus 1] |} ];
     nextUnitOfWork := None; currentRoot := None; wipRoot := None;
     deletions := Some []; wipFiber := Some 1; hookIndex := Some 0;
     nextNode := 1; log := [] |}.

(** A component whose number of [useState] calls depends on its state:
    one call while the first hook holds 0, two afterwards. *)
Definition Unstable (p : value) : prog :=
  UseState (VNum 0) (fun first setFirst =>
    match first with
    | VNum 0 => Return (createElement (VStr "p") VNull [first])
    | _ =>
        UseState (VNum 10) (fun second setSecond =>
          Return (createElement (VStr "p") VNull [first; second]))
    end).

Definition unstableApp (name : string) : option (value -> prog) :=
  if name =? "Unstable" then Some Unstable else None.

Definition unstableMounted : result engine :=
  exec (render (createElement (VFun (FNamed "Unstable")) VNull []) container ;;
        workLoop unstableApp 20 unhurried)
       (initial 1).

Definition unstableUpdated : result engine :=
  andThen unstableMounted (fun s =>
    match currentHook s 0 with
    | Some h =>
        exec (setState h (plus 1) ;; workLoop unstableApp 20 unhurried) s
    | None => Err Unmodelled
    end).

(** A host tree committed and then replaced by one of another kind at
    the same position; the second pass is stopped before its commit. *)
Definition noApp (name : string) : option (value -> prog) := None.

Definition replaced : result engine :=
  exec (render (createElement (VStr "div") VNull []) container ;;
        workLoop noApp 20 unhurried ;;
        render (createElement (VStr "span") VNull []) container ;;
        workUnits noApp 20 20 unhurried 0 false)
       (initial 1).

(** A call that ends by throwing (or by leaving the model). *)
Definition throws {A} (r : result A) : Prop := exists e, r = Err e.

Definition storeOf (r : result engine) : engine :=
  match r with
  | Ok s => s
  | Err _ => initial 0
  end.

(** [useState(5)] called from the top level once the first pass of the
    script has committed, no component being evaluated. *)
Definition strayCall : result ((value * value) * engine) :=
  match mounted (VNum 1) with
  | Ok s => useState (VNum 5) s
  | Err e => Err e
  end.

(** [s'] is [s] after the backend calls [calls], nothing else changed. *)
Definition emits (s s' : engine) (calls : list dom_event) : Prop :=
  s' = with_backend (nextNode s) (log s ++ calls) s.

(** Processing the deletions list, the first statement of [commitRoot]. *)
Definition commitDeletions (fuel : nat) (ds : list loc) : M unit :=
  forEach (fun l => commitWork fuel (Some l)) ds.

(** ** Trees of host descriptions *)

(** A list of sibling descriptions of host kind: the first one, with its
    tag, its attributes and its children, and the siblings after it. *)
Inductive forest :=
| NoMore
| Host (tag : string) (attrs : list (string * value)) (kids next : forest).

(** The descriptions themselves, as [createElement] builds them. *)
Fixpoint describe (F : forest) : list value :=
  match F with
  | NoMore => []
  | Host tag attrs kids next =>
      createElement (VStr tag) (VObj attrs) (describe kids) :: describe next
  end.

Fixpoint nodes (F : forest) : nat :=
  match F with
  | NoMore => 0
  | Host _ _ kids next => S (nodes kids + nodes next)
  end.

Fixpoint breadth (F : forest) : nat :=
  match F with
  | NoMore => 0
  | Host _ _ _ next => S (breadth next)
  end.

(** The [props] of the description of a host node. *)
Definition nodeProps (attrs : list (string * value)) (kids : forest) : value :=
  VObj (set_field "children" (VArr (map wrapChild (describe kids))) attrs).

(** The chain of fibers that starts at [q] and follows [sibling] has the
    kinds of [F], position by position and all the way down; its fibers
    lie below [bound] and own a backend node. *)
Fixpoint shape (bound : nat) (X : list fiber) (q : option loc) (F : forest)
  : Prop :=
  match F with
  | NoMore => q = None
  | Host tag attrs kids next =>
      exists o fo,
        q = Some o /\ o < bound /\ X !! o = Some fo /\
        type fo = VStr tag /\ is_Some (dom fo) /\
        (exists ps, props fo = VObj ps) /\
        shape bound X (child fo) kids /\
        shape bound X (sibling fo) next
  end.

Definition tagOf (upd : bool) : effect := if upd then UPDATE else PLACEMENT.

(** The fibers that [reconcileChildren] has just made for [F] under the
    parent [p]: they sit at [a], [a + 1], ... and have no children yet.
    With [upd] each one reuses an old fiber below [bound] whose children
    have the kinds of its own; without, each one is new. *)
Fixpoint pending (upd : bool) (bound : nat) (X : list fiber) (a p : loc)
    (F : forest) : Prop :=
  match F with
  | NoMore => True
  | Host tag attrs kids next =>
      exists f,
        X !! a = Some f /\
        type f = VStr tag /\ props f = nodeProps attrs kids /\
        parent f = Some p /\ child f = None /\
        sibling f = match next with NoMore => None | _ => Some (S a) end /\
        effectTag f = Some (tagOf upd) /\
        (if upd then
           exists o fo,
             alternate f = Some o /\ o < bound /\ X !! o = Some fo /\
             dom f = dom fo /\ is_Some (dom fo) /\
             (exists ps, props fo = VObj ps) /\
             shape bound X (child fo) kids
         else alternate f = None /\ dom f = None) /\
        pending upd bound X (S a) p next
  end.

(** The finished tree of a pass for [F], from [q], under the parent [p]:
    its fibers lie between [lo] and [bound]; with [upd] their alternates
    lie below [old]. *)
Fixpoint built (upd : bool) (old lo bound : nat) (X : list fiber)
    (q : option loc) (p : loc) (F : forest) : Prop :=
  match F with
  | NoMore => q = None
  | Host tag attrs kids next =>
      exists a f,
        q = Some a /\ lo <= a < bound /\ X !! a = Some f /\
        type f = VStr tag /\ props f = nodeProps attrs kids /\
        is_Some (dom f) /\ parent f = Some p /\
        effectTag f = Some (tagOf upd) /\
        (if upd then
           exists o fo ps,
             alternate f = Some o /\ o < old /\ X !! o = Some fo /\
             props fo = VObj ps
         else True) /\
        built upd old lo bound X (child f) a kids /\
        built upd old lo bound X (sibling f) p next
  end.

(** Walking up from [q] to the next unit of work, as the last loop of
    [performUnitOfWork] does, visits only fibers below [bound], takes at
    most [k] rounds and ends with [up]. *)
Inductive climbs (bound : nat) (X : list fiber)
  : option loc -> option loc -> nat -> Prop :=
| climbs_top k : climbs bound X None None k
| climbs_sibling l f sb k :
    l < bound -> X !! l = Some f -> sibling f = Some sb ->
    climbs bound X (Some l) (Some sb) (S k)
| climbs_parent l f up k :
    l < bound -> X !! l = Some f -> sibling f = None ->
    climbs bound X (parent f) up k ->
    climbs bound X (Some l) up (S k).

(** Where work starts on the fibers pending for [F] at [a], when work
    is to resume at [up] after them. *)
Definition entry (F : forest) (a : loc) (up : option loc) : option loc :=
  match F with
  | NoMore => up
  | Host _ _ _ _ => Some a
  end.

Definition first (F : forest) (a : loc) : option loc :=
  match F with
  | NoMore => None
  | Host _ _ _ _ => Some a
  end.

(** ** Rounds of the reconciler *)

(** The link made at the end of a round of the loop. *)
Definition link (w : loc) (index : nat) (prevSibling : option loc)
    (new : option loc) : M unit :=
  if (index =? 0)%nat then updateFiber w (set_child new)
  else p <- deref prevSibling ;; updateFiber p (set_sibling new).

(** The fiber made for a description that reuses the old fiber [fo] at [o]. *)
Definition reused (w o : loc) (fo : fiber) (p : value) : fiber :=
  {| type := type fo; props := p; dom := dom fo; parent := Some w;
     child := None; sibling := None; alternate := Some o;
     effectTag := Some UPDATE; hooks := None |}.

(** The fiber made for a description that has no old fiber to reuse. *)
Definition placed (w : loc) (t p : value) : fiber :=
  {| type := t; props := p; dom := None; parent := Some w;
     child := None; sibling := None; alternate := None;
     effectTag := Some PLACEMENT; hooks := None |}.

(** Looking for the backend node above [p], as the first loop of
    [commitWork] does, ends at [d] after at most [k] rounds. *)
Inductive anchored (X : list fiber) : loc -> node -> nat -> Prop :=
| anchored_here p f d k :
    X !! p = Some f -> dom f = Some d -> anchored X p d (S k)
| anchored_above p f p' d k :
    X !! p = Some f -> dom f = None -> parent f = Some p' ->
    anchored X p' d k -> anchored X p d (S k).

(** Backend calls that attach or update a node, removing nothing. *)
Definition attaches (e : dom_event) : Prop :=
  match e with
  | AppendChild _ _ => True
  | _ => False
  end.

Definition updates (e : dom_event) : Prop :=
  match e with
  | UpdateDom _ _ _ => True
  | _ => False
  end.

(** The tree below the current root has the kinds of [F]. *)
Definition committedAs (s : engine) (F : forest) : Prop :=
  exists ro fo,
    currentRoot s = Some ro /\ fibers s !! ro = Some fo /\
    shape (length (fibers s)) (fibers s) (child fo) F.

(** The description of a single host tree, and the forest it makes. *)
Definition tree (tag : string) (attrs : list (string * value)) (kids : forest)
  : forest := Host tag attrs kids NoMore.

Definition treeElement (tag : string) (attrs : list (string * value))
    (kids : forest) : value :=
  createElement (VStr tag) (VObj attrs) (describe kids).

(** [render(e, c)] followed by a tick that has the time to finish and
    commits, [k] times over, from the initial store. *)
Definition rendered (C : string -> option (value -> prog)) (fuel : nat)
    (e : value) (c : node) (k : nat) : result engine :=
  Nat.iter k
    (fun r => andThen r (exec (render e (Some c) ;; workLoop C fuel unhurried)))
    (Ok (initial (S c))).


(** A sample tree: [<div id="app"><p>hello</p><span /></div>]. *)
Definition sampleKids : forest :=
  Host "p" []
    (Host "TEXT_ELEMENT" [("nodeValue", VStr "hello")] NoMore NoMore)
    (Host "span" [] NoMore NoMore).

Definition sampleAttrs : list (string * value) := [("id", VStr "app")].

(** ** The counter, click after click *)

(** What [Counter] renders when its hook cell is [h] and its state [v]. *)
Definition counterForest (h : loc) (v : value) : forest :=
  tree "h1"
    [("onClick", VFun (FClosure "() => setState(c => c + 1)"
                         [VFun (FSetState h)]))]
    (Host "TEXT_ELEMENT" [("nodeValue", VStr "Count: ")] NoMore
       (Host "TEXT_ELEMENT" [("nodeValue", v)] NoMore
          (Host "TEXT_ELEMENT" [("nodeValue", VStr " ")] NoMore NoMore))).

(** The committed tree is that of the counter, its hook holding [v]
    with nothing queued. *)
Definition counting (v : value) (s : engine) : Prop :=
  exists r fr cf fc h h' v',
    currentRoot s = Some r /\ fibers s !! r = Some fr /\
    dom fr = container /\
    props fr = VObj [("children", VArr [element])] /\
    child fr = Some cf /\ fibers s !! cf = Some fc /\
    type fc = VFun (FNamed "Counter") /\ dom fc = None /\
    sibling fc = None /\ hooks fc = Some [h] /\
    cells s !! h = Some {| state := v; queue := [] |} /\
    shape (length (fibers s)) (fibers s) (child fc) (counterForest h' v').

(** The script, then [n] clicks on the heading, each followed by a tick
    that renders and commits. *)
Definition clicks (start : Z) (n : nat) : result engine :=
  Nat.iter n (fun r => andThen r (dispatch (VNum start) [plus 1]))
    (mounted (VNum start)).

(** ** Three children, then two *)

(** A deadline that asks the loop to yield after every unit of work. *)
Definition hurried : nat -> Z := fun _ => 0%Z.

Definition div : value := createElement (VStr "div") VNull [].
Definition span : value := createElement (VStr "span") VNull [].

(** [<section><div /><div /><span /></section>] is committed; then
    [<section><div /><span /></section>] is rendered and the loop is
    stopped after the unit of work of the root, so that the new
    [section] fiber (address 6) is about to reconcile its children
    against those of the old one (address 1): fibers 2, 3 and 4. *)
Definition shrinking : result engine :=
  exec (render (createElement (VStr "section") VNull [div; div; span]) container ;;
        workLoop noApp 20 unhurried ;;
        render (createElement (VStr "section") VNull [div; span]) container ;;
        workUnits noApp 20 20 hurried 0 false)
       (initial 1).

(** The same two passes, the second one stopped before its commit. *)
Definition shrunk : result engine :=
  exec (render (createElement (VStr "section") VNull [div; div; span]) container ;;
        workLoop noApp 20 unhurried ;;
        render (createElement (VStr "section") VNull [div; span]) container ;;
        workUnits noApp 20 20 unhurried 0 false)
       (initial 1).

(** The store of [shrinking], evaluated. *)
Definition shrinkingStore : engine := Eval vm_compute in storeOf shrinking.

(** ** What a unit of work leaves alone *)

(** From [s] to [s'] no fiber below [base] other than [w] has changed,
    except for an [effectTag] set to [DELETION] on fibers that are in
    the deletions list of [s']; no hook cell has changed; the current
    root is the same; nothing has left the deletions list. *)
Definition spares (base : nat) (w : loc) (s s' : engine) : Prop :=
  length (fibers s) <= length (fibers s') /\
  (forall l f, l < base -> l <> w -> fibers s !! l = Some f ->
     fibers s' !! l = Some f \/
     (fibers s' !! l = Some (set_effectTag (Some DELETION) f) /\
      exists ds, deletions s' = Some ds /\ In l ds)) /\
  (forall h c, cells s !! h = Some c -> cells s' !! h = Some c) /\
  currentRoot s' = currentRoot s /\
  (forall ds l, deletions s = Some ds -> In l ds ->
     exists ds', deletions s' = Some ds' /\ In l ds').

(** ** Removing what a component rendered *)

(** Following [child] from [l], as [commitDeletion] does, the first
    fiber that owns a backend node owns [d]; at most [k] fibers are
    looked at. *)
Inductive hosted (X : list fiber) : loc -> node -> nat -> Prop :=
| hosted_here l f d k :
    X !! l = Some f -> dom f = Some d -> hosted X l d (S k)
| hosted_below l f c d k :
    X !! l = Some f -> dom f = None -> child f = Some c ->
    hosted X c d k -> hosted X l d (S k).

(** Following [child] from [l] ends at a fiber that has neither a
    backend node nor a child. *)
Inductive barren (X : list fiber) : loc -> nat -> Prop :=
| barren_here l f k :
    X !! l = Some f -> dom f = None -> child f = None -> barren X l (S k)
| barren_below l f c k :
    X !! l = Some f -> dom f = None -> child f = Some c ->
    barren X c k -> barren X l (S k).

(** A component that renders nothing. *)
Definition Nothing (p : value) : prog := Return VNull.

Definition nothingApp (name : string) : option (value -> prog) :=
  if name =? "Nothing" then Some Nothing else None.

Definition nothingMounted : result engine :=
  exec (render (createElement (VFun (FNamed "Nothing")) VNull []) container ;;
        workLoop nothingApp 20 unhurried)
       (initial 1).

(** The stores of [mounted], [nothingMounted] and [shrunk], evaluated. *)
Definition mountedStore : engine := Eval vm_compute in storeOf (mounted (VNum 1)).
Definition nothingStore : engine := Eval vm_compute in storeOf nothingMounted.
Definition shrunkStore : engine := Eval vm_compute in storeOf shrunk.

(** ** What [updateDom] does to its node (creact.js, lines 41-84) *)

(** The calls [updateDom] makes on the node it is given. *)
Inductive node_call :=
| RemoveEventListener (eventType : string) (listener : value)
| SetProperty (name : string) (v : value)
| AddEventListener (eventType : string) (listener : value).

(** [key.startsWith("on")] *)
Definition isEvent (key : string) : bool := String.prefix "on" key.

(** [key !== "children" && !isEvent(key)] *)
Definition isProperty (key : string) : bool :=
  negb (key =? "children") && negb (isEvent key).

(** Structural equality of values. *)
Fixpoint value_eqb (a b : value) {struct a} : bool :=
  match a, b with
  | VUndefined, VUndefined | VNull, VNull => true
  | VBool x, VBool y => Bool.eqb x y
  | VNum x, VNum y => (x =? y)%Z
  | VStr x, VStr y => x =? y
  | VFun f, VFun g => func_eqb f g
  | VArr xs, VArr ys =>
      (fix all2 (xs ys : list value) : bool :=
         match xs, ys with
         | [], [] => true
         | x :: xs', y :: ys' => value_eqb x y && all2 xs' ys'
         | _, _ => false
         end) xs ys
  | VObj xs, VObj ys =>
      (fix all2 (xs ys : list (string * value)) : bool :=
         match xs, ys with
         | [], [] => true
         | (k, x) :: xs', (k', y) :: ys' =>
             (k =? k') && value_eqb x y && all2 xs' ys'
         | _, _ => false
         end) xs ys
  | _, _ => false
  end
with func_eqb (f g : func) {struct f} : bool :=
  match f, g with
  | FNamed x, FNamed y => x =? y
  | FSetState x, FSetState y => (x =? y)%nat
  | FClosure s c, FClosure s' c' =>
      (s =? s') &&
      (fix all2 (xs ys : list value) : bool :=
         match xs, ys with
         | [], [] => true
         | x :: xs', y :: ys' => value_eqb x y && all2 xs' ys'
         | _, _ => false
         end) c c'
  | _, _ => false
  end.

(** [a === b], where the model can tell.  Primitives are compared by
    value and never equal a value of another type.  A top-level function
    is itself; so is the [setState] of a hook cell, [useState] making one
    closure per cell.  Two closures made at different sites, or over
    different captured values, are different objects; otherwise they may
    or may not be the same object, and neither this nor the identity of
    two arrays or of two object records is represented. *)
Definition strictEq (a b : value) : option bool :=
  match a, b with
  | VUndefined, VUndefined | VNull, VNull => Some true
  | VBool x, VBool y => Some (Bool.eqb x y)
  | VNum x, VNum y => Some (x =? y)%Z
  | VStr x, VStr y => Some (x =? y)
  | VFun (FClosure s c), VFun (FClosure s' c') =>
      if func_eqb (FClosure s c) (FClosure s' c') then None else Some false
  | VFun f, VFun g => Some (func_eqb f g)
  | VArr _, VArr _ | VObj _, VObj _ => None
  | _, _ => Some false
  end.

(** The names that every object record inherits from [Object.prototype]. *)
Definition inherited : list string :=
  ["constructor"; "__defineGetter__"; "__defineSetter__"; "hasOwnProperty";
   "__lookupGetter__"; "__lookupSetter__"; "isPrototypeOf";
   "propertyIsEnumerable"; "toString"; "valueOf"; "__proto__";
   "toLocaleString"].

Definition isInherited (key : string) : bool := existsb (String.eqb key) inherited.

(** [Object.keys(obj)] *)
Definition keys (obj : list (string * value)) : list string := map fst obj.

(** [key in obj] *)
Definition hasProperty (key : string) (obj : list (string * value)) : bool :=
  match lookup_field key obj with
  | Some _ => true
  | None => isInherited key
  end.

(** [obj[key]]: the record's own field, [undefined] when there is none;
    the values of the inherited names are not represented. *)
Definition readProperty (key : string) (obj : list (string * value))
  : option value :=
  match lookup_field key obj with
  | Some v => Some v
  | None => if isInherited key then None else Some VUndefined
  end.

(** [isNew(prev, next)(key)], that is [prev[key] !== next[key]] *)
Definition isNew (prev next : list (string * value)) (key : string)
  : option bool :=
  match readProperty key prev, readProperty key next with
  | Some a, Some b => option_map negb (strictEq a b)
  | _, _ => None
  end.

(** [isGone(prev, next)(key)], that is [!(key in next)] *)
Definition isGone (next : list (string * value)) (key : string) : bool :=
  negb (hasProperty key next).

(** [s.toLowerCase()] on ASCII text; other text is not represented. *)
Definition lowerChar (c : Ascii.ascii) : option Ascii.ascii :=
  let n := Ascii.nat_of_ascii c in
  if (n <? 128)%nat then
    Some (if (65 <=? n)%nat && (n <=? 90)%nat then Ascii.ascii_of_nat (n + 32)
          else c)
  else None.

Fixpoint toLowerCase (s : string) : option string :=
  match s with
  | EmptyString => Some EmptyString
  | String c s' =>
      match lowerChar c, toLowerCase s' with
      | Some c', Some r => Some (String c' r)
      | _, _ => None
      end
  end.

(** [name.toLowerCase().substring(2)] *)
Definition eventTypeOf (name : string) : option string :=
  match toLowerCase name with
  | Some (String _ (String _ r)) => Some r
  | Some _ => Some EmptyString
  | None => None
  end.

(** [keys.filter(p)], where [p] may leave the model. *)
Fixpoint filterKeys (p : string -> option bool) (l : list string)
  : option (list string) :=
  match l with
  | [] => Some []
  | k :: l' =>
      match p k, filterKeys p l' with
      | Some b, Some r => Some (if b then k :: r else r)
      | _, _ => None
      end
  end.

(** [keys.forEach(f)], where each [f] makes one call on the node. *)
Fixpoint callsFor (f : string -> option node_call) (l : list string)
  : option (list node_call) :=
  match l with
  | [] => Some []
  | k :: l' =>
      match f k, callsFor f l' with
      | Some c, Some r => Some (c :: r)
      | _, _ => None
      end
  end.

Definition removals (prev next : list (string * value)) : option (list node_call) :=
  match filterKeys (fun key => if negb (hasProperty key next) then Some true
                               else isNew prev next key)
                   (filter isEvent (keys prev)) with
  | Some names =>
      callsFor (fun name =>
                  match eventTypeOf name, readProperty name prev with
                  | Some t, Some v => Some (RemoveEventListener t v)
                  | _, _ => None
                  end) names
  | None => None
  end.

Definition clearings (prev next : list (string * value)) : list node_call :=
  map (fun name => SetProperty name (VStr ""))
      (filter (isGone next) (filter isProperty (keys prev))).

Definition settings (prev next : list (string * value)) : option (list node_call) :=
  match filterKeys (isNew prev next) (filter isProperty (keys next)) with
  | Some names =>
      callsFor (fun name => option_map (SetProperty name) (readProperty name next))
               names
  | None => None
  end.

Definition additions (prev next : list (string * value)) : option (list node_call) :=
  match filterKeys (isNew prev next) (filter isEvent (keys next)) with
  | Some names =>
      callsFor (fun name =>
                  match eventTypeOf name, readProperty name next with
                  | Some t, Some v => Some (AddEventListener t v)
                  | _, _ => None
                  end) names
  | None => None
  end.

(** The four statements of [updateDom], in order. *)
Definition updateDomCalls (prev next : list (string * value))
  : option (list node_call) :=
  match removals prev next, settings prev next, additions prev next with
  | Some removed, Some set, Some added =>
      Some (removed ++ clearings prev next ++ set ++ added)
  | _, _, _ => None
  end.

(** The calls on backend nodes behind one entry of the log. *)
Definition nodeCalls (e : dom_event) : option (list (node * node_call)) :=
  match e with
  | UpdateDom d (VObj prev) (VObj next) =>
      option_map (map (pair d)) (updateDomCalls prev next)
  | UpdateDom _ _ _ => None
  | _ => Some []
  end.

(** ** What the render phase leaves alone *)

(** [s'] is [s] but for the [hooks] of the fiber [w], for hook cells
    added after those of [s], and for the hook index: what evaluating a
    component body changes. *)
Definition hooked (w : loc) (s s' : engine) : Prop :=
  exists wf hs extra i,
    fibers s !! w = Some wf /\
    s' = with_hookIndex i
           (with_fibers (<[w := set_hooks hs wf]> (fibers s))
              (with_cells (cells s ++ extra) s)).

(** A backend call that makes a node or sets up a node numbered [first]
    or above: a node that was made since [first] was the next free one,
    and that nothing has attached yet. *)
Definition detached (first : node) (e : dom_event) : Prop :=
  match e with
  | CreateTextNode n | CreateElementNode _ n | UpdateDom n _ _ => first <= n
  | AppendChild _ _ | RemoveChild _ _ => False
  end.

(** A reference that is [null] or points at [base] or above. *)
Definition above (base : nat) (p : option loc) : Prop :=
  match p with
  | Some l => base <= l
  | None => True
  end.

(** The fibers at [base] and above only refer to one another through
    [parent], [child] and [sibling]: the tree under construction is
    closed under the links that the work loop follows. *)
Definition working (base : nat) (X : list fiber) : Prop :=
  forall l f, base <= l -> X !! l = Some f ->
    above base (parent f) /\ above base (child f) /\ above base (sibling f).

(** [s'] differs from [s] in its fibers and its deletions list at most. *)
Definition rewired (s s' : engine) : Prop :=
  s' = with_deletions (deletions s') (with_fibers (fibers s') s).

(** The fibers at [base] and above are children of [w] that have no
    child of their own and whose sibling, if any, is one of them: the
    fibers that [reconcileChildren] is making for [w]. *)
Definition fresh_links (base w : loc) (X : list fiber) : Prop :=
  forall l f, base <= l -> X !! l = Some f ->
    parent f = Some w /\ child f = None /\ above base (sibling f).

(** The fiber at [w] has the parent and the sibling of [fw], and the
    child of [fw] or a child at [base] or above. *)
Definition kept_links (base w : loc) (fw : fiber) (X : list fiber) : Prop :=
  exists fw', X !! w = Some fw' /\
    parent fw' = parent fw /\ sibling fw' = sibling fw /\
    (child fw' = child fw \/ above base (child fw')).

(** [<section><div /><div /><span /></section>] once committed: the
    store in which the second pass of [shrunk] starts. *)
Definition sectionStore : engine :=
  Eval vm_compute in
    storeOf (exec (render (createElement (VStr "section") VNull [div; div; span])
                     container ;;
                   workLoop noApp 20 unhurried)
                  (initial 1)).

(** ** The counter under any updates *)

(** The committed tree is that of the counter and lies below [bound];
    the hook cell of the component is [h] and holds [c]. *)
Definition counterUnder (bound : nat) (h : loc) (c : hook) (s : engine) : Prop :=
  exists r fr cf fc h' v',
    currentRoot s = Some r /\ r < bound /\ fibers s !! r = Some fr /\
    dom fr = container /\
    props fr = VObj [("children", VArr [element])] /\
    child fr = Some cf /\ cf < bound /\ fibers s !! cf = Some fc /\
    type fc = VFun (FNamed "Counter") /\ dom fc = None /\
    sibling fc = None /\ hooks fc = Some [h] /\
    cells s !! h = Some c /\
    shape bound (fibers s) (child fc) (counterForest h' v').

(** A pass has been started and no unit of work done yet: the last
    fiber, at [L], is the new root, made from the current one. *)
Definition scheduled (L : loc) (s : engine) : Prop :=
  wipRoot s = Some L /\ nextUnitOfWork s = Some L /\ deletions s = Some [] /\
  length (fibers s) = S L /\
  fibers s !! L =
    Some (rootFiber container (VObj [("children", VArr [element])])
            (currentRoot s)).

(** A tick that renders and commits. *)
Definition tick (start : value) : M unit :=
  workLoop (counterApp start) 20 unhurried.

(** An updater that takes numbers to numbers, as [c => c + 1] does. *)
Definition numeric (action : value -> value) : Prop :=
  forall n, exists m, action (VNum n) = VNum m.

(** The script, then for each list of [batches] in turn: the [setState]
    of the committed hook called with each action of the list, followed
    by one tick that renders and commits. *)
Definition batched (start : Z) (batches : list (list (value -> value)))
  : result engine :=
  fold_left (fun r actions => andThen r (dispatch (VNum start) actions))
    batches (mounted (VNum start)).

(** ** The backend calls of a pass over host descriptions *)

(** What [createDom] calls to make the node [n] for a description of
    kind [tag]. *)
Definition createEvent (tag : string) (n : node) : dom_event :=
  if tag =? "TEXT_ELEMENT" then CreateTextNode n
  else CreateElementNode (VStr tag) n.

(** The calls that make the nodes of [F]: one node per description,
    numbered from [n] in the order in which the work loop reaches the
    descriptions (a description, then its children, then its siblings),
    each set up from the empty record. *)
Fixpoint creations (n : node) (F : forest) : list dom_event :=
  match F with
  | NoMore => []
  | Host tag attrs kids next =>
      createEvent tag n :: UpdateDom n (VObj []) (nodeProps attrs kids) ::
      creations (S n) kids ++ creations (S n + nodes kids) next
  end.

(** The calls that attach the nodes of [F], numbered from [n], each to
    the node of its parent, those of the first level to [domParent]. *)
Fixpoint attachments (domParent n : node) (F : forest) : list dom_event :=
  match F with
  | NoMore => []
  | Host _ _ kids next =>
      AppendChild domParent n ::
      attachments n (S n) kids ++ attachments domParent (S n + nodes kids) next
  end.

(** The two forests have the same kinds at the same positions. *)
Fixpoint sameKinds (G F : forest) : Prop :=
  match G, F with
  | NoMore, NoMore => True
  | Host tag0 _ kids0 next0, Host tag _ kids next =>
      tag0 = tag /\ sameKinds kids0 kids /\ sameKinds next0 next
  | _, _ => False
  end.

(** The children, the later siblings and the [props] of the first
    description of a forest. *)
Definition below (G : forest) : forest :=
  match G with
  | Host _ _ kids _ => kids
  | NoMore => NoMore
  end.

Definition after (G : forest) : forest :=
  match G with
  | Host _ _ _ next => next
  | NoMore => NoMore
  end.

Definition propsOf (G : forest) : value :=
  match G with
  | Host _ attrs kids _ => nodeProps attrs kids
  | NoMore => VUndefined
  end.

(** The calls that bring the nodes numbered from [n] from the
    attributes of [G] to those of [F], node by node. *)
Fixpoint refreshes (n : node) (G F : forest) : list dom_event :=
  match F with
  | NoMore => []
  | Host _ attrs kids next =>
      UpdateDom n (propsOf G) (nodeProps attrs kids) ::
      refreshes (S n) (below G) kids ++
      refreshes (S n + nodes kids) (after G) next
  end.

(** The chain of fibers from [q] along [sibling] is that of [G], all
    the way down: kinds, [props], and backend nodes numbered from [n]
    in the order of [creations]. *)
Fixpoint standing (bound : nat) (X : list fiber) (q : option loc) (G : forest)
    (n : node) : Prop :=
  match G with
  | NoMore => q = None
  | Host tag attrs kids next =>
      exists o fo,
        q = Some o /\ o < bound /\ X !! o = Some fo /\
        type fo = VStr tag /\ dom fo = Some n /\
        props fo = nodeProps attrs kids /\
        standing bound X (child fo) kids (S n) /\
        standing bound X (sibling fo) next (S n + nodes kids)
  end.

(** The fibers that [reconcileChildren] has just made for [F] under
    [p], at [a], [a + 1], ...  With [upd] each reuses the fiber of [G]
    at its position, whose node (numbered from [n]) it shares. *)
Fixpoint awaiting (upd : bool) (bound : nat) (X : list fiber) (a p : loc)
    (G F : forest) (n : node) : Prop :=
  match F with
  | NoMore => True
  | Host tag attrs kids next =>
      exists f,
        X !! a = Some f /\
        type f = VStr tag /\ props f = nodeProps attrs kids /\
        parent f = Some p /\ child f = None /\
        sibling f = match next with NoMore => None | _ => Some (S a) end /\
        effectTag f = Some (tagOf upd) /\
        (if upd then
           exists o fo,
             alternate f = Some o /\ o < bound /\ X !! o = Some fo /\
             dom f = Some n /\ props fo = propsOf G /\
             standing bound X (child fo) (below G) (S n)
         else alternate f = None /\ dom f = None) /\
        awaiting upd bound X (S a) p (after G) next (S n + nodes kids)
  end.

(** The finished tree of a pass for [F], from [q], under [p], with its
    nodes numbered from [n]; with [upd] the fibers reuse those of [G]. *)
Fixpoint raised (upd : bool) (old lo bound : nat) (X : list fiber)
    (q : option loc) (p : loc) (G F : forest) (n : node) : Prop :=
  match F with
  | NoMore => q = None
  | Host tag attrs kids next =>
      exists a f,
        q = Some a /\ lo <= a < bound /\ X !! a = Some f /\
        type f = VStr tag /\ props f = nodeProps attrs kids /\
        dom f = Some n /\ parent f = Some p /\
        effectTag f = Some (tagOf upd) /\
        (if upd then
           exists o fo,
             alternate f = Some o /\ o < old /\ X !! o = Some fo /\
             props fo = propsOf G
         else True) /\
        raised upd old lo bound X (child f) a (below G) kids (S n) /\
        raised upd old lo bound X (sibling f) p (after G) next
          (S n + nodes kids)
  end.

(** What the units of work of a pass over [F] call on the backend, and
    what its commit calls. *)
Definition passLog (upd : bool) (n : node) (F : forest) : list dom_event :=
  if upd then [] else creations n F.

Definition commitLog (upd : bool) (domParent n : node) (G F : forest)
  : list dom_event :=
  if upd then refreshes n G F else attachments domParent n F.

(** The tree below the current root is that of [F], in the container
    [c], with its nodes numbered from [n]. *)
Definition committedWith (s : engine) (c n : node) (F : forest) : Prop :=
  exists ro fo,
    currentRoot s = Some ro /\ fibers s !! ro = Some fo /\
    dom fo = Some c /\
    standing (length (fibers s)) (fibers s) (child fo) F n.

(** Every attribute of [F] is a value that [!==] finds identical to
    itself: a primitive, or a function the application names. *)
Fixpoint plain (F : forest) : Prop :=
  match F with
  | NoMore => True
  | Host _ attrs kids next =>
      (forall k v, k <> "children" -> lookup_field k attrs = Some v ->
                   strictEq v v = Some true) /\
      plain kids /\ plain next
  end.

(** The sample tree once committed in the container [0]. *)
Definition sampleStore : engine :=
  Eval vm_compute in
    storeOf (rendered noApp 20 (treeElement "div" sampleAttrs sampleKids) 0 1).

(** The sample tree with another text and other attributes:
    [<div id="main" title="t"><p>bye</p><span /></div>]. *)
Definition changedKids : forest :=
  Host "p" []
    (Host "TEXT_ELEMENT" [("nodeValue", VStr "bye")] NoMore NoMore)
    (Host "span" [] NoMore NoMore).

Definition changedAttrs : list (string * value) :=
  [("id", VStr "main"); ("title", VStr "t")].

(** ** A component body, call by call *)

(** The state a call of [useState] exposes when [old] is the hook cell
    it finds through the alternate. *)
Definition stateFor (initial : value) (old : option hook) : value :=
  match old with
  | Some c => applyAll (queue c) (state c)
  | None => initial
  end.

(** What a component body returns, and the hook cells it makes, when
    its calls of [useState] find in turn the cells [olds], then none;
    the new cells are numbered from [h]. *)
Fixpoint evaluated (p : prog) (olds : list hook) (h : loc)
  : value * list hook :=
  match p with
  | Return element => (element, [])
  | UseState initial k =>
      let st := stateFor initial (head olds) in
      let r := evaluated (k st (VFun (FSetState h))) (tail olds) (S h) in
      (fst r, {| state := st; queue := [] |} :: snd r)
  end.

(** ** What a click on the counter does to the page *)

(** The handler [Counter] gives its heading when the [setState] it got
    from [useState] is that of the hook cell [h]. *)
Definition clickHandler (h : loc) : value :=
  VFun (FClosure "() => setState(c => c + 1)" [VFun (FSetState h)]).

(** The committed tree is that of the counter and lies below [bound];
    the hook cell of the component is [h] and holds [c]; the heading is
    the backend node [n], its three texts are the next three nodes, and the
    page shows what the last evaluation of the component returned: the
    state of [c], and a handler over the [setState] of [h]. *)
Definition counterOn (bound : nat) (h : loc) (c : hook) (n : node) (s : engine)
  : Prop :=
  exists r fr cf fc,
    currentRoot s = Some r /\ r < bound /\ fibers s !! r = Some fr /\
    dom fr = container /\
    props fr = VObj [("children", VArr [element])] /\
    child fr = Some cf /\ cf < bound /\ fibers s !! cf = Some fc /\
    type fc = VFun (FNamed "Counter") /\ dom fc = None /\
    sibling fc = None /\ hooks fc = Some [h] /\
    cells s !! h = Some c /\
    standing bound (fibers s) (child fc) (counterForest h (state c)) n.

(** The calls on backend nodes behind a stretch of the log. *)
Fixpoint allNodeCalls (entries : list dom_event)
  : option (list (node * node_call)) :=
  match entries with
  | [] => Some []
  | e :: rest =>
      match nodeCalls e, allNodeCalls rest with
      | Some here, Some later => Some (here ++ later)
      | _, _ => None
      end
  end.

(** ** The order of a commit *)

(** Backend calls that remove a node. *)
Definition removes (e : dom_event) : Prop :=
  match e with
  | RemoveChild _ _ => True
  | _ => False
  end.

(** The fiber [l] belongs to the tree that [commitWork] walks from [q]:
    it is found from [q] along [child] and [sibling]. *)
Inductive reach (X : list fiber) : option loc -> loc -> Prop :=
| reach_here l : reach X (Some l) l
| reach_child l f l' :
    X !! l = Some f -> reach X (child f) l' -> reach X (Some l) l'
| reach_sibling l f l' :
    X !! l = Some f -> reach X (sibling f) l' -> reach X (Some l) l'.

(** No fiber of the tree from [q] is tagged [DELETION]; the walk takes
    at most [fuel] nested calls. *)
Fixpoint unremoved (fuel : nat) (X : list fiber) (q : option loc) : bool :=
  match q with
  | None => true
  | Some l =>
      match fuel with
      | 0 => false
      | S fuel' =>
          match X !! l with
          | Some f =>
              match effectTag f with
              | Some DELETION => false
              | _ => unremoved fuel' X (child f) && unremoved fuel' X (sibling f)
              end
          | None => false
          end
      end
  end.

(** [d] is the backend node of the nearest fiber above [f] that owns
    one: the node [commitWork] attaches to and removes from. *)
Definition domParentIs (X : list fiber) (f : fiber) (d : node) : Prop :=
  exists p k, parent f = Some p /\ anchored X p d k.

(** ** A component that renders another kind after an update *)




(** * Properties *)

(** ** Descriptions built by [createElement] *)

Lemma lookup_set_field k v fs : lookup_field k (set_field k v fs) = Some v.
Proof.
  induction fs as [|[k' v'] fs IH]; simpl.
  - by rewrite String.eqb_refl.
  - destruct (k' =? k) eqn:E; simpl.
    + by rewrite String.eqb_refl.
    + by rewrite E.
Qed.

Lemma childrenOf_createElement type props children :
  childrenOf (createElement type props children) = Some (map wrapChild children).
Proof.
  unfold childrenOf, attribute, createElement. simpl.
  by rewrite lookup_set_field.
Qed.

(** ** Stepping through computations *)

Lemma bind_assoc {A B C} (c : M A) (f : A -> M B) (g : B -> M C) s :
  bind (bind c f) g s = bind c (fun x => bind (f x) g) s.
Proof. unfold bind. by destruct (c s) as [[a s']|e]. Qed.

Lemma bind_ok {A B} (c : M A) (k : A -> M B) s a s' :
  c s = Ok (a, s') -> bind c k s = k a s'.
Proof. unfold bind. by intros ->. Qed.

Lemma bind_err {A B} (c : M A) (k : A -> M B) s e :
  c s = Err e -> bind c k s = Err e.
Proof. unfold bind. by intros ->. Qed.

Lemma bind_inv {A B} (c : M A) (k : A -> M B) s b s'' :
  bind c k s = Ok (b, s'') ->
  exists a s', c s = Ok (a, s') /\ k a s' = Ok (b, s'').
Proof.
  unfold bind. destruct (c s) as [[a s']|e]; [|done]. eauto.
Qed.

Lemma readFiber_ok l s f : fibers s !! l = Some f -> readFiber l s = Ok (f, s).
Proof. unfold readFiber. by intros ->. Qed.

Lemma readFiber_inv l s f s' :
  readFiber l s = Ok (f, s') -> s' = s /\ fibers s !! l = Some f.
Proof.
  unfold readFiber. destruct (fibers s !! l); [|done]. by intros [= -> ->].
Qed.

Lemma readHook_ok l s c : cells s !! l = Some c -> readHook l s = Ok (c, s).
Proof. unfold readHook. by intros ->. Qed.

Lemma readHook_inv l s c s' :
  readHook l s = Ok (c, s') -> s' = s /\ cells s !! l = Some c.
Proof.
  unfold readHook. destruct (cells s !! l); [|done]. by intros [= -> ->].
Qed.

Lemma updateFiber_ok l g s f :
  fibers s !! l = Some f ->
  updateFiber l g s = Ok (tt, with_fibers (<[l := g f]> (fibers s)) s).
Proof.
  intros H. unfold updateFiber.
  by rewrite (bind_ok _ _ _ _ _ (readFiber_ok _ _ _ H)).
Qed.

Lemma updateHook_ok l g s c :
  cells s !! l = Some c ->
  updateHook l g s = Ok (tt, with_cells (<[l := g c]> (cells s)) s).
Proof.
  intros H. unfold updateHook.
  by rewrite (bind_ok _ _ _ _ _ (readHook_ok _ _ _ H)).
Qed.

(** ** The hook store *)

Lemma with_cells_same s : with_cells (cells s) s = s.
Proof. by destruct s. Qed.

Lemma forEach_applyAction h actions : forall s c,
  cells s !! h = Some c ->
  forEach (applyAction h) actions s =
  Ok (tt, with_cells (<[h := {| state := applyAll actions (state c);
                               queue := queue c |}]> (cells s)) s).
Proof.
  induction actions as [|a actions IH]; intros s c Hc.
  - simpl. rewrite list_insert_id; [by rewrite with_cells_same|]. by destruct c.
  - simpl. unfold applyAction at 1.
    rewrite (bind_ok _ _ _ _ _ (updateHook_ok _ _ _ _ Hc)).
    erewrite IH; cycle 1.
    { simpl. apply list_lookup_insert_eq. by eapply lookup_lt_Some. }
    simpl. by rewrite list_insert_insert_eq.
Qed.

(** What [useState] does when the fiber under evaluation is [w]: [old]
    is the hook cell found through the alternate, if any. *)
Lemma useState_run initial s w wf hs old :
  wipFiber s = Some w ->
  fibers s !! w = Some wf ->
  hooks wf = Some hs ->
  (exists o, oldHookOf wf s = Ok (o, s) /\
             match o with
             | Some o => cells s !! o = old /\ is_Some old
             | None => old = None
             end) ->
  let exposed := match old with
                 | Some c => applyAll (queue c) (state c)
                 | None => initial
                 end in
  useState initial s =
    Ok ((exposed, VFun (FSetState (length (cells s)))),
        with_hookIndex (Some (S (default 0 (hookIndex s))))
          (with_fibers
             (<[w := set_hooks (Some (hs ++ [length (cells s)])) wf]> (fibers s))
             (with_cells (cells s ++ [{| state := exposed; queue := [] |}]) s))).
Proof.
  intros Hw Hwf Hhs (o & Ho & Hold) exposed.
  unfold useState.
  unfold bind at 1, gets at 1. rewrite Hw. unfold bind at 1, deref, ret.
  rewrite (bind_ok _ _ _ _ _ (readFiber_ok _ _ _ Hwf)).
  rewrite (bind_ok _ _ _ _ _ Ho).
  assert (Hread : (match o with
                   | Some o => c <- readHook o ;; ret (Some c)
                   | None => ret None
                   end) s = Ok (old, s)).
  { destruct o as [o|].
    - destruct Hold as [Hc [c ->]].
      by rewrite (bind_ok _ _ _ _ _ (readHook_ok _ _ _ Hc)).
    - by subst old. }
  rewrite (bind_ok _ _ _ _ _ Hread).
  unfold bind at 1, newHook.
  set (c0 := {| state := match old with Some c => state c | None => initial end;
                queue := [] |}).
  set (s1 := with_cells (cells s ++ [c0]) s).
  erewrite bind_ok; cycle 1.
  { apply (forEach_applyAction _ _ s1 c0).
    subst s1. simpl. by rewrite lookup_app_r, Nat.sub_diag. }
  assert (Hcells : <[length (cells s) :=
                      {| state := applyAll (match old with
                                            | Some c => queue c
                                            | None => []
                                            end) (state c0);
                         queue := queue c0 |}]> (cells s1) =
                   cells s ++ [{| state := exposed; queue := [] |}]).
  { subst s1. simpl.
    rewrite insert_app_r_alt by lia. rewrite Nat.sub_diag. simpl.
    subst exposed c0. by destruct old. }
  rewrite Hcells.
  erewrite bind_ok; [|by apply readFiber_ok].
  rewrite Hhs.
  erewrite bind_ok; [|by apply updateFiber_ok].
  unfold bind at 1, gets at 1. unfold bind at 1, modify at 1.
  erewrite bind_ok; cycle 1.
  { apply readHook_ok. simpl. by rewrite lookup_app_r, Nat.sub_diag. }
  reflexivity.
Qed.

(** C9.  For every call of [createElement], the children list of the
    description it returns has one entry per child argument, in the
    order of the arguments: an argument that is an object (one whose
    [typeof] is ["object"], as the source tests it) is kept unchanged, and
    any other argument is replaced by a text description of kind
    ["TEXT_ELEMENT"] whose [nodeValue] attribute is the argument and
    whose children list is empty. *)
Theorem createElement_children (type props : value) (children : list value)
    (i : nat) (child : value) (Hi : children !! i = Some child) :
  exists kids,
    childrenOf (createElement type props children) = Some kids /\
    length kids = length children /\
    (typeof child = "object" -> kids !! i = Some child) /\
    (typeof child <> "object" ->
     exists text, kids !! i = Some text /\
       kindOf text = Some (VStr "TEXT_ELEMENT") /\
       attribute "nodeValue" text = Some child /\
       childrenOf text = Some []).
Proof.
  exists (map wrapChild children). rewrite childrenOf_createElement.
  split; [done|]. split; [by rewrite length_map|].
  rewrite list_lookup_fmap, Hi. simpl. unfold wrapChild.
  split; intros H.
  - by rewrite H.
  - apply String.eqb_neq in H. rewrite H. by eexists.
Qed.

Lemma createElement_children_witness :
  exists kids,
    childrenOf (createElement (VStr "div") VNull
                  [VStr "a"; VObj []; VNum 3]) = Some kids /\
    length kids = 3 /\
    (typeof (VNum 3) = "object" -> kids !! 2 = Some (VNum 3)) /\
    (typeof (VNum 3) <> "object" ->
     exists text, kids !! 2 = Some text /\
       kindOf text = Some (VStr "TEXT_ELEMENT") /\
       attribute "nodeValue" text = Some (VNum 3) /\
       childrenOf text = Some []).
Proof.
  apply (createElement_children (VStr "div") VNull
           [VStr "a"; VObj []; VNum 3] 2 (VNum 3)).
  reflexivity.
Defined.

(** [typeof null] is ["object"], so a [null] child is among those kept. *)
Remark createElement_null_child type props :
  childrenOf (createElement type props [VNull]) = Some [VNull].
Proof. by rewrite childrenOf_createElement. Qed.

(** C4.  When the fiber under evaluation has an alternate with a hook
    cell at the current hook index, [useState] exposes the result of
    applying every action queued in that cell, oldest first, to the
    state of that cell, and stores it in the new cell; and with the
    actions [x => x * 2] and [x => x + 1] queued on a committed hook in
    state 3, the hook of the tree committed by the next pass holds 7. *)
Theorem useState_folds_queue :
  (forall initial s w wf hs a af ahs i o c,
     wipFiber s = Some w -> fibers s !! w = Some wf -> hooks wf = Some hs ->
     alternate wf = Some a -> fibers s !! a = Some af ->
     hooks af = Some ahs -> hookIndex s = Some i -> ahs !! i = Some o ->
     cells s !! o = Some c ->
     exists s',
       useState initial s =
         Ok ((applyAll (queue c) (state c),
              VFun (FSetState (length (cells s)))), s') /\
       cells s' !! length (cells s) =
         Some {| state := applyAll (queue c) (state c); queue := [] |}) /\
  (exists s c,
     andThen (mounted (VNum 3)) (dispatch (VNum 3) [times 2; plus 1]) = Ok s /\
     currentComponent s = Some c /\
     hookState s c 0 = Some (VNum 7)).
Proof.
  split.
  - intros initial s w wf hs a af ahs i o c Hw Hwf Hhs Ha Haf Hahs Hi Ho Hc.
    eexists. split.
    + apply (useState_run initial s w wf hs (Some c) Hw Hwf Hhs).
      exists (Some o). split; [|by eauto].
      unfold oldHookOf. rewrite Ha.
      rewrite (bind_ok _ _ _ _ _ (readFiber_ok _ _ _ Haf)).
      rewrite Hahs. unfold bind, gets, ret. by rewrite Hi, Ho.
    + simpl. by rewrite lookup_app_r, Nat.sub_diag.
  - vm_compute. eexists _, _. repeat split.
Qed.

Lemma useState_folds_queue_witness :
  exists s',
    useState (VNum 1) reevaluating = Ok ((VNum 7, VFun (FSetState 1)), s') /\
    cells s' !! 1 = Some {| state := VNum 7; queue := [] |}.
Proof.
  exact (proj1 useState_folds_queue (VNum 1) reevaluating 1 _ [] 0 _ [0] 0 0 _
           eq_refl eq_refl eq_refl eq_refl eq_refl eq_refl eq_refl eq_refl
           eq_refl).
Defined.

(** C8, as the code has it.  [useState] checks nothing about who calls
    it: with no fiber ever evaluated ([wipFiber] is [null]) it throws the
    [TypeError] of a property read on [null]; with [wipFiber] set, also
    when left over from an evaluation that has ended, and no hook cell of
    the alternate at the current index (no alternate, or fewer hooks
    there), it returns [initial] with a new [setState] and appends a new
    cell to the fiber's hooks. *)
Theorem useState_unguarded :
  (forall initial s, wipFiber s = None -> useState initial s = Err TypeError) /\
  (forall initial s w wf hs,
     wipFiber s = Some w -> fibers s !! w = Some wf -> hooks wf = Some hs ->
     oldHookOf wf s = Ok (None, s) ->
     exists s',
       useState initial s =
         Ok ((initial, VFun (FSetState (length (cells s)))), s') /\
       cells s' = cells s ++ [{| state := initial; queue := [] |}] /\
       (fiberAt s' (Some w) ≫= hooks) = Some (hs ++ [length (cells s)])).
Proof.
  split.
  - intros initial s Hw. unfold useState, bind, gets. by rewrite Hw.
  - intros initial s w wf hs Hw Hwf Hhs Hold.
    eexists. split.
    + apply (useState_run initial s w wf hs None Hw Hwf Hhs). by exists None.
    + split; [done|]. simpl. rewrite list_lookup_insert_eq; [done|].
      by eapply lookup_lt_Some.
Qed.

Lemma useState_unguarded_witness :
  exists s',
    useState (VNum 5) (storeOf (mounted (VNum 1))) =
      Ok ((VNum 5, VFun (FSetState 1)), s') /\
    cells s' = [{| state := VNum 1; queue := [] |};
                {| state := VNum 5; queue := [] |}] /\
    (fiberAt s' (Some 1) ≫= hooks) = Some [0; 1].
Proof.
  set (s := storeOf (mounted (VNum 1))). vm_compute in s.
  exact (proj2 useState_unguarded (VNum 5) s 1 _ [0]
           eq_refl eq_refl eq_refl eq_refl).
Defined.

(** C8 fails on the code: a call of [useState] from outside any
    component evaluation returns normally (here after the first pass of
    the script, where it hands out 5 and adds a second hook to the
    committed [Counter] fiber), and so does a pass in which a component
    calls [useState] twice after having called it once. *)
Lemma useState_unguarded_counterexample :
  ~ throws strayCall /\
  (exists s', strayCall = Ok ((VNum 5, VFun (FSetState 1)), s')) /\
  ~ throws unstableUpdated /\
  (exists s c, unstableUpdated = Ok s /\ currentComponent s = Some c /\
     hookState s c 0 = Some (VNum 1) /\ hookState s c 1 = Some (VNum 10)).
Proof.
  repeat split.
  - intros [e He]. vm_compute in He. discriminate.
  - vm_compute. by eexists.
  - intros [e He]. vm_compute in He. discriminate.
  - vm_compute. eexists _, _. repeat split.
Qed.

(** What a [setState] closure does once a pass has committed. *)
Lemma setState_ok h action s c r root :
  cells s !! h = Some c -> currentRoot s = Some r -> fibers s !! r = Some root ->
  setState h action s =
  Ok (tt, with_deletions (Some [])
            (with_nextUnitOfWork (Some (length (fibers s)))
               (with_wipRoot (Some (length (fibers s)))
                  (with_fibers
                     (fibers s ++ [rootFiber (dom root) (props root) (Some r)])
                     (with_cells
                        (<[h := {| state := state c;
                                   queue := queue c ++ [action] |}]> (cells s))
                        s))))).
Proof.
  intros Hc Hr Hroot. unfold setState.
  rewrite (bind_ok _ _ _ _ _ (updateHook_ok _ _ _ _ Hc)).
  unfold bind at 1, gets at 1. simpl currentRoot. rewrite Hr.
  unfold bind at 1, deref, ret.
  by erewrite bind_ok; [|by apply readFiber_ok].
Qed.

(** C10.  For a [setState] closure over an existing hook cell: with no
    committed pass ([currentRoot] is [null]) the call throws a
    [TypeError]; with a current root it returns, having queued the action
    on its cell and built a new work-in-progress root from the [dom] and
    [props] of the current root, with the current root as alternate, as
    the next unit of work and with an empty deletions list. *)
Theorem setState_needs_currentRoot (h : loc) (action : value -> value)
    (s : engine) (c : hook) (Hc : cells s !! h = Some c) :
  (currentRoot s = None -> setState h action s = Err TypeError) /\
  (forall r root,
     currentRoot s = Some r -> fibers s !! r = Some root ->
     exists s',
       setState h action s = Ok (tt, s') /\
       wipRoot s' = Some (length (fibers s)) /\
       nextUnitOfWork s' = Some (length (fibers s)) /\
       deletions s' = Some [] /\
       currentRoot s' = Some r /\
       fibers s' = fibers s ++ [rootFiber (dom root) (props root) (Some r)] /\
       cells s' = <[h := {| state := state c;
                            queue := queue c ++ [action] |}]> (cells s)).
Proof.
  split.
  - intros Hr. unfold setState.
    rewrite (bind_ok _ _ _ _ _ (updateHook_ok _ _ _ _ Hc)).
    unfold bind, gets. simpl. by rewrite Hr.
  - intros r root Hr Hroot.
    rewrite (setState_ok _ _ _ _ _ _ Hc Hr Hroot).
    eexists. split; [reflexivity|]. by simpl.
Qed.

Lemma setState_needs_currentRoot_witness :
  (currentRoot (storeOf (mounted (VNum 1))) = None ->
   setState 0 (plus 1) (storeOf (mounted (VNum 1))) = Err TypeError) /\
  (forall r root,
     currentRoot (storeOf (mounted (VNum 1))) = Some r ->
     fibers (storeOf (mounted (VNum 1))) !! r = Some root ->
     exists s',
       setState 0 (plus 1) (storeOf (mounted (VNum 1))) = Ok (tt, s') /\
       wipRoot s' = Some (length (fibers (storeOf (mounted (VNum 1))))) /\
       nextUnitOfWork s' = Some (length (fibers (storeOf (mounted (VNum 1))))) /\
       deletions s' = Some [] /\
       currentRoot s' = Some r /\
       fibers s' = fibers (storeOf (mounted (VNum 1))) ++
                   [rootFiber (dom root) (props root) (Some r)] /\
       cells s' = <[0 := {| state := VNum 1; queue := [] ++ [plus 1] |}]>
                    (cells (storeOf (mounted (VNum 1))))).
Proof.
  exact (setState_needs_currentRoot 0 (plus 1) (storeOf (mounted (VNum 1)))
           {| state := VNum 1; queue := [] |} eq_refl).
Defined.

(** ** The committer only talks to the backend *)

Lemma emits_refl s : emits s s [].
Proof. unfold emits. destruct s. simpl. by rewrite app_nil_r. Qed.

Lemma emits_trans s1 s2 s3 l1 l2 :
  emits s1 s2 l1 -> emits s2 s3 l2 -> emits s1 s3 (l1 ++ l2).
Proof. unfold emits. intros -> ->. simpl. by rewrite app_assoc. Qed.

Lemma emit_emits e s u s' : emit e s = Ok (u, s') -> emits s s' [e].
Proof. unfold emit, modify. by intros [= <-]. Qed.

Lemma emits_fibers s s' l : emits s s' l -> fibers s' = fibers s.
Proof. by intros ->. Qed.

Lemma emits_log s s' l : emits s s' l -> log s' = log s ++ l.
Proof. by intros ->. Qed.

Lemma deref_inv p s l s' : deref p s = Ok (l, s') -> p = Some l /\ s' = s.
Proof. destruct p; [|done]. by intros [= -> ->]. Qed.

Lemma updateDom_emits d p n s u s' :
  updateDom d p n s = Ok (u, s') -> emits s s' [UpdateDom d p n].
Proof.
  unfold updateDom. destruct p, n; try done; apply emit_emits.
Qed.

Lemma commitDeletion_emits fuel : forall fiber d s u s',
  commitDeletion fuel fiber d s = Ok (u, s') -> exists l, emits s s' l.
Proof.
  induction fuel as [|fuel IH]; intros fiber d s u s' H; [done|].
  simpl in H.
  apply bind_inv in H as (l & s1 & [_ ->]%deref_inv & H).
  apply bind_inv in H as (f & s2 & [-> _]%readFiber_inv & H).
  destruct (dom f).
  - eexists. by eapply emit_emits.
  - by eapply IH.
Qed.

Lemma domParentOf_pure fuel : forall p s d s',
  domParentOf fuel p s = Ok (d, s') -> s' = s.
Proof.
  induction fuel as [|fuel IH]; intros p s d s' H; [done|].
  simpl in H.
  apply bind_inv in H as (l & s1 & [_ ->]%deref_inv & H).
  apply bind_inv in H as (f & s2 & [-> _]%readFiber_inv & H).
  destruct (dom f).
  - by injection H.
  - by eapply IH.
Qed.

Lemma commitWork_emits fuel : forall fiber s u s',
  commitWork fuel fiber s = Ok (u, s') -> exists l, emits s s' l.
Proof.
  induction fuel as [|fuel IH]; intros [l|] s u s' H; cbn [commitWork] in H;
    try done; try (injection H as <- <-; eexists; apply emits_refl).
  apply bind_inv in H as (f & s1 & [-> _]%readFiber_inv & H).
  apply bind_inv in H as (d & s2 & Hd & H).
  apply domParentOf_pure in Hd as ->.
  apply bind_inv in H as ([] & s3 & Hop & H).
  apply bind_inv in H as ([] & s4 & Hchild & Hsib).
  apply IH in Hchild as [l2 H2]. apply IH in Hsib as [l3 H3].
  assert (exists l1, emits s s3 l1) as [l1 H1].
  { destruct (effectTag f) as [[]|], (dom f) as [n|];
      try (injection Hop as <-; eexists; apply emits_refl).
    - eexists. by eapply emit_emits.
    - apply bind_inv in Hop as (a & sa & [_ ->]%deref_inv & Hop).
      apply bind_inv in Hop as (old & sb & [-> _]%readFiber_inv & Hop).
      eexists. by eapply updateDom_emits.
    - by eapply commitDeletion_emits.
    - by eapply commitDeletion_emits. }
  eexists. eapply emits_trans; [|done]. by eapply emits_trans.
Qed.

Lemma commitDeletions_emits fuel ds : forall s u s',
  commitDeletions fuel ds s = Ok (u, s') -> exists l, emits s s' l.
Proof.
  induction ds as [|d ds IH]; intros s u s' H; simpl in H.
  - injection H as <- <-. eexists. apply emits_refl.
  - apply bind_inv in H as ([] & s1 & [l1 H1]%commitWork_emits & H).
    apply IH in H as [l2 H2]. eexists. by eapply emits_trans.
Qed.

(** What a completed [commitRoot] has done: the deletions list was
    processed, then the tree below the work-in-progress root, each only
    calling the backend; then the roots were swapped. *)
Lemma commitRoot_inv fuel s u s' :
  commitRoot fuel s = Ok (u, s') ->
  exists ds root f mid removals rest,
    deletions s = Some ds /\ wipRoot s = Some root /\
    fibers s !! root = Some f /\
    commitDeletions fuel ds s = Ok (tt, mid) /\ emits s mid removals /\
    (exists last, commitWork fuel (child f) mid = Ok (tt, last) /\
                  emits mid last rest) /\
    s' = with_wipRoot None
           (with_currentRoot (Some root)
              (with_backend (nextNode s) (log s ++ removals ++ rest) s)).
Proof.
  unfold commitRoot. intros H.
  apply bind_inv in H as (d & s0 & [= <- <-] & H).
  destruct (deletions s) as [ds|] eqn:Hds; [|done].
  apply bind_inv in H as ([] & mid & Hdel & H).
  destruct (commitDeletions_emits _ _ _ _ _ Hdel) as [removals Hmid].
  apply bind_inv in H as (w & s1 & [= <- <-] & H).
  apply bind_inv in H as (root & s2 & [Hw ->]%deref_inv & H).
  apply bind_inv in H as (f & s3 & [-> Hf]%readFiber_inv & H).
  apply bind_inv in H as ([] & last & Hwork & H).
  destruct (commitWork_emits _ _ _ _ _ Hwork) as [rest Hlast].
  injection H as <- <-.
  exists ds, root, f, mid, removals, rest.
  rewrite (emits_fibers _ _ _ Hmid) in Hf.
  assert (wipRoot s = Some root) as Hroot by (by rewrite Hmid in Hw).
  repeat split; try done; [by eauto|].
  rewrite Hw, Hlast, Hmid. simpl. by rewrite app_assoc.
Qed.

(** C3, as the code has it.  When [commitRoot] completes, the
    work-in-progress root has become the current root, there is no
    work-in-progress root any more, and the deletions list is the one
    the pass ended with: it is [render] (and [setState]) that empty it,
    when the next pass starts. *)
Theorem commitRoot_swaps_roots (fuel : nat) (s s' : engine)
    (H : commitRoot fuel s = Ok (tt, s')) :
  is_Some (wipRoot s) /\
  currentRoot s' = wipRoot s /\
  wipRoot s' = None /\
  deletions s' = deletions s /\
  (forall description target,
     exists s'', render description target s' = Ok (tt, s'') /\
                 deletions s'' = Some []).
Proof.
  apply commitRoot_inv in H
    as (ds & root & f & mid & removals & rest & Hds & Hw & _ & _ & _ & _ & ->).
  rewrite Hw. simpl. repeat split; [by eauto|].
  intros description target. by eexists.
Qed.

Lemma commitRoot_swaps_roots_witness :
  is_Some (wipRoot (storeOf replaced)) /\
  currentRoot (storeOf (andThen replaced (exec (commitRoot 20)))) =
    wipRoot (storeOf replaced) /\
  wipRoot (storeOf (andThen replaced (exec (commitRoot 20)))) = None /\
  deletions (storeOf (andThen replaced (exec (commitRoot 20)))) =
    deletions (storeOf replaced) /\
  (forall description target,
     exists s'',
       render description target
         (storeOf (andThen replaced (exec (commitRoot 20)))) = Ok (tt, s'') /\
       deletions s'' = Some []).
Proof.
  apply (commitRoot_swaps_roots 20 (storeOf replaced)).
  vm_compute. reflexivity.
Defined.

(** C3 fails on the code: committing the pass that replaces a [div] by
    a [span] leaves the deleted [div] fiber in the deletions list. *)
Lemma commitRoot_keeps_deletions_counterexample :
  exists s s',
    replaced = Ok s /\ commitRoot 20 s = Ok (tt, s') /\
    currentRoot s' = wipRoot s /\
    deletions s' = Some [1] /\ deletions s' <> Some [].
Proof.
  exists (storeOf replaced), (storeOf (andThen replaced (exec (commitRoot 20)))).
  split; [vm_compute; reflexivity|].
  split; [vm_compute; reflexivity|].
  split; [vm_compute; reflexivity|].
  split; [vm_compute; reflexivity|].
  vm_compute. discriminate.
Qed.

(** ** One round of the reconciler on host descriptions *)

Lemma describe_wrapped F : map wrapChild (describe F) = describe F.
Proof.
  induction F as [|tag attrs kids _ next IH]; [done|]. simpl. by rewrite IH.
Qed.

Lemma children_nodeProps attrs kids s :
  getField "children" (nodeProps attrs kids) s = Ok (VArr (describe kids), s).
Proof.
  unfold nodeProps, getField, ret.
  by rewrite lookup_set_field, describe_wrapped.
Qed.

Lemma drop_describe_Host E j tag attrs kids next :
  drop j E = describe (Host tag attrs kids next) ->
  nth j E VUndefined = createElement (VStr tag) (VObj attrs) (describe kids) /\
  drop (S j) E = describe next /\ (j <? length E)%nat = true.
Proof.
  intros H. simpl in H.
  assert (E !! j = Some (createElement (VStr tag) (VObj attrs) (describe kids)))
    as Hj.
  { rewrite <- (Nat.add_0_r j), <- lookup_drop. by rewrite H. }
  split; [by rewrite (nth_lookup_Some _ _ _ _ Hj)|].
  split.
  - replace (S j) with (j + 1) by lia. by rewrite <- drop_drop, H.
  - apply Nat.ltb_lt. by eapply lookup_lt_Some.
Qed.

Lemma drop_describe_NoMore E j :
  drop j E = describe NoMore -> (j <? length E)%nat = false.
Proof.
  intros H. apply Nat.ltb_ge.
  destruct (decide (length E <= j)) as [|Hn]; [done|].
  apply (f_equal length) in H. rewrite length_drop in H. simpl in H. lia.
Qed.

(** A round that finds an old fiber of the kind of the description. *)
Lemma reconcileLoop_reuse_any fuel w E j prev s fs o fo :
  nth j E VUndefined = VObj fs ->
  (j <? length E)%nat = true ->
  fibers s !! o = Some fo ->
  (forall s', looseEq (default VUndefined (lookup_field "type" fs)) (type fo) s'
              = Ok (true, s')) ->
  reconcileLoop (S fuel) w E j (Some o) prev s =
  bind (link w j prev (Some (length (fibers s))))
       (fun _ => reconcileLoop fuel w E (S j) (sibling fo)
                   (Some (length (fibers s))))
       (with_fibers
          (fibers s ++
           [reused w o fo (default VUndefined (lookup_field "props" fs))]) s).
Proof.
  intros Hnth Hlt Ho Ht.
  cbn [reconcileLoop]. rewrite Hlt, Hnth. cbn [orb].
  unfold sameTypeOf. cbn [truthy].
  erewrite bind_assoc, bind_ok; [|reflexivity].
  erewrite bind_assoc, bind_ok; [|by apply readFiber_ok].
  erewrite bind_ok; [|by apply Ht].
  cbn [deref].
  erewrite bind_assoc, bind_ok; [|reflexivity].
  erewrite bind_assoc, bind_ok; [|by apply readFiber_ok].
  erewrite bind_assoc, bind_ok; [|reflexivity].
  erewrite bind_assoc, bind_ok; [|reflexivity].
  erewrite bind_ok; [|reflexivity].
  cbn [negb andb].
  erewrite bind_ok; [|reflexivity].
  erewrite bind_ok; [|reflexivity].
  erewrite bind_assoc, bind_ok; cycle 1.
  { apply readFiber_ok. cbn. by apply lookup_app_l_Some. }
  erewrite bind_ok; [|reflexivity].
  reflexivity.
Qed.

(** A round that finds an old fiber of another kind: the description
    gets a new fiber, the old fiber is tagged and listed for deletion. *)
Lemma reconcileLoop_replace fuel w E j prev s fs o fo ds :
  nth j E VUndefined = VObj fs ->
  (j <? length E)%nat = true ->
  fibers s !! o = Some fo ->
  (forall s', looseEq (default VUndefined (lookup_field "type" fs)) (type fo) s'
              = Ok (false, s')) ->
  deletions s = Some ds ->
  reconcileLoop (S fuel) w E j (Some o) prev s =
  bind (link w j prev (Some (length (fibers s))))
       (fun _ => reconcileLoop fuel w E (S j) (sibling fo)
                   (Some (length (fibers s))))
       (with_deletions (Some (ds ++ [o]))
          (with_fibers
             (<[o := set_effectTag (Some DELETION) fo]>
                (fibers s ++
                 [placed w (default VUndefined (lookup_field "type" fs))
                    (default VUndefined (lookup_field "props" fs))])) s)).
Proof.
  intros Hnth Hlt Ho Ht Hds.
  cbn [reconcileLoop]. rewrite Hlt, Hnth. cbn [orb].
  unfold sameTypeOf. cbn [truthy].
  erewrite bind_assoc, bind_ok; [|reflexivity].
  erewrite bind_assoc, bind_ok; [|by apply readFiber_ok].
  erewrite bind_ok; [|by apply Ht].
  erewrite bind_ok; [|reflexivity].
  cbn [negb andb].
  erewrite bind_assoc, bind_ok; [|reflexivity].
  erewrite bind_assoc, bind_ok; [|reflexivity].
  erewrite bind_assoc, bind_ok; [|reflexivity].
  erewrite bind_ok; [|reflexivity].
  erewrite bind_assoc, bind_ok; cycle 1.
  { apply updateFiber_ok. cbn. by apply lookup_app_l_Some. }
  erewrite bind_ok; cycle 1.
  { unfold pushDeletion. erewrite bind_ok; [|reflexivity].
    cbn. rewrite Hds. reflexivity. }
  erewrite bind_assoc, bind_ok; cycle 1.
  { apply readFiber_ok. cbn. apply list_lookup_insert_eq.
    rewrite length_app. apply lookup_lt_Some in Ho. lia. }
  erewrite bind_ok; [|reflexivity].
  reflexivity.
Qed.

(** A round past the last description: the old fiber left over is
    tagged and listed for deletion, and nothing is linked. *)
Lemma reconcileLoop_remove fuel w E j prev s o fo ds :
  nth j E VUndefined = VUndefined -> j <> 0 ->
  fibers s !! o = Some fo ->
  deletions s = Some ds ->
  reconcileLoop (S fuel) w E j (Some o) prev s =
  reconcileLoop fuel w E (S j) (sibling fo) None
    (with_deletions (Some (ds ++ [o]))
       (with_fibers (<[o := set_effectTag (Some DELETION) fo]> (fibers s)) s)).
Proof.
  intros Hnth Hj Ho Hds. apply Nat.eqb_neq in Hj.
  cbn [reconcileLoop]. rewrite Hnth, Hj, orb_true_r.
  unfold sameTypeOf. cbn [truthy].
  erewrite bind_ok; [|reflexivity].
  erewrite bind_ok; [|reflexivity].
  cbn [negb andb].
  erewrite bind_ok; [|reflexivity].
  erewrite bind_assoc, bind_ok; [|by apply updateFiber_ok].
  erewrite bind_ok; cycle 1.
  { unfold pushDeletion. erewrite bind_ok; [|reflexivity].
    cbn. rewrite Hds. reflexivity. }
  erewrite bind_assoc, bind_ok; cycle 1.
  { apply readFiber_ok. cbn. apply list_lookup_insert_eq.
    by apply lookup_lt_Some in Ho. }
  erewrite bind_ok; [|reflexivity].
  erewrite bind_ok; [|reflexivity].
  reflexivity.
Qed.

Lemma reconcileLoop_reuse fuel w E j prev s tag attrs kids next o fo :
  drop j E = describe (Host tag attrs kids next) ->
  fibers s !! o = Some fo -> type fo = VStr tag ->
  reconcileLoop (S fuel) w E j (Some o) prev s =
  bind (link w j prev (Some (length (fibers s))))
       (fun _ => reconcileLoop fuel w E (S j) (sibling fo)
                   (Some (length (fibers s))))
       (with_fibers (fibers s ++ [reused w o fo (nodeProps attrs kids)]) s).
Proof.
  intros (Hnth & _ & Hlt)%drop_describe_Host Ho Ht.
  erewrite (reconcileLoop_reuse_any fuel w E j prev s _ o fo Hnth Hlt Ho);
    [reflexivity|].
  intros s'. rewrite Ht. cbn. by rewrite String.eqb_refl.
Qed.

Lemma reconcileLoop_place fuel w E j prev s tag attrs kids next :
  drop j E = describe (Host tag attrs kids next) ->
  reconcileLoop (S fuel) w E j None prev s =
  bind (link w j prev (Some (length (fibers s))))
       (fun _ => reconcileLoop fuel w E (S j) None (Some (length (fibers s))))
       (with_fibers (fibers s ++ [placed w (VStr tag) (nodeProps attrs kids)]) s).
Proof.
  intros (Hnth & _ & Hlt)%drop_describe_Host.
  cbn [reconcileLoop]. rewrite Hlt, Hnth. cbn [orb].
  unfold sameTypeOf. cbn [createElement truthy].
  erewrite bind_ok; [|reflexivity].
  erewrite bind_ok; [|reflexivity].
  cbn [negb andb].
  erewrite bind_assoc, bind_ok; [|reflexivity].
  erewrite bind_assoc, bind_ok; [|reflexivity].
  erewrite bind_assoc, bind_ok; [|reflexivity].
  erewrite bind_ok; [|reflexivity].
  erewrite bind_ok; [|reflexivity].
  erewrite bind_ok; [|reflexivity].
  reflexivity.
Qed.

Lemma reconcileLoop_done fuel w E j prev s :
  drop j E = describe NoMore ->
  reconcileLoop fuel w E j None prev s = Ok (tt, s).
Proof.
  intros Hlt%drop_describe_NoMore.
  destruct fuel; cbn [reconcileLoop]; by rewrite Hlt.
Qed.

(** ** Stores that agree below a bound *)

Lemma shape_frame bound X X' F : forall q,
  (forall l, l < bound -> X' !! l = X !! l) ->
  shape bound X q F -> shape bound X' q F.
Proof.
  induction F as [|tag attrs kids IHk next IHn]; intros q Hsame; [done|].
  intros (o & fo & -> & Ho & Hfo & Ht & Hd & Hp & Hk & Hn).
  exists o, fo. rewrite Hsame by done. repeat split; auto.
Qed.

Lemma with_fibers_same s : with_fibers (fibers s) s = s.
Proof. by destruct s. Qed.

(** ** The reconciler on the children of a host description *)

(** The loop from round [j] on, when the descriptions left are those of
    [K] and the old fibers left, if any are reused, have the kinds of
    [K]: it makes one fiber per description, at consecutive addresses,
    linked from [t], the parent at round 0 and the previous fiber later. *)
Lemma reconcileLoop_forest (upd : bool) base w K :
  forall fuel E (j : nat) q prev (t : loc) tf g s,
  (j = 0 /\ t = w /\ g = set_child) \/
  (j <> 0 /\ prev = Some t /\ g = set_sibling) ->
  drop j E = describe K ->
  breadth K <= fuel ->
  fibers s !! t = Some tf -> base <= t ->
  (if upd then shape base (fibers s) q K else q = None) ->
  exists X,
    reconcileLoop fuel w E j q prev s = Ok (tt, with_fibers X s) /\
    length X = length (fibers s) + breadth K /\
    (forall l, l < length (fibers s) -> l <> t -> X !! l = fibers s !! l) /\
    X !! t = Some match K with
                  | NoMore => tf
                  | _ => g (Some (length (fibers s))) tf
                  end /\
    pending upd base X (length (fibers s)) w K.
Proof.
  induction K as [|tag attrs kids _ next IH];
    intros fuel E j q prev t tf g s Hlink HE Hfuel Ht Hbase Hold.
  - assert (q = None) as -> by (by destruct upd).
    exists (fibers s). rewrite with_fibers_same.
    rewrite reconcileLoop_done by done. simpl. repeat split; auto with lia.
  - destruct fuel as [|fuel]; [simpl in Hfuel; lia|].
    simpl in Hfuel.
    destruct (drop_describe_Host _ _ _ _ _ _ HE) as (_ & HE' & _).
    set (L := length (fibers s)).
    assert (HtL : t < L) by (by eapply lookup_lt_Some).
    assert (Hdo : forall new,
      link w j prev (Some L) (with_fibers (fibers s ++ [new]) s) =
      Ok (tt, with_fibers (<[t := g (Some L) tf]> (fibers s ++ [new])) s)).
    { intros new. unfold link.
      destruct Hlink as [(-> & -> & ->)|(Hj & -> & ->)].
      - cbn [Nat.eqb]. erewrite updateFiber_ok; [reflexivity|].
        cbn. by apply lookup_app_l_Some.
      - apply Nat.eqb_neq in Hj. rewrite Hj. cbn [deref].
        erewrite bind_ok; [|reflexivity].
        erewrite updateFiber_ok; [reflexivity|].
        cbn. by apply lookup_app_l_Some. }
    assert (exists new q',
      reconcileLoop (S fuel) w E j q prev s =
        reconcileLoop fuel w E (S j) q' (Some L)
          (with_fibers (<[t := g (Some L) tf]> (fibers s ++ [new])) s) /\
      type new = VStr tag /\ props new = nodeProps attrs kids /\
      parent new = Some w /\ child new = None /\ sibling new = None /\
      effectTag new = Some (tagOf upd) /\
      (if upd then
         exists o fo,
           alternate new = Some o /\ o < base /\ fibers s !! o = Some fo /\
           dom new = dom fo /\ is_Some (dom fo) /\
           (exists ps, props fo = VObj ps) /\
           shape base (fibers s) (child fo) kids /\
           shape base (fibers s) q' next
       else alternate new = None /\ dom new = None /\ q' = None))
      as (new & q' & Hrun & Hty & Hpr & Hpar & Hch & Hsib & Htag & Hmode).
    { destruct upd.
      - destruct Hold as (o & fo & -> & Ho & Hfo & Hto & Hd & Hp & Hk & Hn).
        exists (reused w o fo (nodeProps attrs kids)), (sibling fo).
        split.
        + rewrite (reconcileLoop_reuse _ _ _ _ _ _ _ _ _ _ _ _ HE Hfo Hto).
          by erewrite bind_ok; [|apply Hdo].
        + cbn. repeat split; try done. exists o, fo. repeat split; done.
      - subst q. exists (placed w (VStr tag) (nodeProps attrs kids)), None.
        split; [|done].
        rewrite (reconcileLoop_place _ _ _ _ _ _ _ _ _ _ HE).
        by erewrite bind_ok; [|apply Hdo]. }
    set (s1 := with_fibers (<[t := g (Some L) tf]> (fibers s ++ [new])) s) in *.
    assert (Hlen1 : length (fibers s1) = S L).
    { subst s1. cbn. rewrite length_insert, length_app. simpl. lia. }
    assert (Hsame1 : forall l, l < L -> l <> t -> fibers s1 !! l = fibers s !! l).
    { intros l Hl Hne. subst s1. cbn.
      rewrite list_lookup_insert_ne by done. by rewrite lookup_app_l. }
    assert (HL1 : fibers s1 !! L = Some new).
    { subst s1. cbn. rewrite list_lookup_insert_ne by lia.
      subst L. by rewrite lookup_app_r, Nat.sub_diag. }
    destruct (IH fuel E (S j) q' (Some L) L new set_sibling s1)
      as (X & HX & HlenX & HsameX & HXL & Hpend); try done; try lia.
    { right. by repeat split. }
    { destruct upd; [|by destruct Hmode as (_ & _ & ->)].
      destruct Hmode as (o & fo & _ & _ & _ & _ & _ & _ & _ & Hn).
      eapply shape_frame; [|exact Hn].
      intros l Hl. apply Hsame1; lia. }
    rewrite Hlen1 in HsameX, HXL, Hpend.
    exists X. rewrite Hrun. split; [exact HX|].
    split; [rewrite HlenX, Hlen1; simpl; lia|].
    split; [intros l Hl Hne; rewrite HsameX by lia; apply Hsame1; lia|].
    split.
    { rewrite HsameX by lia. subst s1. cbn.
      apply list_lookup_insert_eq. rewrite length_app. simpl. lia. }
    cbn [pending].
    eexists. split; [exact HXL|].
    assert (HoldX : forall l, l < base -> X !! l = fibers s !! l).
    { intros l Hl. rewrite HsameX by lia. apply Hsame1; lia. }
    destruct next; cbn; (repeat split; try done);
      (destruct upd; [|by destruct Hmode as (? & ? & _)]);
      destruct Hmode as (o & fo & ? & ? & ? & ? & ? & ? & Hk & _);
      exists o, fo; rewrite HoldX by done; repeat split; try done;
      by eapply shape_frame.
Qed.

(** [reconcileChildren] on a fiber [w] of the pass whose children are
    those of [K]. *)
Lemma reconcileChildren_forest (upd : bool) base fuel w wf K s :
  fibers s !! w = Some wf -> base <= w -> breadth K <= fuel ->
  (if upd then
     exists o fo, alternate wf = Some o /\ fibers s !! o = Some fo /\
                  shape base (fibers s) (child fo) K
   else alternate wf = None) ->
  exists X,
    reconcileChildren fuel w (VArr (describe K)) s = Ok (tt, with_fibers X s) /\
    length X = length (fibers s) + breadth K /\
    (forall l, l < length (fibers s) -> l <> w -> X !! l = fibers s !! l) /\
    X !! w = Some match K with
                  | NoMore => wf
                  | _ => set_child (Some (length (fibers s))) wf
                  end /\
    pending upd base X (length (fibers s)) w K.
Proof.
  intros Hw Hbase Hfuel Hold.
  assert (exists q,
    reconcileChildren fuel w (VArr (describe K)) s =
      reconcileLoop fuel w (describe K) 0 q None s /\
    (if upd then shape base (fibers s) q K else q = None)) as (q & -> & Hq).
  { unfold reconcileChildren.
    erewrite bind_ok; [|by apply readFiber_ok].
    destruct upd.
    - destruct Hold as (o & fo & -> & Hfo & Hk).
      exists (child fo). split; [|done].
      erewrite bind_assoc, bind_ok; [|by apply readFiber_ok].
      erewrite bind_ok; [|reflexivity].
      by erewrite bind_ok; [|reflexivity].
    - rewrite Hold. exists None. split; [|done].
      erewrite bind_ok; [|reflexivity].
      by erewrite bind_ok; [|reflexivity]. }
  eapply reconcileLoop_forest; try done. left. by repeat split.
Qed.

(** ** Frames *)

Lemma pending_frame (upd : bool) base X X' p F : forall a,
  (forall l, l < base \/ a <= l < a + breadth F -> X' !! l = X !! l) ->
  pending upd base X a p F -> pending upd base X' a p F.
Proof.
  induction F as [|tag attrs kids _ next IH]; intros a Hsame; [done|].
  simpl in Hsame.
  intros (f & Hf & Ht & Hp & Hpar & Hch & Hsib & Htag & Hmode & Hnext).
  exists f. rewrite Hsame by lia. repeat split; try done.
  - destruct upd; [|done].
    destruct Hmode as (o & fo & ? & ? & ? & ? & ? & ? & Hk).
    exists o, fo. rewrite Hsame by lia. repeat split; try done.
    eapply shape_frame; [|exact Hk]. intros l Hl. apply Hsame. lia.
  - apply IH; [|done]. intros l Hl. apply Hsame. lia.
Qed.

Lemma built_frame (upd : bool) old lo bound lo' bound' X X' F : forall q p,
  (forall l, l < old \/ lo <= l < bound -> X' !! l = X !! l) ->
  lo' <= lo -> bound <= bound' ->
  built upd old lo bound X q p F -> built upd old lo' bound' X' q p F.
Proof.
  induction F as [|tag attrs kids IHk next IHn]; intros q p Hsame Hlo Hb; [done|].
  intros (a & f & -> & Ha & Hf & Ht & Hp & Hd & Hpar & Htag & Hmode & Hk & Hn).
  exists a, f. rewrite Hsame by lia. repeat split; try done; try lia.
  - destruct upd; [|done].
    destruct Hmode as (o & fo & ps & ? & ? & ? & ?).
    exists o, fo, ps. rewrite Hsame by lia. done.
  - by apply IHk.
  - by apply IHn.
Qed.

Lemma built_shape (upd : bool) old lo bound X F : forall q p,
  built upd old lo bound X q p F -> shape bound X q F.
Proof.
  induction F as [|tag attrs kids IHk next IHn]; intros q p; [done|].
  intros (a & f & -> & Ha & Hf & Ht & Hp & Hd & Hpar & Htag & Hmode & Hk & Hn).
  exists a, f. repeat split; try done; try lia.
  - unfold nodeProps in Hp. by eexists.
  - by eapply IHk.
  - by eapply IHn.
Qed.

Lemma climbs_frame bound bound' X X' q up k :
  (forall l, l < bound -> X' !! l = X !! l) -> bound <= bound' ->
  climbs bound X q up k -> climbs bound' X' q up k.
Proof.
  intros Hsame Hb. induction 1 as [k|l f sb k Hl Hf Hs|l f up k Hl Hf Hs _ IH].
  - constructor.
  - eapply climbs_sibling; [lia| |done]. by rewrite Hsame.
  - eapply climbs_parent; [lia| |done|done]. by rewrite Hsame.
Qed.

Lemma nextOf_climbs bound s q up k :
  climbs bound (fibers s) q up k ->
  forall fuel, k <= fuel -> nextOf fuel q s = Ok (up, s).
Proof.
  induction 1 as [k|l f sb k Hl Hf Hs|l f up k Hl Hf Hs _ IH]; intros fuel Hk.
  - by destruct fuel.
  - destruct fuel as [|fuel]; [lia|]. cbn [nextOf].
    erewrite bind_ok; [|by apply readFiber_ok]. by rewrite Hs.
  - destruct fuel as [|fuel]; [lia|]. cbn [nextOf].
    erewrite bind_ok; [|by apply readFiber_ok]. rewrite Hs. apply IH. lia.
Qed.

(** ** One unit of work on a pending host fiber *)

Lemma createDom_host f tag ps s :
  type f = VStr tag -> props f = VObj ps ->
  exists lg,
    createDom f s =
      Ok (nextNode s, with_backend (S (nextNode s)) (log s ++ lg) s).
Proof.
  intros Ht Hp. unfold createDom. rewrite Ht, Hp.
  erewrite bind_ok; [|reflexivity].
  erewrite bind_ok; [|reflexivity].
  erewrite bind_ok; [|reflexivity].
  erewrite bind_ok; [|reflexivity].
  erewrite bind_ok; [|reflexivity].
  eexists. cbn. by rewrite <- app_assoc.
Qed.

Lemma unit_pending C (upd : bool) base fuel s a p tag attrs kids next up k :
  pending upd base (fibers s) a p (Host tag attrs kids next) ->
  base <= a ->
  climbs a (fibers s) (Some p) up k ->
  breadth kids <= fuel -> S k < fuel ->
  exists X n lg fa,
    performUnitOfWork C fuel a s =
      Ok (entry kids (length (fibers s)) (entry next (S a) up),
          with_backend n lg (with_fibers X s)) /\
    length X = length (fibers s) + breadth kids /\
    (forall l, l < length (fibers s) -> l <> a -> X !! l = fibers s !! l) /\
    X !! a = Some fa /\
    type fa = VStr tag /\ props fa = nodeProps attrs kids /\
    is_Some (dom fa) /\ parent fa = Some p /\
    child fa = first kids (length (fibers s)) /\
    sibling fa = match next with NoMore => None | _ => Some (S a) end /\
    effectTag fa = Some (tagOf upd) /\
    (if upd then
       exists o fo ps,
         alternate fa = Some o /\ o < base /\ X !! o = Some fo /\
         props fo = VObj ps
     else True) /\
    pending upd base X (length (fibers s)) a kids /\
    (upd = true -> n = nextNode s /\ lg = log s).
Proof.
  intros (f & Hf & Ht & Hp & Hpar & Hch & Hsib & Htag & Hmode & _) Hbase Hup
    Hfuel Hk.
  assert (Ha : a < length (fibers s)) by (by eapply lookup_lt_Some).
  (* the backend node *)
  assert (exists n lg f0,
    (match dom f with
     | None => d <- createDom f ;; updateFiber a (set_dom (Some d))
     | Some _ => ret tt
     end) s =
      Ok (tt, with_backend n lg (with_fibers (<[a := f0]> (fibers s)) s)) /\
    type f0 = type f /\ props f0 = props f /\ parent f0 = parent f /\
    child f0 = child f /\ sibling f0 = sibling f /\
    alternate f0 = alternate f /\ effectTag f0 = effectTag f /\
    is_Some (dom f0) /\ (upd = true -> n = nextNode s /\ lg = log s))
    as (n & lg & f0 & Hdom & Ht0 & Hp0 & Hpar0 & Hch0 & Hsib0 & Halt0 & Htag0
        & Hd0 & Hback).
  { destruct upd.
    - destruct Hmode as (o & fo & _ & _ & _ & Hd & [d Hdo] & _).
      exists (nextNode s), (log s), f. rewrite Hd, Hdo.
      split; [rewrite list_insert_id by done; by destruct s|].
      repeat split; done.
    - destruct Hmode as (_ & Hd). rewrite Hd.
      destruct (createDom_host f tag _ s Ht Hp) as [lg' Hc].
      exists (S (nextNode s)), (log s ++ lg'), (set_dom (Some (nextNode s)) f).
      split; [erewrite bind_ok; [|exact Hc]; by erewrite updateFiber_ok|].
      repeat split; done. }
  set (s0 := with_backend n lg (with_fibers (<[a := f0]> (fibers s)) s)).
  assert (Hf0 : fibers s0 !! a = Some f0).
  { subst s0. cbn. by apply list_lookup_insert_eq. }
  assert (Hsame0 : forall l, l <> a -> fibers s0 !! l = fibers s !! l).
  { intros l Hl. subst s0. cbn. by apply list_lookup_insert_ne. }
  assert (Hlen0 : length (fibers s0) = length (fibers s)).
  { subst s0. cbn. by rewrite length_insert. }
  (* the children *)
  destruct (reconcileChildren_forest upd base fuel a f0 kids s0 Hf0 Hbase Hfuel)
    as (X & Hrec & HlenX & HsameX & HXa & Hpend).
  { destruct upd; [|by rewrite Halt0; destruct Hmode].
    destruct Hmode as (o & fo & Halt & Ho & Hfo & _ & _ & _ & Hk').
    exists o, fo. rewrite Halt0, Hsame0 by lia. repeat split; try done.
    eapply shape_frame; [|exact Hk']. intros l Hl. apply Hsame0. lia. }
  rewrite Hlen0 in HlenX, HsameX, HXa, Hpend.
  set (fa := match kids with
             | NoMore => f0
             | _ => set_child (Some (length (fibers s))) f0
             end) in *.
  assert (Hfa : type fa = type f0 /\ props fa = props f0 /\ dom fa = dom f0 /\
                parent fa = parent f0 /\ sibling fa = sibling f0 /\
                alternate fa = alternate f0 /\ effectTag fa = effectTag f0 /\
                child fa = first kids (length (fibers s))).
  { subst fa. destruct kids; cbn; repeat split; try done.
    by rewrite Hch0. }
  destruct Hfa as (Hta & Hpa & Hda & Hpara & Hsiba & Halta & Htaga & Hcha).
  exists X, n, lg, fa.
  split.
  { unfold performUnitOfWork.
    erewrite bind_ok; [|by apply readFiber_ok]. rewrite Ht.
    unfold updateHostComponent.
    erewrite bind_assoc, bind_ok; [|by apply readFiber_ok].
    erewrite bind_assoc, bind_ok; [|exact Hdom].
    fold s0.
    erewrite bind_assoc, bind_ok; [|by apply readFiber_ok].
    rewrite Hp0, Hp.
    erewrite bind_assoc, bind_ok; [|by apply children_nodeProps].
    erewrite bind_ok; [|exact Hrec].
    erewrite bind_ok; [|by apply readFiber_ok].
    rewrite Hcha.
    destruct kids; [|reflexivity]. cbn [first entry].
    erewrite (nextOf_climbs (length X) _ _ (entry next (S a) up) (S k));
      [reflexivity| |lia].
    cbn [fibers with_fibers].
    destruct next.
    - eapply climbs_parent; [lia|exact HXa|by rewrite Hsiba, Hsib0, Hsib|].
      rewrite Hpara, Hpar0, Hpar.
      eapply climbs_frame; [| |exact Hup]; [|lia].
      intros l Hl. rewrite HsameX by lia. apply Hsame0. lia.
    - eapply climbs_sibling; [lia|exact HXa|].
      by rewrite Hsiba, Hsib0, Hsib. }
  split; [done|].
  split; [intros l Hl Hne; rewrite HsameX by done; by apply Hsame0|].
  split; [done|].
  rewrite Hta, Hpa, Hda, Hpara, Hsiba, Htaga, Halta.
  rewrite Ht0, Hp0, Hpar0, Hsib0, Htag0, Halt0.
  repeat (split; [done|]).
  split; [|by split].
  destruct upd; [|done].
  destruct Hmode as (o & fo & Halt & Ho & Hfo & _ & _ & [ps Hps] & _).
  exists o, fo, ps. rewrite HsameX, Hsame0 by lia. done.
Qed.

(** ** A pass over a forest of host descriptions *)

Lemma workUnits_unit C fuel units calls s a next s1 :
  nextUnitOfWork s = Some a ->
  performUnitOfWork C fuel a s = Ok (next, s1) ->
  workUnits C fuel (S units) unhurried calls false s =
  workUnits C fuel units unhurried (S calls) false (with_nextUnitOfWork next s1).
Proof.
  intros Hn Hunit. cbn [workUnits].
  erewrite bind_ok; [|reflexivity]. rewrite Hn.
  erewrite bind_ok; [|exact Hunit].
  by erewrite bind_ok; [|reflexivity].
Qed.

Lemma with_same s :
  with_nextUnitOfWork (nextUnitOfWork s)
    (with_backend (nextNode s) (log s) (with_fibers (fibers s) s)) = s.
Proof. by destruct s. Qed.

Lemma pending_bound (upd : bool) base X p F : forall a,
  a <= length X -> pending upd base X a p F -> a + breadth F <= length X.
Proof.
  induction F as [|tag attrs kids _ next IH]; intros a Ha; simpl; [lia|].
  intros (f & Hf%lookup_lt_Some & H). repeat destruct H as [_ H].
  apply IH in H; lia.
Qed.

(** From a store in which the fibers of [F] are pending at [a] and are
    the next to be worked on, [nodes F] units of work build the whole
    forest and leave the loop at [up]; they touch no fiber made before
    the pending ones, and every fiber they make has the tag of the
    pending ones. *)
Lemma forest_pass C (upd : bool) base fuel F : forall s a p up k,
  pending upd base (fibers s) a p F ->
  base <= a ->
  climbs a (fibers s) (Some p) up k ->
  nodes F + S k < fuel ->
  nextUnitOfWork s = entry F a up ->
  exists X n lg,
    (forall units calls,
       workUnits C fuel (nodes F + units) unhurried calls false s =
       workUnits C fuel units unhurried (calls + nodes F) false
         (with_nextUnitOfWork up (with_backend n lg (with_fibers X s)))) /\
    length (fibers s) <= length X /\
    (forall l, l < length (fibers s) -> ~ (a <= l < a + breadth F) ->
               X !! l = fibers s !! l) /\
    built upd base a (length X) X (first F a) p F /\
    (forall l f, a <= l < a + breadth F \/ length (fibers s) <= l ->
                 X !! l = Some f -> effectTag f = Some (tagOf upd)) /\
    (upd = true -> n = nextNode s /\ lg = log s).
Proof.
  induction F as [|tag attrs kids IHk next IHn];
    intros s a p up k Hpend Hbase Hup Hfuel Hentry.
  - exists (fibers s), (nextNode s), (log s).
    cbn [entry] in Hentry. rewrite <- Hentry, with_same.
    split; [intros units calls; simpl; by rewrite Nat.add_0_r|].
    repeat split; try done.
    intros l f [Hl|Hl] Hf; [simpl in Hl; lia|].
    apply lookup_lt_Some in Hf. lia.
  - cbn [nodes] in Hfuel. cbn [entry] in Hentry.
    assert (breadth kids <= nodes kids) as Hbk.
    { clear. induction kids; simpl; lia. }
    set (L := length (fibers s)).
    assert (Ha : a < L).
    { destruct Hpend as (f & Hf & _). by eapply lookup_lt_Some. }
    (* the unit for the first fiber *)
    destruct (unit_pending C upd base fuel s a p tag attrs kids next up k)
      as (X1 & n1 & lg1 & fa & Hunit & Hlen1 & Hsame1 & HX1a & Hta & Hpa & Hda
          & Hpara & Hcha & Hsiba & Htaga & Halta & Hpend1 & Hback1);
      try done; try lia.
    fold L in Hunit, Hlen1, Hsame1, Hcha, Hpend1.
    set (up1 := entry next (S a) up) in *.
    set (s1 := with_nextUnitOfWork (entry kids L up1)
                 (with_backend n1 lg1 (with_fibers X1 s))).
    (* its children *)
    destruct (IHk s1 L a up1 (S k)) as (X2 & n2 & lg2 & Hrun2 & Hlen2 & Hsame2
                                        & Hbuilt2 & Htags2 & Hback2);
      try done; try lia.
    { destruct next; subst up1; cbn [entry].
      - eapply climbs_parent; [lia|exact HX1a|done|]. rewrite Hpara.
        eapply climbs_frame; [| |exact Hup]; [|lia].
        intros l Hl. apply Hsame1; lia.
      - by eapply climbs_sibling; [lia|exact HX1a|]. }
    cbn [fibers with_fibers with_backend with_nextUnitOfWork s1] in Hlen2, Hsame2,
      Htags2.
    rewrite Hlen1 in Hlen2, Hsame2, Htags2.
    set (s2 := with_nextUnitOfWork up1 (with_backend n2 lg2 (with_fibers X2 s1)))
      in *.
    assert (Hsame12 : forall l, l < L -> l <> a -> X2 !! l = fibers s !! l).
    { intros l Hl Hne. rewrite Hsame2 by lia. by apply Hsame1. }
    assert (HX2a : X2 !! a = Some fa) by (by rewrite Hsame2 by lia).
    (* its siblings *)
    destruct Hpend as (f & _ & _ & _ & _ & _ & _ & _ & _ & Hpendn).
    assert (Hchain : S a + breadth next <= L).
    { apply pending_bound in Hpendn; [fold L in Hpendn|fold L]; lia. }
    destruct (IHn s2 (S a) p up k) as (X3 & n3 & lg3 & Hrun3 & Hlen3 & Hsame3
                                       & Hbuilt3 & Htags3 & Hback3);
      try done; try lia.
    { eapply pending_frame; [|exact Hpendn].
      intros l Hl. apply Hsame12; [|lia].
      lia. }
    { eapply climbs_frame; [| |exact Hup]; [|lia].
      intros l Hl. apply Hsame12; lia. }
    cbn [fibers with_fibers with_backend with_nextUnitOfWork s2] in Hlen3, Hsame3,
      Htags3.
    assert (HX3a : X3 !! a = Some fa).
    { rewrite Hsame3; [done|by apply lookup_lt_Some in HX2a|lia]. }
    exists X3, n3, lg3.
    split.
    { intros units calls. cbn [nodes].
      replace (S (nodes kids + nodes next) + units)
        with (S (nodes kids + (nodes next + units))) by lia.
      rewrite (workUnits_unit _ _ _ _ _ _ _ _ Hentry Hunit).
      fold s1. rewrite Hrun2. fold s2. rewrite Hrun3.
      replace (S calls + nodes kids + nodes next)
        with (calls + S (nodes kids + nodes next)) by lia.
      reflexivity. }
    split; [fold L; lia|].
    split.
    { intros l Hl Hout. cbn [breadth] in Hout. fold L in Hl.
      rewrite Hsame3 by lia. apply Hsame12; lia. }
    split.
    { cbn [first built]. exists a, fa.
      assert (a < length X3) by (by eapply lookup_lt_Some).
      repeat (split; [done || lia|]).
      split.
      { destruct upd; [|done]. destruct Halta as (o & fo & ps & ? & ? & Ho & ?).
        exists o, fo, ps. rewrite Hsame3, Hsame2 by lia. done. }
      split.
      - rewrite Hcha. eapply built_frame; [| | |exact Hbuilt2]; [|lia..].
        intros l Hl. apply Hsame3; lia.
      - rewrite Hsiba.
        replace (match next with NoMore => None | _ => Some (S a) end)
          with (first next (S a)) by (by destruct next).
        eapply built_frame; [| | |exact Hbuilt3]; [done|lia..]. }
    split.
    { intros l g Hl Hg. cbn [breadth] in Hl. fold L in Hl.
      destruct (decide (l = a)) as [Heq|Hne].
      { rewrite Heq, HX3a in Hg. by injection Hg as <-. }
      destruct (decide (S a <= l < S a + breadth next \/ length X2 <= l))
        as [Hin|Hout]; [by eapply Htags3|].
      rewrite Hsame3 in Hg by lia. eapply Htags2; [|exact Hg]. lia. }
    intros Hupd.
    destruct (Hback1 Hupd) as [-> ->], (Hback2 Hupd) as [-> ->],
      (Hback3 Hupd) as [-> ->]. done.
Qed.

(** ** Committing a built forest *)

Lemma domParentOf_anchored s p d k :
  anchored (fibers s) p d k ->
  forall fuel, k <= fuel -> domParentOf fuel (Some p) s = Ok (d, s).
Proof.
  induction 1 as [p f d k Hf Hd|p f p' d k Hf Hd Hp _ IH]; intros fuel Hk;
    (destruct fuel as [|fuel]; [lia|]); cbn [domParentOf deref].
  - erewrite bind_ok; [|reflexivity].
    erewrite bind_ok; [|by apply readFiber_ok]. by rewrite Hd.
  - erewrite bind_ok; [|reflexivity].
    erewrite bind_ok; [|by apply readFiber_ok]. rewrite Hd, Hp.
    apply IH. lia.
Qed.

Lemma commitWork_built (upd : bool) old lo bound X F :
  forall q p d k fuel s,
  fibers s = X ->
  built upd old lo bound X q p F ->
  anchored X p d k -> 0 < k -> nodes F + k <= fuel ->
  exists lg,
    commitWork fuel q s = Ok (tt, with_backend (nextNode s) (log s ++ lg) s) /\
    Forall (if upd then updates else attaches) lg.
Proof.
  induction F as [|tag attrs kids IHk next IHn];
    intros q p d k fuel s HX Hbuilt Hanch Hk Hfuel.
  - cbn in Hbuilt. subst q. exists [].
    split; [|done]. destruct fuel; cbn; by rewrite app_nil_r; destruct s.
  - destruct Hbuilt as (a & f & -> & Ha & Hf & Ht & Hp & [da Hda] & Hpar & Htag
                        & Hmode & Hkids & Hnext).
    cbn [nodes] in Hfuel. destruct fuel as [|fuel]; [lia|].
    cbn [commitWork].
    erewrite bind_ok; [|by apply readFiber_ok; rewrite HX].
    rewrite Hpar.
    erewrite bind_ok;
      [|eapply (domParentOf_anchored _ _ d k); [by rewrite HX|lia]].
    rewrite Htag, Hda.
    assert (exists e,
      (match tagOf upd with
       | PLACEMENT => emit (AppendChild d da)
       | UPDATE =>
           a0 <- deref (alternate f) ;;
           old0 <- readFiber a0 ;; updateDom da (props old0) (props f)
       | DELETION => commitDeletion (S fuel) (Some a) d
       end) s = Ok (tt, with_backend (nextNode s) (log s ++ [e]) s) /\
      (if upd then updates else attaches) e) as (e & Hop & He).
    { destruct upd; cbn [tagOf].
      - destruct Hmode as (o & fo & ps & -> & _ & Hfo & Hps).
        cbn [deref]. erewrite bind_ok; [|reflexivity].
        erewrite bind_ok; [|by apply readFiber_ok; rewrite HX].
        rewrite Hps, Hp. by eexists.
      - by eexists. }
    erewrite bind_ok; [|exact Hop].
    set (s1 := with_backend (nextNode s) (log s ++ [e]) s).
    destruct (IHk (child f) a da 1 fuel s1) as (lg1 & Hrun1 & Hlg1);
      try done; try lia.
    { by eapply anchored_here. }
    erewrite bind_ok; [|exact Hrun1].
    set (s2 := with_backend (nextNode s1) (log s1 ++ lg1) s1).
    destruct (IHn (sibling f) p d k fuel s2) as (lg2 & Hrun2 & Hlg2);
      try done; try lia.
    rewrite Hrun2. exists (e :: lg1 ++ lg2).
    split.
    + cbn. by rewrite <- !app_assoc.
    + constructor; [done|]. by apply Forall_app.
Qed.

(** ** A whole pass over a tree of host descriptions *)

Lemma workUnits_idle C fuel units calls yield s :
  nextUnitOfWork s = None ->
  workUnits C fuel units unhurried calls yield s = Ok (tt, s).
Proof.
  intros Hn. destruct units; cbn [workUnits];
    (erewrite bind_ok; [|reflexivity]); by rewrite Hn.
Qed.

(** The units of work of a pass, from its root [r], the newest fiber,
    when the children of the root are the descriptions of [F]. *)
Lemma host_pass C (upd : bool) fuel units s r fr F :
  nextUnitOfWork s = Some r ->
  fibers s !! r = Some fr -> S r = length (fibers s) ->
  type fr = VUndefined -> is_Some (dom fr) ->
  props fr = VObj [("children", VArr (describe F))] ->
  parent fr = None -> sibling fr = None -> child fr = None ->
  (if upd then
     exists o fo, alternate fr = Some o /\ fibers s !! o = Some fo /\
                  shape r (fibers s) (child fo) F
   else alternate fr = None) ->
  nodes F + 2 < fuel -> nodes F < units ->
  exists X n lg,
    workUnits C fuel units unhurried 0 false s =
      Ok (tt, with_nextUnitOfWork None (with_backend n lg (with_fibers X s))) /\
    length (fibers s) <= length X /\
    (forall l, l < r -> X !! l = fibers s !! l) /\
    X !! r = Some (set_child (first F (S r)) fr) /\
    built upd r (S r) (length X) X (first F (S r)) r F /\
    (forall l f, r < l -> X !! l = Some f -> effectTag f = Some (tagOf upd)) /\
    (upd = true -> n = nextNode s /\ lg = log s).
Proof.
  intros Hnext Hfr Hlen Ht [d Hd] Hp Hpar Hsib Hch Hold Hfuel Hunits.
  assert (breadth F <= nodes F) as Hb by (clear; induction F; simpl; lia).
  destruct (reconcileChildren_forest upd r fuel r fr F s)
    as (X1 & Hrec & Hlen1 & Hsame1 & HX1r & Hpend1); try done; try lia.
  rewrite <- Hlen in Hlen1, Hsame1, HX1r, Hpend1.
  assert (HX1r' : X1 !! r = Some (set_child (first F (S r)) fr)).
  { rewrite HX1r. destruct F; [|done]. cbn. rewrite <- Hch. by destruct fr. }
  clear HX1r.
  assert (Hclimb : climbs (S r) X1 (Some r) None 1).
  { eapply climbs_parent; [lia|exact HX1r'|done|]. cbn. rewrite Hpar.
    constructor. }
  assert (Hunit :
    performUnitOfWork C fuel r s = Ok (entry F (S r) None, with_fibers X1 s)).
  { unfold performUnitOfWork.
    erewrite bind_ok; [|by apply readFiber_ok]. rewrite Ht.
    unfold updateHostComponent.
    erewrite bind_assoc, bind_ok; [|by apply readFiber_ok]. rewrite Hd.
    erewrite bind_assoc, bind_ok; [|reflexivity].
    erewrite bind_assoc, bind_ok; [|by apply readFiber_ok]. rewrite Hp.
    erewrite bind_assoc, bind_ok; [|reflexivity].
    erewrite bind_ok; [|exact Hrec].
    erewrite bind_ok; [|by apply readFiber_ok].
    cbn [child set_child]. destruct F; [|reflexivity]. cbn [first entry].
    erewrite (nextOf_climbs (S r) (with_fibers X1 s) _ _ _ Hclimb); [done|lia]. }
  set (s1 := with_nextUnitOfWork (entry F (S r) None) (with_fibers X1 s)).
  destruct (forest_pass C upd r fuel F s1 (S r) r None 1)
    as (X & n & lg & Hrun & HlenX & HsameX & Hbuilt & Htags & Hback);
    try done; try lia.
  cbn [fibers with_fibers with_nextUnitOfWork s1] in HlenX, HsameX, Htags.
  exists X, n, lg.
  split.
  { destruct units as [|units]; [lia|].
    rewrite (workUnits_unit _ _ _ _ _ _ _ _ Hnext Hunit). fold s1.
    replace units with (nodes F + (units - nodes F)) by lia.
    rewrite Hrun. by rewrite workUnits_idle. }
  split; [lia|].
  split; [intros l Hl; rewrite HsameX by lia; apply Hsame1; lia|].
  split; [rewrite HsameX by lia; done|].
  split; [done|].
  split; [|done].
  intros l f Hl Hf. eapply Htags; [|exact Hf].
  destruct (decide (l < S r + breadth F)); [left|right]; lia.
Qed.

(** ** Rendering a tree of host descriptions *)

(** The render phase of a pass started by [render]: on a store without
    a current root every fiber is placed; on a store whose committed
    tree has the kinds of the description, every fiber is an update and
    nothing else changes. *)
Lemma render_units C (upd : bool) fuel units s tag attrs kids c :
  (if upd then committedAs s (tree tag attrs kids) else currentRoot s = None) ->
  nodes (tree tag attrs kids) + 2 < fuel -> nodes (tree tag attrs kids) < units ->
  let r := length (fibers s) in
  exists X n lg fr,
    (render (treeElement tag attrs kids) (Some c) ;;
     workUnits C fuel units unhurried 0 false) s =
      Ok (tt, with_nextUnitOfWork None
                (with_backend n lg
                   (with_fibers X
                      (with_deletions (Some [])
                         (with_wipRoot (Some r) s))))) /\
    r < length X /\
    (forall l, l < r -> X !! l = fibers s !! l) /\
    X !! r = Some fr /\ effectTag fr = None /\ dom fr = Some c /\
    child fr = Some (S r) /\ alternate fr = currentRoot s /\
    built upd r (S r) (length X) X (Some (S r)) r (tree tag attrs kids) /\
    (forall l f, r < l -> X !! l = Some f -> effectTag f = Some (tagOf upd)) /\
    (upd = true -> n = nextNode s /\ lg = log s).
Proof.
  intros Hmode Hfuel Hunits r.
  set (fr := rootFiber (Some c)
               (VObj [("children", VArr [treeElement tag attrs kids])])
               (currentRoot s)).
  set (s0 := with_nextUnitOfWork (Some r)
               (with_deletions (Some [])
                  (with_wipRoot (Some r) (with_fibers (fibers s ++ [fr]) s)))).
  assert (Hrender : render (treeElement tag attrs kids) (Some c) s = Ok (tt, s0))
    by done.
  assert (Hfr : fibers s0 !! r = Some fr).
  { subst s0 r. cbn. by rewrite lookup_app_r, Nat.sub_diag. }
  assert (Hlen : S r = length (fibers s0)).
  { subst s0 r. cbn. rewrite length_app. simpl. lia. }
  destruct (host_pass C upd fuel units s0 r fr (tree tag attrs kids))
    as (X & n & lg & Hrun & HlenX & HsameX & HXr & Hbuilt & Htags & Hback);
    try done.
  { destruct upd; [|exact Hmode].
    destruct Hmode as (ro & fo & Hcur & Hfo & Hshape).
    exists ro, fo. subst fr. cbn [alternate rootFiber].
    split; [done|]. subst s0.
    cbn [fibers with_nextUnitOfWork with_deletions with_wipRoot with_fibers].
    split; [by apply lookup_app_l_Some|].
    eapply shape_frame; [|exact Hshape].
    intros l Hl. by rewrite lookup_app_l. }
  exists X, n, lg, (set_child (Some (S r)) fr).
  split.
  { erewrite bind_ok; [|exact Hrender]. exact Hrun. }
  split; [lia|].
  split.
  { intros l Hl. rewrite HsameX by done. subst s0 r. cbn.
    by rewrite lookup_app_l. }
  repeat (split; [done|]). done.
Qed.

(** A whole pass started by [render] on a tree of host descriptions,
    commit included: it completes, and the tree it commits has the
    kinds of the description. *)
Lemma render_commit C (upd : bool) fuel s tag attrs kids c :
  (if upd then committedAs s (tree tag attrs kids) else currentRoot s = None) ->
  nodes (tree tag attrs kids) + 2 < fuel ->
  exists s',
    exec (render (treeElement tag attrs kids) (Some c) ;;
          workLoop C fuel unhurried) s = Ok s' /\
    committedAs s' (tree tag attrs kids).
Proof.
  intros Hmode Hfuel.
  destruct (render_units C upd fuel fuel s tag attrs kids c)
    as (X & n & lg & fr & Hrun & HlenX & HsameX & HXr & Htag & Hdom & Hch & Halt
        & Hbuilt & Htags & Hback); try done; try lia.
  set (r := length (fibers s)) in *.
  set (s1 := with_nextUnitOfWork None
               (with_backend n lg
                  (with_fibers X
                     (with_deletions (Some []) (with_wipRoot (Some r) s))))) in *.
  destruct (commitWork_built upd r (S r) (length X) X (tree tag attrs kids)
              (Some (S r)) r c 1 fuel s1) as (lg' & Hcommit & _);
    try done; try lia.
  { by eapply anchored_here. }
  eexists. split.
  - unfold exec, workLoop.
    rewrite <- (bind_assoc (render _ _) (fun _ => workUnits _ _ _ _ _ _)).
    erewrite bind_ok; [|exact Hrun].
    erewrite bind_ok; [|reflexivity].
    erewrite bind_ok; [|reflexivity].
    cbn [nextUnitOfWork wipRoot s1 with_nextUnitOfWork with_backend with_fibers
         with_deletions with_wipRoot].
    unfold commitRoot.
    erewrite bind_ok; [|reflexivity].
    cbn [deletions s1 with_nextUnitOfWork with_backend with_fibers
         with_deletions with_wipRoot forEach].
    erewrite bind_ok; [|reflexivity].
    erewrite bind_ok; [|reflexivity].
    erewrite bind_ok; [|reflexivity].
    erewrite bind_ok; [|by apply readFiber_ok].
    rewrite Hch.
    erewrite bind_ok; [|exact Hcommit].
    erewrite bind_ok; [|reflexivity].
    reflexivity.
  - exists r, fr.
    cbn [currentRoot fibers with_wipRoot with_currentRoot with_backend s1
         with_nextUnitOfWork with_fibers with_deletions].
    split; [done|]. split; [done|].
    rewrite Hch. by eapply built_shape.
Qed.

Lemma rendered_committed C fuel tag attrs kids c k :
  nodes (tree tag attrs kids) + 2 < fuel ->
  exists s,
    rendered C fuel (treeElement tag attrs kids) c (S k) = Ok s /\
    committedAs s (tree tag attrs kids).
Proof.
  intros Hfuel. induction k as [|k (s & Hs & Hcommitted)].
  - apply (render_commit C false); done.
  - change (rendered C fuel (treeElement tag attrs kids) c (S (S k)))
      with (andThen (rendered C fuel (treeElement tag attrs kids) c (S k))
              (exec (render (treeElement tag attrs kids) (Some c) ;;
                     workLoop C fuel unhurried))).
    rewrite Hs. by apply (render_commit C true).
Qed.




(** ** The counter *)

Lemma commitWork_unfold fuel l :
  commitWork (S fuel) (Some l) =
  (f <- readFiber l ;;
   domParent <- domParentOf (S fuel) (parent f) ;;
   match effectTag f, dom f with
   | Some PLACEMENT, Some d => emit (AppendChild domParent d)
   | Some UPDATE, Some d =>
       a <- deref (alternate f) ;;
       old <- readFiber a ;;
       updateDom d (props old) (props f)
   | Some DELETION, _ => commitDeletion (S fuel) (Some l) domParent
   | _, _ => ret tt
   end ;;
   commitWork fuel (child f) ;;
   commitWork fuel (sibling f)).
Proof. reflexivity. Qed.

Ltac fields :=
  cbn [fibers cells nextUnitOfWork currentRoot wipRoot deletions wipFiber
       hookIndex nextNode log with_fibers with_cells with_nextUnitOfWork
       with_currentRoot with_wipRoot with_deletions with_wipFiber
       with_hookIndex with_backend].

Ltac by_evaluation :=
  repeat match goal with
         | |- exists _, _ => eexists
         | |- is_Some _ => eexists
         | |- _ /\ _ => split
         | |- _ = _ => reflexivity
         | |- _ < _ => cbn; lia
         end.

Lemma counting_mounted start :
  exists s, mounted (VNum start) = Ok s /\ counting (VNum start) s.
Proof.
  eexists. split; [vm_compute; reflexivity|].
  unfold counting. eexists 0, _, 1, _, 0, 0, (VNum start).
  cbn [currentRoot fibers cells counterForest tree shape].
  by_evaluation.
Qed.

(** ** The order of a commit *)

Lemma commitDeletion_inv fuel : forall l dp s u s',
  commitDeletion fuel (Some l) dp s = Ok (u, s') ->
  exists d k, hosted (fibers s) l d k /\ emits s s' [RemoveChild dp d].
Proof.
  induction fuel as [|fuel IH]; intros l dp s u s' H; [done|].
  cbn [commitDeletion] in H.
  apply bind_inv in H as (l' & s0 & [[= <-] ->]%deref_inv & H).
  apply bind_inv in H as (f & s1 & [-> Hf]%readFiber_inv & H).
  destruct (dom f) as [d|] eqn:Hd.
  - exists d, 1. split; [by eapply hosted_here|by eapply emit_emits].
  - destruct (child f) as [c|] eqn:Hc.
    + apply IH in H as (d & k & Hh & He).
      exists d, (S k). split; [by eapply hosted_below|done].
    + destruct fuel; done.
Qed.

Lemma domParentOf_inv fuel : forall q s d s',
  domParentOf fuel q s = Ok (d, s') ->
  s' = s /\ exists p k, q = Some p /\ anchored (fibers s) p d k.
Proof.
  induction fuel as [|fuel IH]; intros q s d s' H; [done|].
  cbn [domParentOf] in H.
  apply bind_inv in H as (l & s1 & [-> ->]%deref_inv & H).
  apply bind_inv in H as (f & s2 & [-> Hf]%readFiber_inv & H).
  destruct (dom f) as [n|] eqn:Hd.
  - injection H as <- <-. split; [done|].
    exists l, 1. split; [done|]. by eapply anchored_here.
  - apply IH in H as (-> & p & k & Hp & Ha). split; [done|].
    exists l, (S k). split; [done|]. by eapply anchored_above.
Qed.

(** Committing a fiber tagged [DELETION] starts by removing its node. *)
Lemma commitWork_deleted fuel l f s u s' :
  commitWork fuel (Some l) s = Ok (u, s') ->
  fibers s !! l = Some f -> effectTag f = Some DELETION ->
  exists dp d k later,
    hosted (fibers s) l d k /\ domParentIs (fibers s) f dp /\
    emits s s' (RemoveChild dp d :: later).
Proof.
  intros H Hf Htag. destruct fuel as [|fuel]; [done|].
  rewrite commitWork_unfold in H.
  apply bind_inv in H as (f' & s1 & [-> Hf']%readFiber_inv & H).
  rewrite Hf in Hf'. injection Hf' as <-.
  apply bind_inv in H as (dp & s2 & (-> & p & k' & Hp & Ha)%domParentOf_inv & H).
  rewrite Htag in H.
  apply bind_inv in H as ([] & s3 & Hop & H).
  apply commitDeletion_inv in Hop as (d & k & Hh & He).
  apply bind_inv in H as ([] & s4 & Hchild & Hsib).
  apply commitWork_emits in Hchild as [l2 H2].
  apply commitWork_emits in Hsib as [l3 H3].
  exists dp, d, k, (l2 ++ l3). split; [done|]. split; [by exists p, k'|].
  change (RemoveChild dp d :: l2 ++ l3) with ([RemoveChild dp d] ++ l2 ++ l3).
  eapply emits_trans; [exact He|]. by eapply emits_trans.
Qed.

Lemma commitDeletions_removes fuel ds : forall s u s',
  commitDeletions fuel ds s = Ok (u, s') ->
  Forall (fun l => exists f, fibers s !! l = Some f /\
                             effectTag f = Some DELETION) ds ->
  exists removed,
    emits s s' removed /\
    forall l f, In l ds -> fibers s !! l = Some f ->
      exists dp d k,
        hosted (fibers s) l d k /\ domParentIs (fibers s) f dp /\
        In (RemoveChild dp d) removed.
Proof.
  induction ds as [|l0 ds IH]; intros s u s' H Hall.
  - injection H as <- <-. exists []. split; [apply emits_refl|]. by intros.
  - cbn [commitDeletions forEach] in H.
    apply bind_inv in H as ([] & s1 & H1 & H).
    apply Forall_cons in Hall as [(f0 & Hf0 & Htag0) Hall].
    destruct (commitWork_deleted _ _ _ _ _ _ H1 Hf0 Htag0)
      as (dp & d & k & later & Hh & Hdp & He).
    destruct (IH s1 u s' H) as (removed & Hrem & Hin).
    { by rewrite (emits_fibers _ _ _ He). }
    rewrite (emits_fibers _ _ _ He) in Hin.
    exists ((RemoveChild dp d :: later) ++ removed).
    split; [by eapply emits_trans|].
    intros l f [<-|Hl] Hf.
    + rewrite Hf0 in Hf. injection Hf as <-.
      exists dp, d, k. split; [done|]. split; [done|]. by left.
    + destruct (Hin l f Hl Hf) as (dp' & d' & k' & ? & ? & ?).
      exists dp', d', k'. split; [done|]. split; [done|].
      apply in_or_app. by right.
Qed.

(** Committing a tree in which no fiber is tagged [DELETION] only
    attaches and updates nodes, and does so for every fiber of the tree
    that is tagged and owns a node. *)
Lemma commitWork_tree fuel : forall q s u s',
  commitWork fuel q s = Ok (u, s') ->
  unremoved fuel (fibers s) q = true ->
  exists calls,
    emits s s' calls /\
    Forall (fun e => attaches e \/ updates e) calls /\
    forall l f d, reach (fibers s) q l -> fibers s !! l = Some f ->
      dom f = Some d ->
      (effectTag f = Some PLACEMENT ->
         exists dp, domParentIs (fibers s) f dp /\ In (AppendChild dp d) calls) /\
      (effectTag f = Some UPDATE ->
         exists o fo, alternate f = Some o /\ fibers s !! o = Some fo /\
                      In (UpdateDom d (props fo) (props f)) calls).
Proof.
  assert (Hnone : forall fuel0 s u s',
    commitWork fuel0 None s = Ok (u, s') ->
    exists calls,
      emits s s' calls /\
      Forall (fun e => attaches e \/ updates e) calls /\
      forall l f d, reach (fibers s) None l -> fibers s !! l = Some f ->
        dom f = Some d ->
        (effectTag f = Some PLACEMENT ->
           exists dp, domParentIs (fibers s) f dp /\ In (AppendChild dp d) calls) /\
        (effectTag f = Some UPDATE ->
           exists o fo, alternate f = Some o /\ fibers s !! o = Some fo /\
                        In (UpdateDom d (props fo) (props f)) calls)).
  { intros fuel0 s u s' H.
    assert (s' = s) as -> by (destruct fuel0; by injection H).
    exists []. split; [apply emits_refl|].
    split; [constructor|]. intros l f d Hr. inversion Hr. }
  induction fuel as [|fuel IH]; intros [l0|] s u s' H Hclean;
    try (by eapply Hnone); [done|].
  cbn [commitWork] in H.
  apply bind_inv in H as (f0 & s1 & [-> Hf0]%readFiber_inv & H).
  apply bind_inv in H as (dp & s2 & (-> & p & k' & Hp & Ha)%domParentOf_inv & H).
  apply bind_inv in H as ([] & s3 & Hop & H).
  apply bind_inv in H as ([] & s4 & Hchild & Hsib).
  cbn [unremoved] in Hclean. rewrite Hf0 in Hclean.
  assert (Hnot : effectTag f0 <> Some DELETION)
    by (intros Hd; by rewrite Hd in Hclean).
  assert (Hkids : unremoved fuel (fibers s) (child f0) = true /\
                  unremoved fuel (fibers s) (sibling f0) = true).
  { destruct (effectTag f0) as [[]|]; try done; by apply andb_prop. }
  destruct Hkids as [Hck Hcs].
  assert (Hown : exists own,
    emits s s3 own /\ Forall (fun e => attaches e \/ updates e) own /\
    forall d, dom f0 = Some d ->
      (effectTag f0 = Some PLACEMENT -> In (AppendChild dp d) own) /\
      (effectTag f0 = Some UPDATE ->
         exists o fo, alternate f0 = Some o /\ fibers s !! o = Some fo /\
                      In (UpdateDom d (props fo) (props f0)) own)).
  { destruct (effectTag f0) as [[]|] eqn:Htag; [| |done|];
      destruct (dom f0) as [n|] eqn:Hd.
    - exists [AppendChild dp n]. split; [by eapply emit_emits|].
      split; [constructor; [by left|constructor]|].
      intros d [= <-]. split; [by left|done].
    - injection Hop as <-. exists []. split; [apply emits_refl|].
      split; [constructor|done].
    - apply bind_inv in Hop as (a & sa & [Halt ->]%deref_inv & Hop).
      apply bind_inv in Hop as (old & sb & [-> Hold]%readFiber_inv & Hop).
      exists [UpdateDom n (props old) (props f0)].
      split; [by eapply updateDom_emits|].
      split; [constructor; [by right|constructor]|].
      intros d [= <-]. split; [done|]. intros _.
      exists a, old. split; [done|]. split; [done|]. by left.
    - injection Hop as <-. exists []. split; [apply emits_refl|].
      split; [constructor|done].
    - injection Hop as <-. exists []. split; [apply emits_refl|].
      split; [constructor|]. intros d _. done.
    - injection Hop as <-. exists []. split; [apply emits_refl|].
      split; [constructor|done]. }
  destruct Hown as (own & Hown & Hownok & Hownin).
  pose proof (emits_fibers _ _ _ Hown) as HX3.
  destruct (IH _ _ _ _ Hchild) as (below & Hbelow & Hbelowok & Hbelowin);
    [by rewrite HX3|].
  pose proof (emits_fibers _ _ _ Hbelow) as HX4.
  destruct (IH _ _ _ _ Hsib) as (next & Hnext & Hnextok & Hnextin);
    [by rewrite HX4, HX3|].
  rewrite HX3 in Hbelowin. rewrite HX4, HX3 in Hnextin.
  exists (own ++ below ++ next).
  split; [eapply emits_trans; [exact Hown|by eapply emits_trans]|].
  split; [by rewrite !Forall_app|].
  intros l f d Hr Hf Hd.
  inversion Hr as [l'|l' f' l'' Hf' Hr'|l' f' l'' Hf' Hr']; subst.
  + rewrite Hf0 in Hf. injection Hf as <-.
    destruct (Hownin d Hd) as [Hpl Hup]. split.
    * intros Ht. exists dp. split; [by exists p, k'|].
      apply in_or_app. left. by apply Hpl.
    * intros Ht. destruct (Hup Ht) as (o & fo & ? & ? & ?).
      exists o, fo. split; [done|]. split; [done|].
      apply in_or_app. by left.
  + rewrite Hf0 in Hf'. injection Hf' as <-.
    destruct (Hbelowin l f d Hr' Hf Hd) as [Hpl Hup]. split.
    * intros Ht. destruct (Hpl Ht) as (dp' & ? & ?).
      exists dp'. split; [done|].
      apply in_or_app. right. apply in_or_app. by left.
    * intros Ht. destruct (Hup Ht) as (o & fo & ? & ? & ?).
      exists o, fo. split; [done|]. split; [done|].
      apply in_or_app. right. apply in_or_app. by left.
  + rewrite Hf0 in Hf'. injection Hf' as <-.
    destruct (Hnextin l f d Hr' Hf Hd) as [Hpl Hup]. split.
    * intros Ht. destruct (Hpl Ht) as (dp' & ? & ?).
      exists dp'. split; [done|].
      apply in_or_app. right. apply in_or_app. by right.
    * intros Ht. destruct (Hup Ht) as (o & fo & ? & ? & ?).
      exists o, fo. split; [done|]. split; [done|].
      apply in_or_app. right. apply in_or_app. by right.
Qed.

(** C7.  In a commit that completes, the removals come first.  When
    the fibers of the deletions list are tagged [DELETION] and no fiber
    of the tree below the work-in-progress root is, as the reconciler
    leaves them, the backend calls of [commitRoot] are a first stretch
    followed by a second one such that: for every fiber of the
    deletions list, the removal of its node (the first node found from
    it along [child]) from the node of its nearest ancestor that owns
    one is in the first stretch; the second stretch holds no removal,
    only attaches and updates, and for every fiber of the new tree that
    owns a node it holds the attach of that node if the fiber is tagged
    [PLACEMENT], and the update of that node from the alternate's
    [props] to the fiber's if it is tagged [UPDATE]. *)
Theorem commitRoot_deletions_first (fuel : nat) (s s' : engine)
    (ds : list loc) (w : loc) (fw : fiber)
    (H : commitRoot fuel s = Ok (tt, s'))
    (Hds : deletions s = Some ds)
    (Hw : wipRoot s = Some w) (Hfw : fibers s !! w = Some fw)
    (Htagged : Forall (fun l => exists f, fibers s !! l = Some f /\
                                          effectTag f = Some DELETION) ds)
    (Hclean : unremoved fuel (fibers s) (child fw) = true) :
  exists removed rest,
    log s' = log s ++ removed ++ rest /\
    (forall l f, In l ds -> fibers s !! l = Some f ->
       exists dp d k,
         hosted (fibers s) l d k /\ domParentIs (fibers s) f dp /\
         In (RemoveChild dp d) removed) /\
    Forall (fun e => (attaches e \/ updates e) /\ ~ removes e) rest /\
    (forall l f d, reach (fibers s) (child fw) l -> fibers s !! l = Some f ->
       dom f = Some d ->
       (effectTag f = Some PLACEMENT ->
          exists dp, domParentIs (fibers s) f dp /\ In (AppendChild dp d) rest) /\
       (effectTag f = Some UPDATE ->
          exists o fo, alternate f = Some o /\ fibers s !! o = Some fo /\
                       In (UpdateDom d (props fo) (props f)) rest)).
Proof.
  apply commitRoot_inv in H
    as (ds' & root & f & mid & removals & rest0 & Hds' & Hw' & Hf & Hdel & Hmid
        & (last & Hwork & Hlast) & ->).
  rewrite Hds in Hds'. injection Hds' as <-.
  rewrite Hw in Hw'. injection Hw' as <-.
  rewrite Hfw in Hf. injection Hf as <-.
  destruct (commitDeletions_removes _ _ _ _ _ Hdel Htagged)
    as (removed & Hremoved & Hin).
  pose proof (emits_fibers _ _ _ Hremoved) as HX.
  destruct (commitWork_tree _ _ _ _ _ Hwork) as (rest & Hrest & Hok & Hall);
    [by rewrite HX|].
  rewrite HX in Hall.
  assert (removals = removed) as ->.
  { rewrite Hmid in Hremoved. unfold emits in Hremoved.
    apply (f_equal log) in Hremoved. cbn in Hremoved.
    by apply app_inv_head in Hremoved. }
  assert (rest0 = rest) as ->.
  { rewrite Hlast in Hrest. unfold emits in Hrest.
    apply (f_equal log) in Hrest. cbn in Hrest.
    by apply app_inv_head in Hrest. }
  exists removed, rest. cbn [log with_wipRoot with_currentRoot with_backend].
  split; [done|]. split; [done|]. split; [|done].
  eapply Forall_impl; [exact Hok|].
  intros e He. split; [done|]. destruct e; cbn in *; tauto.
Qed.

Lemma commitRoot_deletions_first_witness :
  exists removed rest,
    log (storeOf (andThen replaced (exec (commitRoot 20)))) =
      log (storeOf replaced) ++ removed ++ rest /\
    (forall l f, In l [1] -> fibers (storeOf replaced) !! l = Some f ->
       exists dp d k,
         hosted (fibers (storeOf replaced)) l d k /\
         domParentIs (fibers (storeOf replaced)) f dp /\
         In (RemoveChild dp d) removed) /\
    Forall (fun e => (attaches e \/ updates e) /\ ~ removes e) rest /\
    (forall l f d,
       reach (fibers (storeOf replaced)) (Some 3) l ->
       fibers (storeOf replaced) !! l = Some f ->
       dom f = Some d ->
       (effectTag f = Some PLACEMENT ->
          exists dp, domParentIs (fibers (storeOf replaced)) f dp /\
                     In (AppendChild dp d) rest) /\
       (effectTag f = Some UPDATE ->
          exists o fo, alternate f = Some o /\
                       fibers (storeOf replaced) !! o = Some fo /\
                       In (UpdateDom d (props fo) (props f)) rest)).
Proof.
  change (Some 3)
    with (child (default (rootFiber None VNull None)
                   (fibers (storeOf replaced) !! 2))).
  apply (commitRoot_deletions_first 20 (storeOf replaced)
           (storeOf (andThen replaced (exec (commitRoot 20)))) [1] 2
           (default (rootFiber None VNull None)
              (fibers (storeOf replaced) !! 2))).
  - vm_compute. reflexivity.
  - vm_compute. reflexivity.
  - vm_compute. reflexivity.
  - vm_compute. reflexivity.
  - repeat constructor. eexists. split; vm_compute; reflexivity.
  - vm_compute. reflexivity.
Defined.

(** ** Old children [div, div, span] against new children [div, span] *)

Ltac lens := rewrite ?length_insert, ?length_app; cbn [length]; lia.

Ltac look :=
  repeat first
    [ rewrite list_lookup_insert_ne by lens
    | rewrite list_lookup_insert_eq by lens
    | rewrite lookup_app_l by lens ].

(** C1.  When the alternate of the parent [p] has the child chain [a],
    [b], [c] of kinds [div], [div], [span], and the new child
    descriptions [e0], [e1] have kinds [div], [span], [reconcileChildren]
    makes exactly two fibers, [n0] and [n1]: the child of [p] is [n0], an
    [UPDATE] of [a] that keeps its kind and backend node; its sibling is
    [n1], a [PLACEMENT] of kind [span] with no sibling; and exactly [b]
    and [c], in this order, are tagged [DELETION] and appended to the
    deletions list. *)
Theorem reconcile_div_div_span (fuel : nat) (s : engine) (p q a b c : loc)
    (pf qf fa fb fc : fiber) (ds : list loc) (fs0 fs1 : list (string * value))
    (Hfuel : 3 <= fuel)
    (Hp : fibers s !! p = Some pf) (Hq : alternate pf = Some q)
    (Hqf : fibers s !! q = Some qf) (Hqa : child qf = Some a)
    (Ha : fibers s !! a = Some fa) (Hta : type fa = VStr "div")
    (Hab : sibling fa = Some b)
    (Hb : fibers s !! b = Some fb) (Htb : type fb = VStr "div")
    (Hbc : sibling fb = Some c)
    (Hc : fibers s !! c = Some fc) (Htc : type fc = VStr "span")
    (Hcn : sibling fc = None)
    (Hpa : p <> a) (Hpb : p <> b) (Hpc : p <> c)
    (Hds : deletions s = Some ds)
    (Hk0 : kindOf (VObj fs0) = Some (VStr "div"))
    (Hk1 : kindOf (VObj fs1) = Some (VStr "span")) :
  exists s',
    reconcileChildren fuel p (VArr [VObj fs0; VObj fs1]) s = Ok (tt, s') /\
    length (fibers s') = S (S (length (fibers s))) /\
    fibers s' !! p = Some (set_child (Some (length (fibers s))) pf) /\
    fibers s' !! length (fibers s) =
      Some (set_sibling (Some (S (length (fibers s))))
              (reused p a fa (default VUndefined (lookup_field "props" fs0)))) /\
    fibers s' !! S (length (fibers s)) =
      Some (placed p (VStr "span")
              (default VUndefined (lookup_field "props" fs1))) /\
    deletions s' = Some (ds ++ [b; c]) /\
    fibers s' !! a = Some fa /\
    fibers s' !! b = Some (set_effectTag (Some DELETION) fb) /\
    fibers s' !! c = Some (set_effectTag (Some DELETION) fc).
Proof.
  assert (Hac : a <> c) by (intros ->; congruence).
  assert (Hbc' : b <> c) by (intros ->; congruence).
  assert (Hab' : a <> b) by (intros ->; congruence).
  assert (Hpn : p < length (fibers s)) by (by eapply lookup_lt_Some).
  assert (Han : a < length (fibers s)) by (by eapply lookup_lt_Some).
  assert (Hbn : b < length (fibers s)) by (by eapply lookup_lt_Some).
  assert (Hcn' : c < length (fibers s)) by (by eapply lookup_lt_Some).
  unfold kindOf, field in Hk0, Hk1.
  destruct fuel as [|[|[|fuel]]]; try lia.
  set (f0 := reused p a fa (default VUndefined (lookup_field "props" fs0))).
  set (f1 := placed p (VStr "span")
               (default VUndefined (lookup_field "props" fs1))).
  set (A1 := <[p := set_child (Some (length (fibers s))) pf]> (fibers s ++ [f0])).
  set (A2 := <[length (fibers s) := set_sibling (Some (S (length (fibers s)))) f0]>
               (<[b := set_effectTag (Some DELETION) fb]> (A1 ++ [f1]))).
  set (A3 := <[c := set_effectTag (Some DELETION) fc]> A2).
  assert (HlenA1 : length A1 = S (length (fibers s))) by (subst A1; lens).
  exists (with_deletions (Some ((ds ++ [b]) ++ [c])) (with_fibers A3 s)).
  split.
  { unfold reconcileChildren.
    erewrite bind_ok; [|by apply readFiber_ok]. rewrite Hq.
    erewrite bind_assoc, bind_ok; [|by apply readFiber_ok].
    erewrite bind_ok; [|reflexivity]. rewrite Hqa.
    erewrite bind_ok; [|reflexivity].
    (* position 0: div on div *)
    erewrite (reconcileLoop_reuse_any _ p _ 0 None s fs0 a fa);
      [|reflexivity|reflexivity|done|]; cycle 1.
    { intros s'. rewrite Hk0, Hta. reflexivity. }
    unfold link at 1. cbn [Nat.eqb].
    erewrite bind_ok; cycle 1.
    { apply updateFiber_ok. cbn. by apply lookup_app_l_Some. }
    fold f0. cbn [fibers with_fibers]. fold A1. rewrite Hab.
    (* position 1: span on div *)
    erewrite (reconcileLoop_replace _ p _ 1 (Some (length (fibers s)))
                (with_fibers A1 s) fs1 b fb ds);
      [|reflexivity|reflexivity| | |done]; cycle 1.
    { cbn. subst A1. by look. }
    { intros s'. rewrite Hk1, Htb. reflexivity. }
    rewrite Hk1. cbn [default fibers with_fibers]. rewrite HlenA1. fold f1.
    unfold link at 1. cbn [Nat.eqb deref].
    erewrite bind_assoc, bind_ok; [|reflexivity].
    erewrite bind_ok; cycle 1.
    { apply updateFiber_ok. cbn. subst A1. look.
      by rewrite lookup_app_r, Nat.sub_diag. }
    cbn [fibers with_fibers with_deletions]. fold A2. rewrite Hbc.
    (* position 2: nothing on span *)
    erewrite (reconcileLoop_remove _ p _ 2 (Some (S (length (fibers s)))) _ c fc
                (ds ++ [b]));
      [|reflexivity|lia| |reflexivity]; cycle 1.
    { cbn. subst A2 A1. by look. }
    cbn [fibers with_fibers with_deletions]. fold A3. rewrite Hcn.
    destruct fuel; reflexivity. }
  cbn [fibers deletions with_fibers with_deletions].
  subst A3 A2 A1.
  split; [lens|].
  split; [by look|].
  split; [by look|].
  split.
  { look. rewrite lookup_app_r by lens.
    replace (S (length (fibers s)) - _) with 0 by lens. done. }
  split; [by rewrite <- app_assoc|].
  split; [by look|].
  split; by look.
Qed.

Lemma reconcile_div_div_span_witness :
  exists s',
    reconcileChildren 20 6 (VArr [div; span]) shrinkingStore = Ok (tt, s') /\
    length (fibers s') = 9 /\
    fibers s' !! 6 =
      Some (set_child (Some 7)
              (reused 5 1 (default (rootFiber None VNull None)
                             (fibers shrinkingStore !! 1))
                 (VObj [("children", VArr [div; span])]))) /\
    fibers s' !! 7 =
      Some (set_sibling (Some 8)
              (reused 6 2 (default (rootFiber None VNull None)
                             (fibers shrinkingStore !! 2))
                 (VObj [("children", VArr [])]))) /\
    fibers s' !! 8 = Some (placed 6 (VStr "span") (VObj [("children", VArr [])])) /\
    deletions s' = Some ([] ++ [3; 4]) /\
    fibers s' !! 2 = fibers shrinkingStore !! 2 /\
    fibers s' !! 3 =
      Some (set_effectTag (Some DELETION)
              (default (rootFiber None VNull None)
                 (fibers shrinkingStore !! 3))) /\
    fibers s' !! 4 =
      Some (set_effectTag (Some DELETION)
              (default (rootFiber None VNull None)
                 (fibers shrinkingStore !! 4))).
Proof.
  exact (reconcile_div_div_span 20 shrinkingStore 6 1 2 3 4 _ _ _ _ _ []
           [("type", VStr "div"); ("props", VObj [("children", VArr [])])]
           [("type", VStr "span"); ("props", VObj [("children", VArr [])])]
           ltac:(lia) eq_refl eq_refl eq_refl eq_refl eq_refl eq_refl eq_refl
           eq_refl eq_refl eq_refl eq_refl eq_refl eq_refl
           ltac:(lia) ltac:(lia) ltac:(lia) eq_refl eq_refl eq_refl).
Defined.

(** ** What the render phase leaves alone *)

Lemma spares_refl base w s : spares base w s s.
Proof. repeat split; eauto. Qed.

Lemma spares_trans base w s1 s2 s3 :
  spares base w s1 s2 -> spares base w s2 s3 -> spares base w s1 s3.
Proof.
  intros (Hlen1 & Hf1 & Hc1 & Hr1 & Hd1) (Hlen2 & Hf2 & Hc2 & Hr2 & Hd2).
  split; [lia|]. split; [|split; [|split]]; [|by auto|congruence|].
  - intros l f Hl Hw Hlf.
    destruct (Hf1 l f Hl Hw Hlf) as [H|(H & ds & Hds & Hin)].
    + by apply Hf2.
    + right. destruct (Hd2 ds l Hds Hin) as (ds' & Hds' & Hin').
      split; [|by eauto].
      destruct (Hf2 l _ Hl Hw H) as [H'|(H' & _)]; [done|].
      rewrite H'. by destruct f.
  - intros ds l Hds Hin. destruct (Hd1 ds l Hds Hin) as (ds' & Hds' & Hin').
    by eapply Hd2.
Qed.

Lemma spares_fibers base w s X :
  length (fibers s) <= length X ->
  (forall l f, l < base -> l <> w -> fibers s !! l = Some f -> X !! l = Some f) ->
  spares base w s (with_fibers X s).
Proof.
  intros Hlen Hsame. repeat split; eauto.
Qed.

Lemma newFiber_spares base w f s n s' :
  newFiber f s = Ok (n, s') ->
  spares base w s s' /\ n = length (fibers s) /\
  length (fibers s') = S (length (fibers s)).
Proof.
  intros [= <- <-]. split; [|split; [done|cbn; rewrite length_app; simpl; lia]].
  apply spares_fibers; [rewrite length_app; lia|].
  intros l g _ _ Hl. by apply lookup_app_l_Some.
Qed.

Lemma updateFiber_inv l g s u s' :
  updateFiber l g s = Ok (u, s') ->
  exists f, fibers s !! l = Some f /\
            s' = with_fibers (<[l := g f]> (fibers s)) s.
Proof.
  unfold updateFiber. intros H.
  apply bind_inv in H as (f & s1 & [-> Hf]%readFiber_inv & [= _ <-]).
  by exists f.
Qed.

(** An update of the fiber being worked on, or of a fiber made since. *)
Lemma updateFiber_spares base w l g s u s' :
  updateFiber l g s = Ok (u, s') -> l = w \/ base <= l ->
  spares base w s s' /\ length (fibers s') = length (fibers s).
Proof.
  intros (f & Hf & ->)%updateFiber_inv Hl.
  split; [|cbn; by rewrite length_insert].
  apply spares_fibers; [by rewrite length_insert|].
  intros l' g' Hl' Hw Hlf. rewrite list_lookup_insert_ne; [done|]. lia.
Qed.

(** Tagging an old fiber and listing it for deletion. *)
Lemma mark_spares base w o s u s' :
  (updateFiber o (set_effectTag (Some DELETION)) ;; pushDeletion o) s
  = Ok (u, s') ->
  spares base w s s' /\ length (fibers s') = length (fibers s).
Proof.
  intros H.
  apply bind_inv in H as ([] & s1 & (f & Hf & ->)%updateFiber_inv & H).
  unfold pushDeletion in H.
  apply bind_inv in H as (d & s2 & [= <- <-] & H). cbn in H.
  destruct (deletions s) as [ds|] eqn:Hds; [|done].
  injection H as _ <-. cbn.
  split; [|by rewrite length_insert].
  split; [cbn; by rewrite length_insert|].
  split; [|split; [done|split; [done|]]].
  - intros l g Hl Hw Hlg. cbn.
    destruct (decide (l = o)) as [->|Hne].
    + right. rewrite Hf in Hlg. injection Hlg as <-.
      split; [apply list_lookup_insert_eq; by eapply lookup_lt_Some|].
      exists (ds ++ [o]). split; [done|]. apply in_app_iff. right. by left.
    + left. by rewrite list_lookup_insert_ne.
  - intros ds' l Hds' Hin. cbn. rewrite Hds in Hds'. injection Hds' as <-.
    exists (ds ++ [o]). split; [done|]. apply in_app_iff. by left.
Qed.

Lemma getField_pure k v s x s' : getField k v s = Ok (x, s') -> s' = s.
Proof. unfold getField, ret, fail. intros H. repeat case_match; by simplify_eq. Qed.

Lemma looseEq_pure a b s x s' : looseEq a b s = Ok (x, s') -> s' = s.
Proof. unfold looseEq, ret, fail. intros H. repeat case_match; by simplify_eq. Qed.

Lemma arrayOf_pure v s x s' : arrayOf v s = Ok (x, s') -> s' = s.
Proof. unfold arrayOf, ret, fail. intros H. repeat case_match; by simplify_eq. Qed.

Lemma sameTypeOf_pure q el s b s' : sameTypeOf q el s = Ok (b, s') -> s' = s.
Proof.
  unfold sameTypeOf. destruct q as [o|]; [|by intros [= _ <-]].
  destruct (truthy el); [|by intros [= _ <-]]. intros H.
  apply bind_inv in H as (t & s1 & ->%getField_pure & H).
  apply bind_inv in H as (old & s2 & [-> _]%readFiber_inv & H).
  by apply looseEq_pure in H.
Qed.

(** The loop of the reconciler, on any descriptions and any old chain. *)
Lemma reconcileLoop_spares base w fuel : forall E j q prev s u s',
  reconcileLoop fuel w E j q prev s = Ok (u, s') ->
  base <= length (fibers s) ->
  (forall p, prev = Some p -> base <= p) ->
  spares base w s s'.
Proof.
  induction fuel as [|fuel IH]; intros E j q prev s u s' H Hbase Hprev;
    cbn [reconcileLoop] in H;
    destruct ((j <? length E)%nat || bool_decide (is_Some q));
    try done; try (injection H as _ <-; apply spares_refl).
  apply bind_inv in H as (same & s1 & ->%sameTypeOf_pure & H).
  apply bind_inv in H as (updated & s2 & Hupd & H).
  assert (spares base w s s2 /\ length (fibers s) <= length (fibers s2) /\
          forall n, updated = Some n -> base <= n) as (Hsp2 & Hlen2 & Hn2).
  { destruct same.
    - apply bind_inv in Hupd as (o & sa & [_ ->]%deref_inv & Hupd).
      apply bind_inv in Hupd as (old & sb & [-> _]%readFiber_inv & Hupd).
      apply bind_inv in Hupd as (p & sc & ->%getField_pure & Hupd).
      apply bind_inv in Hupd as (n & sd & Hnew & [= <- <-]).
      apply (newFiber_spares base w) in Hnew as (Hsp & -> & Hlen).
      split; [done|]. split; [lia|]. by intros ? [= <-].
    - injection Hupd as <- <-. split; [apply spares_refl|]. by split. }
  apply bind_inv in H as (new & s3 & Hnew & H).
  assert (spares base w s2 s3 /\ length (fibers s2) <= length (fibers s3) /\
          forall n, new = Some n -> base <= n) as (Hsp3 & Hlen3 & Hn3).
  { destruct (truthy (nth j E VUndefined) && negb same).
    - apply bind_inv in Hnew as (t & sa & ->%getField_pure & Hnew).
      apply bind_inv in Hnew as (p & sb & ->%getField_pure & Hnew).
      apply bind_inv in Hnew as (n & sc & Hnew & [= <- <-]).
      apply (newFiber_spares base w) in Hnew as (Hsp & -> & Hlen).
      split; [done|]. split; [lia|]. intros ? [= <-]. lia.
    - injection Hnew as <- <-. split; [apply spares_refl|]. by split. }
  apply bind_inv in H as ([] & s4 & Hmark & H).
  assert (spares base w s3 s4 /\ length (fibers s4) = length (fibers s3))
    as (Hsp4 & Hlen4).
  { destruct q as [o|]; [|injection Hmark as <-; split; [apply spares_refl|done]].
    destruct (negb same); [by eapply mark_spares|].
    injection Hmark as <-. split; [apply spares_refl|done]. }
  apply bind_inv in H as (next & s5 & Hnext & H).
  assert (s5 = s4) as ->.
  { destruct q as [o|]; [|by injection Hnext as _ <-].
    by apply bind_inv in Hnext as (old & sa & [-> _]%readFiber_inv & [= _ <-]). }
  apply bind_inv in H as ([] & s6 & Hlink & H).
  assert (spares base w s4 s6 /\ length (fibers s6) = length (fibers s4))
    as (Hsp6 & Hlen6).
  { destruct (j =? 0)%nat; [by eapply updateFiber_spares; [|left]|].
    destruct (truthy (nth j E VUndefined));
      [|injection Hlink as <-; split; [apply spares_refl|done]].
    apply bind_inv in Hlink as (p & sa & [Hp ->]%deref_inv & Hlink).
    eapply updateFiber_spares; [done|]. right. by apply Hprev. }
  apply IH in H; [|lia|done].
  eapply spares_trans; [exact Hsp2|]. eapply spares_trans; [exact Hsp3|].
  eapply spares_trans; [exact Hsp4|]. by eapply spares_trans.
Qed.

(** [reconcileChildren] never changes a fiber made before it is called,
    the parent apart, other than by tagging it for deletion. *)
Lemma reconcileChildren_spares fuel w elements s u s' :
  reconcileChildren fuel w elements s = Ok (u, s') ->
  spares (length (fibers s)) w s s'.
Proof.
  unfold reconcileChildren. intros H.
  apply bind_inv in H as (wf & s1 & [-> _]%readFiber_inv & H).
  apply bind_inv in H as (q & s2 & Hq & H).
  assert (s2 = s) as ->.
  { destruct (alternate wf); [|by injection Hq as _ <-].
    by apply bind_inv in Hq as (alt & sa & [-> _]%readFiber_inv & [= _ <-]). }
  apply bind_inv in H as (items & s3 & ->%arrayOf_pure & H).
  by eapply reconcileLoop_spares.
Qed.

Lemma spares_mono base base' w s s' :
  base <= base' -> spares base' w s s' -> spares base w s s'.
Proof.
  intros Hb (Hlen & Hf & Hc & Hr & Hd). repeat split; try done.
  intros l f Hl. apply Hf. lia.
Qed.

Lemma spares_other base w s s' :
  fibers s' = fibers s -> cells s' = cells s ->
  currentRoot s' = currentRoot s -> deletions s' = deletions s ->
  spares base w s s'.
Proof.
  intros Hf Hc Hr Hd. unfold spares. rewrite Hf, Hc, Hr, Hd.
  repeat split; eauto.
Qed.

Lemma updateDom_pure_fibers d p n s u s' :
  updateDom d p n s = Ok (u, s') ->
  fibers s' = fibers s /\ cells s' = cells s /\
  currentRoot s' = currentRoot s /\ deletions s' = deletions s.
Proof. by intros ->%updateDom_emits. Qed.

Lemma createDom_spares base w f s d s' :
  createDom f s = Ok (d, s') ->
  spares base w s s' /\ fibers s' = fibers s.
Proof.
  unfold createDom. intros H.
  apply bind_inv in H as (b & s1 & ->%looseEq_pure & H).
  apply bind_inv in H as (n & s2 & [= <- <-] & H).
  apply bind_inv in H as ([] & s3 & [= <-] & H).
  apply bind_inv in H as ([] & s4 & ->%emit_emits & H).
  apply bind_inv in H as ([] & s5 & (Hf & Hc & Hr & Hd)%updateDom_pure_fibers & H).
  injection H as _ <-. split; [by apply spares_other|done].
Qed.

Lemma oldHookOf_pure wf s o s' : oldHookOf wf s = Ok (o, s') -> s' = s.
Proof.
  unfold oldHookOf. destruct (alternate wf); [|by intros [= _ <-]]. intros H.
  apply bind_inv in H as (alt & s1 & [-> _]%readFiber_inv & H).
  destruct (hooks alt); [|by injection H as _ <-].
  by apply bind_inv in H as (i & s2 & [= <- <-] & [= _ <-]).
Qed.

(** C2, as the code has it.  [reconcileChildren] does write to fibers of
    the tree it reads: a successful call leaves every fiber that existed
    before it, the parent fiber it was called on apart, either as it
    was or with its [effectTag] overwritten by [DELETION], and in that
    case the fiber is in the deletions list afterwards; no other field
    of such a fiber changes, no hook cell changes, and the current root
    stays the same.  So the old tree is not read-only during a pass; it
    is left alone except for that one field. *)
Theorem reconcileChildren_marks_only fuel w elements s u s' :
  reconcileChildren fuel w elements s = Ok (u, s') ->
  (forall l f, l <> w -> fibers s !! l = Some f ->
     fibers s' !! l = Some f \/
     (fibers s' !! l = Some (set_effectTag (Some DELETION) f) /\
      exists ds, deletions s' = Some ds /\ In l ds)) /\
  (forall h c, cells s !! h = Some c -> cells s' !! h = Some c) /\
  currentRoot s' = currentRoot s.
Proof.
  intros H. apply reconcileChildren_spares in H as (_ & Hf & Hc & Hr & _).
  repeat split; try done.
  intros l f Hl Hlf. apply Hf; [|done..]. by eapply lookup_lt_Some.
Qed.

Lemma reconcileChildren_marks_only_witness :
  (forall l f, l <> 6 -> fibers shrinkingStore !! l = Some f ->
     fibers (storeOf (exec (reconcileChildren 20 6 (VArr [div; span]))
                        shrinkingStore)) !! l = Some f \/
     (fibers (storeOf (exec (reconcileChildren 20 6 (VArr [div; span]))
                         shrinkingStore)) !! l
        = Some (set_effectTag (Some DELETION) f) /\
      exists ds,
        deletions (storeOf (exec (reconcileChildren 20 6 (VArr [div; span]))
                              shrinkingStore)) = Some ds /\ In l ds)) /\
  (forall h c, cells shrinkingStore !! h = Some c ->
     cells (storeOf (exec (reconcileChildren 20 6 (VArr [div; span]))
                       shrinkingStore)) !! h = Some c) /\
  currentRoot (storeOf (exec (reconcileChildren 20 6 (VArr [div; span]))
                          shrinkingStore)) = currentRoot shrinkingStore.
Proof.
  apply (reconcileChildren_marks_only 20 6 (VArr [div; span]) shrinkingStore tt).
  vm_compute. reflexivity.
Defined.

(** C2 as stated fails: in the store of [shrinking] the fiber at
    address 3 is reachable from the current root (root 0, its child 1,
    that one's child 2, and the sibling of 2), and reconciling the
    children of the new [section] fiber changes its [effectTag] from
    [PLACEMENT] to [DELETION]. *)
Lemma reconcileChildren_writes_current_tree_counterexample :
  currentRoot shrinkingStore = Some 0 /\
  option_map child (fibers shrinkingStore !! 0) = Some (Some 1) /\
  option_map child (fibers shrinkingStore !! 1) = Some (Some 2) /\
  option_map sibling (fibers shrinkingStore !! 2) = Some (Some 3) /\
  option_map effectTag (fibers shrinkingStore !! 3) = Some (Some PLACEMENT) /\
  exists s',
    reconcileChildren 20 6 (VArr [div; span]) shrinkingStore = Ok (tt, s') /\
    option_map effectTag (fibers s' !! 3) = Some (Some DELETION).
Proof.
  repeat (split; [vm_compute; reflexivity|]).
  exists (storeOf (exec (reconcileChildren 20 6 (VArr [div; span])) shrinkingStore)).
  split; vm_compute; reflexivity.
Qed.

(** * Further properties of the code *)

(** ** Element construction *)

Lemma lookup_set_field_ne k k' v fs :
  k <> k' -> lookup_field k (set_field k' v fs) = lookup_field k fs.
Proof.
  intros Hk. induction fs as [|[k0 v0] fs IH]; simpl.
  - destruct (String.eqb_spec k' k); [congruence|done].
  - destruct (String.eqb_spec k0 k') as [->|Hne]; simpl.
    + destruct (String.eqb_spec k' k); [congruence|done].
    + by rewrite IH.
Qed.

(** X1.  [createElement] keeps the kind it is given and every property
    of [props] under its name, except [children]: whatever [props] holds
    under that name is replaced by the list of the child arguments
    (wrapped where they are not objects), which is the empty list when
    there are none.  With [null] or [undefined] for [props] the
    description has no property but [children]. *)
Theorem createElement_props (type props : value) (children : list value) :
  kindOf (createElement type props children) = Some type /\
  childrenOf (createElement type props children)
    = Some (map wrapChild children) /\
  (forall k, k <> "children" ->
     attribute k (createElement type props children)
       = lookup_field k (spread props)) /\
  (props = VNull \/ props = VUndefined ->
   field "props" (createElement type props children)
     = Some (VObj [("children", VArr (map wrapChild children))])).
Proof.
  split; [reflexivity|]. split; [apply childrenOf_createElement|]. split.
  - intros k Hk. unfold attribute, createElement, field. simpl.
    by apply lookup_set_field_ne.
  - by intros [-> | ->].
Qed.

(** ** Children that are not descriptions *)

Lemma truthy_getField k e s :
  truthy e = true -> exists v, getField k e s = Ok (v, s).
Proof. destruct e; try done; simpl; eauto. Qed.

(** X2.  A child that is [null] (or any other falsy value) in front of
    another child makes [reconcileChildren] throw: no fiber is made for
    the falsy child, so the next one finds no previous sibling to be
    linked to.  [createElement] lets [null] children through, so
    [createElement("div", null, null, "x")] cannot be rendered. *)
Theorem reconcileChildren_falsy_then_child (fuel : nat) (w : loc) (wf : fiber)
    (first second : value) (rest : list value) (s : engine)
    (Hw : fibers s !! w = Some wf) (Halt : alternate wf = None)
    (Hfirst : truthy first = false) (Hsecond : truthy second = true)
    (Hfuel : 2 <= fuel) :
  reconcileChildren fuel w (VArr (first :: second :: rest)) s = Err TypeError.
Proof.
  destruct fuel as [|[|fuel]]; [lia..|].
  unfold reconcileChildren.
  erewrite bind_ok; [|by apply readFiber_ok]. rewrite Halt.
  erewrite bind_ok; [|reflexivity].
  erewrite bind_ok; [|reflexivity].
  cbn [reconcileLoop length Nat.ltb Nat.leb orb nth sameTypeOf].
  erewrite bind_ok; [|reflexivity].
  erewrite bind_ok; [|reflexivity].
  rewrite Hfirst. cbn [andb].
  erewrite bind_ok; [|reflexivity].
  erewrite bind_ok; [|reflexivity].
  erewrite bind_ok; [|reflexivity].
  cbn [Nat.eqb].
  erewrite bind_ok; [|by apply updateFiber_ok].
  cbn [reconcileLoop length Nat.ltb Nat.leb orb nth sameTypeOf].
  erewrite bind_ok; [|reflexivity].
  erewrite bind_ok; [|reflexivity].
  rewrite Hsecond. cbn [andb negb].
  destruct (truthy_getField "type" second
              (with_fibers (<[w := set_child None wf]> (fibers s)) s) Hsecond)
    as [t Ht].
  destruct (truthy_getField "props" second
              (with_fibers (<[w := set_child None wf]> (fibers s)) s) Hsecond)
    as [p Hp].
  erewrite bind_assoc, bind_ok; [|exact Ht].
  erewrite bind_assoc, bind_ok; [|exact Hp].
  erewrite bind_assoc, bind_ok; [|reflexivity].
  erewrite bind_ok; [|reflexivity].
  erewrite bind_ok; [|reflexivity].
  erewrite bind_ok; [|reflexivity].
  reflexivity.
Qed.

Lemma reconcileChildren_falsy_then_child_witness :
  reconcileChildren 2 0
    (VArr [VNull; createTextElement (VStr "x")])
    (storeOf (exec (render div container) (initial 1))) = Err TypeError.
Proof.
  by apply (reconcileChildren_falsy_then_child 2 0
              (rootFiber container (VObj [("children", VArr [div])]) None)
              VNull (createTextElement (VStr "x")) []).
Defined.

(** ** Deletions *)

Lemma commitDeletion_hosted s l d k :
  hosted (fibers s) l d k ->
  forall fuel domParent, k <= fuel ->
    commitDeletion fuel (Some l) domParent s =
    Ok (tt, with_backend (nextNode s) (log s ++ [RemoveChild domParent d]) s).
Proof.
  induction 1 as [l f d k Hl Hd | l f c d k Hl Hd Hc _ IH];
    intros [|fuel] domParent Hk; try lia; cbn [commitDeletion].
  - erewrite bind_ok; [|reflexivity].
    erewrite bind_ok; [|by apply readFiber_ok].
    by rewrite Hd.
  - erewrite bind_ok; [|reflexivity].
    erewrite bind_ok; [|by apply readFiber_ok].
    rewrite Hd, Hc. apply IH. lia.
Qed.

(** X3.  Deleting a fiber removes one backend node: that of the fiber
    itself when it owns one, otherwise that of the first fiber below it,
    along [child], that owns one (what a component rendered).  Nothing
    else is called on the backend and the store is left as it is. *)
Theorem commitDeletion_removes_host (fuel : nat) (s : engine) (l : loc)
    (d domParent : node) (k : nat)
    (Hhost : hosted (fibers s) l d k) (Hfuel : k <= fuel) :
  commitDeletion fuel (Some l) domParent s =
  Ok (tt, with_backend (nextNode s) (log s ++ [RemoveChild domParent d]) s).
Proof. by eapply commitDeletion_hosted. Qed.

Lemma commitDeletion_removes_host_witness :
  commitDeletion 2 (Some 1) 0 mountedStore =
  Ok (tt, with_backend (nextNode mountedStore)
            (log mountedStore ++ [RemoveChild 0 1]) mountedStore).
Proof.
  apply (commitDeletion_removes_host 2 mountedStore 1 1 0 2); [|lia].
  eapply hosted_below; [reflexivity..|].
  eapply hosted_here; reflexivity.
Defined.

(** X4.  Deleting a component that rendered nothing throws: the walk
    along [child] reaches a fiber without a backend node and without a
    child, and reads [dom] of [undefined]. *)
Theorem commitDeletion_barren_throws (fuel : nat) (s : engine) (l : loc)
    (domParent : node) (k : nat)
    (Hbarren : barren (fibers s) l k) (Hfuel : k < fuel) :
  commitDeletion fuel (Some l) domParent s = Err TypeError.
Proof.
  revert fuel Hfuel.
  induction Hbarren as [l f k Hl Hd Hc | l f c k Hl Hd Hc _ IH];
    intros [|fuel] Hk; try lia; cbn [commitDeletion].
  - erewrite bind_ok; [|reflexivity].
    erewrite bind_ok; [|by apply readFiber_ok].
    rewrite Hd, Hc. destruct fuel; [lia|]. reflexivity.
  - erewrite bind_ok; [|reflexivity].
    erewrite bind_ok; [|by apply readFiber_ok].
    rewrite Hd, Hc. apply IH. lia.
Qed.

Lemma commitDeletion_barren_throws_witness :
  commitDeletion 2 (Some 1) 0 nothingStore = Err TypeError.
Proof.
  apply (commitDeletion_barren_throws 2 nothingStore 1 0 1); [|lia].
  eapply barren_here; reflexivity.
Defined.

(** ** The work loop under any deadline *)

Lemma workUnits_none C fuel units deadline calls yield s :
  nextUnitOfWork s = None ->
  workUnits C fuel units deadline calls yield s = Ok (tt, s).
Proof. intros H. destruct units; simpl; unfold bind, gets; by rewrite H. Qed.

Lemma workUnits_step C fuel units deadline calls yield s :
  workUnits C fuel units deadline calls yield s =
  match nextUnitOfWork s with
  | Some a =>
      if yield then Ok (tt, s)
      else match units with
           | 0 => Err OutOfFuel
           | S units' =>
               match performUnitOfWork C fuel a s with
               | Ok (next, s1) =>
                   workUnits C fuel units' deadline (S calls)
                     (deadline calls <? 1)%Z (with_nextUnitOfWork next s1)
               | Err e => Err e
               end
           end
  | None => Ok (tt, s)
  end.
Proof.
  destruct units; cbn [workUnits]; unfold bind at 1, gets;
    destruct (nextUnitOfWork s); try done; destruct yield; done.
Qed.

Lemma workUnits_more C fuel : forall units deadline calls yield s r,
  workUnits C fuel units deadline calls yield s = Ok r ->
  workUnits C fuel (S units) deadline calls yield s = Ok r.
Proof.
  induction units as [|units IH]; intros deadline calls yield s r H;
    rewrite workUnits_step in H; rewrite workUnits_step;
    destruct (nextUnitOfWork s) as [a|]; try done;
    destruct yield; try done.
  destruct (performUnitOfWork C fuel a s) as [[next s1]|]; [|done].
  by apply IH.
Qed.

Lemma workUnits_calls C fuel : forall units calls calls' yield s,
  workUnits C fuel units unhurried calls yield s =
  workUnits C fuel units unhurried calls' yield s.
Proof.
  induction units as [|units IH]; intros calls calls' yield s;
    rewrite !(workUnits_step _ _ _ unhurried); [done|].
  destruct (nextUnitOfWork s) as [a|]; [|done].
  destruct yield; [done|].
  destruct (performUnitOfWork C fuel a s) as [[next s1]|]; [|done].
  apply IH.
Qed.

Lemma workUnits_finished C fuel : forall units calls s s',
  workUnits C fuel units unhurried calls false s = Ok (tt, s') ->
  nextUnitOfWork s' = None.
Proof.
  induction units as [|units IH]; intros calls s s' H;
    rewrite workUnits_step in H;
    destruct (nextUnitOfWork s) as [a|] eqn:Hn; try done;
    try (by injection H as <-).
  destruct (performUnitOfWork C fuel a s) as [[next s1]|]; [|done].
  by eapply IH.
Qed.

(** Wherever a deadline stops the loop, going on without one ends in
    the store that the loop reaches when it is never stopped. *)
Lemma workUnits_resume C fuel : forall units calls s s',
  workUnits C fuel units unhurried calls false s = Ok (tt, s') ->
  forall deadline calls' yield,
  exists s1,
    workUnits C fuel units deadline calls' yield s = Ok (tt, s1) /\
    workUnits C fuel units unhurried 0 false s1 = Ok (tt, s').
Proof.
  induction units as [|units IH]; intros calls s s' H deadline calls' yield;
    pose proof H as Hall; rewrite workUnits_step in H;
    rewrite (workUnits_step _ _ _ deadline);
    destruct (nextUnitOfWork s) as [a|] eqn:Hn; try done.
  - injection H as <-. exists s. split; [done|]. by apply workUnits_none.
  - destruct yield.
    { exists s. split; [done|]. by rewrite (workUnits_calls _ _ _ 0 calls). }
    destruct (performUnitOfWork C fuel a s) as [[next s1]|] eqn:Hunit; [|done].
    destruct (IH _ _ _ H deadline (S calls') (deadline calls' <? 1)%Z)
      as (s2 & Hrun & Hrest).
    exists s2. split; [done|]. by apply workUnits_more.
  - injection H as <-. exists s. split; [done|]. by apply workUnits_none.
Qed.

Lemma workLoop_none C fuel deadline s :
  nextUnitOfWork s = None -> wipRoot s = None ->
  workLoop C fuel deadline s = Ok (tt, s).
Proof.
  intros Hn Hw. unfold workLoop.
  erewrite bind_ok; [|by apply workUnits_none].
  unfold bind, gets. by rewrite Hn, Hw.
Qed.

Lemma commitRoot_roots fuel s u s' :
  commitRoot fuel s = Ok (u, s') ->
  wipRoot s' = None /\ nextUnitOfWork s' = nextUnitOfWork s.
Proof.
  intros H. apply commitRoot_inv in H
    as (ds & root & f & mid & removals & rest & _ & _ & _ & _ & _ & _ & ->).
  done.
Qed.

Lemma workLoop_resume C fuel s s' deadline :
  workLoop C fuel unhurried s = Ok (tt, s') ->
  exists s1,
    workLoop C fuel deadline s = Ok (tt, s1) /\
    workLoop C fuel unhurried s1 = Ok (tt, s').
Proof.
  unfold workLoop at 1. intros H.
  apply bind_inv in H as ([] & su & Hu & H).
  pose proof (workUnits_finished _ _ _ _ _ _ Hu) as Hdone.
  destruct (workUnits_resume _ _ _ _ _ _ Hu deadline 0 false)
    as (s1 & Hrun & Hrest).
  unfold bind at 1, gets in H. unfold bind at 1, gets in H. rewrite Hdone in H.
  destruct (nextUnitOfWork s1) as [a|] eqn:Hn1.
  - exists s1. split.
    + unfold workLoop. erewrite bind_ok; [|exact Hrun].
      unfold bind, gets. by rewrite Hn1.
    + unfold workLoop. erewrite bind_ok; [|exact Hrest].
      unfold bind at 1, gets. unfold bind at 1, gets. by rewrite Hdone.
  - rewrite workUnits_none in Hrest by done. injection Hrest as ->.
    exists s'. split.
    + unfold workLoop. erewrite bind_ok; [|exact Hrun].
      unfold bind at 1, gets. unfold bind at 1, gets. by rewrite Hdone.
    + apply workLoop_none.
      * destruct (wipRoot su); [|by injection H as <-].
        apply commitRoot_roots in H as [_ ->]. done.
      * destruct (wipRoot su) eqn:Hw; [|by injection H as <-].
        by apply commitRoot_roots in H as [-> _].
Qed.

(** X6.  Slicing the idle time does not change the outcome.  If one
    tick of the work loop that is never asked to yield takes a store to
    [s'], render and commit included, then so do any number of ticks
    under any deadlines followed by one such tick: an interrupted pass
    is resumed where it stopped and committed once. *)
Theorem workLoop_sliced C (fuel : nat) (s s' : engine)
    (ticks : list (nat -> Z))
    (H : workLoop C fuel unhurried s = Ok (tt, s')) :
  (forEach (workLoop C fuel) ticks ;; workLoop C fuel unhurried) s
  = Ok (tt, s').
Proof.
  revert s H. induction ticks as [|deadline ticks IH]; intros s H.
  - cbn [forEach]. by erewrite bind_ok; [|reflexivity].
  - destruct (workLoop_resume C fuel s s' deadline H) as (s1 & H1 & Hrest).
    cbn [forEach]. erewrite bind_assoc, bind_ok; [|exact H1].
    by apply IH.
Qed.

Lemma workLoop_sliced_witness :
  (forEach (workLoop (counterApp (VNum 1)) 20) [hurried; hurried; unhurried] ;;
   workLoop (counterApp (VNum 1)) 20 unhurried)
    (storeOf (exec (render element container) (initial 1)))
  = Ok (tt, mountedStore).
Proof.
  apply (workLoop_sliced (counterApp (VNum 1)) 20
           (storeOf (exec (render element container) (initial 1)))
           mountedStore [hurried; hurried; unhurried]).
  vm_compute. reflexivity.
Defined.

(** X7.  A tick that leaves no unit of work has committed what there
    was to commit, and later ticks, whatever their deadline, change
    nothing until [render] or a [setState] starts a pass: a tree is
    never committed twice. *)
Theorem workLoop_commits_once C (fuel fuel' : nat) (deadline deadline' : nat -> Z)
    (s s' : engine)
    (H : workLoop C fuel deadline s = Ok (tt, s'))
    (Hnone : nextUnitOfWork s' = None) :
  wipRoot s' = None /\ workLoop C fuel' deadline' s' = Ok (tt, s').
Proof.
  assert (Hw : wipRoot s' = None).
  { unfold workLoop in H. apply bind_inv in H as ([] & su & _ & H).
    unfold bind at 1, gets in H. unfold bind at 1, gets in H.
    destruct (nextUnitOfWork su) eqn:Hn, (wipRoot su) eqn:Hwu;
      try (injection H as <-; congruence).
    by apply commitRoot_roots in H as [-> _]. }
  split; [done|]. by apply workLoop_none.
Qed.

Lemma workLoop_commits_once_witness :
  wipRoot mountedStore = None /\
  workLoop noApp 3 hurried mountedStore = Ok (tt, mountedStore).
Proof.
  apply (workLoop_commits_once (counterApp (VNum 1)) 20 3 unhurried hurried
           (storeOf (exec (render element container) (initial 1)))
           mountedStore).
  - vm_compute. reflexivity.
  - reflexivity.
Defined.

(** ** What [updateDom] does to its node *)

Lemma lookup_field_keys k fs : k ∈ keys fs <-> is_Some (lookup_field k fs).
Proof.
  induction fs as [|[k0 v0] fs IH]; simpl.
  - split; [by intros ?%elem_of_nil|by intros [? ?]].
  - rewrite elem_of_cons. destruct (String.eqb_spec k0 k) as [->|Hne].
    + split; [by eauto|by left].
    + rewrite IH. split; [by intros [?|?]; [congruence|]|by right].
Qed.

Lemma filterKeys_spec p : forall l r,
  filterKeys p l = Some r -> forall k, k ∈ r <-> k ∈ l /\ p k = Some true.
Proof.
  induction l as [|k0 l IH]; intros r H k; simpl in H.
  - injection H as <-. split; [by intros ?%elem_of_nil|by intros [?%elem_of_nil _]].
  - destruct (p k0) as [b|] eqn:Hp; [|done].
    destruct (filterKeys p l) as [r'|]; [|done]. injection H as <-.
    specialize (IH r' eq_refl k). destruct b.
    + rewrite !elem_of_cons, IH. split.
      * intros [->|[? ?]]; eauto.
      * intros [[->|?] ?]; eauto.
    + rewrite elem_of_cons, IH. split.
      * intros [? ?]; eauto.
      * intros [[->|?] ?]; [congruence|eauto].
Qed.

Lemma filterKeys_none p l :
  (forall k, k ∈ l -> p k = Some false) -> filterKeys p l = Some [].
Proof.
  induction l as [|k0 l IH]; intros H; simpl; [done|].
  rewrite (H k0) by left. rewrite IH; [done|]. intros k Hk. apply H. by right.
Qed.

Lemma filterKeys_total p l :
  (forall k, k ∈ l -> is_Some (p k)) -> is_Some (filterKeys p l).
Proof.
  induction l as [|k0 l IH]; intros H; simpl; [by eexists|].
  destruct (H k0) as [b ->]; [by left|].
  destruct IH as [r ->]; [|by eexists]. intros k Hk. apply H. by right.
Qed.

Lemma callsFor_spec f : forall l r,
  callsFor f l = Some r ->
  forall c, c ∈ r <-> exists k, k ∈ l /\ f k = Some c.
Proof.
  induction l as [|k0 l IH]; intros r H c; simpl in H.
  - injection H as <-. split; [by intros ?%elem_of_nil|].
    by intros (k & ?%elem_of_nil & _).
  - destruct (f k0) as [c0|] eqn:Hf; [|done].
    destruct (callsFor f l) as [r'|]; [|done]. injection H as <-.
    rewrite elem_of_cons, (IH r' eq_refl c). split.
    + intros [->|(k & ? & ?)]; [exists k0|exists k]; split; try done;
        by (left || right).
    + intros (k & [->|?]%elem_of_cons & Hk); [left; congruence|right; eauto].
Qed.

Lemma callsFor_total f l :
  (forall k, k ∈ l -> is_Some (f k)) -> is_Some (callsFor f l).
Proof.
  induction l as [|k0 l IH]; intros H; simpl; [by eexists|].
  destruct (H k0) as [b ->]; [by left|].
  destruct IH as [r ->]; [|by eexists]. intros k Hk. apply H. by right.
Qed.

Lemma isEvent_not_children k : isEvent k = true -> k <> "children".
Proof. by intros H ->. Qed.

Lemma isProperty_not_children k : isProperty k = true -> k <> "children".
Proof. by intros H ->. Qed.

Lemma isProperty_not_event k : isProperty k = true -> isEvent k = false.
Proof.
  unfold isProperty. intros [_ H]%andb_prop. by apply negb_true_iff in H.
Qed.

(** Two records that agree outside [children], on values that are
    identical to themselves, give [updateDom] nothing to do. *)
Lemma updateDomCalls_agree (prev next : list (string * value)) :
  (forall k, k <> "children" -> lookup_field k prev = lookup_field k next) ->
  (forall k v, k <> "children" -> lookup_field k next = Some v ->
               strictEq v v = Some true) ->
  updateDomCalls prev next = Some [].
Proof.
  intros Hagree Hself.
  assert (Hold : forall k, k <> "children" -> k ∈ keys prev \/ k ∈ keys next ->
            hasProperty k next = true /\ isNew prev next k = Some false).
  { intros k Hk Hin.
    assert (Hn : is_Some (lookup_field k next)).
    { destruct Hin as [Hin|Hin]; apply lookup_field_keys in Hin; [|done].
      by rewrite <- Hagree. }
    destruct Hn as [v Hv]. unfold hasProperty, isNew, readProperty.
    rewrite (Hagree k Hk), Hv. split; [done|]. by rewrite (Hself k v). }
  unfold updateDomCalls, removals, settings, additions, clearings.
  rewrite (filterKeys_none _ (filter isEvent (keys prev))); cycle 1.
  { intros k [Hev Hk]%list_elem_of_filter.
    apply Is_true_true, isEvent_not_children in Hev.
    destruct (Hold k Hev (or_introl Hk)) as [-> ->]. done. }
  rewrite (filterKeys_none _ (filter isProperty (keys next))); cycle 1.
  { intros k [Hp Hk]%list_elem_of_filter.
    apply Is_true_true, isProperty_not_children in Hp.
    by destruct (Hold k Hp (or_intror Hk)) as [_ ->]. }
  rewrite (filterKeys_none _ (filter isEvent (keys next))); cycle 1.
  { intros k [Hev Hk]%list_elem_of_filter.
    apply Is_true_true, isEvent_not_children in Hev.
    by destruct (Hold k Hev (or_intror Hk)) as [_ ->]. }
  cbn [callsFor app].
  replace (filter (isGone next) (filter isProperty (keys prev))) with (@nil string);
    [done|].
  symmetry. apply elem_of_nil_inv. intros k.
  intros [Hgone [Hp Hk]%list_elem_of_filter]%list_elem_of_filter.
  apply Is_true_true, isProperty_not_children in Hp.
  destruct (Hold k Hp (or_introl Hk)) as [Hhas _].
  unfold isGone in Hgone. rewrite Hhas in Hgone. done.
Qed.

(** X8.  Attributes that have not changed cost nothing: when the two
    records agree on every property other than [children] and the
    values are primitives or functions the application names (values
    that are identical to themselves for [!==]), [updateDom] makes no
    call at all on the node, whatever the two [children] lists are. *)
Theorem updateDom_unchanged (prev next : list (string * value))
    (Hagree : forall k, k <> "children" ->
                lookup_field k prev = lookup_field k next)
    (Hself : forall k v, k <> "children" -> lookup_field k next = Some v ->
               strictEq v v = Some true) :
  updateDomCalls prev next = Some [].
Proof. by apply updateDomCalls_agree. Qed.

Lemma updateDom_unchanged_witness :
  updateDomCalls
    [("id", VStr "app"); ("tabIndex", VNum 0); ("children", VArr [VNull])]
    [("tabIndex", VNum 0); ("id", VStr "app"); ("children", VArr [])]
  = Some [].
Proof.
  apply updateDom_unchanged.
  - intros k Hk. cbn [lookup_field].
    destruct (String.eqb_spec "id" k) as [<-|_]; [reflexivity|].
    destruct (String.eqb_spec "tabIndex" k) as [<-|_]; [reflexivity|].
    destruct (String.eqb_spec "children" k) as [<-|_]; [done|reflexivity].
  - intros k v Hk. cbn [lookup_field].
    destruct (String.eqb_spec "tabIndex" k) as [<-|_]; [by intros [= <-]|].
    destruct (String.eqb_spec "id" k) as [<-|_]; [by intros [= <-]|].
    destruct (String.eqb_spec "children" k) as [<-|_]; done.
Defined.

Lemma updateDomCalls_inv prev next calls :
  updateDomCalls prev next = Some calls ->
  exists removed set added,
    removals prev next = Some removed /\ settings prev next = Some set /\
    additions prev next = Some added /\
    calls = removed ++ clearings prev next ++ set ++ added.
Proof.
  unfold updateDomCalls. intros H.
  destruct (removals prev next) as [removed|]; [|done].
  destruct (settings prev next) as [set|]; [|done].
  destruct (additions prev next) as [added|]; [|done].
  injection H as <-. by exists removed, set, added.
Qed.

Lemma readProperty_own k fs v :
  lookup_field k fs = Some v -> readProperty k fs = Some v.
Proof. unfold readProperty. by intros ->. Qed.

Lemma removals_spec prev next removed :
  removals prev next = Some removed ->
  forall c, c ∈ removed <->
    exists k t h, c = RemoveEventListener t h /\ isEvent k = true /\
      eventTypeOf k = Some t /\ lookup_field k prev = Some h /\
      (hasProperty k next = false \/ isNew prev next k = Some true).
Proof.
  unfold removals. intros H c.
  destruct (filterKeys _ _) as [names|] eqn:Hnames; [|done].
  rewrite (callsFor_spec _ _ _ H c). split.
  - intros (k & Hk & Hc).
    apply (filterKeys_spec _ _ _ Hnames) in Hk as [Hin Hp].
    apply list_elem_of_filter in Hin as [Hev [h Hh]%lookup_field_keys].
    rewrite (readProperty_own _ _ _ Hh) in Hc.
    destruct (eventTypeOf k) as [t|] eqn:Ht; [|done]. injection Hc as <-.
    exists k, t, h. repeat split; try done; [by apply Is_true_true|].
    destruct (hasProperty k next); [by right|by left].
  - intros (k & t & h & -> & Hev & Ht & Hh & Hor). exists k. split.
    + apply (filterKeys_spec _ _ _ Hnames). split.
      * apply list_elem_of_filter. split; [by apply Is_true_true|].
        apply lookup_field_keys. by eexists.
      * destruct (hasProperty k next); [|done]. by destruct Hor.
    + by rewrite Ht, (readProperty_own _ _ _ Hh).
Qed.

Lemma clearings_spec prev next c :
  c ∈ clearings prev next <->
  exists k, c = SetProperty k (VStr "") /\ isProperty k = true /\
            is_Some (lookup_field k prev) /\ hasProperty k next = false.
Proof.
  unfold clearings. rewrite list_elem_of_fmap. split.
  - intros (k & -> & [Hgone [Hp Hk]%list_elem_of_filter]%list_elem_of_filter).
    exists k. repeat split; [by apply Is_true_true|by apply lookup_field_keys|].
    unfold isGone in Hgone. by destruct (hasProperty k next).
  - intros (k & -> & Hp & Hk & Hgone). exists k. split; [done|].
    apply list_elem_of_filter. split; [unfold isGone; by rewrite Hgone|].
    apply list_elem_of_filter. split; [by apply Is_true_true|].
    by apply lookup_field_keys.
Qed.

Lemma settings_spec prev next set :
  settings prev next = Some set ->
  forall c, c ∈ set <->
    exists k v, c = SetProperty k v /\ isProperty k = true /\
      lookup_field k next = Some v /\ isNew prev next k = Some true.
Proof.
  unfold settings. intros H c.
  destruct (filterKeys _ _) as [names|] eqn:Hnames; [|done].
  rewrite (callsFor_spec _ _ _ H c). split.
  - intros (k & Hk & Hc).
    apply (filterKeys_spec _ _ _ Hnames) in Hk as [Hin Hp].
    apply list_elem_of_filter in Hin as [Hev [v Hv]%lookup_field_keys].
    rewrite (readProperty_own _ _ _ Hv) in Hc. injection Hc as <-.
    exists k, v. repeat split; try done. by apply Is_true_true.
  - intros (k & v & -> & Hp & Hv & Hnew). exists k. split.
    + apply (filterKeys_spec _ _ _ Hnames). split; [|done].
      apply list_elem_of_filter. split; [by apply Is_true_true|].
      apply lookup_field_keys. by eexists.
    + by rewrite (readProperty_own _ _ _ Hv).
Qed.

Lemma additions_spec prev next added :
  additions prev next = Some added ->
  forall c, c ∈ added <->
    exists k t h, c = AddEventListener t h /\ isEvent k = true /\
      eventTypeOf k = Some t /\ lookup_field k next = Some h /\
      isNew prev next k = Some true.
Proof.
  unfold additions. intros H c.
  destruct (filterKeys _ _) as [names|] eqn:Hnames; [|done].
  rewrite (callsFor_spec _ _ _ H c). split.
  - intros (k & Hk & Hc).
    apply (filterKeys_spec _ _ _ Hnames) in Hk as [Hin Hp].
    apply list_elem_of_filter in Hin as [Hev [h Hh]%lookup_field_keys].
    rewrite (readProperty_own _ _ _ Hh) in Hc.
    destruct (eventTypeOf k) as [t|] eqn:Ht; [|done]. injection Hc as <-.
    exists k, t, h. repeat split; try done. by apply Is_true_true.
  - intros (k & t & h & -> & Hev & Ht & Hh & Hnew). exists k. split.
    + apply (filterKeys_spec _ _ _ Hnames). split; [|done].
      apply list_elem_of_filter. split; [by apply Is_true_true|].
      apply lookup_field_keys. by eexists.
    + by rewrite Ht, (readProperty_own _ _ _ Hh).
Qed.

(** X9.  Which properties [updateDom] writes.  A property [k] of the
    node is set to [v] exactly when [k] is neither [children] nor an
    [on...] name and either the old record has [k], the new one (with
    what it inherits) has not, and [v] is the empty string; or the new
    record holds [v] under [k] and the old record holds something else.
    So [children] and handlers are never written as properties, and a
    property that has gone is blanked, not deleted. *)
Theorem updateDom_properties (prev next : list (string * value))
    (calls : list node_call) (k : string) (v : value)
    (H : updateDomCalls prev next = Some calls) :
  In (SetProperty k v) calls <->
  isProperty k = true /\
  ((is_Some (lookup_field k prev) /\ hasProperty k next = false /\
    v = VStr "") \/
   (lookup_field k next = Some v /\ isNew prev next k = Some true)).
Proof.
  apply updateDomCalls_inv in H
    as (removed & set & added & Hr & Hs & Ha & ->).
  rewrite <- list_elem_of_In, !elem_of_app.
  rewrite (removals_spec _ _ _ Hr), clearings_spec, (settings_spec _ _ _ Hs),
    (additions_spec _ _ _ Ha).
  split.
  - intros [(? & ? & ? & ? & _)|[(k' & [= <- <-] & ? & ? & ?)|
            [(k' & v' & [= <- <-] & ? & ? & ?)|(? & ? & ? & ? & _)]]];
      try done; split; auto.
  - intros [Hp [(? & ? & ->)|[? ?]]].
    + right; left. by exists k.
    + right; right; left. by exists k, v.
Qed.

Lemma updateDom_properties_witness :
  In (SetProperty "title" (VStr ""))
     [RemoveEventListener "click" (VFun (FNamed "f"));
      SetProperty "title" (VStr ""); SetProperty "id" (VStr "b")] <->
  isProperty "title" = true /\
  ((is_Some (lookup_field "title"
               [("onClick", VFun (FNamed "f")); ("id", VStr "a");
                ("title", VStr "t")]) /\
    hasProperty "title" [("id", VStr "b"); ("children", VArr [])] = false /\
    VStr "" = VStr "") \/
   (lookup_field "title" [("id", VStr "b"); ("children", VArr [])]
      = Some (VStr "") /\
    isNew [("onClick", VFun (FNamed "f")); ("id", VStr "a"); ("title", VStr "t")]
      [("id", VStr "b"); ("children", VArr [])] "title" = Some true)).
Proof.
  apply (updateDom_properties
           [("onClick", VFun (FNamed "f")); ("id", VStr "a"); ("title", VStr "t")]
           [("id", VStr "b"); ("children", VArr [])]).
  vm_compute. reflexivity.
Defined.

(** X10.  Which listeners [updateDom] removes and adds.  The handler
    [h] is removed, under the event type of its [on...] name (the name
    in lower case without its first two letters), exactly when the old
    record holds it under that name and the new record has not the name
    or holds something else under it; [h] is added exactly when the new
    record holds it under an [on...] name and the old record holds
    something else or nothing.  All removals come first: a handler that
    changed is taken off the node before anything else is done to it. *)
Theorem updateDom_listeners (prev next : list (string * value))
    (calls : list node_call)
    (H : updateDomCalls prev next = Some calls) :
  (forall t h,
     In (RemoveEventListener t h) calls <->
     exists k, isEvent k = true /\ eventTypeOf k = Some t /\
               lookup_field k prev = Some h /\
               (hasProperty k next = false \/ isNew prev next k = Some true)) /\
  (forall t h,
     In (AddEventListener t h) calls <->
     exists k, isEvent k = true /\ eventTypeOf k = Some t /\
               lookup_field k next = Some h /\
               isNew prev next k = Some true) /\
  (exists removed rest,
     calls = removed ++ rest /\
     (forall c, In c removed -> exists t h, c = RemoveEventListener t h) /\
     (forall t h, ~ In (RemoveEventListener t h) rest)).
Proof.
  apply updateDomCalls_inv in H
    as (removed & set & added & Hr & Hs & Ha & ->).
  split; [|split].
  - intros t h. rewrite <- list_elem_of_In, !elem_of_app.
    rewrite (removals_spec _ _ _ Hr), clearings_spec, (settings_spec _ _ _ Hs),
      (additions_spec _ _ _ Ha).
    split.
    + intros [(k & t' & h' & [= <- <-] & ? & ? & ? & ?)|[(? & ? & _)|
              [(? & ? & ? & _)|(? & ? & ? & ? & _)]]]; try done.
      by exists k.
    + intros (k & ? & ? & ? & ?). left. by exists k, t, h.
  - intros t h. rewrite <- list_elem_of_In, !elem_of_app.
    rewrite (removals_spec _ _ _ Hr), clearings_spec, (settings_spec _ _ _ Hs),
      (additions_spec _ _ _ Ha).
    split.
    + intros [(? & ? & ? & ? & _)|[(? & ? & _)|
              [(? & ? & ? & _)|(k & t' & h' & [= <- <-] & ? & ? & ? & ?)]]];
        try done.
      by exists k.
    + intros (k & ? & ? & ? & ?). right; right; right. by exists k, t, h.
  - exists removed, (clearings prev next ++ set ++ added).
    split; [done|]. split.
    + intros c Hc%list_elem_of_In.
      apply (removals_spec _ _ _ Hr) in Hc as (k & t & h & -> & _). eauto.
    + intros t h. rewrite <- list_elem_of_In, !elem_of_app.
      rewrite clearings_spec, (settings_spec _ _ _ Hs),
        (additions_spec _ _ _ Ha).
      intros [(? & ? & _)|[(? & ? & ? & _)|(? & ? & ? & ? & _)]]; done.
Qed.

Lemma updateDom_listeners_witness :
  exists removed rest,
    [RemoveEventListener "click"
       (VFun (FClosure "() => setState(c => c + 1)" [VFun (FSetState 0)]));
     AddEventListener "click"
       (VFun (FClosure "() => setState(c => c + 1)" [VFun (FSetState 1)]))]
    = removed ++ rest /\
    (forall c, In c removed -> exists t h, c = RemoveEventListener t h) /\
    (forall t h, ~ In (RemoveEventListener t h) rest).
Proof.
  apply (updateDom_listeners
           [("onClick", VFun (FClosure "() => setState(c => c + 1)"
                                [VFun (FSetState 0)]));
            ("children", VArr [])]
           [("onClick", VFun (FClosure "() => setState(c => c + 1)"
                                [VFun (FSetState 1)]));
            ("children", VArr [])]).
  vm_compute. reflexivity.
Defined.

Lemma strictEq_undefined v :
  strictEq VUndefined v = Some match v with VUndefined => true | _ => false end.
Proof. by destruct v. Qed.

Lemma isNew_fresh next k v :
  isInherited k = false -> lookup_field k next = Some v ->
  isNew [] next k = Some (negb match v with VUndefined => true | _ => false end).
Proof.
  intros Hk Hv. unfold isNew, readProperty. cbn [lookup_field].
  by rewrite Hk, Hv, strictEq_undefined.
Qed.

(** X11.  What [createDom] puts on a new node.  Against the empty
    record, [updateDom] removes nothing and blanks nothing: it sets
    every property of the record whose value is not [undefined], except
    [children] and the [on...] names, and adds every handler whose
    value is not [undefined] under the event type of its name.  (The
    names are taken not to be among those that every record inherits,
    and the handler names to be ASCII.) *)
Theorem updateDom_creation (next : list (string * value))
    (Hplain : forall k, In k (keys next) -> isInherited k = false)
    (Hascii : forall k, In k (keys next) -> isEvent k = true ->
                is_Some (eventTypeOf k)) :
  exists calls,
    updateDomCalls [] next = Some calls /\
    forall c, In c calls <->
      exists k v, lookup_field k next = Some v /\ v <> VUndefined /\
        ((isProperty k = true /\ c = SetProperty k v) \/
         (isEvent k = true /\
          exists t, eventTypeOf k = Some t /\ c = AddEventListener t v)).
Proof.
  assert (Hnew : forall k, k ∈ keys next -> is_Some (isNew [] next k)).
  { intros k Hk. pose proof Hk as [v Hv]%lookup_field_keys.
    rewrite (isNew_fresh next k v); [by eexists| |done].
    by apply Hplain, list_elem_of_In. }
  destruct (filterKeys_total (isNew [] next) (filter isProperty (keys next)))
    as [ps Hps]; [by intros k [_ Hk]%list_elem_of_filter; apply Hnew|].
  destruct (filterKeys_total (isNew [] next) (filter isEvent (keys next)))
    as [es Hes]; [by intros k [_ Hk]%list_elem_of_filter; apply Hnew|].
  destruct (callsFor_total
              (fun name => option_map (SetProperty name) (readProperty name next))
              ps) as [set Hset].
  { intros k [[_ Hk]%list_elem_of_filter _]%(filterKeys_spec _ _ _ Hps).
    apply lookup_field_keys in Hk as [v Hv].
    rewrite (readProperty_own _ _ _ Hv). by eexists. }
  destruct (callsFor_total
              (fun name =>
                 match eventTypeOf name, readProperty name next with
                 | Some t, Some v => Some (AddEventListener t v)
                 | _, _ => None
                 end) es) as [added Hadded].
  { intros k [[Hev Hk]%list_elem_of_filter _]%(filterKeys_spec _ _ _ Hes).
    destruct (Hascii k) as [t ->];
      [by apply list_elem_of_In|by apply Is_true_true|].
    apply lookup_field_keys in Hk as [v Hv].
    rewrite (readProperty_own _ _ _ Hv). by eexists. }
  assert (Hs : settings [] next = Some set).
  { unfold settings. by rewrite Hps. }
  assert (Ha : additions [] next = Some added).
  { unfold additions. by rewrite Hes. }
  exists (set ++ added). split.
  { unfold updateDomCalls. by rewrite Hs, Ha. }
  intros c. rewrite <- list_elem_of_In, elem_of_app.
  rewrite (settings_spec _ _ _ Hs), (additions_spec _ _ _ Ha).
  assert (Hiff : forall k v, lookup_field k next = Some v ->
            isNew [] next k = Some true <-> v <> VUndefined).
  { intros k v Hv. rewrite (isNew_fresh next k v); [| |done].
    - destruct v; split; intros; simplify_eq; done.
    - apply Hplain, list_elem_of_In, lookup_field_keys. by eexists. }
  split.
  - intros [(k & v & -> & Hp & Hv & Hn)|(k & t & h & -> & Hev & Ht & Hh & Hn)].
    + exists k, v. split; [done|]. split; [by apply (Hiff k v)|]. by left.
    + exists k, h. split; [done|]. split; [by apply (Hiff k h)|].
      right. split; [done|]. by exists t.
  - intros (k & v & Hv & Hdef & [[Hp ->]|[Hev (t & Ht & ->)]]).
    + left. exists k, v. repeat split; try done. by apply (Hiff k v).
    + right. exists k, t, v. repeat split; try done. by apply (Hiff k v).
Qed.

Lemma updateDom_creation_witness :
  exists calls,
    updateDomCalls []
      [("onClick", VFun (FNamed "f")); ("id", VStr "a");
       ("title", VUndefined); ("children", VArr [])] = Some calls /\
    forall c, In c calls <->
      exists k v,
        lookup_field k [("onClick", VFun (FNamed "f")); ("id", VStr "a");
                        ("title", VUndefined); ("children", VArr [])] = Some v /\
        v <> VUndefined /\
        ((isProperty k = true /\ c = SetProperty k v) \/
         (isEvent k = true /\
          exists t, eventTypeOf k = Some t /\ c = AddEventListener t v)).
Proof.
  apply (updateDom_creation
           [("onClick", VFun (FNamed "f")); ("id", VStr "a");
            ("title", VUndefined); ("children", VArr [])]).
  - intros k [<-|[<-|[<-|[<-|[]]]]]; reflexivity.
  - intros k [<-|[<-|[<-|[<-|[]]]]]; intros; try done; by eexists.
Defined.

(** ** What the render phase leaves alone *)

Lemma set_hooks_set_hooks h h' f : set_hooks h' (set_hooks h f) = set_hooks h' f.
Proof. done. Qed.

Lemma set_hooks_same f : set_hooks (hooks f) f = f.
Proof. by destruct f. Qed.

Lemma with_hooked_same s :
  with_hookIndex (hookIndex s) (with_fibers (fibers s) (with_cells (cells s) s)) = s.
Proof. by destruct s. Qed.

Lemma hooked_refl w wf s : fibers s !! w = Some wf -> hooked w s s.
Proof.
  intros Hw. exists wf, (hooks wf), [], (hookIndex s). split; [done|].
  rewrite set_hooks_same, list_insert_id, app_nil_r by done.
  by rewrite with_hooked_same.
Qed.

Lemma hooked_trans w s1 s2 s3 : hooked w s1 s2 -> hooked w s2 s3 -> hooked w s1 s3.
Proof.
  intros (wf & hs & extra & i & Hw & ->) (wf' & hs' & extra' & i' & Hw' & ->).
  cbn in Hw'. rewrite list_lookup_insert_eq in Hw' by (by eapply lookup_lt_Some).
  injection Hw' as <-.
  exists wf, hs', (extra ++ extra'), i'. split; [done|]. cbn.
  by rewrite list_insert_insert_eq, app_assoc.
Qed.

Lemma useState_hooked initial s r s' w :
  wipFiber s = Some w -> useState initial s = Ok (r, s') ->
  hooked w s s' /\ wipFiber s' = Some w.
Proof.
  intros Hw H. unfold useState in H.
  apply bind_inv in H as (wf & s1 & [= <- <-] & H). rewrite Hw in H.
  apply bind_inv in H as (w' & s1 & [= <- <-] & H).
  apply bind_inv in H as (wfiber & s1 & [-> Hwf]%readFiber_inv & H).
  apply bind_inv in H as (oldHook & s1 & ->%oldHookOf_pure & H).
  apply bind_inv in H as (old & s1 & Hold & H).
  assert (s1 = s) as ->.
  { destruct oldHook; [|by injection Hold as _ <-].
    by apply bind_inv in Hold as (c & sa & [-> _]%readHook_inv & [= _ <-]). }
  apply bind_inv in H as (h & s1 & [= <- <-] & H).
  set (c0 := {| state := match old with Some c => state c | None => initial end;
                queue := [] |}) in *.
  apply bind_inv in H as ([] & s2 & Hloop & H).
  rewrite (forEach_applyAction _ _ _ c0) in Hloop; cycle 1.
  { cbn. by rewrite lookup_app_r, Nat.sub_diag. }
  injection Hloop as <-.
  apply bind_inv in H as (wfiber' & s3 & [-> Hwf']%readFiber_inv & H).
  cbn in Hwf'. rewrite Hwf in Hwf'. injection Hwf' as <-.
  destruct (hooks wfiber) as [hs|]; [|done].
  apply bind_inv in H as ([] & s3 & (f & Hf & ->)%updateFiber_inv & H).
  cbn in Hf. rewrite Hwf in Hf. injection Hf as <-.
  apply bind_inv in H as (i & s4 & [= <- <-] & H).
  apply bind_inv in H as ([] & s4 & [= <-] & H).
  apply bind_inv in H as (c & s5 & [-> _]%readHook_inv & [= _ <-]).
  split; [|done].
  eexists wfiber, _, _, _. split; [done|]. cbn.
  rewrite insert_app_r_alt, Nat.sub_diag by done. cbn [insert list_insert].
  reflexivity.
Qed.

Lemma hooked_wipFiber w s s' : hooked w s s' -> wipFiber s' = wipFiber s.
Proof. by intros (wf & hs & extra & i & _ & ->). Qed.

Lemma runProg_hooked p : forall s v s' w wf,
  wipFiber s = Some w -> fibers s !! w = Some wf ->
  runProg p s = Ok (v, s') -> hooked w s s'.
Proof.
  induction p as [e|initial k IH]; intros s v s' w wf Hw Hwf H;
    cbn [runProg] in H.
  - injection H as _ <-. by eapply hooked_refl.
  - apply bind_inv in H as (r & s1 & Hu & H).
    destruct (useState_hooked _ _ _ _ _ Hw Hu) as [Hh Hw1].
    eapply hooked_trans; [exact Hh|].
    destruct Hh as (wf0 & hs & extra & i & Hwf0 & ->).
    eapply (IH _ _ _ _ _ _ _ Hw1); [|exact H].
    cbn. apply list_lookup_insert_eq. by eapply lookup_lt_Some.
Qed.

Lemma hooked_spares base w s s' : hooked w s s' -> spares base w s s'.
Proof.
  intros (wf & hs & extra & i & Hwf & ->).
  split; [cbn; by rewrite length_insert|]. cbn.
  split; [|split; [|split; [done|by eauto]]].
  - intros l f _ Hl Hlf. left. by rewrite list_lookup_insert_ne.
  - intros h c Hc. by apply lookup_app_l_Some.
Qed.

Lemma rewired_refl s : rewired s s.
Proof. by destruct s. Qed.

Lemma rewired_trans s1 s2 s3 : rewired s1 s2 -> rewired s2 s3 -> rewired s1 s3.
Proof. unfold rewired. intros -> ->. done. Qed.

Lemma rewired_fibers X s : rewired s (with_fibers X s).
Proof. by destruct s. Qed.

Lemma updateFiber_rewired l g s u s' :
  updateFiber l g s = Ok (u, s') -> rewired s s'.
Proof. intros (f & _ & ->)%updateFiber_inv. apply rewired_fibers. Qed.

Lemma newFiber_inv f s n s' :
  newFiber f s = Ok (n, s') ->
  n = length (fibers s) /\ s' = with_fibers (fibers s ++ [f]) s.
Proof. by intros [= <- <-]. Qed.

Lemma pushDeletion_inv o s u s' :
  pushDeletion o s = Ok (u, s') ->
  exists ds, deletions s = Some ds /\ s' = with_deletions (Some (ds ++ [o])) s.
Proof.
  unfold pushDeletion. intros H.
  apply bind_inv in H as (d & s1 & [= <- <-] & H).
  destruct (deletions s) as [ds|]; [|done]. injection H as <-. by exists ds.
Qed.

Lemma fresh_links_insert base w X l f g :
  X !! l = Some f ->
  (base <= l -> parent g = parent f /\ child g = child f /\
                (sibling g = sibling f \/ above base (sibling g))) ->
  fresh_links base w X -> fresh_links base w (<[l := g]> X).
Proof.
  intros Hl Hg HQ l' f' Hb Hl'.
  destruct (decide (l' = l)) as [->|Hne].
  - rewrite list_lookup_insert_eq in Hl' by (by eapply lookup_lt_Some).
    injection Hl' as <-. destruct (HQ l f Hb Hl) as (Hp & Hc & Hs).
    destruct (Hg Hb) as (-> & -> & [->|?]); done.
  - rewrite list_lookup_insert_ne in Hl' by done. exact (HQ _ _ Hb Hl').
Qed.

Lemma fresh_links_app base w X f :
  parent f = Some w -> child f = None -> sibling f = None ->
  fresh_links base w X -> fresh_links base w (X ++ [f]).
Proof.
  intros Hp Hc Hs HQ l f' Hb Hl.
  apply lookup_app_Some in Hl as [Hl|[_ Hl]]; [exact (HQ _ _ Hb Hl)|].
  destruct (l - length X) as [|k]; [|by destruct k].
  injection Hl as <-. by rewrite Hp, Hc, Hs.
Qed.

Lemma kept_links_insert base w fw X l g :
  (l = w -> forall f, X !! w = Some f ->
     parent g = parent f /\ sibling g = sibling f /\
     (child g = child f \/ above base (child g))) ->
  l < length X ->
  kept_links base w fw X -> kept_links base w fw (<[l := g]> X).
Proof.
  intros Hg Hl (fw' & Hw & Hp & Hs & Hc).
  destruct (decide (l = w)) as [->|Hne].
  - exists g. rewrite list_lookup_insert_eq by done.
    destruct (Hg eq_refl fw' Hw) as (-> & -> & Hc'). repeat split; try done.
    destruct Hc' as [->|?]; [done|by right].
  - exists fw'. by rewrite list_lookup_insert_ne.
Qed.

Lemma kept_links_app base w fw X f :
  kept_links base w fw X -> kept_links base w fw (X ++ [f]).
Proof.
  intros (fw' & Hw & ?). exists fw'. split; [|done]. by apply lookup_app_l_Some.
Qed.

(** The loop of the reconciler only rewires: it changes fibers and the
    deletions list, makes children for [w], and leaves [w] its parent
    and its sibling. *)
Lemma reconcileLoop_links base w fw fuel : forall E j q prev s u s',
  reconcileLoop fuel w E j q prev s = Ok (u, s') ->
  w < base -> base <= length (fibers s) ->
  (forall p, prev = Some p -> base <= p) ->
  fresh_links base w (fibers s) -> kept_links base w fw (fibers s) ->
  rewired s s' /\ fresh_links base w (fibers s') /\
  kept_links base w fw (fibers s').
Proof.
  induction fuel as [|fuel IH]; intros E j q prev s u s' H Hw Hbase Hprev HQ HW;
    cbn [reconcileLoop] in H;
    destruct ((j <? length E)%nat || bool_decide (is_Some q));
    try done; try (injection H as _ <-; split; [apply rewired_refl|done]).
  apply bind_inv in H as (same & s1 & ->%sameTypeOf_pure & H).
  apply bind_inv in H as (updated & s2 & Hupd & H).
  assert (rewired s s2 /\ length (fibers s) <= length (fibers s2) /\
          fresh_links base w (fibers s2) /\ kept_links base w fw (fibers s2) /\
          forall n, updated = Some n -> base <= n)
    as (Hr2 & Hlen2 & HQ2 & HW2 & Hn2).
  { destruct same.
    - apply bind_inv in Hupd as (o & sa & [_ ->]%deref_inv & Hupd).
      apply bind_inv in Hupd as (old & sb & [-> _]%readFiber_inv & Hupd).
      apply bind_inv in Hupd as (p & sc & ->%getField_pure & Hupd).
      apply bind_inv in Hupd as (n & sd & [-> ->]%newFiber_inv & [= <- <-]).
      cbn. split; [apply rewired_fibers|]. rewrite length_app.
      split; [lia|]. split; [by apply fresh_links_app|].
      split; [by apply kept_links_app|]. by intros ? [= <-].
    - injection Hupd as <- <-. split; [apply rewired_refl|]. done. }
  apply bind_inv in H as (new & s3 & Hnew & H).
  assert (rewired s2 s3 /\ length (fibers s2) <= length (fibers s3) /\
          fresh_links base w (fibers s3) /\ kept_links base w fw (fibers s3) /\
          forall n, new = Some n -> base <= n)
    as (Hr3 & Hlen3 & HQ3 & HW3 & Hn3).
  { destruct (truthy (nth j E VUndefined) && negb same).
    - apply bind_inv in Hnew as (t & sa & ->%getField_pure & Hnew).
      apply bind_inv in Hnew as (p & sb & ->%getField_pure & Hnew).
      apply bind_inv in Hnew as (n & sc & [-> ->]%newFiber_inv & [= <- <-]).
      cbn. split; [apply rewired_fibers|]. rewrite length_app.
      split; [lia|]. split; [by apply fresh_links_app|].
      split; [by apply kept_links_app|]. intros ? [= <-]. lia.
    - injection Hnew as <- <-. split; [apply rewired_refl|]. done. }
  apply bind_inv in H as ([] & s4 & Hmark & H).
  assert (rewired s3 s4 /\ length (fibers s4) = length (fibers s3) /\
          fresh_links base w (fibers s4) /\ kept_links base w fw (fibers s4))
    as (Hr4 & Hlen4 & HQ4 & HW4).
  { assert (Hsame : rewired s3 s3 /\ length (fibers s3) = length (fibers s3) /\
              fresh_links base w (fibers s3) /\ kept_links base w fw (fibers s3))
      by (split; [apply rewired_refl|done]).
    destruct q as [o|]; [|by injection Hmark as <-].
    destruct (negb same); [|by injection Hmark as <-].
    apply bind_inv in Hmark as ([] & sa & (f & Hf & ->)%updateFiber_inv & Hmark).
    apply pushDeletion_inv in Hmark as (ds & Hds & ->). cbn.
    split; [by destruct s3|]. split; [by rewrite length_insert|]. split.
    - eapply fresh_links_insert; [exact Hf| |done]. intros _. cbn. auto.
    - eapply kept_links_insert; [|by eapply lookup_lt_Some|done].
      intros -> f' Hf'. rewrite Hf in Hf'. injection Hf' as <-. cbn. auto. }
  apply bind_inv in H as (next & s5 & Hnext & H).
  assert (s5 = s4) as ->.
  { destruct q as [o|]; [|by injection Hnext as _ <-].
    by apply bind_inv in Hnext as (old & sa & [-> _]%readFiber_inv & [= _ <-]). }
  apply bind_inv in H as ([] & s6 & Hlink & H).
  assert (Hnew' : above base new) by (destruct new; [by apply Hn3|done]).
  assert (rewired s4 s6 /\ length (fibers s6) = length (fibers s4) /\
          fresh_links base w (fibers s6) /\ kept_links base w fw (fibers s6))
    as (Hr6 & Hlen6 & HQ6 & HW6).
  { assert (Hsame : rewired s4 s4 /\ length (fibers s4) = length (fibers s4) /\
              fresh_links base w (fibers s4) /\ kept_links base w fw (fibers s4))
      by (split; [apply rewired_refl|done]).
    destruct (j =? 0)%nat.
    - apply updateFiber_inv in Hlink as (f & Hf & ->). cbn.
      split; [apply rewired_fibers|]. split; [by rewrite length_insert|]. split.
      + eapply fresh_links_insert; [exact Hf| |done]. intros ?. lia.
      + eapply kept_links_insert; [|by eapply lookup_lt_Some|done].
        intros _ f' Hf'. rewrite Hf in Hf'. injection Hf' as <-. cbn. auto.
    - destruct (truthy (nth j E VUndefined)); [|by injection Hlink as <-].
      apply bind_inv in Hlink as (p & sa & [Hp ->]%deref_inv & Hlink).
      apply updateFiber_inv in Hlink as (f & Hf & ->). cbn.
      split; [apply rewired_fibers|]. split; [by rewrite length_insert|]. split.
      + eapply fresh_links_insert; [exact Hf| |done]. intros _. cbn. auto.
      + eapply kept_links_insert; [|by eapply lookup_lt_Some|done].
        intros -> f' Hf'. specialize (Hprev _ Hp). lia. }
  apply IH in H as (Hr & HQ' & HW'); [|done|lia|done|done|done].
  split; [|done].
  eapply rewired_trans; [exact Hr2|]. eapply rewired_trans; [exact Hr3|].
  eapply rewired_trans; [exact Hr4|]. by eapply rewired_trans.
Qed.

Lemma rewired_backend s s' :
  rewired s s' ->
  log s' = log s /\ nextNode s' = nextNode s /\ cells s' = cells s /\
  currentRoot s' = currentRoot s /\ wipRoot s' = wipRoot s.
Proof. by intros ->. Qed.

Lemma above_mono base base' p : base <= base' -> above base' p -> above base p.
Proof. destruct p; simpl; [lia|done]. Qed.

Lemma working_insert base X l f g :
  X !! l = Some f ->
  parent g = parent f -> child g = child f -> sibling g = sibling f ->
  working base X -> working base (<[l := g]> X).
Proof.
  intros Hl Hp Hc Hs HX l' f' Hb Hl'.
  destruct (decide (l' = l)) as [->|Hne].
  - rewrite list_lookup_insert_eq in Hl' by (by eapply lookup_lt_Some).
    injection Hl' as <-. rewrite Hp, Hc, Hs. exact (HX _ _ Hb Hl).
  - rewrite list_lookup_insert_ne in Hl' by done. exact (HX _ _ Hb Hl').
Qed.

Lemma reconcileChildren_working base fuel w elements s u s' :
  reconcileChildren fuel w elements s = Ok (u, s') ->
  rewired s s' /\
  (base <= w -> working base (fibers s) -> working base (fibers s')).
Proof.
  intros H. pose proof (reconcileChildren_spares _ _ _ _ _ _ H) as Hsp.
  unfold reconcileChildren in H.
  apply bind_inv in H as (fw & s1 & [-> Hw]%readFiber_inv & H).
  apply bind_inv in H as (q & s2 & Hq & H).
  assert (s2 = s) as ->.
  { destruct (alternate fw); [|by injection Hq as _ <-].
    by apply bind_inv in Hq as (alt & sa & [-> _]%readFiber_inv & [= _ <-]). }
  apply bind_inv in H as (items & s3 & ->%arrayOf_pure & H).
  pose proof (lookup_lt_Some _ _ _ Hw) as Hlt.
  apply (reconcileLoop_links (length (fibers s)) w fw) in H
    as (Hr & HQ & fw' & Hw' & Hp' & Hs' & Hc'); try done.
  - split; [done|]. intros Hbase HX l f' Hb Hl.
    destruct (decide (length (fibers s) <= l)) as [Hnew|Hold].
    { destruct (HQ l f' Hnew Hl) as (-> & -> & Hsib). repeat split; try done.
      eapply above_mono; [|exact Hsib]. lia. }
    destruct (decide (l = w)) as [->|Hne].
    { rewrite Hw' in Hl. injection Hl as <-.
      destruct (HX w fw Hb Hw) as (Hp & Hc & Hs). rewrite Hp', Hs'.
      repeat split; try done. destruct Hc' as [->|Hc']; [done|].
      eapply above_mono; [|exact Hc']. lia. }
    destruct (lookup_lt_is_Some_2 (fibers s) l) as [f Hf]; [lia|].
    destruct Hsp as (_ & Hfib & _).
    destruct (Hfib l f) as [Hsame|[Htag _]]; [lia|done|done| |].
    + rewrite Hsame in Hl. injection Hl as <-. exact (HX _ _ Hb Hf).
    + rewrite Htag in Hl. injection Hl as <-. exact (HX _ _ Hb Hf).
  - intros l f Hl Hlf. apply lookup_lt_Some in Hlf. lia.
  - exists fw. auto.
Qed.

Lemma createDom_inv f s d s' :
  createDom f s = Ok (d, s') ->
  d = nextNode s /\
  exists e, detached (nextNode s) e /\
    s' = with_backend (S (nextNode s))
           (log s ++ [e; UpdateDom (nextNode s) (VObj []) (props f)]) s.
Proof.
  unfold createDom. intros H.
  apply bind_inv in H as (b & s1 & ->%looseEq_pure & H).
  apply bind_inv in H as (n & s2 & [= <- <-] & H).
  apply bind_inv in H as ([] & s3 & [= <-] & H).
  apply bind_inv in H as ([] & s4 & [= <-] & H).
  apply bind_inv in H as ([] & s5 & ->%updateDom_emits & [= <- <-]).
  split; [done|].
  exists (if b then CreateTextNode (nextNode s)
          else CreateElementNode (type f) (nextNode s)).
  split; [by destruct b; simpl|]. cbn. by rewrite <- app_assoc.
Qed.

(** What one unit of work may have done between [s] and [s']: to the
    fibers other than [a] and to the hook cells, to the backend, and to
    the links of the tree under construction. *)
Lemma updateHostComponent_footprint fuel a s u s' :
  updateHostComponent fuel a s = Ok (u, s') ->
  spares (length (fibers s)) a s s' /\
  (exists lg, log s' = log s ++ lg /\ nextNode s <= nextNode s' /\
              Forall (detached (nextNode s)) lg) /\
  (forall base, base <= a -> working base (fibers s) ->
                working base (fibers s')).
Proof.
  unfold updateHostComponent. intros H.
  apply bind_inv in H as (f & s0 & [-> Hf]%readFiber_inv & H).
  apply bind_inv in H as ([] & s1 & Hdom & H).
  assert (spares (length (fibers s)) a s s1 /\
          length (fibers s1) = length (fibers s) /\
          (exists lg, log s1 = log s ++ lg /\ nextNode s <= nextNode s1 /\
                      Forall (detached (nextNode s)) lg) /\
          (forall base, working base (fibers s) -> working base (fibers s1)))
    as (Hsp1 & Hlen1 & Hlog1 & Hwk1).
  { destruct (dom f).
    - injection Hdom as <-. split; [apply spares_refl|]. split; [done|].
      split; [|done]. exists []. by rewrite app_nil_r.
    - apply bind_inv in Hdom as (d & sa & Hcreate & Hupd).
      pose proof (createDom_spares (length (fibers s)) a _ _ _ _ Hcreate)
        as [Hspa Hfa].
      apply createDom_inv in Hcreate as (-> & e & He & ->).
      pose proof (updateFiber_spares (length (fibers s)) a _ _ _ _ _ Hupd
                    (or_introl eq_refl)) as [Hspb Hlenb].
      apply updateFiber_inv in Hupd as (f' & Hf' & ->). cbn in *.
      rewrite Hf in Hf'. injection Hf' as <-.
      split; [eapply spares_trans; [exact Hspa|exact Hspb]|].
      split; [by rewrite length_insert|].
      split.
      + eexists. split; [done|]. split; [lia|].
        repeat constructor; simpl; done.
      + intros base HX. by eapply working_insert. }
  apply bind_inv in H as (f1 & s2 & [-> Hf1]%readFiber_inv & H).
  apply bind_inv in H as (children & s2 & ->%getField_pure & H).
  pose proof (reconcileChildren_spares _ _ _ _ _ _ H) as Hsp2.
  rewrite Hlen1 in Hsp2.
  split; [eapply spares_trans; [exact Hsp1|exact Hsp2]|].
  destruct Hlog1 as (lg & Hlg & Hn & Hall).
  split.
  - apply (reconcileChildren_working 0) in H as [Hr _].
    apply rewired_backend in Hr as (-> & -> & _). by exists lg.
  - intros base Hb HX. eapply reconcileChildren_working; eauto.
Qed.

Lemma hooked_working base w s s' :
  hooked w s s' -> working base (fibers s) -> working base (fibers s').
Proof.
  intros (wf & hs & extra & i & Hwf & ->) HX. cbn.
  by eapply working_insert.
Qed.

Lemma hooked_backend w s s' :
  hooked w s s' ->
  log s' = log s /\ nextNode s' = nextNode s /\
  length (fibers s') = length (fibers s).
Proof.
  intros (wf & hs & extra & i & Hwf & ->). cbn. by rewrite length_insert.
Qed.

Lemma updateFunctionComponent_footprint C fuel a s u s' :
  updateFunctionComponent C fuel a s = Ok (u, s') ->
  spares (length (fibers s)) a s s' /\
  (exists lg, log s' = log s ++ lg /\ nextNode s <= nextNode s' /\
              Forall (detached (nextNode s)) lg) /\
  (forall base, base <= a -> working base (fibers s) ->
                working base (fibers s')).
Proof.
  unfold updateFunctionComponent. intros H.
  apply bind_inv in H as ([] & s1 & [= <-] & H).
  apply bind_inv in H as ([] & s2 & [= <-] & H).
  apply bind_inv in H as ([] & s3 & Hupd & H).
  pose proof (updateFiber_spares (length (fibers s)) a _ _ _ _ _ Hupd
                (or_introl eq_refl)) as [Hsp3 Hlen3].
  apply updateFiber_inv in Hupd as (f & Hf & ->). cbn in Hf, Hsp3, Hlen3.
  apply bind_inv in H as (f1 & s4 & [-> Hf1]%readFiber_inv & H).
  apply bind_inv in H as (el & s4 & Hcall & H).
  assert (hooked a
            (with_fibers (<[a := set_hooks (Some []) f]> (fibers s))
               (with_hookIndex (Some 0) (with_wipFiber (Some a) s))) s4)
    as Hhk.
  { unfold callComponent in Hcall.
    destruct (type f1) as [| | | | |[name| |]| |]; try done.
    destruct (C name) as [body|]; [|done].
    by eapply runProg_hooked; [| |exact Hcall]. }
  pose proof (hooked_backend _ _ _ Hhk) as (Hlog4 & Hn4 & Hlen4).
  cbn in Hlog4, Hn4, Hlen4. rewrite length_insert in Hlen4.
  pose proof (reconcileChildren_spares _ _ _ _ _ _ H) as Hsp5.
  rewrite Hlen4 in Hsp5.
  split.
  - eapply spares_trans; [|exact Hsp5].
    eapply spares_trans; [|by apply hooked_spares].
    eapply spares_trans; [|exact Hsp3]. by apply spares_other.
  - split.
    + apply (reconcileChildren_working 0) in H as [Hr _].
      apply rewired_backend in Hr as (-> & -> & _).
      exists []. rewrite app_nil_r, Hlog4, Hn4. by repeat split.
    + intros base Hb HX. eapply reconcileChildren_working; eauto.
      eapply hooked_working; [exact Hhk|]. cbn.
      by eapply working_insert.
Qed.

Lemma nextOf_above base fuel : forall q s up s',
  nextOf fuel q s = Ok (up, s') ->
  s' = s /\ (working base (fibers s) -> above base q -> above base up).
Proof.
  induction fuel as [|fuel IH]; intros [l|] s up s' H; cbn [nextOf] in H;
    try done; try (by injection H as <- <-).
  apply bind_inv in H as (f & s1 & [-> Hf]%readFiber_inv & H).
  destruct (sibling f) as [sb|] eqn:Hsb.
  - injection H as <- <-. split; [done|]. intros HX Hl.
    destruct (HX l f Hl Hf) as (_ & _ & Hs). by rewrite Hsb in Hs.
  - apply IH in H as [-> Hup]. split; [done|]. intros HX Hl.
    apply Hup; [done|]. by destruct (HX l f Hl Hf) as (Hp & _ & _).
Qed.

Lemma unit_footprint C fuel a s next s' :
  performUnitOfWork C fuel a s = Ok (next, s') ->
  spares (length (fibers s)) a s s' /\
  (exists lg, log s' = log s ++ lg /\ nextNode s <= nextNode s' /\
              Forall (detached (nextNode s)) lg) /\
  (forall base, base <= a -> working base (fibers s) ->
                working base (fibers s') /\ above base next).
Proof.
  unfold performUnitOfWork. intros H.
  apply bind_inv in H as (f & s0 & [-> Hf]%readFiber_inv & H).
  apply bind_inv in H as ([] & s1 & Hbody & H).
  assert (spares (length (fibers s)) a s s1 /\
          (exists lg, log s1 = log s ++ lg /\ nextNode s <= nextNode s1 /\
                      Forall (detached (nextNode s)) lg) /\
          (forall base, base <= a -> working base (fibers s) ->
                        working base (fibers s1)))
    as (Hsp & Hlog & Hwk).
  { destruct (type f); first [by eapply updateFunctionComponent_footprint
                             |by eapply updateHostComponent_footprint]. }
  apply bind_inv in H as (f1 & s2 & [-> Hf1]%readFiber_inv & H).
  assert (s' = s1 /\ forall base, base <= a -> working base (fibers s1) ->
                                  above base next) as [-> Hnext].
  { destruct (child f1) as [c|] eqn:Hc.
    - injection H as <- <-. split; [done|]. intros base Hb HX.
      destruct (HX a f1 Hb Hf1) as (_ & Hch & _). by rewrite Hc in Hch.
    - apply (nextOf_above) with (base := 0) in H as H0. destruct H0 as [-> _].
      split; [done|]. intros base Hb HX.
      by apply (nextOf_above base) in H as [_ Hup]; apply Hup. }
  split; [done|]. split; [done|]. intros base Hb HX.
  split; [by apply Hwk|]. apply Hnext; [done|]. by apply Hwk.
Qed.

Lemma workUnits_detached C fuel : forall units deadline calls yield s s',
  workUnits C fuel units deadline calls yield s = Ok (tt, s') ->
  exists lg, log s' = log s ++ lg /\ nextNode s <= nextNode s' /\
             Forall (detached (nextNode s)) lg.
Proof.
  assert (Hnil : forall s, exists lg, log s = log s ++ lg /\
                   nextNode s <= nextNode s /\ Forall (detached (nextNode s)) lg).
  { intros s. exists []. by rewrite app_nil_r. }
  induction units as [|units IH]; intros deadline calls yield s s' H;
    rewrite workUnits_step in H;
    destruct (nextUnitOfWork s) as [a|]; try done;
    try (by injection H as <-); destruct yield; try done;
    try (by injection H as <-).
  destruct (performUnitOfWork C fuel a s) as [[next s1]|] eqn:Hunit; [|done].
  apply unit_footprint in Hunit as (_ & (lg1 & Hlg1 & Hn1 & Hall1) & _).
  apply IH in H as (lg2 & Hlg2 & Hn2 & Hall2). cbn in Hlg2, Hn2, Hall2.
  exists (lg1 ++ lg2). rewrite Hlg2, Hlg1, app_assoc. split; [done|].
  split; [lia|]. apply Forall_app. split; [done|].
  eapply Forall_impl; [exact Hall2|]. intros [] ?; simpl in *; lia.
Qed.

Lemma spares_above base a b s s' :
  spares base a s s' -> base <= a -> spares base b s s'.
Proof.
  intros (Hlen & Hf & Hrest) Ha. split; [done|]. split; [|done].
  intros l f Hl _. apply Hf; [done|lia].
Qed.

Lemma workUnits_footprint C fuel base : forall units deadline calls yield s s',
  workUnits C fuel units deadline calls yield s = Ok (tt, s') ->
  base <= length (fibers s) -> working base (fibers s) ->
  above base (nextUnitOfWork s) ->
  spares base base s s' /\ working base (fibers s') /\
  above base (nextUnitOfWork s').
Proof.
  induction units as [|units IH]; intros deadline calls yield s s' H Hb HX Hn;
    rewrite workUnits_step in H;
    destruct (nextUnitOfWork s) as [a|] eqn:Ha; try done;
    try (by injection H as <-; rewrite ?Ha; split; [apply spares_refl|]);
    destruct yield; try done;
    try (by injection H as <-; rewrite ?Ha; split; [apply spares_refl|]).
  destruct (performUnitOfWork C fuel a s) as [[next s1]|] eqn:Hunit; [|done].
  apply unit_footprint in Hunit as (Hsp & _ & Hwk).
  destruct (Hwk base Hn HX) as [HX1 Hnext].
  assert (Hlen : length (fibers s) <= length (fibers s1)) by apply Hsp.
  apply IH in H as (Hsp' & HX' & Hn'); [|cbn; lia|done|done].
  split; [|done]. eapply spares_trans; [|exact Hsp'].
  eapply spares_trans; [|by apply spares_other].
  eapply spares_above; [|exact Hn]. eapply spares_mono; [exact Hb|done].
Qed.

(** X12.  The render phase does not touch what is committed.  From
    [render] to the end of the units of work of its pass, wherever a
    deadline stops them, every fiber that existed before is left as it
    was or has only had its [effectTag] set to [DELETION], being then
    in the deletions list; every hook cell that existed holds what it
    held; the current root is the same.  A pass that is interrupted or
    never finished leaves the committed tree usable. *)
Theorem render_phase_spares C (fuel units : nat) (deadline : nat -> Z)
    (e : value) (c : option node) (s s' : engine)
    (H : (render e c ;; workUnits C fuel units deadline 0 false) s
         = Ok (tt, s')) :
  (forall l f, fibers s !! l = Some f ->
     fibers s' !! l = Some f \/
     (fibers s' !! l = Some (set_effectTag (Some DELETION) f) /\
      exists ds, deletions s' = Some ds /\ In l ds)) /\
  (forall h k, cells s !! h = Some k -> cells s' !! h = Some k) /\
  currentRoot s' = currentRoot s.
Proof.
  apply bind_inv in H as ([] & s0 & Hrender & H).
  unfold render in Hrender.
  apply bind_inv in Hrender as (cur & s1 & [= <- <-] & Hrender).
  apply bind_inv in Hrender as (r & s1 & [-> ->]%newFiber_inv & Hrender).
  apply bind_inv in Hrender as ([] & s1 & [= <-] & Hrender).
  apply bind_inv in Hrender as ([] & s1 & [= <-] & [= <-]).
  apply (workUnits_footprint _ _ (length (fibers s))) in H
    as ((_ & Hf & Hc & Hr & _) & _).
  - cbn in Hf, Hc, Hr. split; [|done].
    intros l f Hl. apply Hf; [by eapply lookup_lt_Some| |].
    + apply lookup_lt_Some in Hl. lia.
    + by apply lookup_app_l_Some.
  - cbn. rewrite length_app. lia.
  - cbn. intros l f Hb Hl.
    apply lookup_app_Some in Hl as [Hl|[_ Hl]];
      [apply lookup_lt_Some in Hl; lia|].
    destruct (l - length (fibers s)) as [|k]; [|by destruct k].
    by injection Hl as <-.
  - cbn. lia.
Qed.

Lemma render_phase_spares_witness :
  (forall l f, fibers sectionStore !! l = Some f ->
     fibers shrunkStore !! l = Some f \/
     (fibers shrunkStore !! l = Some (set_effectTag (Some DELETION) f) /\
      exists ds, deletions shrunkStore = Some ds /\ In l ds)) /\
  (forall h k, cells sectionStore !! h = Some k ->
               cells shrunkStore !! h = Some k) /\
  currentRoot shrunkStore = currentRoot sectionStore.
Proof.
  apply (render_phase_spares noApp 20 20 unhurried
           (createElement (VStr "section") VNull [div; span]) container).
  vm_compute. reflexivity.
Defined.

(** X13.  Before the commit the document is not touched.  The backend
    calls made by the units of work, under any deadline, only make new
    nodes and set up nodes made since the loop was entered: no node is
    attached, none is removed, and no node that existed is updated. *)
Theorem render_phase_detached C (fuel units : nat) (deadline : nat -> Z)
    (calls : nat) (yield : bool) (s s' : engine)
    (H : workUnits C fuel units deadline calls yield s = Ok (tt, s')) :
  exists lg, log s' = log s ++ lg /\ Forall (detached (nextNode s)) lg.
Proof.
  destruct (workUnits_detached _ _ _ _ _ _ _ _ H) as (lg & Hlg & _ & Hall).
  by exists lg.
Qed.

Lemma render_phase_detached_witness :
  exists lg,
    log shrunkStore
    = log (storeOf (exec (render (createElement (VStr "section") VNull [div; span])
                            container) sectionStore)) ++ lg /\
    Forall (detached (nextNode sectionStore)) lg.
Proof.
  apply (render_phase_detached noApp 20 20 unhurried 0 false
           (storeOf (exec (render (createElement (VStr "section") VNull [div; span])
                             container) sectionStore))).
  vm_compute. reflexivity.
Defined.

Lemma updateHook_inv l g s u s' :
  updateHook l g s = Ok (u, s') ->
  exists c, cells s !! l = Some c /\ s' = with_cells (<[l := g c]> (cells s)) s.
Proof.
  unfold updateHook. intros H.
  apply bind_inv in H as (c & s1 & [-> Hc]%readHook_inv & [= _ <-]).
  by exists c.
Qed.

Lemma setState_inv h action s u s' :
  setState h action s = Ok (u, s') ->
  exists c r root,
    cells s !! h = Some c /\ currentRoot s = Some r /\
    fibers s !! r = Some root /\
    s' = with_deletions (Some [])
           (with_nextUnitOfWork (Some (length (fibers s)))
              (with_wipRoot (Some (length (fibers s)))
                 (with_fibers
                    (fibers s ++ [rootFiber (dom root) (props root) (Some r)])
                    (with_cells
                       (<[h := {| state := state c;
                                  queue := queue c ++ [action] |}]> (cells s))
                       s)))).
Proof.
  intros H. pose proof H as H'. unfold setState in H.
  apply bind_inv in H as ([] & s1 & (c & Hc & ->)%updateHook_inv & H).
  apply bind_inv in H as (cur & s1 & [= <- <-] & H).
  apply bind_inv in H as (r & s1 & [Hr ->]%deref_inv & H).
  apply bind_inv in H as (root & s1 & [-> Hroot]%readFiber_inv & _).
  cbn in Hr, Hroot. exists c, r, root. repeat split; try done.
  rewrite (setState_ok _ _ _ _ _ _ Hc Hr Hroot) in H'. by injection H' as <-.
Qed.

(** X14.  The same holds of a pass started by a [setState]: from the
    call to the end of the units of work of its pass, under any
    deadline, every fiber that existed before is left as it was or only
    tagged [DELETION] and listed; the hook cell of the closure keeps
    its state and has the action at the end of its queue; every other
    hook cell that existed is unchanged; the current root is the same.
    The action waits in the committed cell until a pass commits. *)
Theorem setState_phase_spares C (fuel units : nat) (deadline : nat -> Z)
    (h : loc) (action : value -> value) (s s' : engine)
    (H : (setState h action ;; workUnits C fuel units deadline 0 false) s
         = Ok (tt, s')) :
  (forall l f, fibers s !! l = Some f ->
     fibers s' !! l = Some f \/
     (fibers s' !! l = Some (set_effectTag (Some DELETION) f) /\
      exists ds, deletions s' = Some ds /\ In l ds)) /\
  (exists k, cells s !! h = Some k /\
     cells s' !! h = Some {| state := state k; queue := queue k ++ [action] |}) /\
  (forall h' k, h' <> h -> cells s !! h' = Some k -> cells s' !! h' = Some k) /\
  currentRoot s' = currentRoot s.
Proof.
  apply bind_inv in H as ([] & s0 & (k & r & root & Hk & Hr & Hroot & ->)%setState_inv & H).
  apply (workUnits_footprint _ _ (length (fibers s))) in H
    as ((_ & Hf & Hc & Hcur & _) & _).
  - cbn in Hf, Hc, Hcur. split; [|split; [|split; [|done]]].
    + intros l f Hl. apply Hf; [by eapply lookup_lt_Some| |].
      * apply lookup_lt_Some in Hl. lia.
      * by apply lookup_app_l_Some.
    + exists k. split; [done|]. apply Hc.
      apply list_lookup_insert_eq. by eapply lookup_lt_Some.
    + intros h' k' Hne Hk'. apply Hc. by rewrite list_lookup_insert_ne.
  - cbn. rewrite length_app. lia.
  - cbn. intros l f Hb Hl.
    apply lookup_app_Some in Hl as [Hl|[_ Hl]];
      [apply lookup_lt_Some in Hl; lia|].
    destruct (l - length (fibers s)) as [|n]; [|by destruct n].
    by injection Hl as <-.
  - cbn. lia.
Qed.

Lemma setState_phase_spares_witness :
  exists k, cells mountedStore !! 0 = Some k /\
    cells (storeOf (exec (setState 0 (plus 1) ;;
                          workUnits (counterApp (VNum 1)) 20 20 hurried 0 false)
                      mountedStore)) !! 0
    = Some {| state := state k; queue := queue k ++ [plus 1] |}.
Proof.
  apply (setState_phase_spares (counterApp (VNum 1)) 20 20 hurried 0 (plus 1)
           mountedStore).
  vm_compute. reflexivity.
Defined.

(** ** The counter under any updates *)

Lemma shape_mono bound bound' X F : forall q,
  bound <= bound' -> shape bound X q F -> shape bound' X q F.
Proof.
  induction F as [|tag attrs kids IHk next IHn]; intros q Hb; simpl; [done|].
  intros (o & fo & -> & Ho & Hfo & Ht & Hd & Hp & Hk & Hn).
  exists o, fo. repeat split; try done; [lia|by apply IHk|by apply IHn].
Qed.

Lemma wrapChild_text v : typeof v <> "object" -> wrapChild v = createTextElement v.
Proof. unfold wrapChild. by destruct v. Qed.

(** One pass over the counter, from a store in which it has just been
    started: the hook cell of the new tree holds the state of the old
    cell after the actions queued there. *)
Lemma counter_pass start L h c s :
  counterUnder L h c s -> scheduled L s ->
  typeof (applyAll (queue c) (state c)) <> "object" ->
  exists s',
    tick start s = Ok (tt, s') /\
    counterUnder (length (fibers s')) (length (cells s))
      {| state := applyAll (queue c) (state c); queue := [] |} s' /\
    nextUnitOfWork s' = None /\ wipRoot s' = None /\
    (forall l, l < L -> fibers s' !! l = fibers s !! l) /\
    (forall l k, cells s !! l = Some k -> cells s' !! l = Some k).
Proof.
  intros (r & fr & cf & fc & h' & v' & Hcur & Hr & Hfr & Hdom & Hprops & Hch
          & Hcf & Hfc & Htype & Hdomc & Hsibc & Hhooks & Hcell & Hshape)
         (Hwip & Hnext & Hdel & Hlen0 & HL0) Hv.
  set (C := counterApp start).
  set (v1 := applyAll (queue c) (state c)) in *.
  rewrite Hcur in HL0.
  set (root := rootFiber container (VObj [("children", VArr [element])]) (Some r))
    in *.
  (* the root *)
  set (cw := reused L cf fc (VObj [("children", VArr [])])).
  set (F1 := <[L := set_child (Some (S L)) root]> (fibers s ++ [cw])).
  set (s1 := with_fibers F1 s).
  assert (Hrec1 : reconcileChildren 20 L (VArr [element]) s = Ok (tt, s1)).
  { unfold reconcileChildren.
    erewrite bind_ok; [|by apply readFiber_ok].
    cbn [alternate root rootFiber].
    erewrite bind_assoc, bind_ok; [|by apply readFiber_ok].
    erewrite bind_ok; [|reflexivity]. rewrite Hch.
    erewrite bind_ok; [|reflexivity].
    erewrite (reconcileLoop_reuse_any 19 L _ 0 None s _ cf fc);
      [|reflexivity|reflexivity|done|].
    2:{ intros s'. rewrite Htype. reflexivity. }
    unfold link. cbn [Nat.eqb]. rewrite Hlen0.
    erewrite bind_ok; cycle 1.
    { apply updateFiber_ok. cbn. by rewrite lookup_app_l by lia. }
    rewrite Hsibc. reflexivity. }
  assert (H1 : performUnitOfWork C 20 L s = Ok (Some (S L), s1)).
  { unfold performUnitOfWork.
    erewrite bind_ok; [|by apply readFiber_ok]. cbn [type root rootFiber].
    unfold updateHostComponent.
    erewrite bind_assoc, bind_ok; [|by apply readFiber_ok].
    cbn [dom root rootFiber container].
    erewrite bind_assoc, bind_ok; [|reflexivity].
    erewrite bind_assoc, bind_ok; [|by apply readFiber_ok].
    erewrite bind_assoc, bind_ok; [|reflexivity].
    erewrite bind_ok; [|exact Hrec1].
    erewrite bind_ok; cycle 1.
    { apply readFiber_ok. subst s1 F1. cbn.
      apply list_lookup_insert_eq. rewrite length_app. lia. }
    reflexivity. }
  (* the component *)
  assert (HF1L : F1 !! L = Some (set_child (Some (S L)) root)).
  { subst F1. apply list_lookup_insert_eq. rewrite length_app. lia. }
  assert (HF1S : F1 !! S L = Some cw).
  { subst F1. rewrite list_lookup_insert_ne by lia.
    rewrite lookup_app_r by lia. by rewrite Hlen0, Nat.sub_diag. }
  assert (HF1old : forall l, l < L -> F1 !! l = fibers s !! l).
  { intros l Hl. subst F1. rewrite list_lookup_insert_ne by lia.
    by rewrite lookup_app_l by lia. }
  assert (HlenF1 : length F1 = S (S L)).
  { subst F1. rewrite length_insert, length_app, Hlen0. simpl. lia. }
  set (K := length (cells s)).
  set (cw1 := set_hooks (Some [K]) (set_hooks (Some []) cw)).
  set (F2 := <[S L := cw1]> (<[S L := set_hooks (Some []) cw]> F1)).
  set (cells1 := cells s ++ [{| state := v1; queue := [] |}]).
  set (sb := with_hookIndex (Some 1)
               (with_fibers F2
                  (with_cells cells1
                     (with_wipFiber (Some (S L))
                        (with_nextUnitOfWork (Some (S L)) s1))))).
  set (next := counterForest K v1).
  set (sa := with_fibers (<[S L := set_hooks (Some []) cw]> F1)
               (with_hookIndex (Some 0)
                  (with_wipFiber (Some (S L))
                     (with_nextUnitOfWork (Some (S L)) s1)))).
  assert (Hcall :
    callComponent C (set_hooks (Some []) cw) sa =
    Ok (treeElement "h1"
          [("onClick", VFun (FClosure "() => setState(c => c + 1)"
                               [VFun (FSetState K)]))]
          (Host "TEXT_ELEMENT" [("nodeValue", VStr "Count: ")] NoMore
             (Host "TEXT_ELEMENT" [("nodeValue", v1)] NoMore
                (Host "TEXT_ELEMENT" [("nodeValue", VStr " ")] NoMore NoMore))),
        sb)).
  { unfold callComponent. cbn [type set_hooks cw reused]. rewrite Htype.
    cbn [C counterApp String.eqb Ascii.eqb Bool.eqb CounterFrom runProg].
    erewrite bind_ok; cycle 1.
    { apply (useState_run _ _ (S L) (set_hooks (Some []) cw) [] (Some c));
        try done.
      - cbn. apply list_lookup_insert_eq. lia.
      - exists (Some h). split; [|by eauto].
        unfold oldHookOf. cbn [alternate set_hooks cw reused].
        erewrite bind_ok; cycle 1.
        { apply readFiber_ok. cbn. rewrite list_lookup_insert_ne by lia.
          by rewrite HF1old. }
        rewrite Hhooks. reflexivity. }
    subst sa. fields. subst s1. fields. cbn [fst snd runProg ret].
    unfold treeElement, createElement. cbn [map describe spread].
    fold v1. rewrite (wrapChild_text v1) by done. reflexivity. }
  assert (HF2S : F2 !! S L = Some cw1).
  { subst F2. apply list_lookup_insert_eq. rewrite length_insert. lia. }
  assert (HF2ne : forall l, l <> S L -> F2 !! l = F1 !! l).
  { intros l Hl. subst F2. by rewrite !list_lookup_insert_ne. }
  assert (HlenF2 : length F2 = S (S L)).
  { subst F2. by rewrite !length_insert. }
  destruct (reconcileChildren_forest true L 20 (S L) cw1 next sb)
    as (X2 & Hrec2 & HlenX2 & HsameX2 & HX2S & Hpend2);
    [done|lia|cbn; lia| |].
  { exists cf, fc. split; [done|]. fields.
    split; [rewrite HF2ne, HF1old by lia; done|].
    eapply shape_frame; [|exact Hshape].
    intros l Hl. rewrite HF2ne, HF1old by lia. done. }
  change (fibers sb) with F2 in HlenX2, HsameX2, HX2S, Hpend2.
  rewrite HlenF2 in HlenX2, HsameX2, HX2S, Hpend2.
  set (s2 := with_fibers X2 sb) in *.
  assert (H2 : performUnitOfWork C 20 (S L) (with_nextUnitOfWork (Some (S L)) s1)
               = Ok (Some (S (S L)), s2)).
  { unfold performUnitOfWork.
    erewrite bind_ok; [|by apply readFiber_ok].
    cbn [type cw reused]. rewrite Htype.
    unfold updateFunctionComponent.
    erewrite bind_assoc, bind_ok; [|reflexivity].
    erewrite bind_assoc, bind_ok; [|reflexivity].
    erewrite bind_assoc, bind_ok; [|by apply updateFiber_ok].
    erewrite bind_assoc, bind_ok; cycle 1.
    { apply readFiber_ok. cbn. apply list_lookup_insert_eq. lia. }
    erewrite bind_assoc, bind_ok; [|exact Hcall].
    erewrite bind_ok; [|exact Hrec2].
    erewrite bind_ok; [|by apply readFiber_ok].
    reflexivity. }
  (* the heading and its texts *)
  cbn [next counterForest tree] in HX2S.
  set (cw2 := set_child (Some (S (S L))) cw1) in *.
  assert (HX2L : X2 !! L = Some (set_child (Some (S L)) root)).
  { rewrite HsameX2, HF2ne by lia. done. }
  assert (HX2old : forall l, l < L -> X2 !! l = fibers s !! l).
  { intros l Hl. rewrite HsameX2, HF2ne by lia. by apply HF1old. }
  set (s2' := with_nextUnitOfWork (Some (S (S L))) s2).
  destruct (forest_pass C true L 20 next s2' (S (S L)) (S L) None 2)
    as (X3 & n3 & lg3 & Hrun3 & HlenX3 & HsameX3 & Hbuilt3 & _ & Hback3);
    [done|lia| |cbn; lia|done|].
  { eapply climbs_parent; [lia|exact HX2S|done|].
    eapply climbs_parent; [lia|exact HX2L|done|]. constructor. }
  destruct Hback3 as [-> ->]; [done|].
  change (fibers s2') with X2 in HlenX3, HsameX3.
  change (breadth next) with 1 in HsameX3.
  assert (HX3L : X3 !! L = Some (set_child (Some (S L)) root)).
  { rewrite HsameX3 by lia. done. }
  assert (HX3S : X3 !! S L = Some cw2).
  { rewrite HsameX3 by lia. done. }
  set (s3 := with_nextUnitOfWork None
               (with_backend (nextNode s2') (log s2') (with_fibers X3 s2'))) in *.
  (* the commit *)
  destruct (commitWork_built true L (S (S L)) (length X3) X3 next
              (Some (S (S L))) (S L) 0 2 19 s3) as (lg4 & Hcommit4 & _);
    [done|done| |lia|cbn; lia|].
  { eapply anchored_above; [exact HX3S|done|done|].
    by eapply anchored_here. }
  set (s4 := with_wipRoot None
               (with_currentRoot (Some L)
                  (with_backend (nextNode s3) (log s3 ++ lg4) s3))).
  assert (H4 : commitRoot 20 s3 = Ok (tt, s4)).
  { unfold commitRoot.
    erewrite bind_ok; [|reflexivity]. cbn [deletions s3 s2' s2 sb s1
      with_nextUnitOfWork with_backend with_fibers with_hookIndex with_cells
      with_wipFiber with_deletions]. rewrite Hdel. cbn [forEach].
    erewrite bind_ok; [|reflexivity].
    erewrite bind_ok; [|reflexivity].
    cbn [wipRoot s3 s2' s2 sb s1
      with_nextUnitOfWork with_backend with_fibers with_hookIndex with_cells
      with_wipFiber with_deletions]. rewrite Hwip.
    erewrite bind_ok; [|reflexivity].
    erewrite bind_ok; [|by apply readFiber_ok].
    cbn [child set_child]. rewrite commitWork_unfold.
    erewrite bind_assoc, bind_ok; [|by apply readFiber_ok].
    erewrite bind_assoc, bind_ok; cycle 1.
    { eapply (domParentOf_anchored _ _ 0 1); [|lia]. by eapply anchored_here. }
    cbn [effectTag dom cw2 cw1 cw set_child set_hooks reused]. rewrite Hdomc.
    erewrite bind_assoc, bind_ok; [|reflexivity].
    cbn [child sibling cw2 cw1 cw set_child set_hooks reused].
    erewrite bind_assoc, bind_ok; [|exact Hcommit4].
    erewrite bind_ok; [|reflexivity].
    erewrite bind_ok; [|reflexivity].
    reflexivity. }
  exists s4. split; [|split; [|split; [done|split; [done|split]]]].
  - unfold tick, workLoop. fold C.
    erewrite bind_ok; cycle 1.
    { rewrite (workUnits_unit C 20 19 0 s L _ _ Hnext H1).
      rewrite (workUnits_unit C 20 18 1 (with_nextUnitOfWork (Some (S L)) s1)
                 (S L) _ _ eq_refl H2).
      change 18 with (nodes next + 14). fold s2'. rewrite Hrun3.
      by apply workUnits_idle. }
    erewrite bind_ok; [|reflexivity].
    erewrite bind_ok; [|reflexivity].
    cbn [nextUnitOfWork wipRoot s3 s2' s2 sb s1 with_nextUnitOfWork
         with_backend with_fibers with_hookIndex with_cells with_wipFiber
         with_deletions with_wipRoot]. rewrite Hwip.
    by rewrite H4.
  - exists L, (set_child (Some (S L)) root), (S L), cw2, K, v1.
    cbn [currentRoot fibers cells s4 s3 s2' s2 sb s1 with_nextUnitOfWork
         with_backend with_fibers with_hookIndex with_cells with_wipFiber
         with_deletions with_wipRoot with_currentRoot].
    split; [done|]. split; [lia|]. repeat (split; [done|]).
    split; [lia|]. repeat (split; [done|]).
    split.
    { subst cells1. by rewrite lookup_app_r, Nat.sub_diag by lia. }
    eapply built_shape. exact Hbuilt3.
  - intros l Hl. cbn. rewrite HsameX3 by lia. by apply HX2old.
  - intros l k Hk. cbn. subst cells1. by apply lookup_app_l_Some.
Qed.

Lemma counting_under v s :
  counting v s ->
  exists h, counterUnder (length (fibers s)) h {| state := v; queue := [] |} s /\
            currentHook s 0 = Some h.
Proof.
  intros (r & fr & cf & fc & h & h' & v' & Hcur & Hfr & Hdom & Hprops & Hch
          & Hfc & Htype & Hdomc & Hsibc & Hhooks & Hcell & Hshape).
  exists h. split.
  - exists r, fr, cf, fc, h', v'. repeat split; try done;
      by eapply lookup_lt_Some.
  - unfold currentHook, currentComponent, fiberAt.
    by rewrite Hcur, Hfr, Hch, Hfc, Hhooks.
Qed.

Lemma under_counting h v s :
  counterUnder (length (fibers s)) h {| state := v; queue := [] |} s ->
  counting v s /\ currentHook s 0 = Some h /\
  exists c, currentComponent s = Some c /\ hookState s c 0 = Some v.
Proof.
  intros (r & fr & cf & fc & h' & v' & Hcur & _ & Hfr & Hdom & Hprops & Hch
          & _ & Hfc & Htype & Hdomc & Hsibc & Hhooks & Hcell & Hshape).
  split; [by exists r, fr, cf, fc, h, h', v'|].
  unfold currentHook, currentComponent, hookState, fiberAt.
  rewrite Hcur, Hfr, Hch, Hfc, Hhooks. split; [done|].
  exists cf. split; [done|]. rewrite Hfc, Hhooks. cbn. by rewrite Hcell.
Qed.

(** A [setState], of the committed hook or of another, from a store in
    which the counter is committed. *)
Lemma setState_counter base h c h' c' action s :
  counterUnder base h c s -> base <= length (fibers s) ->
  cells s !! h' = Some c' ->
  exists s0,
    setState h' action s = Ok (tt, s0) /\
    counterUnder base h
      (if decide (h' = h)
       then {| state := state c; queue := queue c ++ [action] |} else c) s0 /\
    scheduled (length (fibers s)) s0 /\
    length (fibers s0) = S (length (fibers s)) /\
    length (cells s0) = length (cells s).
Proof.
  intros (r & fr & cf & fc & h0 & v0 & Hcur & Hr & Hfr & Hdom & Hprops & Hch
          & Hcf & Hfc & Htype & Hdomc & Hsibc & Hhooks & Hcell & Hshape)
         Hbase Hc'.
  eexists. split; [by eapply setState_ok|].
  rewrite Hdom, Hprops. split; [|split; [|split]].
  - exists r, fr, cf, fc, h0, v0. fields.
    repeat split; try done; try (by apply lookup_app_l_Some).
    + destruct (decide (h' = h)) as [->|Hne].
      * rewrite Hcell in Hc'. injection Hc' as <-.
        apply list_lookup_insert_eq. by eapply lookup_lt_Some.
      * by rewrite list_lookup_insert_ne.
    + eapply shape_frame; [|exact Hshape].
      intros l Hl. by rewrite lookup_app_l by lia.
  - repeat split; cbn; try done.
    + rewrite length_app. simpl. lia.
    + rewrite Hcur. by rewrite lookup_app_r, Nat.sub_diag.
  - cbn. rewrite length_app. simpl. lia.
  - cbn. by rewrite length_insert.
Qed.

Lemma forEach_setState base h : forall actions c s,
  actions <> [] ->
  counterUnder base h c s -> base <= length (fibers s) ->
  exists sn L,
    forEach (setState h) actions s = Ok (tt, sn) /\
    counterUnder base h
      {| state := state c; queue := queue c ++ actions |} sn /\
    scheduled L sn /\ base <= L /\ length (cells sn) = length (cells s).
Proof.
  induction actions as [|a rest IH]; intros c s Hne Hc Hbase; [done|].
  pose proof Hc as (_ & _ & _ & _ & _ & _ & _ & _ & _ & _ & _ & _ & _ & _
                    & _ & _ & _ & _ & Hcell & _).
  destruct (setState_counter base h c h c a s Hc Hbase Hcell)
    as (s0 & H0 & Hc0 & Hs0 & Hlen0 & Hcells0).
  rewrite decide_True in Hc0 by done.
  cbn [forEach]. destruct rest as [|a' rest].
  - exists s0, (length (fibers s)). cbn [forEach].
    erewrite bind_ok; [|exact H0].
    split; [done|]. split; [exact Hc0|]. split; [done|]. split; [lia|done].
  - assert (Hrest : a' :: rest <> []) by done.
    assert (Hbase0 : base <= length (fibers s0)) by lia.
    destruct (IH _ s0 Hrest Hc0 Hbase0)
      as (sn & L & Hn & Hcn & Hsn & HL & Hcellsn).
    exists sn, L. erewrite bind_ok; [|exact H0].
    split; [done|]. cbn [state queue] in Hcn. rewrite <- app_assoc in Hcn.
    split; [exact Hcn|]. split; [done|]. split; [done|]. congruence.
Qed.

Lemma counterUnder_mono base base' h c s :
  base <= base' -> counterUnder base h c s -> counterUnder base' h c s.
Proof.
  intros Hb (r & fr & cf & fc & h0 & v0 & Hcur & Hr & Hfr & Hdom & Hprops & Hch
             & Hcf & Hfc & Htype & Hdomc & Hsibc & Hhooks & Hcell & Hshape).
  exists r, fr, cf, fc, h0, v0. repeat split; try done; try lia.
  by eapply shape_mono.
Qed.

(** The counter is committed with state [v] and nothing is scheduled. *)
Lemma dispatch_counting start v actions s :
  counting v s -> nextUnitOfWork s = None -> wipRoot s = None ->
  typeof (applyAll actions v) <> "object" ->
  exists s',
    dispatch start actions s = Ok s' /\ counting (applyAll actions v) s' /\
    nextUnitOfWork s' = None /\ wipRoot s' = None.
Proof.
  intros Hcount Hn Hw Hv.
  destruct (counting_under _ _ Hcount) as (h & Hunder & Hhook).
  unfold dispatch. rewrite Hhook. unfold exec.
  destruct actions as [|a rest].
  - cbn [forEach]. erewrite bind_ok; [|reflexivity].
    rewrite workLoop_none by done. by exists s.
  - assert (Hne : a :: rest <> []) by done.
    destruct (forEach_setState _ h (a :: rest) _ s Hne Hunder (le_n _))
      as (sn & L & Hrun & Hcn & Hsn & HL & _).
    destruct (counter_pass start L h _ sn
                (counterUnder_mono _ _ _ _ _ HL Hcn) Hsn)
      as (s' & Htick & Hc' & Hn' & Hw' & _); [done|].
    exists s'. erewrite bind_ok; [|exact Hrun].
    unfold tick in Htick. rewrite Htick.
    split; [done|]. split; [|done]. by apply under_counting in Hc' as [? _].
Qed.

Lemma applyAll_numeric actions : forall n,
  Forall numeric actions -> exists m, applyAll actions (VNum n) = VNum m.
Proof.
  induction actions as [|a rest IH]; intros n Hall; [by exists n|].
  apply Forall_cons in Hall as [Ha Hrest].
  destruct (Ha n) as [m Hm]. unfold applyAll. cbn [fold_left]. rewrite Hm.
  by apply IH.
Qed.

Lemma applyAll_app xs ys v : applyAll (xs ++ ys) v = applyAll ys (applyAll xs v).
Proof. unfold applyAll. by rewrite fold_left_app. Qed.

Lemma batched_counting start : forall batches,
  Forall (Forall numeric) batches ->
  exists s,
    batched start batches = Ok s /\
    counting (applyAll (concat batches) (VNum start)) s /\
    nextUnitOfWork s = None /\ wipRoot s = None.
Proof.
  induction batches as [|actions batches IH] using rev_ind; intros Hall.
  - destruct (counting_mounted start) as (s & Hs & Hcount).
    exists s. split; [done|]. split; [done|].
    unfold mounted in Hs. vm_compute in Hs. by injection Hs as <-.
  - apply Forall_app in Hall as [Hall [Hactions _]%Forall_cons].
    destruct (IH Hall) as (s & Hs & Hcount & Hn & Hw).
    destruct (applyAll_numeric (concat batches) start) as [z Hz].
    { by apply Forall_concat. }
    destruct (applyAll_numeric actions z Hactions) as [z' Hz'].
    destruct (dispatch_counting (VNum start) _ actions s Hcount Hn Hw)
      as (s' & Hs' & Hcount' & Hn' & Hw').
    { by rewrite Hz, Hz'. }
    exists s'. unfold batched. rewrite fold_left_app. cbn [fold_left].
    fold (batched start batches). rewrite Hs. cbn [andThen].
    rewrite concat_app, applyAll_app. cbn [concat]. rewrite app_nil_r.
    done.
Qed.

(** X15.  Updates are batched and none is lost.  Whatever lists of
    numeric updaters the [setState] of the committed hook is called
    with, one list before each tick, every tick renders and commits,
    and the hook of the committed counter then holds the initial state
    after all the updaters called so far, in the order of the calls:
    the calls made before one tick are all applied by that tick's pass. *)
Theorem batched_updates (start : Z) (batches : list (list (value -> value)))
    (Hnum : Forall (Forall numeric) batches) :
  exists s c,
    batched start batches = Ok s /\
    currentComponent s = Some c /\
    hookState s c 0 = Some (applyAll (concat batches) (VNum start)).
Proof.
  destruct (batched_counting start batches Hnum) as (s & Hs & Hcount & _).
  destruct (counting_under _ _ Hcount) as (h & Hunder & _).
  apply under_counting in Hunder as (_ & _ & c & Hc & Hstate).
  by exists s, c.
Qed.

Lemma batched_updates_witness :
  exists s c,
    batched 3 [[times 2; plus 1]; []; [plus 5; times 3; plus 1]] = Ok s /\
    currentComponent s = Some c /\
    hookState s c 0 = Some (VNum 37).
Proof.
  apply (batched_updates 3 [[times 2; plus 1]; []; [plus 5; times 3; plus 1]]).
  repeat constructor; intros n; eexists; reflexivity.
Defined.

(** ** The counter, click after click *)

Lemma size_nat_le p : forall k,
  (Zpos p < 2 ^ Z.of_nat k)%Z -> Pos.size_nat p <= k.
Proof.
  induction p as [p IH|p IH|]; intros [|k] Hp; cbn [Pos.size_nat];
    try (cbn in Hp; lia).
  - rewrite Nat2Z.inj_succ, Z.pow_succ_r in Hp by lia.
    apply le_n_S, IH. lia.
  - rewrite Nat2Z.inj_succ, Z.pow_succ_r in Hp by lia.
    apply le_n_S, IH. lia.
Qed.

Lemma round53_safe p : (Zpos p <= 9007199254740992)%Z -> round53 p = p.
Proof.
  intros Hp.
  destruct (Z.eq_dec (Zpos p) 9007199254740992%Z) as [Heq|Hne].
  - injection Heq as ->. vm_compute. reflexivity.
  - assert (Hsize : Pos.size_nat p <= 53).
    { apply size_nat_le. change (2 ^ Z.of_nat 53)%Z with 9007199254740992%Z. lia. }
    unfold round53. replace (Pos.size_nat p - 53) with 0 by lia. reflexivity.
Qed.

(** Up to [2^53] in magnitude an integer is a double. *)
Lemma double_safe x :
  (-9007199254740992 <= x <= 9007199254740992)%Z -> double x = x.
Proof.
  intros Hx. destruct x as [|p|p]; cbn [double]; [done| |];
    rewrite round53_safe; (done || lia).
Qed.

Lemma clicks_counting start n :
  (-9007199254740992 <= start)%Z ->
  (start + Z.of_nat n <= 9007199254740992)%Z ->
  exists s, clicks start n = Ok s /\
            counting (VNum (start + Z.of_nat n)) s /\
            nextUnitOfWork s = None /\ wipRoot s = None.
Proof.
  intros Hlo. induction n as [|n IH]; intros Hhi.
  - rewrite Z.add_0_r. destruct (counting_mounted start) as (s & Hs & Hcount).
    exists s. split; [done|]. split; [done|].
    unfold mounted in Hs. vm_compute in Hs. by injection Hs as <-.
  - destruct IH as (s & Hs & Hcount & Hn & Hw); [lia|].
    destruct (dispatch_counting (VNum start) _ [plus 1] s Hcount Hn Hw)
      as (s' & Hs' & Hcount' & Hn' & Hw'); [done|].
    exists s'. split; [|split; [|done]].
    + change (clicks start (S n))
        with (andThen (clicks start n) (dispatch (VNum start) [plus 1])).
      by rewrite Hs.
    + unfold applyAll in Hcount'. cbn [fold_left plus] in Hcount'.
      rewrite double_safe in Hcount' by lia.
      by replace (start + Z.of_nat (S n))%Z with (start + Z.of_nat n + 1)%Z
        by lia.
Qed.

(** C5, as the code has it.  The numbers of the script are doubles.
    While the initial state and the count stay within [2^53] in
    magnitude, where [c + 1] is exact: after the script has mounted the
    counter with initial state [start] and the [setState] of its
    committed hook has been called [n] times with [c => c + 1], each
    call followed by a tick that renders and commits, the hook of the
    committed component holds [start + n]. *)
Theorem clicks_count (start : Z) (n : nat)
    (Hlo : (-9007199254740992 <= start)%Z)
    (Hhi : (start + Z.of_nat n <= 9007199254740992)%Z) :
  exists s c,
    clicks start n = Ok s /\
    currentComponent s = Some c /\
    hookState s c 0 = Some (VNum (start + Z.of_nat n)).
Proof.
  destruct (clicks_counting start n Hlo Hhi)
    as (s & Hs & (r & fr & cf & fc & h & h' & v' & Hcur & Hfr & _ & _ & Hch & Hfc
        & _ & _ & _ & Hhooks & Hcell & _) & _).
  exists s, cf. split; [done|].
  unfold currentComponent, hookState, fiberAt.
  rewrite Hcur. cbn. rewrite Hfr, Hch, Hfc, Hhooks. cbn. by rewrite Hcell.
Qed.

Lemma clicks_count_witness :
  exists s c,
    clicks 1 3 = Ok s /\
    currentComponent s = Some c /\
    hookState s c 0 = Some (VNum (1 + Z.of_nat 3)).
Proof.
  apply (clicks_count 1 3); lia.
Defined.

(** C5 fails on the code beyond [2^53]: with the initial state
    [2^53 - 1], the first [c => c + 1] gives [2^53] and the second one
    gives [2^53] again, the sum [2^53 + 1] being no double; after two
    calls the hook holds [2^53], not the initial state plus two. *)
Lemma clicks_count_counterexample :
  exists s c,
    clicks 9007199254740991 2 = Ok s /\
    currentComponent s = Some c /\
    hookState s c 0 = Some (VNum 9007199254740992) /\
    hookState s c 0 <> Some (VNum (9007199254740991 + Z.of_nat 2)).
Proof.
  exists (storeOf (clicks 9007199254740991 2)), 13.
  split; [vm_compute; reflexivity|].
  split; [vm_compute; reflexivity|].
  split; [vm_compute; reflexivity|].
  vm_compute. discriminate.
Qed.

Lemma shape_spares bound X X' F : forall q,
  (forall l f, l < bound -> X !! l = Some f ->
     X' !! l = Some f \/ X' !! l = Some (set_effectTag (Some DELETION) f)) ->
  shape bound X q F -> shape bound X' q F.
Proof.
  induction F as [|tag attrs kids IHk next IHn]; intros q HX; simpl; [done|].
  intros (o & fo & -> & Ho & Hfo & Ht & Hd & Hp & Hk & Hn).
  destruct (HX o fo Ho Hfo) as [Hsame|Htag].
  - exists o, fo. repeat split; try done; [by apply IHk|by apply IHn].
  - exists o, (set_effectTag (Some DELETION) fo).
    repeat split; try done; [by apply IHk|by apply IHn].
Qed.

Lemma counterUnder_spares base w h c s s' :
  counterUnder base h c s -> spares base w s s' -> base <= w ->
  counterUnder base h c s'.
Proof.
  intros (r & fr & cf & fc & h0 & v0 & Hcur & Hr & Hfr & Hdom & Hprops & Hch
          & Hcf & Hfc & Htype & Hdomc & Hsibc & Hhooks & Hcell & Hshape)
         (_ & Hf & Hc & Hroot & _) Hw.
  assert (Hkeep : forall l f, l < base -> fibers s !! l = Some f ->
            fibers s' !! l = Some f \/
            fibers s' !! l = Some (set_effectTag (Some DELETION) f)).
  { intros l f Hl Hlf. destruct (Hf l f Hl ltac:(lia) Hlf) as [?|[? _]]; auto. }
  assert (Hsame : forall l f, l < base -> fibers s !! l = Some f ->
            exists f', fibers s' !! l = Some f' /\ type f' = type f /\
              props f' = props f /\ dom f' = dom f /\ child f' = child f /\
              sibling f' = sibling f /\ hooks f' = hooks f).
  { intros l f Hl Hlf. destruct (Hkeep l f Hl Hlf) as [?|?]; eauto 10. }
  destruct (Hsame r fr Hr Hfr) as (fr' & Hfr' & _ & Hp1 & Hd1 & Hc1 & _).
  destruct (Hsame cf fc Hcf Hfc) as (fc' & Hfc' & Ht2 & _ & Hd2 & Hc2 & Hs2 & Hh2).
  exists r, fr', cf, fc', h0, v0.
  rewrite Hroot, Hp1, Hd1, Hc1, Ht2, Hd2, Hc2, Hs2, Hh2.
  split; [done|]. split; [done|]. split; [done|]. split; [done|].
  split; [done|]. split; [done|]. split; [done|]. split; [done|].
  split; [done|]. split; [done|]. split; [done|]. split; [done|].
  split; [by apply Hc|]. by eapply shape_spares.
Qed.

Lemma scheduled_working L s :
  scheduled L s ->
  L <= length (fibers s) /\ working L (fibers s) /\
  above L (nextUnitOfWork s).
Proof.
  intros (_ & Hn & _ & Hlen & HL). split; [lia|].
  split; [|rewrite Hn; simpl; lia].
  intros l f Hb Hl. assert (l = L) as ->.
  { apply lookup_lt_Some in Hl. lia. }
  rewrite HL in Hl. by injection Hl as <-.
Qed.

Lemma batched_under start batches :
  Forall (Forall numeric) batches ->
  exists s h z,
    batched start batches = Ok s /\
    applyAll (concat batches) (VNum start) = VNum z /\
    counterUnder (length (fibers s)) h {| state := VNum z; queue := [] |} s /\
    currentHook s 0 = Some h.
Proof.
  intros Hnum.
  destruct (batched_counting start batches Hnum) as (s & Hs & Hcount & _).
  destruct (applyAll_numeric (concat batches) start) as [z Hz].
  { by apply Forall_concat. }
  rewrite Hz in Hcount.
  destruct (counting_under _ _ Hcount) as (h & Hunder & Hhook).
  by exists s, h, z.
Qed.

(** X16.  An update through the [setState] of an earlier render is
    dropped.  Each render makes a new hook cell and a new [setState]
    for it; a call of one handed out before the last commit queues its
    action on a cell that the next pass does not read, so that pass
    renders and commits the state as it was. *)
Theorem stale_setState_dropped (start : Z)
    (batches : list (list (value -> value))) (s : engine) (h stale : loc)
    (action : value -> value)
    (Hnum : Forall (Forall numeric) batches)
    (Hs : batched start batches = Ok s)
    (Hh : currentHook s 0 = Some h)
    (Hstale : stale < h) :
  exists s' c,
    exec (setState stale action ;; tick (VNum start)) s = Ok s' /\
    currentComponent s' = Some c /\
    hookState s' c 0 = Some (applyAll (concat batches) (VNum start)).
Proof.
  destruct (batched_under start batches Hnum)
    as (s0 & h0 & z & Hs0 & Hz & Hunder & Hhook).
  rewrite Hs in Hs0. injection Hs0 as <-.
  rewrite Hh in Hhook. injection Hhook as <-.
  pose proof Hunder as (_ & _ & _ & _ & _ & _ & _ & _ & _ & _ & _ & _ & _ & _
                        & _ & _ & _ & _ & Hcell & _).
  destruct (lookup_lt_is_Some_2 (cells s) stale) as [c' Hc'].
  { apply lookup_lt_Some in Hcell. lia. }
  destruct (setState_counter _ h _ stale c' action s Hunder (le_n _) Hc')
    as (s1 & H1 & Hc1 & Hs1 & _).
  rewrite decide_False in Hc1 by lia.
  destruct (counter_pass (VNum start) _ h _ s1 Hc1 Hs1)
    as (s' & Htick & Hc2 & _); [done|].
  apply under_counting in Hc2 as (_ & _ & c & Hc & Hstate).
  exists s', c. unfold exec. erewrite bind_ok; [|exact H1].
  rewrite Htick. by rewrite Hz.
Qed.

Lemma stale_setState_dropped_witness :
  exists s' c,
    exec (setState 1 (plus 100) ;; tick (VNum 1))
      (storeOf (batched 1 [[plus 1]; [plus 1]])) = Ok s' /\
    currentComponent s' = Some c /\
    hookState s' c 0 = Some (applyAll (concat [[plus 1]; [plus 1]]) (VNum 1)).
Proof.
  apply (stale_setState_dropped 1 [[plus 1]; [plus 1]]
           (storeOf (batched 1 [[plus 1]; [plus 1]])) 2 1 (plus 100)).
  - repeat constructor; intros n; eexists; reflexivity.
  - vm_compute. reflexivity.
  - vm_compute. reflexivity.
  - lia.
Defined.

(** X17.  An update that arrives while a pass is under way is not
    lost.  When a tick stops before the pass started by a first update
    is finished, and the [setState] of the committed hook is called
    again, the pass starts over from the committed tree, whose hook
    cell has both actions queued: the next tick that has the time
    commits the state after the first action and then the second. *)
Theorem interrupted_update_kept (start : Z)
    (batches : list (list (value -> value))) (deadline : nat -> Z)
    (a1 a2 : value -> value)
    (Hnum : Forall (Forall numeric) batches)
    (H1 : numeric a1) (H2 : numeric a2) :
  exists s h s1,
    batched start batches = Ok s /\ currentHook s 0 = Some h /\
    exec (setState h a1 ;; workLoop (counterApp (VNum start)) 20 deadline) s
      = Ok s1 /\
    (nextUnitOfWork s1 <> None ->
     exists s' c,
       exec (setState h a2 ;; tick (VNum start)) s1 = Ok s' /\
       currentComponent s' = Some c /\
       hookState s' c 0
         = Some (a2 (a1 (applyAll (concat batches) (VNum start))))).
Proof.
  destruct (batched_under start batches Hnum)
    as (s & h & z & Hs & Hz & Hunder & Hhook).
  pose proof Hunder as (_ & _ & _ & _ & _ & _ & _ & _ & _ & _ & _ & _ & _ & _
                        & _ & _ & _ & _ & Hcell & _).
  destruct (setState_counter _ h _ h _ a1 s Hunder (le_n _) Hcell)
    as (s0 & H0 & Hc0 & Hs0 & Hlen0 & _).
  rewrite decide_True in Hc0 by done. cbn [state queue app] in Hc0.
  destruct (H1 z) as [z1 Hz1]. destruct (H2 z1) as [z2 Hz2].
  destruct (counter_pass (VNum start) _ h _ s0 Hc0 Hs0)
    as (sf & Htick & _); [by cbn; rewrite Hz1|].
  destruct (workLoop_resume _ _ _ _ deadline Htick) as (s1 & Hrun & _).
  exists s, h, s1. split; [done|]. split; [done|]. split.
  { unfold exec. erewrite bind_ok; [|exact H0]. by rewrite Hrun. }
  intros Hmore.
  assert (Hunits : workUnits (counterApp (VNum start)) 20 20 deadline 0 false s0
                   = Ok (tt, s1)).
  { unfold workLoop in Hrun. apply bind_inv in Hrun as ([] & su & Hu & Hrun).
    unfold bind at 1, gets in Hrun. unfold bind at 1, gets in Hrun.
    destruct (nextUnitOfWork su) eqn:Hn, (wipRoot su) eqn:Hw;
      try (by injection Hrun as <-).
    apply commitRoot_roots in Hrun as [_ Hsame]. congruence. }
  destruct (scheduled_working _ _ Hs0) as (Hb0 & Hwk0 & Hab0).
  apply (workUnits_footprint _ _ (length (fibers s))) in Hunits
    as (Hsp & _); try done.
  pose proof (counterUnder_spares _ _ _ _ _ _ Hc0 Hsp (le_n _)) as Hc1.
  pose proof Hc1 as (_ & _ & _ & _ & _ & _ & _ & _ & _ & _ & _ & _ & _ & _
                     & _ & _ & _ & _ & Hcell1 & _).
  assert (Hlen1 : length (fibers s) <= length (fibers s1)).
  { destruct Hsp as [Hlen _]. lia. }
  destruct (setState_counter _ h _ h _ a2 s1 Hc1 Hlen1 Hcell1)
    as (s2 & H2' & Hc2 & Hs2 & _).
  rewrite decide_True in Hc2 by done. cbn [state queue app] in Hc2.
  destruct (counter_pass (VNum start) _ h _ s2
              (counterUnder_mono _ _ _ _ _ Hlen1 Hc2) Hs2)
    as (s' & Htick' & Hc' & _); [by cbn; rewrite Hz1, Hz2|].
  apply under_counting in Hc' as (_ & _ & c & Hc & Hstate).
  exists s', c. unfold exec. erewrite bind_ok; [|exact H2'].
  rewrite Htick'. by rewrite Hz.
Qed.

Lemma interrupted_update_kept_witness :
  exists s h s1,
    batched 1 [] = Ok s /\ currentHook s 0 = Some h /\
    exec (setState h (plus 1) ;; workLoop (counterApp (VNum 1)) 20 hurried) s
      = Ok s1 /\
    (nextUnitOfWork s1 <> None ->
     exists s' c,
       exec (setState h (times 10) ;; tick (VNum 1)) s1 = Ok s' /\
       currentComponent s' = Some c /\
       hookState s' c 0
         = Some (times 10 (plus 1 (applyAll (concat []) (VNum 1))))).
Proof.
  apply (interrupted_update_kept 1 [] hurried (plus 1) (times 10)).
  - constructor.
  - intros n. eexists. reflexivity.
  - intros n. eexists. reflexivity.
Defined.

(** With a deadline that has no time left, the tick after a [setState]
    does the unit of work of the root and stops there. *)
Example interrupted_after_one_unit :
  exists s1,
    exec (setState 0 (plus 1) ;; workLoop (counterApp (VNum 1)) 20 hurried)
         mountedStore = Ok s1 /\
    nextUnitOfWork s1 = Some 7 /\ wipRoot s1 = Some 6 /\
    currentRoot s1 = Some 0.
Proof.
  eexists. split; [vm_compute; reflexivity|]. by repeat split.
Qed.

(** ** Progress of the work loop *)

Lemma forEach_workLoop_none C fuel : forall ticks s,
  nextUnitOfWork s = None -> wipRoot s = None ->
  forEach (workLoop C fuel) ticks s = Ok (tt, s).
Proof.
  induction ticks as [|d ticks IH]; intros s Hn Hw; [done|].
  cbn [forEach]. erewrite bind_ok; [|by apply workLoop_none]. by apply IH.
Qed.

(** A tick does a unit of work before it looks at the deadline. *)
Lemma workUnits_progress C fuel units : forall deadline s su,
  workUnits C fuel (S units) unhurried 0 false s = Ok (tt, su) ->
  is_Some (nextUnitOfWork s) ->
  forall units', units <= units' ->
  exists s1,
    workUnits C fuel (S units') deadline 0 false s = Ok (tt, s1) /\
    workUnits C fuel units unhurried 0 false s1 = Ok (tt, su).
Proof.
  intros deadline s su H [a Ha] units' Hle.
  rewrite workUnits_step in H. rewrite Ha in H.
  destruct (performUnitOfWork C fuel a s) as [[next s1]|] eqn:Hunit; [|done].
  change (unhurried 0 <? 1)%Z with false in H.
  destruct (workUnits_resume _ _ _ _ _ _ H deadline 1 (deadline 0%nat <? 1)%Z)
    as (s2 & Hrun & Hrest).
  exists s2. split; [|done].
  rewrite workUnits_step, Ha, Hunit.
  clear -Hrun Hle. induction Hle as [|units' _ IH]; [done|].
  by apply workUnits_more.
Qed.

Lemma workLoop_finishes_units C fuel : forall units s su s',
  workUnits C fuel units unhurried 0 false s = Ok (tt, su) ->
  units <= fuel ->
  (n <- gets nextUnitOfWork ;;
   w <- gets wipRoot ;;
   match n, w with
   | None, Some _ => commitRoot fuel
   | _, _ => ret tt
   end) su = Ok (tt, s') ->
  forall ticks, units < length ticks ->
    forEach (workLoop C fuel) ticks s = Ok (tt, s').
Proof.
  induction units as [|units IH]; intros s su s' Hu Hfuel Hend ticks Hlen.
  - rewrite workUnits_step in Hu.
    destruct (nextUnitOfWork s) as [a|] eqn:Hn; [done|]. injection Hu as <-.
    destruct ticks as [|d ticks]; [simpl in Hlen; lia|].
    cbn [forEach]. erewrite bind_ok; cycle 1.
    { unfold workLoop. erewrite bind_ok; [|by apply workUnits_none].
      exact Hend. }
    apply forEach_workLoop_none.
    + unfold bind at 1, gets in Hend. unfold bind at 1, gets in Hend.
      rewrite Hn in Hend. destruct (wipRoot s); [|by injection Hend as <-].
      apply commitRoot_roots in Hend as [_ ->]. done.
    + unfold bind at 1, gets in Hend. unfold bind at 1, gets in Hend.
      rewrite Hn in Hend. destruct (wipRoot s) eqn:Hw; [|by injection Hend as <-].
      by apply commitRoot_roots in Hend as [-> _].
  - destruct (nextUnitOfWork s) as [a|] eqn:Hn.
    + destruct ticks as [|d ticks]; [simpl in Hlen; lia|].
      destruct fuel as [|fuel]; [lia|].
      destruct (workUnits_progress C (S fuel) units d s su Hu) with (units' := fuel)
        as (s1 & Hrun & Hrest); [by rewrite Hn|lia|].
      cbn [forEach].
      destruct (nextUnitOfWork s1) as [a1|] eqn:Hn1.
      * erewrite bind_ok; cycle 1.
        { unfold workLoop. erewrite bind_ok; [|exact Hrun].
          unfold bind, gets. by rewrite Hn1. }
        eapply IH; [exact Hrest|lia|exact Hend|]. simpl in Hlen. lia.
      * rewrite workUnits_none in Hrest by done. injection Hrest as ->.
        erewrite bind_ok; cycle 1.
        { unfold workLoop. erewrite bind_ok; [|exact Hrun]. exact Hend. }
        apply forEach_workLoop_none.
        -- unfold bind at 1, gets in Hend. unfold bind at 1, gets in Hend.
           rewrite Hn1 in Hend.
           destruct (wipRoot su); [|by injection Hend as <-].
           apply commitRoot_roots in Hend as [_ ->]. done.
        -- unfold bind at 1, gets in Hend. unfold bind at 1, gets in Hend.
           rewrite Hn1 in Hend.
           destruct (wipRoot su) eqn:Hw; [|by injection Hend as <-].
           by apply commitRoot_roots in Hend as [-> _].
    + rewrite workUnits_none in Hu by done. injection Hu as <-.
      eapply (IH s s s'); [by apply workUnits_none|lia|done|lia].
Qed.

(** X18.  The work loop makes progress whatever the deadline says.  A
    tick does one unit of work before it first asks for the time that
    remains, so a pass that one unhurried tick would render and commit
    is rendered and committed by any sequence of ticks that is long
    enough, even if none of them is given any time; the ticks that
    follow the commit change nothing. *)
Theorem workLoop_finishes C (fuel : nat) (s s' : engine)
    (ticks : list (nat -> Z))
    (H : workLoop C fuel unhurried s = Ok (tt, s'))
    (Hlen : fuel < length ticks) :
  forEach (workLoop C fuel) ticks s = Ok (tt, s').
Proof.
  unfold workLoop in H. apply bind_inv in H as ([] & su & Hu & Hend).
  by eapply workLoop_finishes_units.
Qed.

Lemma workLoop_finishes_witness :
  forEach (workLoop (counterApp (VNum 1)) 6)
    [hurried; hurried; hurried; hurried; hurried; hurried; hurried]
    (storeOf (exec (render element container) (initial 1)))
  = Ok (tt, mountedStore).
Proof.
  apply (workLoop_finishes (counterApp (VNum 1)) 6).
  - vm_compute. reflexivity.
  - simpl. lia.
Defined.

(** ** The backend calls of a pass over host descriptions *)

Lemma sameKinds_nodes G : forall F, sameKinds G F -> nodes G = nodes F.
Proof.
  induction G as [|tag0 attrs0 kids0 IHk next0 IHn]; intros [|tag attrs kids next];
    simpl; try done.
  intros (_ & Hk & Hn). by rewrite (IHk _ Hk), (IHn _ Hn).
Qed.

Lemma sameKinds_refl F : sameKinds F F.
Proof. induction F; simpl; auto. Qed.

Lemma standing_frame bound X X' G : forall q n,
  (forall l, l < bound -> X' !! l = X !! l) ->
  standing bound X q G n -> standing bound X' q G n.
Proof.
  induction G as [|tag attrs kids IHk next IHn]; intros q n Hsame; [done|].
  intros (o & fo & -> & Ho & Hfo & Ht & Hd & Hp & Hk & Hn).
  exists o, fo. rewrite Hsame by done. repeat split; auto.
Qed.

Lemma standing_mono bound bound' X G : forall q n,
  bound <= bound' -> standing bound X q G n -> standing bound' X q G n.
Proof.
  induction G as [|tag attrs kids IHk next IHn]; intros q n Hb; [done|].
  intros (o & fo & -> & Ho & Hfo & Ht & Hd & Hp & Hk & Hn).
  exists o, fo. repeat split; auto with lia.
Qed.

Lemma standing_shape bound X G : forall q n F,
  sameKinds G F -> standing bound X q G n -> shape bound X q F.
Proof.
  induction G as [|tag attrs kids IHk next IHn];
    intros q n [|tag' attrs' kids' next'] Hsame; try done.
  destruct Hsame as (<- & Hsk & Hsn).
  intros (o & fo & -> & Ho & Hfo & Ht & Hd & Hp & Hk & Hn).
  exists o, fo. split; [done|]. split; [done|]. split; [done|].
  split; [done|]. split; [by rewrite Hd|].
  split; [unfold nodeProps in Hp; by eexists|].
  split; [by eapply IHk|by eapply IHn].
Qed.

Lemma awaiting_frame (upd : bool) base X X' p F : forall a G n,
  (forall l, l < base \/ a <= l < a + breadth F -> X' !! l = X !! l) ->
  awaiting upd base X a p G F n -> awaiting upd base X' a p G F n.
Proof.
  induction F as [|tag attrs kids _ next IH]; intros a G n Hsame; [done|].
  simpl in Hsame.
  intros (f & Hf & Ht & Hp & Hpar & Hch & Hsib & Htag & Hmode & Hnext).
  exists f. rewrite Hsame by lia. repeat split; try done.
  - destruct upd; [|done].
    destruct Hmode as (o & fo & ? & ? & ? & ? & ? & Hk).
    exists o, fo. rewrite Hsame by lia. repeat split; try done.
    eapply standing_frame; [|exact Hk]. intros l Hl. apply Hsame. lia.
  - apply IH; [|done]. intros l Hl. apply Hsame. lia.
Qed.

Lemma awaiting_bound (upd : bool) base X p F : forall a G n,
  a <= length X -> awaiting upd base X a p G F n -> a + breadth F <= length X.
Proof.
  induction F as [|tag attrs kids _ next IH]; intros a G n Ha; simpl; [lia|].
  intros (f & Hf%lookup_lt_Some & H). repeat destruct H as [_ H].
  apply IH in H; lia.
Qed.

Lemma raised_frame (upd : bool) old lo bound lo' bound' X X' F :
  forall q p G n,
  (forall l, l < old \/ lo <= l < bound -> X' !! l = X !! l) ->
  lo' <= lo -> bound <= bound' ->
  raised upd old lo bound X q p G F n -> raised upd old lo' bound' X' q p G F n.
Proof.
  induction F as [|tag attrs kids IHk next IHn]; intros q p G n Hsame Hlo Hb;
    [done|].
  intros (a & f & -> & Ha & Hf & Ht & Hp & Hd & Hpar & Htag & Hmode & Hk & Hn).
  exists a, f. rewrite Hsame by lia. repeat split; try done; try lia.
  - destruct upd; [|done].
    destruct Hmode as (o & fo & ? & ? & ? & ?).
    exists o, fo. rewrite Hsame by lia. done.
  - by apply IHk.
  - by apply IHn.
Qed.

Lemma raised_standing (upd : bool) old lo bound X F : forall q p G n,
  raised upd old lo bound X q p G F n -> standing bound X q F n.
Proof.
  induction F as [|tag attrs kids IHk next IHn]; intros q p G n; [done|].
  intros (a & f & -> & Ha & Hf & Ht & Hp & Hd & Hpar & Htag & Hmode & Hk & Hn).
  exists a, f. repeat split; try done; try lia.
  - by eapply IHk.
  - by eapply IHn.
Qed.

(** The loop of the reconciler on the descriptions of [K], as in
    [reconcileLoop_forest], with the nodes and the [props] of the
    fibers it reuses. *)
Lemma reconcileLoop_awaiting (upd : bool) base w K :
  forall fuel E (j : nat) q prev (t : loc) tf g s G n,
  (j = 0 /\ t = w /\ g = set_child) \/
  (j <> 0 /\ prev = Some t /\ g = set_sibling) ->
  drop j E = describe K ->
  breadth K <= fuel ->
  fibers s !! t = Some tf -> base <= t ->
  (if upd then standing base (fibers s) q G n /\ sameKinds G K else q = None) ->
  exists X,
    reconcileLoop fuel w E j q prev s = Ok (tt, with_fibers X s) /\
    length X = length (fibers s) + breadth K /\
    (forall l, l < length (fibers s) -> l <> t -> X !! l = fibers s !! l) /\
    X !! t = Some match K with
                  | NoMore => tf
                  | _ => g (Some (length (fibers s))) tf
                  end /\
    awaiting upd base X (length (fibers s)) w G K n.
Proof.
  induction K as [|tag attrs kids _ next IH];
    intros fuel E j q prev t tf g s G n Hlink HE Hfuel Ht Hbase Hold.
  - assert (q = None) as ->.
    { destruct upd; [|done]. destruct Hold as [Hst Hsk].
      by destruct G. }
    exists (fibers s). rewrite with_fibers_same.
    rewrite reconcileLoop_done by done. simpl. repeat split; auto with lia.
  - destruct fuel as [|fuel]; [simpl in Hfuel; lia|].
    simpl in Hfuel.
    destruct (drop_describe_Host _ _ _ _ _ _ HE) as (_ & HE' & _).
    set (L := length (fibers s)).
    assert (HtL : t < L) by (by eapply lookup_lt_Some).
    assert (Hdo : forall new,
      link w j prev (Some L) (with_fibers (fibers s ++ [new]) s) =
      Ok (tt, with_fibers (<[t := g (Some L) tf]> (fibers s ++ [new])) s)).
    { intros new. unfold link.
      destruct Hlink as [(-> & -> & ->)|(Hj & -> & ->)].
      - cbn [Nat.eqb]. erewrite updateFiber_ok; [reflexivity|].
        cbn. by apply lookup_app_l_Some.
      - apply Nat.eqb_neq in Hj. rewrite Hj. cbn [deref].
        erewrite bind_ok; [|reflexivity].
        erewrite updateFiber_ok; [reflexivity|].
        cbn. by apply lookup_app_l_Some. }
    assert (exists new q',
      reconcileLoop (S fuel) w E j q prev s =
        reconcileLoop fuel w E (S j) q' (Some L)
          (with_fibers (<[t := g (Some L) tf]> (fibers s ++ [new])) s) /\
      type new = VStr tag /\ props new = nodeProps attrs kids /\
      parent new = Some w /\ child new = None /\ sibling new = None /\
      effectTag new = Some (tagOf upd) /\
      (if upd then
         (exists o fo,
            alternate new = Some o /\ o < base /\ fibers s !! o = Some fo /\
            dom new = Some n /\ props fo = propsOf G /\
            standing base (fibers s) (child fo) (below G) (S n)) /\
         standing base (fibers s) q' (after G) (S n + nodes kids) /\
         sameKinds (after G) next
       else alternate new = None /\ dom new = None /\ q' = None))
      as (new & q' & Hrun & Hty & Hpr & Hpar & Hch & Hsib & Htag & Hmode).
    { destruct upd.
      - destruct Hold as [Hst Hsk].
        destruct G as [|tag0 attrs0 kids0 next0]; [done|].
        destruct Hsk as (-> & Hskk & Hskn).
        destruct Hst as (o & fo & -> & Ho & Hfo & Hto & Hd & Hp & Hk & Hn).
        exists (reused w o fo (nodeProps attrs kids)), (sibling fo).
        split.
        + rewrite (reconcileLoop_reuse _ _ _ _ _ _ _ _ _ _ _ _ HE Hfo Hto).
          by erewrite bind_ok; [|apply Hdo].
        + cbn [type props parent child sibling effectTag alternate dom reused
               tagOf below after propsOf].
          repeat (split; [done|]). split; [|split; [|done]].
          * exists o, fo. by repeat split.
          * by rewrite <- (sameKinds_nodes _ _ Hskk).
      - subst q. exists (placed w (VStr tag) (nodeProps attrs kids)), None.
        split; [|done].
        rewrite (reconcileLoop_place _ _ _ _ _ _ _ _ _ _ HE).
        by erewrite bind_ok; [|apply Hdo]. }
    set (s1 := with_fibers (<[t := g (Some L) tf]> (fibers s ++ [new])) s) in *.
    assert (Hlen1 : length (fibers s1) = S L).
    { subst s1. cbn. rewrite length_insert, length_app. simpl. lia. }
    assert (Hsame1 : forall l, l < L -> l <> t -> fibers s1 !! l = fibers s !! l).
    { intros l Hl Hne. subst s1. cbn.
      rewrite list_lookup_insert_ne by done. by rewrite lookup_app_l. }
    assert (HL1 : fibers s1 !! L = Some new).
    { subst s1. cbn. rewrite list_lookup_insert_ne by lia.
      subst L. by rewrite lookup_app_r, Nat.sub_diag. }
    destruct (IH fuel E (S j) q' (Some L) L new set_sibling s1 (after G)
                (S n + nodes kids))
      as (X & HX & HlenX & HsameX & HXL & Hpend); try done; try lia.
    { right. by repeat split. }
    { destruct upd; [|by destruct Hmode as (_ & _ & ->)].
      destruct Hmode as (_ & Hn & Hsk). split; [|done].
      eapply standing_frame; [|exact Hn].
      intros l Hl. apply Hsame1; lia. }
    rewrite Hlen1 in HsameX, HXL, Hpend.
    exists X. rewrite Hrun. split; [exact HX|].
    split; [rewrite HlenX, Hlen1; simpl; lia|].
    split; [intros l Hl Hne; rewrite HsameX by lia; apply Hsame1; lia|].
    split.
    { rewrite HsameX by lia. subst s1. cbn.
      apply list_lookup_insert_eq. rewrite length_app. simpl. lia. }
    cbn [awaiting].
    eexists. split; [exact HXL|].
    assert (HoldX : forall l, l < base -> X !! l = fibers s !! l).
    { intros l Hl. rewrite HsameX by lia. apply Hsame1; lia. }
    set (fx := match next with
               | NoMore => new
               | _ => set_sibling (Some (S L)) new
               end).
    assert (Hfx : type fx = type new /\ props fx = props new /\
                  parent fx = parent new /\ child fx = child new /\
                  effectTag fx = effectTag new /\
                  alternate fx = alternate new /\ dom fx = dom new /\
                  sibling fx = match next with
                               | NoMore => None
                               | _ => Some (S L)
                               end).
    { subst fx. destruct next; cbn; by repeat split. }
    destruct Hfx as (-> & -> & -> & -> & -> & -> & -> & ->).
    split; [done|]. split; [done|]. split; [done|]. split; [done|].
    split; [done|]. split; [done|]. split; [|exact Hpend].
    destruct upd; [|by destruct Hmode as (? & ? & _)].
    destruct Hmode as ((o & fo & ? & ? & ? & ? & ? & Hk) & _).
    exists o, fo. rewrite HoldX by done. repeat split; try done.
    by eapply standing_frame.
Qed.

Lemma reconcileChildren_awaiting (upd : bool) base fuel w wf K s G n :
  fibers s !! w = Some wf -> base <= w -> breadth K <= fuel ->
  (if upd then
     exists o fo, alternate wf = Some o /\ fibers s !! o = Some fo /\
                  standing base (fibers s) (child fo) G n /\ sameKinds G K
   else alternate wf = None) ->
  exists X,
    reconcileChildren fuel w (VArr (describe K)) s = Ok (tt, with_fibers X s) /\
    length X = length (fibers s) + breadth K /\
    (forall l, l < length (fibers s) -> l <> w -> X !! l = fibers s !! l) /\
    X !! w = Some match K with
                  | NoMore => wf
                  | _ => set_child (Some (length (fibers s))) wf
                  end /\
    awaiting upd base X (length (fibers s)) w G K n.
Proof.
  intros Hw Hbase Hfuel Hold.
  assert (exists q,
    reconcileChildren fuel w (VArr (describe K)) s =
      reconcileLoop fuel w (describe K) 0 q None s /\
    (if upd then standing base (fibers s) q G n /\ sameKinds G K else q = None))
    as (q & -> & Hq).
  { unfold reconcileChildren.
    erewrite bind_ok; [|by apply readFiber_ok].
    destruct upd.
    - destruct Hold as (o & fo & -> & Hfo & Hk).
      exists (child fo). split; [|done].
      erewrite bind_assoc, bind_ok; [|by apply readFiber_ok].
      erewrite bind_ok; [|reflexivity].
      by erewrite bind_ok; [|reflexivity].
    - rewrite Hold. exists None. split; [|done].
      erewrite bind_ok; [|reflexivity].
      by erewrite bind_ok; [|reflexivity]. }
  eapply reconcileLoop_awaiting; try done. left. by repeat split.
Qed.

Lemma createDom_event f tag ps s :
  type f = VStr tag -> props f = VObj ps ->
  createDom f s =
  Ok (nextNode s,
      with_backend (S (nextNode s))
        (log s ++ [createEvent tag (nextNode s);
                   UpdateDom (nextNode s) (VObj []) (props f)]) s).
Proof.
  intros Ht Hp. unfold createDom. rewrite Ht, Hp.
  erewrite bind_ok; [|reflexivity].
  erewrite bind_ok; [|reflexivity].
  erewrite bind_ok; [|reflexivity].
  erewrite bind_ok; [|reflexivity].
  erewrite bind_ok; [|reflexivity].
  unfold createEvent, ret. cbn. by rewrite <- app_assoc.
Qed.

(** One unit of work on an awaiting host fiber, with what it calls on
    the backend. *)
Lemma unit_awaiting C (upd : bool) base fuel s a p tag attrs kids next up k G n :
  awaiting upd base (fibers s) a p G (Host tag attrs kids next) n ->
  (upd = true -> sameKinds (below G) kids) ->
  (upd = false -> n = nextNode s) ->
  base <= a ->
  climbs a (fibers s) (Some p) up k ->
  breadth kids <= fuel -> S k < fuel ->
  exists X fa,
    performUnitOfWork C fuel a s =
      Ok (entry kids (length (fibers s)) (entry next (S a) up),
          with_backend (if upd then nextNode s else S (nextNode s))
            (log s ++ (if upd then []
                       else [createEvent tag n;
                             UpdateDom n (VObj []) (nodeProps attrs kids)]))
            (with_fibers X s)) /\
    length X = length (fibers s) + breadth kids /\
    (forall l, l < length (fibers s) -> l <> a -> X !! l = fibers s !! l) /\
    X !! a = Some fa /\
    type fa = VStr tag /\ props fa = nodeProps attrs kids /\
    dom fa = Some n /\ parent fa = Some p /\
    child fa = first kids (length (fibers s)) /\
    sibling fa = match next with NoMore => None | _ => Some (S a) end /\
    effectTag fa = Some (tagOf upd) /\
    (if upd then
       exists o fo,
         alternate fa = Some o /\ o < base /\ X !! o = Some fo /\
         props fo = propsOf G
     else True) /\
    awaiting upd base X (length (fibers s)) a (below G) kids (S n).
Proof.
  intros (f & Hf & Ht & Hp & Hpar & Hch & Hsib & Htag & Hmode & _) Hsk Hn Hbase
    Hup Hfuel Hk.
  assert (Ha : a < length (fibers s)) by (by eapply lookup_lt_Some).
  set (n' := if upd then nextNode s else S (nextNode s)).
  set (lg' := log s ++ (if upd then []
                        else [createEvent tag n;
                              UpdateDom n (VObj []) (nodeProps attrs kids)])).
  (* the backend node *)
  assert (exists f0,
    (match dom f with
     | None => d <- createDom f ;; updateFiber a (set_dom (Some d))
     | Some _ => ret tt
     end) s =
      Ok (tt, with_backend n' lg' (with_fibers (<[a := f0]> (fibers s)) s)) /\
    type f0 = type f /\ props f0 = props f /\ parent f0 = parent f /\
    child f0 = child f /\ sibling f0 = sibling f /\
    alternate f0 = alternate f /\ effectTag f0 = effectTag f /\
    dom f0 = Some n)
    as (f0 & Hdom & Ht0 & Hp0 & Hpar0 & Hch0 & Hsib0 & Halt0 & Htag0 & Hd0).
  { subst n' lg'. destruct upd.
    - destruct Hmode as (o & fo & _ & _ & _ & Hd & _).
      exists f. rewrite Hd, app_nil_r.
      split; [rewrite list_insert_id by done; by destruct s|].
      repeat split; done.
    - destruct Hmode as (_ & Hd). rewrite Hd, (Hn eq_refl).
      exists (set_dom (Some (nextNode s)) f).
      split; [|repeat split; done].
      erewrite bind_ok; [|by eapply createDom_event].
      erewrite updateFiber_ok; [|done]. by rewrite Hp. }
  set (s0 := with_backend n' lg' (with_fibers (<[a := f0]> (fibers s)) s)).
  assert (Hf0 : fibers s0 !! a = Some f0).
  { subst s0. cbn. by apply list_lookup_insert_eq. }
  assert (Hsame0 : forall l, l <> a -> fibers s0 !! l = fibers s !! l).
  { intros l Hl. subst s0. cbn. by apply list_lookup_insert_ne. }
  assert (Hlen0 : length (fibers s0) = length (fibers s)).
  { subst s0. cbn. by rewrite length_insert. }
  (* the children *)
  destruct (reconcileChildren_awaiting upd base fuel a f0 kids s0 (below G) (S n)
              Hf0 Hbase Hfuel)
    as (X & Hrec & HlenX & HsameX & HXa & Hpend).
  { destruct upd; [|by rewrite Halt0; destruct Hmode].
    destruct Hmode as (o & fo & Halt & Ho & Hfo & _ & _ & Hk').
    exists o, fo. rewrite Halt0, Hsame0 by lia.
    split; [done|]. split; [done|]. split; [|by apply Hsk].
    eapply standing_frame; [|exact Hk']. intros l Hl. apply Hsame0. lia. }
  rewrite Hlen0 in HlenX, HsameX, HXa, Hpend.
  set (fa := match kids with
             | NoMore => f0
             | _ => set_child (Some (length (fibers s))) f0
             end) in *.
  assert (Hfa : type fa = type f0 /\ props fa = props f0 /\ dom fa = dom f0 /\
                parent fa = parent f0 /\ sibling fa = sibling f0 /\
                alternate fa = alternate f0 /\ effectTag fa = effectTag f0 /\
                child fa = first kids (length (fibers s))).
  { subst fa. destruct kids; cbn; repeat split; try done.
    by rewrite Hch0. }
  destruct Hfa as (Hta & Hpa & Hda & Hpara & Hsiba & Halta & Htaga & Hcha).
  exists X, fa.
  split.
  { unfold performUnitOfWork.
    erewrite bind_ok; [|by apply readFiber_ok]. rewrite Ht.
    unfold updateHostComponent.
    erewrite bind_assoc, bind_ok; [|by apply readFiber_ok].
    erewrite bind_assoc, bind_ok; [|exact Hdom].
    fold s0.
    erewrite bind_assoc, bind_ok; [|by apply readFiber_ok].
    rewrite Hp0, Hp.
    erewrite bind_assoc, bind_ok; [|by apply children_nodeProps].
    erewrite bind_ok; [|exact Hrec].
    erewrite bind_ok; [|by apply readFiber_ok].
    rewrite Hcha.
    destruct kids; [|reflexivity]. cbn [first entry].
    erewrite (nextOf_climbs (length X) _ _ (entry next (S a) up) (S k));
      [reflexivity| |lia].
    cbn [fibers with_fibers].
    destruct next.
    - eapply climbs_parent; [lia|exact HXa|by rewrite Hsiba, Hsib0, Hsib|].
      rewrite Hpara, Hpar0, Hpar.
      eapply climbs_frame; [| |exact Hup]; [|lia].
      intros l Hl. rewrite HsameX by lia. apply Hsame0. lia.
    - eapply climbs_sibling; [lia|exact HXa|].
      by rewrite Hsiba, Hsib0, Hsib. }
  split; [done|].
  split; [intros l Hl Hne; rewrite HsameX by done; by apply Hsame0|].
  split; [done|].
  rewrite Hta, Hpa, Hda, Hpara, Hsiba, Htaga, Halta.
  rewrite Ht0, Hp0, Hpar0, Hsib0, Htag0, Halt0.
  repeat (split; [done|]).
  split; [|done].
  destruct upd; [|done].
  destruct Hmode as (o & fo & Halt & Ho & Hfo & _ & Hps & _).
  exists o, fo. rewrite HsameX, Hsame0 by lia. done.
Qed.

Lemma engine_eq s t :
  fibers s = fibers t -> cells s = cells t ->
  nextUnitOfWork s = nextUnitOfWork t -> currentRoot s = currentRoot t ->
  wipRoot s = wipRoot t -> deletions s = deletions t ->
  wipFiber s = wipFiber t -> hookIndex s = hookIndex t ->
  nextNode s = nextNode t -> log s = log t -> s = t.
Proof. destruct s, t. simpl. by intros -> -> -> -> -> -> -> -> -> ->. Qed.

Lemma with_backend_same s :
  with_nextUnitOfWork (nextUnitOfWork s)
    (with_backend (nextNode s) (log s ++ []) (with_fibers (fibers s) s)) = s.
Proof. rewrite app_nil_r. by destruct s. Qed.

(** From a store in which the fibers of [F] are awaiting at [a] and are
    the next to be worked on, [nodes F] units of work raise the whole
    forest; when the fibers are new they make its nodes, numbered from
    the next free one in the order of the units. *)
Lemma forest_raised C (upd : bool) base fuel F : forall s a p up k G n,
  awaiting upd base (fibers s) a p G F n ->
  (upd = true -> sameKinds G F) ->
  (upd = false -> n = nextNode s) ->
  base <= a ->
  climbs a (fibers s) (Some p) up k ->
  nodes F + S k < fuel ->
  nextUnitOfWork s = entry F a up ->
  exists X,
    (forall units calls,
       workUnits C fuel (nodes F + units) unhurried calls false s =
       workUnits C fuel units unhurried (calls + nodes F) false
         (with_nextUnitOfWork up
            (with_backend (if upd then nextNode s else nextNode s + nodes F)
               (log s ++ passLog upd n F) (with_fibers X s)))) /\
    length (fibers s) <= length X /\
    (forall l, l < length (fibers s) -> ~ (a <= l < a + breadth F) ->
               X !! l = fibers s !! l) /\
    raised upd base a (length X) X (first F a) p G F n.
Proof.
  induction F as [|tag attrs kids IHk next IHn];
    intros s a p up k G n Hpend Hsk Hn Hbase Hup Hfuel Hentry.
  - exists (fibers s).
    cbn [entry] in Hentry. rewrite <- Hentry.
    replace (if upd then nextNode s else nextNode s + nodes NoMore)
      with (nextNode s) by (destruct upd; simpl; lia).
    replace (passLog upd n NoMore) with (@nil dom_event) by (by destruct upd).
    rewrite with_backend_same.
    split; [intros units calls; simpl; by rewrite Nat.add_0_r|].
    repeat split; try done.
  - cbn [nodes] in Hfuel. cbn [entry] in Hentry.
    assert (breadth kids <= nodes kids) as Hbk.
    { clear. induction kids; simpl; lia. }
    set (L := length (fibers s)).
    assert (Ha : a < L).
    { destruct Hpend as (f & Hf & _). by eapply lookup_lt_Some. }
    assert (Hskk : upd = true -> sameKinds (below G) kids).
    { intros Hu. specialize (Hsk Hu). destruct G; [done|]. by destruct Hsk as (_ & ? & _). }
    assert (Hskn : upd = true -> sameKinds (after G) next).
    { intros Hu. specialize (Hsk Hu). destruct G; [done|]. by destruct Hsk as (_ & _ & ?). }
    (* the unit for the first fiber *)
    destruct (unit_awaiting C upd base fuel s a p tag attrs kids next up k G n)
      as (X1 & fa & Hunit & Hlen1 & Hsame1 & HX1a & Hta & Hpa & Hda
          & Hpara & Hcha & Hsiba & Htaga & Halta & Hpend1);
      try done; try lia.
    fold L in Hunit, Hlen1, Hsame1, Hcha, Hpend1.
    set (up1 := entry next (S a) up) in *.
    set (n1 := if upd then nextNode s else S (nextNode s)) in *.
    set (lg1 := log s ++ (if upd then []
                          else [createEvent tag n;
                                UpdateDom n (VObj []) (nodeProps attrs kids)]))
      in *.
    set (s1 := with_nextUnitOfWork (entry kids L up1)
                 (with_backend n1 lg1 (with_fibers X1 s))).
    (* its children *)
    destruct (IHk s1 L a up1 (S k) (below G) (S n))
      as (X2 & Hrun2 & Hlen2 & Hsame2 & Hbuilt2);
      try done; try lia.
    { intros Hu. subst s1 n1. fields. rewrite Hu. by rewrite (Hn Hu). }
    { destruct next; subst up1; cbn [entry].
      - eapply climbs_parent; [lia|exact HX1a|done|]. rewrite Hpara.
        eapply climbs_frame; [| |exact Hup]; [|lia].
        intros l Hl. apply Hsame1; lia.
      - by eapply climbs_sibling; [lia|exact HX1a|]. }
    cbn [fibers with_fibers with_backend with_nextUnitOfWork s1] in Hlen2, Hsame2.
    rewrite Hlen1 in Hlen2, Hsame2.
    set (n2 := if upd then nextNode s1 else nextNode s1 + nodes kids) in *.
    set (lg2 := log s1 ++ passLog upd (S n) kids) in *.
    set (s2 := with_nextUnitOfWork up1 (with_backend n2 lg2 (with_fibers X2 s1)))
      in *.
    assert (Hsame12 : forall l, l < L -> l <> a -> X2 !! l = fibers s !! l).
    { intros l Hl Hne. rewrite Hsame2 by lia. by apply Hsame1. }
    assert (HX2a : X2 !! a = Some fa) by (by rewrite Hsame2 by lia).
    (* its siblings *)
    destruct Hpend as (f & _ & _ & _ & _ & _ & _ & _ & _ & Hpendn).
    assert (Hchain : S a + breadth next <= L).
    { apply awaiting_bound in Hpendn; [fold L in Hpendn|fold L]; lia. }
    destruct (IHn s2 (S a) p up k (after G) (S n + nodes kids))
      as (X3 & Hrun3 & Hlen3 & Hsame3 & Hbuilt3);
      try done; try lia.
    { eapply awaiting_frame; [|exact Hpendn].
      intros l Hl. apply Hsame12; [|lia].
      lia. }
    { intros Hu. subst s2 n2 s1 n1. fields. rewrite Hu. fields.
      rewrite (Hn Hu). lia. }
    { eapply climbs_frame; [| |exact Hup]; [|lia].
      intros l Hl. apply Hsame12; lia. }
    cbn [fibers with_fibers with_backend with_nextUnitOfWork s2] in Hlen3, Hsame3.
    assert (HX3a : X3 !! a = Some fa).
    { rewrite Hsame3; [done|by apply lookup_lt_Some in HX2a|lia]. }
    exists X3.
    split.
    { intros units calls. cbn [nodes].
      replace (S (nodes kids + nodes next) + units)
        with (S (nodes kids + (nodes next + units))) by lia.
      rewrite (workUnits_unit _ _ _ _ _ _ _ _ Hentry Hunit).
      fold s1. rewrite Hrun2. fold s2. rewrite Hrun3.
      replace (S calls + nodes kids + nodes next)
        with (calls + S (nodes kids + nodes next)) by lia.
      match goal with
      | |- workUnits _ _ _ _ _ _ ?x = workUnits _ _ _ _ _ _ ?y =>
          assert (Hstore : x = y); [|by rewrite Hstore]
      end.
      clear Hrun2 Hrun3 Hunit.
      apply engine_eq; subst s2 n2 lg2 s1 n1 lg1; fields; try done.
      + destruct upd; lia.
      + unfold passLog. destruct upd; cbn [creations nodes].
        * by rewrite !app_nil_r.
        * by rewrite <- !app_assoc. }
    split; [fold L; lia|].
    split.
    { intros l Hl Hout. cbn [breadth] in Hout. fold L in Hl.
      rewrite Hsame3 by lia. apply Hsame12; lia. }
    cbn [first raised]. exists a, fa.
    assert (a < length X3) by (by eapply lookup_lt_Some).
    repeat (split; [done || lia|]).
    split.
    { destruct upd; [|done]. destruct Halta as (o & fo & ? & ? & Ho & ?).
      exists o, fo. rewrite Hsame3, Hsame2 by lia. done. }
    split.
    + rewrite Hcha. eapply raised_frame; [| | |exact Hbuilt2]; [|lia..].
      intros l Hl. apply Hsame3; lia.
    + rewrite Hsiba.
      replace (match next with NoMore => None | _ => Some (S a) end)
        with (first next (S a)) by (by destruct next).
      eapply raised_frame; [| | |exact Hbuilt3]; [done|lia..].
Qed.

(** Committing a raised forest, with what it calls on the backend. *)
Lemma commitWork_raised (upd : bool) old lo bound X F :
  forall q p d k fuel s G n,
  fibers s = X ->
  raised upd old lo bound X q p G F n ->
  (upd = true -> sameKinds G F) ->
  anchored X p d k -> 0 < k -> nodes F + k <= fuel ->
  commitWork fuel q s =
  Ok (tt, with_backend (nextNode s) (log s ++ commitLog upd d n G F) s).
Proof.
  induction F as [|tag attrs kids IHk next IHn];
    intros q p d k fuel s G n HX Hbuilt Hsk Hanch Hk Hfuel.
  - cbn in Hbuilt. subst q.
    replace (commitLog upd d n G NoMore) with (@nil dom_event)
      by (by destruct upd).
    destruct fuel; cbn; by rewrite app_nil_r; destruct s.
  - destruct Hbuilt as (a & f & -> & Ha & Hf & Ht & Hp & Hda & Hpar & Htag
                        & Hmode & Hkids & Hnext).
    assert (Hskk : upd = true -> sameKinds (below G) kids).
    { intros Hu. specialize (Hsk Hu). destruct G; [done|].
      by destruct Hsk as (_ & ? & _). }
    assert (Hskn : upd = true -> sameKinds (after G) next).
    { intros Hu. specialize (Hsk Hu). destruct G; [done|].
      by destruct Hsk as (_ & _ & ?). }
    cbn [nodes] in Hfuel. destruct fuel as [|fuel]; [lia|].
    rewrite commitWork_unfold.
    erewrite bind_ok; [|by apply readFiber_ok; rewrite HX].
    rewrite Hpar.
    erewrite bind_ok;
      [|eapply (domParentOf_anchored _ _ d k); [by rewrite HX|lia]].
    rewrite Htag, Hda.
    set (e := if upd then UpdateDom n (propsOf G) (nodeProps attrs kids)
              else AppendChild d n).
    assert (Hop :
      (match tagOf upd with
       | PLACEMENT => emit (AppendChild d n)
       | UPDATE =>
           a0 <- deref (alternate f) ;;
           old0 <- readFiber a0 ;; updateDom n (props old0) (props f)
       | DELETION => commitDeletion (S fuel) (Some a) d
       end) s = Ok (tt, with_backend (nextNode s) (log s ++ [e]) s)).
    { subst e. destruct upd; cbn [tagOf]; [|done].
      destruct Hmode as (o & fo & -> & _ & Hfo & Hps).
      cbn [deref]. erewrite bind_ok; [|reflexivity].
      erewrite bind_ok; [|by apply readFiber_ok; rewrite HX].
      rewrite Hps, Hp. specialize (Hsk eq_refl). by destruct G. }
    erewrite bind_ok; [|exact Hop].
    set (s1 := with_backend (nextNode s) (log s ++ [e]) s).
    erewrite bind_ok; cycle 1.
    { apply (IHk (child f) a n 1 fuel s1 (below G) (S n)); try done; try lia.
      by eapply anchored_here. }
    set (s2 := with_backend (nextNode s1)
                 (log s1 ++ commitLog upd n (S n) (below G) kids) s1).
    rewrite (IHn (sibling f) p d k fuel s2 (after G) (S n + nodes kids));
      try done; try lia.
    do 2 f_equal. apply engine_eq; subst s2 s1 e; fields; try done.
    unfold commitLog. destruct upd; cbn [refreshes attachments];
      by rewrite <- !app_assoc.
Qed.

(** The units of work of a pass from its root, as in [host_pass], with
    the backend calls. *)
Lemma host_raised C (upd : bool) fuel units s r fr F G n :
  nextUnitOfWork s = Some r ->
  fibers s !! r = Some fr -> S r = length (fibers s) ->
  type fr = VUndefined -> is_Some (dom fr) ->
  props fr = VObj [("children", VArr (describe F))] ->
  parent fr = None -> sibling fr = None -> child fr = None ->
  (if upd then
     exists o fo, alternate fr = Some o /\ fibers s !! o = Some fo /\
                  standing r (fibers s) (child fo) G n /\ sameKinds G F
   else alternate fr = None /\ n = nextNode s) ->
  nodes F + 2 < fuel -> nodes F < units ->
  exists X,
    workUnits C fuel units unhurried 0 false s =
      Ok (tt, with_nextUnitOfWork None
                (with_backend (if upd then nextNode s else nextNode s + nodes F)
                   (log s ++ passLog upd n F) (with_fibers X s))) /\
    length (fibers s) <= length X /\
    (forall l, l < r -> X !! l = fibers s !! l) /\
    X !! r = Some (set_child (first F (S r)) fr) /\
    raised upd r (S r) (length X) X (first F (S r)) r G F n.
Proof.
  intros Hnext Hfr Hlen Ht [d Hd] Hp Hpar Hsib Hch Hold Hfuel Hunits.
  assert (breadth F <= nodes F) as Hb by (clear; induction F; simpl; lia).
  destruct (reconcileChildren_awaiting upd r fuel r fr F s G n)
    as (X1 & Hrec & Hlen1 & Hsame1 & HX1r & Hpend1); try done; try lia.
  { destruct upd; [done|]. by destruct Hold. }
  rewrite <- Hlen in Hlen1, Hsame1, HX1r, Hpend1.
  assert (HX1r' : X1 !! r = Some (set_child (first F (S r)) fr)).
  { rewrite HX1r. destruct F; [|done]. cbn. rewrite <- Hch. by destruct fr. }
  clear HX1r.
  assert (Hclimb : climbs (S r) X1 (Some r) None 1).
  { eapply climbs_parent; [lia|exact HX1r'|done|]. cbn. rewrite Hpar.
    constructor. }
  assert (Hunit :
    performUnitOfWork C fuel r s = Ok (entry F (S r) None, with_fibers X1 s)).
  { unfold performUnitOfWork.
    erewrite bind_ok; [|by apply readFiber_ok]. rewrite Ht.
    unfold updateHostComponent.
    erewrite bind_assoc, bind_ok; [|by apply readFiber_ok]. rewrite Hd.
    erewrite bind_assoc, bind_ok; [|reflexivity].
    erewrite bind_assoc, bind_ok; [|by apply readFiber_ok]. rewrite Hp.
    erewrite bind_assoc, bind_ok; [|reflexivity].
    erewrite bind_ok; [|exact Hrec].
    erewrite bind_ok; [|by apply readFiber_ok].
    cbn [child set_child]. destruct F; [|reflexivity]. cbn [first entry].
    erewrite (nextOf_climbs (S r) (with_fibers X1 s) _ _ _ Hclimb); [done|lia]. }
  set (s1 := with_nextUnitOfWork (entry F (S r) None) (with_fibers X1 s)).
  destruct (forest_raised C upd r fuel F s1 (S r) r None 1 G n)
    as (X & Hrun & HlenX & HsameX & Hbuilt);
    try done; try lia.
  { intros Hu. rewrite Hu in Hold. by destruct Hold as (? & ? & ? & ? & ? & ?). }
  { intros Hu. rewrite Hu in Hold. by destruct Hold. }
  cbn [fibers with_fibers with_nextUnitOfWork s1] in HlenX, HsameX.
  exists X.
  split.
  { destruct units as [|units]; [lia|].
    rewrite (workUnits_unit _ _ _ _ _ _ _ _ Hnext Hunit). fold s1.
    replace units with (nodes F + (units - nodes F)) by lia.
    rewrite Hrun. by rewrite workUnits_idle. }
  split; [lia|].
  split; [intros l Hl; rewrite HsameX by lia; apply Hsame1; lia|].
  split; [rewrite HsameX by lia; done|done].
Qed.

(** A whole pass started by [render] on a tree of host descriptions,
    commit included, with everything it calls on the backend: on a
    store without a current root it makes the nodes and attaches them;
    on a store whose committed tree has the kinds of the description it
    only updates the nodes that are there. *)
Lemma render_tick C (upd : bool) fuel s tag attrs kids c G n :
  (if upd
   then committedWith s c n G /\ sameKinds G (tree tag attrs kids)
   else currentRoot s = None /\ n = nextNode s) ->
  nodes (tree tag attrs kids) + 2 < fuel ->
  exists s',
    exec (render (treeElement tag attrs kids) (Some c) ;;
          workLoop C fuel unhurried) s = Ok s' /\
    log s' = log s ++ passLog upd n (tree tag attrs kids)
                   ++ commitLog upd c n G (tree tag attrs kids) /\
    nextNode s' = (if upd then nextNode s
                   else nextNode s + nodes (tree tag attrs kids)) /\
    committedWith s' c n (tree tag attrs kids) /\
    nextUnitOfWork s' = None /\ wipRoot s' = None /\
    exists fr,
      currentRoot s' = Some (length (fibers s)) /\
      fibers s' !! length (fibers s) = Some fr /\ dom fr = Some c /\
      raised upd (length (fibers s)) (S (length (fibers s)))
        (length (fibers s')) (fibers s') (child fr) (length (fibers s))
        G (tree tag attrs kids) n.
Proof.
  intros Hmode Hfuel.
  set (F := tree tag attrs kids) in *.
  set (r := length (fibers s)).
  set (fr := rootFiber (Some c)
               (VObj [("children", VArr [treeElement tag attrs kids])])
               (currentRoot s)).
  set (s0 := with_nextUnitOfWork (Some r)
               (with_deletions (Some [])
                  (with_wipRoot (Some r) (with_fibers (fibers s ++ [fr]) s)))).
  assert (Hrender : render (treeElement tag attrs kids) (Some c) s = Ok (tt, s0))
    by done.
  assert (Hfr : fibers s0 !! r = Some fr).
  { subst s0 r. cbn. by rewrite lookup_app_r, Nat.sub_diag. }
  assert (Hlen : S r = length (fibers s0)).
  { subst s0 r. cbn. rewrite length_app. simpl. lia. }
  destruct (host_raised C upd fuel fuel s0 r fr F G n)
    as (X & Hrun & HlenX & HsameX & HXr & Hbuilt); try done; try lia.
  { destruct upd; [|destruct Hmode as [Hc Hn]; subst fr; cbn [alternate rootFiber];
                     by rewrite Hc, Hn].
    destruct Hmode as [(ro & fo & Hcur & Hfo & Hdo & Hst) Hsk].
    exists ro, fo. subst fr. cbn [alternate rootFiber].
    split; [done|]. subst s0.
    cbn [fibers with_nextUnitOfWork with_deletions with_wipRoot with_fibers].
    split; [by apply lookup_app_l_Some|]. split; [|done].
    eapply standing_frame; [|exact Hst].
    intros l Hl. by rewrite lookup_app_l. }
  set (n1 := if upd then nextNode s0 else nextNode s0 + nodes F) in *.
  set (s1 := with_nextUnitOfWork None
               (with_backend n1 (log s0 ++ passLog upd n F) (with_fibers X s0)))
    in *.
  assert (Hcommit :
    commitWork fuel (Some (S r)) s1 =
    Ok (tt, with_backend (nextNode s1) (log s1 ++ commitLog upd c n G F) s1)).
  { apply (commitWork_raised upd r (S r) (length X) X F (Some (S r)) r c 1);
      try done; try lia.
    - intros Hu. rewrite Hu in Hmode. by destruct Hmode.
    - by eapply anchored_here. }
  eexists. split; [|split; [|split; [|split; [|split; [|split]]]]].
  - unfold exec, workLoop.
    rewrite <- (bind_assoc (render _ _) (fun _ => workUnits _ _ _ _ _ _)).
    erewrite bind_ok; cycle 1.
    { erewrite bind_ok; [|exact Hrender]. exact Hrun. }
    erewrite bind_ok; [|reflexivity].
    erewrite bind_ok; [|reflexivity].
    cbn [nextUnitOfWork wipRoot s1 s0 with_nextUnitOfWork with_backend
         with_fibers with_deletions with_wipRoot].
    unfold commitRoot.
    erewrite bind_ok; [|reflexivity].
    cbn [deletions s1 s0 with_nextUnitOfWork with_backend with_fibers
         with_deletions with_wipRoot forEach].
    erewrite bind_ok; [|reflexivity].
    erewrite bind_ok; [|reflexivity].
    erewrite bind_ok; [|reflexivity].
    erewrite bind_ok; [|by apply readFiber_ok].
    cbn [child set_child first F tree].
    erewrite bind_ok; [|exact Hcommit].
    erewrite bind_ok; [|reflexivity].
    reflexivity.
  - subst s1 s0. fields. by rewrite <- app_assoc.
  - subst s1 n1 s0. fields. done.
  - exists r, (set_child (Some (S r)) fr). subst s1 s0. fields.
    split; [done|]. split; [done|]. split; [done|].
    cbn [child set_child]. by eapply raised_standing.
  - by subst s1 s0.
  - by subst s1 s0.
  - exists (set_child (Some (S r)) fr). subst s1 s0. fields.
    split; [done|]. split; [done|]. split; [done|].
    cbn [child set_child]. done.
Qed.

(** ** Mounting and re-rendering a tree of host descriptions *)

Lemma refreshes_plain F : forall n,
  plain F -> Forall (fun e => nodeCalls e = Some []) (refreshes n F F).
Proof.
  induction F as [|tag attrs kids IHk next IHn]; intros n; simpl; [done|].
  intros (Hattrs & Hkids & Hnext).
  constructor; [|apply Forall_app; split; [by apply IHk|by apply IHn]].
  unfold nodeProps, nodeCalls.
  rewrite updateDomCalls_agree; [done|done|].
  intros k v Hk. rewrite lookup_set_field_ne by done. by apply Hattrs.
Qed.

Lemma refreshes_updates F : forall n G, Forall updates (refreshes n G F).
Proof.
  induction F as [|tag attrs kids IHk next IHn]; intros n G; simpl; [done|].
  constructor; [done|]. apply Forall_app. split; [apply IHk|apply IHn].
Qed.

(** X19.  Mounting: on a store in which nothing is committed yet,
    [render] of a tree of host descriptions followed by a tick that has
    the time to finish calls the backend exactly so: during the units
    of work, for each description in the order description, children,
    siblings, it makes one node ([createTextNode] for [TEXT_ELEMENT],
    [createElement] otherwise) and sets it up from the empty record;
    then the commit attaches each node to the node of its parent, the
    outermost one to the container, in the same order.  The tree is
    then committed with these nodes. *)
Theorem mount_calls C (fuel : nat) (s : engine) (tag : string)
    (attrs : list (string * value)) (kids : forest) (c : node)
    (Hfresh : currentRoot s = None)
    (Hfuel : nodes (tree tag attrs kids) + 2 < fuel) :
  exists s',
    exec (render (treeElement tag attrs kids) (Some c) ;;
          workLoop C fuel unhurried) s = Ok s' /\
    log s' = log s ++ creations (nextNode s) (tree tag attrs kids)
                   ++ attachments c (nextNode s) (tree tag attrs kids) /\
    nextNode s' = nextNode s + nodes (tree tag attrs kids) /\
    committedWith s' c (nextNode s) (tree tag attrs kids).
Proof.
  destruct (render_tick C false fuel s tag attrs kids c NoMore (nextNode s))
    as (s' & Hrun & Hlog & Hnode & Hcommitted & _); [done|done|].
  by exists s'.
Qed.

Lemma mount_calls_witness :
  exists s',
    exec (render (treeElement "div" sampleAttrs sampleKids) (Some 0) ;;
          workLoop noApp 20 unhurried) (initial 1) = Ok s' /\
    log s' = log (initial 1)
               ++ creations (nextNode (initial 1)) (tree "div" sampleAttrs sampleKids)
               ++ attachments 0 (nextNode (initial 1))
                    (tree "div" sampleAttrs sampleKids) /\
    nextNode s' = nextNode (initial 1) + nodes (tree "div" sampleAttrs sampleKids) /\
    committedWith s' 0 (nextNode (initial 1)) (tree "div" sampleAttrs sampleKids).
Proof.
  apply (mount_calls noApp 20 (initial 1) "div" sampleAttrs sampleKids 0).
  - reflexivity.
  - vm_compute. lia.
Defined.

(** X20.  Updating in place: when the committed tree is that of
    descriptions [G] and [render] is called with descriptions [F] of
    the same kinds at the same positions, the pass makes no node and
    attaches none; its only backend calls are, at the commit, one
    [updateDom] per node, from the [props] the node was committed with
    to its new ones, in the order description, children, siblings.  The
    tree of [F] is then committed on the same nodes. *)
Theorem update_calls C (fuel : nat) (s : engine) (tag : string)
    (attrs : list (string * value)) (kids : forest) (c n : node) (G : forest)
    (Hcommitted : committedWith s c n G)
    (Hkinds : sameKinds G (tree tag attrs kids))
    (Hfuel : nodes (tree tag attrs kids) + 2 < fuel) :
  exists s',
    exec (render (treeElement tag attrs kids) (Some c) ;;
          workLoop C fuel unhurried) s = Ok s' /\
    log s' = log s ++ refreshes n G (tree tag attrs kids) /\
    nextNode s' = nextNode s /\
    committedWith s' c n (tree tag attrs kids).
Proof.
  destruct (render_tick C true fuel s tag attrs kids c G n)
    as (s' & Hrun & Hlog & Hnode & Hdone & _); [done|done|].
  by exists s'.
Qed.

Lemma update_calls_witness :
  exists s',
    exec (render (treeElement "div" changedAttrs changedKids) (Some 0) ;;
          workLoop noApp 20 unhurried) sampleStore = Ok s' /\
    log s' = log sampleStore
               ++ refreshes 1 (tree "div" sampleAttrs sampleKids)
                    (tree "div" changedAttrs changedKids) /\
    nextNode s' = nextNode sampleStore /\
    committedWith s' 0 1 (tree "div" changedAttrs changedKids).
Proof.
  apply (update_calls noApp 20 sampleStore "div" changedAttrs changedKids 0 1
           (tree "div" sampleAttrs sampleKids)).
  - unfold committedWith. vm_compute. repeat (eexists || split); lia.
  - vm_compute. done.
  - vm_compute. lia.
Defined.

(** X21.  Rendering the committed tree again changes nothing on the
    page: when the attributes of the descriptions are primitives or
    functions the application names, a pass over the very descriptions
    that are committed makes no node, attaches and removes none, and
    its calls of [updateDom] amount to no call on any node; the tree
    stays committed as it was, so that this can be repeated. *)
Theorem rerender_same_tree C (fuel : nat) (s : engine) (tag : string)
    (attrs : list (string * value)) (kids : forest) (c n : node)
    (Hcommitted : committedWith s c n (tree tag attrs kids))
    (Hplain : plain (tree tag attrs kids))
    (Hfuel : nodes (tree tag attrs kids) + 2 < fuel) :
  exists s' entries,
    exec (render (treeElement tag attrs kids) (Some c) ;;
          workLoop C fuel unhurried) s = Ok s' /\
    log s' = log s ++ entries /\
    Forall updates entries /\
    Forall (fun e => nodeCalls e = Some []) entries /\
    nextNode s' = nextNode s /\
    committedWith s' c n (tree tag attrs kids).
Proof.
  destruct (render_tick C true fuel s tag attrs kids c (tree tag attrs kids) n)
    as (s' & Hrun & Hlog & Hnode & Hdone & _); [|done|].
  { split; [done|]. apply sameKinds_refl. }
  exists s', (refreshes n (tree tag attrs kids) (tree tag attrs kids)).
  split; [done|]. split; [done|]. split; [apply refreshes_updates|].
  split; [|done].
  by apply refreshes_plain.
Qed.

Lemma rerender_same_tree_witness :
  exists s' entries,
    exec (render (treeElement "div" sampleAttrs sampleKids) (Some 0) ;;
          workLoop noApp 20 unhurried) sampleStore = Ok s' /\
    log s' = log sampleStore ++ entries /\
    Forall updates entries /\
    Forall (fun e => nodeCalls e = Some []) entries /\
    nextNode s' = nextNode sampleStore /\
    committedWith s' 0 1 (tree "div" sampleAttrs sampleKids).
Proof.
  apply (rerender_same_tree noApp 20 sampleStore "div" sampleAttrs sampleKids 0 1).
  - unfold committedWith. vm_compute. repeat (eexists || split); lia.
  - unfold tree, sampleAttrs, sampleKids. cbn [plain lookup_field].
    repeat split; intros k v Hk; try done.
    + destruct (String.eqb_spec "id" k) as [<-|_]; [by intros [= <-]|done].
    + destruct (String.eqb_spec "nodeValue" k) as [<-|_]; [by intros [= <-]|done].
  - vm_compute. lia.
Defined.

(** ** Hooks are matched by the order of the calls *)

Lemma oldHookOf_at wf a af ahs i s :
  alternate wf = Some a -> fibers s !! a = Some af -> hooks af = Some ahs ->
  hookIndex s = Some i -> oldHookOf wf s = Ok (ahs !! i, s).
Proof.
  intros Ha Haf Hahs Hi. unfold oldHookOf. rewrite Ha.
  erewrite bind_ok; [|by apply readFiber_ok]. rewrite Hahs.
  unfold bind, gets, ret. by rewrite Hi.
Qed.

Lemma runProg_cells p : forall s w wf hs i a af ahs olds,
  wipFiber s = Some w -> fibers s !! w = Some wf -> hooks wf = Some hs ->
  hookIndex s = Some i ->
  alternate wf = Some a -> a <> w -> fibers s !! a = Some af ->
  hooks af = Some ahs ->
  Forall2 (fun o c => cells s !! o = Some c) (drop i ahs) olds ->
  runProg p s =
    Ok (fst (evaluated p olds (length (cells s))),
        with_hookIndex (Some (i + length (snd (evaluated p olds (length (cells s))))))
          (with_fibers
             (<[w := set_hooks
                       (Some (hs ++ seq (length (cells s))
                                      (length (snd (evaluated p olds
                                                      (length (cells s)))))))
                       wf]> (fibers s))
             (with_cells (cells s ++ snd (evaluated p olds (length (cells s)))) s))).
Proof.
  induction p as [element|initial k IH];
    intros s w wf hs i a af ahs olds Hw Hwf Hhs Hi Ha Hne Haf Hahs Holds.
  - cbn [runProg evaluated fst snd length seq]. unfold ret. do 2 f_equal.
    apply engine_eq; fields; try done.
    + rewrite app_nil_r, <- Hhs, set_hooks_same. by rewrite list_insert_id.
    + by rewrite app_nil_r.
    + by rewrite Nat.add_0_r.
  - cbn [runProg evaluated fst snd].
    set (h := length (cells s)).
    set (st := stateFor initial (head olds)).
    assert (Hfound : exists o, oldHookOf wf s = Ok (o, s) /\
              match o with
              | Some o => cells s !! o = head olds /\ is_Some (head olds)
              | None => head olds = None
              end).
    { exists (ahs !! i). split; [by eapply oldHookOf_at|].
      destruct olds as [|c olds].
      - apply Forall2_nil_inv_r in Holds as Hd.
        rewrite lookup_ge_None_2; [done|].
        apply (f_equal length) in Hd. rewrite length_drop in Hd. cbn in Hd. lia.
      - apply Forall2_cons_inv_r in Holds as (o & os & Ho & Hrest & Hd).
        assert (drop i ahs !! 0 = Some o) as Hl by by rewrite Hd.
        rewrite lookup_drop, Nat.add_0_r in Hl. rewrite Hl. cbn. eauto. }
    pose proof (useState_run initial s w wf hs (head olds) Hw Hwf Hhs Hfound)
      as Hrun.
    cbn zeta in Hrun. fold (stateFor initial (head olds)) in Hrun.
    fold st h in Hrun. rewrite Hi in Hrun. cbn [default] in Hrun.
    erewrite bind_ok; [|exact Hrun]. cbn [fst snd].
    set (s1 := with_hookIndex _ _) in *.
    set (wf1 := set_hooks (Some (hs ++ [h])) wf).
    assert (Hlen1 : length (cells s1) = S h).
    { subst s1. fields. rewrite length_app. cbn. subst h. lia. }
    rewrite (IH st (VFun (FSetState h)) s1 w wf1 (hs ++ [h]) (S i) a af ahs
               (tail olds)); try done.
    + rewrite Hlen1. do 2 f_equal.
      set (r := evaluated _ _ _).
      apply engine_eq; subst s1; fields; try done.
      * rewrite list_insert_insert_eq. subst wf1.
        rewrite set_hooks_set_hooks. cbn [length seq].
        by rewrite <- app_assoc.
      * by rewrite <- app_assoc.
      * cbn [length]. f_equal. lia.
    + subst s1. fields. rewrite list_lookup_insert_eq; [done|].
      by eapply lookup_lt_Some.
    + subst s1. fields. by rewrite list_lookup_insert_ne.
    + subst s1. fields.
      assert (Hrest : Forall2 (fun o c => cells s !! o = Some c)
                        (drop (S i) ahs) (tail olds)).
      { destruct olds as [|c olds].
        - apply Forall2_nil_inv_r in Holds as Hd. cbn.
          assert (drop (S i) ahs = []) as ->; [|constructor].
          apply drop_ge.
          apply (f_equal length) in Hd. rewrite length_drop in Hd. cbn in Hd. lia.
        - apply Forall2_cons_inv_r in Holds as (o & os & Ho & Hrest & Hd).
          cbn. assert (drop (S i) ahs = os) as ->; [|done].
          replace (S i) with (i + 1) by lia.
          rewrite <- (drop_drop ahs 1 i), Hd. done. }
      eapply Forall2_impl; [exact Hrest|].
      intros o c Hc. by apply lookup_app_l_Some.
Qed.

(** X22.  The rules of hooks, as the code has them: while a component
    whose fiber has an alternate is evaluated, the calls of [useState]
    are matched with the hook cells of the alternate by their order
    alone.  The first call is given the state of the first cell with
    the queue of that cell applied, the second that of the second, and
    so on, a call beyond the last cell its own initial value; every
    call makes a new cell with an empty queue, the old cells are left
    as they were, and the fiber ends up with as many hooks as there
    were calls, in the order of the calls. *)
Theorem hooks_by_position (p : prog) (s : engine) (w a : loc) (wf af : fiber)
    (ahs : list loc) (olds : list hook)
    (Hw : wipFiber s = Some w) (Hwf : fibers s !! w = Some wf)
    (Hhs : hooks wf = Some []) (Hi : hookIndex s = Some 0)
    (Ha : alternate wf = Some a) (Hne : a <> w)
    (Haf : fibers s !! a = Some af) (Hahs : hooks af = Some ahs)
    (Holds : Forall2 (fun o c => cells s !! o = Some c) ahs olds) :
  exists s',
    runProg p s = Ok (fst (evaluated p olds (length (cells s))), s') /\
    cells s' = cells s ++ snd (evaluated p olds (length (cells s))) /\
    (fiberAt s' (Some w) ≫= hooks) =
      Some (seq (length (cells s))
              (length (snd (evaluated p olds (length (cells s)))))) /\
    hookIndex s' = Some (length (snd (evaluated p olds (length (cells s))))) /\
    (forall l, l <> w -> fibers s' !! l = fibers s !! l).
Proof.
  eexists. split.
  - by apply (runProg_cells p s w wf [] 0 a af ahs olds).
  - fields. split; [done|]. split; [|split; [done|]].
    + cbn [fiberAt]. fields.
      rewrite list_lookup_insert_eq by (by eapply lookup_lt_Some).
      done.
    + intros l Hl. by rewrite list_lookup_insert_ne.
Qed.

Lemma hooks_by_position_witness :
  exists s',
    runProg (Unstable VNull) reevaluating =
      Ok (fst (evaluated (Unstable VNull)
                 [{| state := VNum 3; queue := [times 2; plus 1] |}]
                 (length (cells reevaluating))), s') /\
    cells s' = cells reevaluating
                 ++ snd (evaluated (Unstable VNull)
                           [{| state := VNum 3; queue := [times 2; plus 1] |}]
                           (length (cells reevaluating))) /\
    (fiberAt s' (Some 1) ≫= hooks) =
      Some (seq (length (cells reevaluating))
              (length (snd (evaluated (Unstable VNull)
                              [{| state := VNum 3; queue := [times 2; plus 1] |}]
                              (length (cells reevaluating)))))) /\
    hookIndex s' =
      Some (length (snd (evaluated (Unstable VNull)
                           [{| state := VNum 3; queue := [times 2; plus 1] |}]
                           (length (cells reevaluating))))) /\
    (forall l, l <> 1 -> fibers s' !! l = fibers reevaluating !! l).
Proof.
  eapply (hooks_by_position (Unstable VNull) reevaluating 1 0 _ _ [0]
            [{| state := VNum 3; queue := [times 2; plus 1] |}]);
    try reflexivity.
  - lia.
  - repeat constructor.
Defined.

(** ** Replacing the tree by one of another kind *)

(** The finished tree of a first pass below a fiber is not affected by
    a change of that fiber: the fibers below have another parent. *)
Lemma raised_frame_but old lo bound X X' o fo ro F : forall q p G n,
  X !! o = Some fo -> parent fo = Some ro -> ro < lo -> lo <= p ->
  (forall l, lo <= l < bound -> l <> o -> X' !! l = X !! l) ->
  raised false old lo bound X q p G F n ->
  raised false old lo bound X' q p G F n.
Proof.
  induction F as [|tag attrs kids IHk next IHn];
    intros q p G n Ho Hpar Hro Hp Hsame; [done|].
  cbn [raised].
  intros (a & f & -> & Ha & Hf & Ht & Hps & Hd & Hpa & Htag & _ & Hkids & Hnext).
  exists a, f.
  split; [done|]. split; [done|].
  split.
  { rewrite Hsame; [done|done|]. intros ->.
    rewrite Hf in Ho. injection Ho as ->. rewrite Hpa in Hpar.
    injection Hpar as ->. lia. }
  repeat (split; [done|]).
  split; [apply IHk; try done; lia|by apply IHn].
Qed.

(** A pass started by [render] with a description whose kind is not
    that of the committed tree, the committed tree being that of a
    first pass: commit included, with all its backend calls. *)
Lemma replace_tick C fuel s tag attrs kids c r0 fr0 tag0 attrs0 kids0 G0 n0 :
  currentRoot s = Some r0 -> fibers s !! r0 = Some fr0 -> dom fr0 = Some c ->
  raised false r0 (S r0) (length (fibers s)) (fibers s) (child fr0) r0
    G0 (tree tag0 attrs0 kids0) n0 ->
  tag0 <> tag ->
  nodes (tree tag attrs kids) + 2 < fuel -> nodes kids0 + 2 < fuel ->
  exists s',
    exec (render (treeElement tag attrs kids) (Some c) ;;
          workLoop C fuel unhurried) s = Ok s' /\
    log s' = log s ++ creations (nextNode s) (tree tag attrs kids)
                   ++ RemoveChild c n0 :: attachments n0 (S n0) kids0
                   ++ attachments c (nextNode s) (tree tag attrs kids) /\
    nextNode s' = nextNode s + nodes (tree tag attrs kids) /\
    committedWith s' c (nextNode s) (tree tag attrs kids).
Proof.
  intros Hcur Hfr0 Hdom0 Hold Htag Hfuel Hfuel0.
  set (F := tree tag attrs kids) in *.
  cbn [raised tree] in Hold.
  destruct Hold as (o & fo & Hch0 & Ho & Hfo & Hto & Hpso & Hdo & Hpao & Htago
                    & _ & Hkids0 & Hsibo).
  set (r := length (fibers s)) in *.
  set (fr := rootFiber (Some c)
               (VObj [("children", VArr [treeElement tag attrs kids])])
               (Some r0)).
  set (s0 := with_nextUnitOfWork (Some r)
               (with_deletions (Some [])
                  (with_wipRoot (Some r) (with_fibers (fibers s ++ [fr]) s)))).
  assert (Hrender : render (treeElement tag attrs kids) (Some c) s = Ok (tt, s0)).
  { unfold render, bind, gets. by rewrite Hcur. }
  assert (Hr0 : r0 < r) by (by eapply lookup_lt_Some).
  assert (Hfr : fibers s0 !! r = Some fr).
  { subst s0 r. cbn. by rewrite lookup_app_r, Nat.sub_diag. }
  assert (Hfo0 : fibers s0 !! o = Some fo).
  { subst s0. fields. by apply lookup_app_l_Some. }
  assert (Hfr00 : fibers s0 !! r0 = Some fr0).
  { subst s0. fields. by apply lookup_app_l_Some. }
  assert (Hlen0 : length (fibers s0) = S r).
  { subst s0 r. fields. rewrite length_app. simpl. lia. }
  set (new := placed r (VStr tag) (nodeProps attrs kids)).
  set (gone := set_effectTag (Some DELETION) fo).
  set (X1 := <[r := set_child (Some (S r)) fr]>
               (<[o := gone]> (fibers s0 ++ [new]))).
  set (s1 := with_deletions (Some [o]) (with_fibers X1 s0)).
  destruct fuel as [|fuel1]; [lia|].
  assert (Hrec :
    reconcileChildren (S fuel1) r (VArr [treeElement tag attrs kids]) s0 =
    Ok (tt, s1)).
  { unfold reconcileChildren.
    erewrite bind_ok; [|by apply readFiber_ok]. cbn [alternate fr rootFiber].
    erewrite bind_assoc, bind_ok; [|by apply readFiber_ok].
    erewrite bind_ok; [|reflexivity]. rewrite Hch0.
    erewrite bind_ok; [|reflexivity].
    erewrite (reconcileLoop_replace fuel1 r _ 0 None s0 _ o fo []);
      [|reflexivity|reflexivity|exact Hfo0| |reflexivity].
    2:{ intros s'. cbn [lookup_field default String.eqb]. cbn. rewrite Hto.
        unfold looseEq, ret. do 2 f_equal.
        apply String.eqb_neq. congruence. }
    rewrite Hlen0.
    unfold link. cbn [Nat.eqb].
    erewrite bind_ok; cycle 1.
    { apply updateFiber_ok. fields.
      rewrite list_lookup_insert_ne by lia.
      rewrite lookup_app_l by lia. exact Hfr. }
    cbn [raised] in Hsibo. rewrite Hsibo.
    rewrite reconcileLoop_done by done.
    reflexivity. }
  assert (Hor : o < r) by lia.
  assert (HlenX1 : length X1 = S (S r)).
  { subst X1. rewrite !length_insert, length_app, Hlen0. simpl. lia. }
  assert (HX1r : X1 !! r = Some (set_child (Some (S r)) fr)).
  { subst X1. apply list_lookup_insert_eq.
    rewrite length_insert, length_app, Hlen0. simpl. lia. }
  assert (HX1o : X1 !! o = Some gone).
  { subst X1. rewrite list_lookup_insert_ne by lia. apply list_lookup_insert_eq.
    rewrite length_app, Hlen0. simpl. lia. }
  assert (HX1new : X1 !! S r = Some new).
  { subst X1. rewrite !list_lookup_insert_ne by lia.
    rewrite lookup_app_r by lia. by rewrite Hlen0, Nat.sub_diag. }
  assert (HX1old : forall l, l < r -> l <> o -> X1 !! l = fibers s !! l).
  { intros l Hl Hlo. subst X1. rewrite !list_lookup_insert_ne by lia.
    rewrite lookup_app_l by lia. subst s0. fields. by rewrite lookup_app_l by lia. }
  assert (Hunit : performUnitOfWork C (S fuel1) r s0 = Ok (Some (S r), s1)).
  { unfold performUnitOfWork.
    erewrite bind_ok; [|by apply readFiber_ok]. cbn [type fr rootFiber].
    unfold updateHostComponent.
    erewrite bind_assoc, bind_ok; [|by apply readFiber_ok].
    cbn [dom fr rootFiber].
    erewrite bind_assoc, bind_ok; [|reflexivity].
    erewrite bind_assoc, bind_ok; [|by apply readFiber_ok].
    cbn [props fr rootFiber].
    erewrite bind_assoc, bind_ok; [|reflexivity].
    erewrite bind_ok; [|exact Hrec].
    erewrite bind_ok; [|apply readFiber_ok; exact HX1r].
    reflexivity. }
  set (s1' := with_nextUnitOfWork (Some (S r)) s1).
  destruct (forest_raised C false r (S fuel1) F s1' (S r) r None 1 NoMore
              (nextNode s))
    as (X & Hrun & HlenX & HsameX & Hraised); try done; try lia.
  { cbn [awaiting F tree]. exists new. by repeat split. }
  { eapply climbs_parent; [lia|exact HX1r|done|]. constructor. }
  cbn [fibers with_fibers with_nextUnitOfWork with_deletions s1' s1]
    in HlenX, HsameX.
  rewrite HlenX1 in HlenX, HsameX.
  assert (HXr : X !! r = Some (set_child (Some (S r)) fr))
    by (rewrite HsameX by (cbn; lia); done).
  assert (HXo : X !! o = Some gone)
    by (rewrite HsameX by (cbn; lia); done).
  assert (HXold : forall l, l < r -> l <> o -> X !! l = fibers s !! l).
  { intros l Hl Hlo. rewrite HsameX by (cbn; lia). by apply HX1old. }
  set (s2 := with_nextUnitOfWork None
               (with_backend (nextNode s1' + nodes F)
                  (log s1' ++ passLog false (nextNode s) F) (with_fibers X s1'))).
  assert (Hunits :
    workUnits C (S fuel1) (S fuel1) unhurried 0 false s0 = Ok (tt, s2)).
  { assert (Hn0 : nextUnitOfWork s0 = Some r) by done.
    rewrite (workUnits_unit _ _ _ _ _ _ _ _ Hn0 Hunit). fold s1'.
    replace fuel1 with (nodes F + (fuel1 - nodes F)) at 2 by lia.
    rewrite Hrun. by rewrite workUnits_idle. }
  assert (Hremove :
    commitWork (S fuel1) (Some o) s2 =
    Ok (tt, with_backend (nextNode s2)
              (log s2 ++ RemoveChild c n0 :: attachments n0 (S n0) kids0) s2)).
  { rewrite commitWork_unfold.
    erewrite bind_ok; [|apply readFiber_ok; exact HXo].
    unfold gone at 1. cbn [parent set_effectTag]. rewrite Hpao.
    erewrite bind_ok; cycle 1.
    { apply (domParentOf_anchored s2 r0 c 1); [|lia].
      eapply anchored_here; [|exact Hdom0].
      subst s2. fields. rewrite HXold; [done|lia|lia]. }
    unfold gone. cbn [effectTag dom child sibling set_effectTag]. fold gone.
    erewrite bind_ok; cycle 1.
    { apply (commitDeletion_hosted s2 o n0 1); [|lia].
      eapply hosted_here; [exact HXo|]. done. }
    set (s3 := with_backend _ _ s2).
    erewrite bind_ok; cycle 1.
    { apply (commitWork_raised false r0 (S r0) r X kids0 (child fo) o n0 1
               fuel1 s3 (below G0) (S n0)); try done; try lia.
      - eapply (raised_frame_but _ _ _ (fibers s) X o fo r0);
          [exact Hfo|exact Hpao|lia|lia| |exact Hkids0].
        intros l Hl Hlo. apply HXold; lia.
      - eapply anchored_here; [exact HXo|]. done. }
    cbn [raised] in Hsibo. rewrite Hsibo.
    assert (Hnone : forall f t, commitWork f None t = Ok (tt, t)) by (by intros []).
    rewrite Hnone. do 2 f_equal.
    apply engine_eq; subst s3; fields; try done.
    cbn [commitLog]. by rewrite <- app_assoc. }
  set (s4 := with_backend (nextNode s2)
               (log s2 ++ RemoveChild c n0 :: attachments n0 (S n0) kids0) s2)
    in *.
  assert (Hattach :
    commitWork (S fuel1) (Some (S r)) s4 =
    Ok (tt, with_backend (nextNode s4)
              (log s4 ++ commitLog false c (nextNode s) NoMore F) s4)).
  { apply (commitWork_raised false r (S r) (length X) X F (Some (S r)) r c 1);
      try done; try lia.
    by eapply anchored_here. }
  eexists. split; [|split; [|split]].
  - unfold exec, workLoop.
    rewrite <- (bind_assoc (render _ _) (fun _ => workUnits _ _ _ _ _ _)).
    erewrite bind_ok; cycle 1.
    { erewrite bind_ok; [|exact Hrender]. exact Hunits. }
    erewrite bind_ok; [|reflexivity].
    erewrite bind_ok; [|reflexivity].
    cbn [nextUnitOfWork wipRoot s2 s1' s1 s0 with_nextUnitOfWork with_backend
         with_fibers with_deletions with_wipRoot].
    unfold commitRoot.
    erewrite bind_ok; [|reflexivity].
    cbn [deletions s2 s1' s1 s0 with_nextUnitOfWork with_backend with_fibers
         with_deletions with_wipRoot forEach].
    erewrite bind_assoc, bind_ok; [|exact Hremove].
    erewrite bind_ok; [|reflexivity].
    erewrite bind_ok; [|reflexivity].
    erewrite bind_ok; [|reflexivity].
    erewrite bind_ok; [|apply readFiber_ok; exact HXr].
    cbn [child set_child].
    erewrite bind_ok; [|exact Hattach].
    erewrite bind_ok; [|reflexivity].
    reflexivity.
  - subst s4 s2 s1' s1 s0. fields. cbn [passLog commitLog].
    rewrite <- !app_assoc. done.
  - subst s4 s2 s1' s1 s0. fields. done.
  - exists r, (set_child (Some (S r)) fr). subst s4 s2 s1' s1 s0. fields.
    split; [done|]. split; [done|]. split; [done|].
    cbn [child set_child]. by eapply raised_standing.
Qed.

(** X23.  Replacing the whole tree: when a tree of host descriptions is
    mounted and [render] is then called with a tree whose outermost
    description is of another kind, the second pass makes the nodes of
    the new tree from scratch, and its commit removes the outermost old
    node from the container, once, then appends every old node below
    it to its old parent once more (the fibers below a deleted fiber
    are committed with the effect tags they were left with), and last
    attaches the new nodes, the outermost one to the container.  The
    new tree is then the committed one. *)
Theorem replace_calls C (fuel : nat) (s : engine) (c : node)
    (tag0 tag : string) (attrs0 attrs : list (string * value))
    (kids0 kids : forest)
    (Hfresh : currentRoot s = None)
    (Hkind : tag0 <> tag)
    (Hfuel0 : nodes (tree tag0 attrs0 kids0) + 2 < fuel)
    (Hfuel : nodes (tree tag attrs kids) + 2 < fuel) :
  exists s',
    andThen
      (exec (render (treeElement tag0 attrs0 kids0) (Some c) ;;
             workLoop C fuel unhurried) s)
      (exec (render (treeElement tag attrs kids) (Some c) ;;
             workLoop C fuel unhurried)) = Ok s' /\
    log s' =
      log s ++ creations (nextNode s) (tree tag0 attrs0 kids0)
            ++ attachments c (nextNode s) (tree tag0 attrs0 kids0)
            ++ creations (nextNode s + nodes (tree tag0 attrs0 kids0))
                 (tree tag attrs kids)
            ++ RemoveChild c (nextNode s)
               :: attachments (nextNode s) (S (nextNode s)) kids0
            ++ attachments c (nextNode s + nodes (tree tag0 attrs0 kids0))
                 (tree tag attrs kids) /\
    committedWith s' c (nextNode s + nodes (tree tag0 attrs0 kids0))
      (tree tag attrs kids).
Proof.
  destruct (render_tick C false fuel s tag0 attrs0 kids0 c NoMore (nextNode s))
    as (s1 & Hrun1 & Hlog1 & Hnode1 & _ & _ & _ & fr & Hcur1 & Hfr1 & Hdom1 & Hraised);
    [done|done|].
  destruct (replace_tick C fuel s1 tag attrs kids c (length (fibers s)) fr
              tag0 attrs0 kids0 NoMore (nextNode s))
    as (s2 & Hrun2 & Hlog2 & Hnode2 & Hcommitted); try done.
  { cbn [nodes tree] in Hfuel0. lia. }
  exists s2. rewrite Hrun1. cbn [andThen]. split; [done|].
  rewrite Hlog2, Hlog1, Hnode1. cbn [passLog commitLog].
  rewrite Hnode1 in Hcommitted. split; [|done].
  by rewrite <- !app_assoc.
Qed.

Lemma replace_calls_witness :
  exists s',
    andThen
      (exec (render (treeElement "div" sampleAttrs sampleKids) (Some 0) ;;
             workLoop noApp 20 unhurried) (initial 1))
      (exec (render (treeElement "section" changedAttrs changedKids) (Some 0) ;;
             workLoop noApp 20 unhurried)) = Ok s' /\
    log s' =
      log (initial 1)
        ++ creations (nextNode (initial 1)) (tree "div" sampleAttrs sampleKids)
        ++ attachments 0 (nextNode (initial 1)) (tree "div" sampleAttrs sampleKids)
        ++ creations (nextNode (initial 1) + nodes (tree "div" sampleAttrs sampleKids))
             (tree "section" changedAttrs changedKids)
        ++ RemoveChild 0 (nextNode (initial 1))
           :: attachments (nextNode (initial 1)) (S (nextNode (initial 1))) sampleKids
        ++ attachments 0 (nextNode (initial 1) + nodes (tree "div" sampleAttrs sampleKids))
             (tree "section" changedAttrs changedKids) /\
    committedWith s' 0 (nextNode (initial 1) + nodes (tree "div" sampleAttrs sampleKids))
      (tree "section" changedAttrs changedKids).
Proof.
  apply (replace_calls noApp 20 (initial 1) 0 "div" "section"
           sampleAttrs changedAttrs sampleKids changedKids).
  - reflexivity.
  - discriminate.
  - vm_compute. lia.
  - vm_compute. lia.
Defined.

(** ** What a click on the counter does to the page *)

Lemma counterOn_under bound h c n s :
  counterOn bound h c n s -> counterUnder bound h c s.
Proof.
  intros (r & fr & cf & fc & Hcur & Hr & Hfr & Hdom & Hprops & Hch & Hcf & Hfc
          & Htype & Hdomc & Hsibc & Hhooks & Hcell & Hst).
  exists r, fr, cf, fc, h, (state c). repeat (split; [done|]).
  eapply standing_shape; [|exact Hst]. apply sameKinds_refl.
Qed.

Lemma counterOn_mono bound bound' h c n s :
  bound <= bound' -> counterOn bound h c n s -> counterOn bound' h c n s.
Proof.
  intros Hb (r & fr & cf & fc & Hcur & Hr & Hfr & Hdom & Hprops & Hch & Hcf & Hfc
             & Htype & Hdomc & Hsibc & Hhooks & Hcell & Hst).
  exists r, fr, cf, fc. repeat split; try done; try lia.
  by eapply standing_mono.
Qed.

Lemma setState_on base h c n action s :
  counterOn base h c n s -> base <= length (fibers s) ->
  exists s0,
    setState h action s = Ok (tt, s0) /\
    counterOn base h {| state := state c; queue := queue c ++ [action] |} n s0 /\
    scheduled (length (fibers s)) s0 /\
    length (fibers s0) = S (length (fibers s)) /\
    length (cells s0) = length (cells s) /\
    log s0 = log s.
Proof.
  intros Hon Hbase.
  pose proof Hon as (r & fr & cf & fc & Hcur & Hr & Hfr & Hdom & Hprops & Hch
                     & Hcf & Hfc & Htype & Hdomc & Hsibc & Hhooks & Hcell & Hst).
  destruct (setState_counter base h c h c action s (counterOn_under _ _ _ _ _ Hon)
              Hbase Hcell) as (s0 & Hrun & _ & Hsched & Hlen & Hcells).
  exists s0. split; [done|]. split; [|split; [done|split; [done|split; [done|]]]].
  - rewrite (setState_ok h action s c r fr Hcell Hcur Hfr) in Hrun.
    injection Hrun as <-.
    exists r, fr, cf, fc. fields.
    repeat split; try done; try (by apply lookup_app_l_Some).
    + apply list_lookup_insert_eq. by eapply lookup_lt_Some.
    + cbn [state]. eapply standing_frame; [|exact Hst].
      intros l Hl. by rewrite lookup_app_l by lia.
  - rewrite (setState_ok h action s c r fr Hcell Hcur Hfr) in Hrun.
    by injection Hrun as <-.
Qed.

Lemma forEach_setState_on base h n : forall actions c s,
  actions <> [] ->
  counterOn base h c n s -> base <= length (fibers s) ->
  exists sn L,
    forEach (setState h) actions s = Ok (tt, sn) /\
    counterOn base h {| state := state c; queue := queue c ++ actions |} n sn /\
    scheduled L sn /\ base <= L /\ length (cells sn) = length (cells s) /\
    log sn = log s.
Proof.
  induction actions as [|a rest IH]; intros c s Hne Hc Hbase; [done|].
  destruct (setState_on base h c n a s Hc Hbase)
    as (s0 & H0 & Hc0 & Hs0 & Hlen0 & Hcells0 & Hlog0).
  cbn [forEach]. destruct rest as [|a' rest].
  - exists s0, (length (fibers s)). cbn [forEach].
    erewrite bind_ok; [|exact H0].
    split; [done|]. split; [exact Hc0|]. split; [done|]. split; [lia|done].
  - assert (Hrest : a' :: rest <> []) by done.
    assert (Hbase0 : base <= length (fibers s0)) by lia.
    destruct (IH _ s0 Hrest Hc0 Hbase0)
      as (sn & L & Hn & Hcn & Hsn & HL & Hcellsn & Hlogn).
    exists sn, L. erewrite bind_ok; [|exact H0].
    split; [done|]. cbn [state queue] in Hcn. rewrite <- app_assoc in Hcn.
    split; [exact Hcn|]. split; [done|]. split; [done|].
    split; congruence.
Qed.

(** One pass over the counter, as in [counter_pass], with its backend
    calls. *)
Lemma counter_pass_calls start L h c n s :
  counterOn L h c n s -> scheduled L s ->
  typeof (applyAll (queue c) (state c)) <> "object" ->
  exists s',
    tick start s = Ok (tt, s') /\
    counterOn (length (fibers s')) (length (cells s))
      {| state := applyAll (queue c) (state c); queue := [] |} n s' /\
    nextUnitOfWork s' = None /\ wipRoot s' = None /\
    log s' = log s ++ refreshes n (counterForest h (state c))
                        (counterForest (length (cells s))
                           (applyAll (queue c) (state c))) /\
    nextNode s' = nextNode s.
Proof.
  intros (r & fr & cf & fc & Hcur & Hr & Hfr & Hdom & Hprops & Hch
          & Hcf & Hfc & Htype & Hdomc & Hsibc & Hhooks & Hcell & Hst)
         (Hwip & Hnext & Hdel & Hlen0 & HL0) Hv.
  set (G := counterForest h (state c)) in *.
  set (C := counterApp start).
  set (v1 := applyAll (queue c) (state c)) in *.
  rewrite Hcur in HL0.
  set (root := rootFiber container (VObj [("children", VArr [element])]) (Some r))
    in *.
  (* the root *)
  set (cw := reused L cf fc (VObj [("children", VArr [])])).
  set (F1 := <[L := set_child (Some (S L)) root]> (fibers s ++ [cw])).
  set (s1 := with_fibers F1 s).
  assert (Hrec1 : reconcileChildren 20 L (VArr [element]) s = Ok (tt, s1)).
  { unfold reconcileChildren.
    erewrite bind_ok; [|by apply readFiber_ok].
    cbn [alternate root rootFiber].
    erewrite bind_assoc, bind_ok; [|by apply readFiber_ok].
    erewrite bind_ok; [|reflexivity]. rewrite Hch.
    erewrite bind_ok; [|reflexivity].
    erewrite (reconcileLoop_reuse_any 19 L _ 0 None s _ cf fc);
      [|reflexivity|reflexivity|done|].
    2:{ intros s'. rewrite Htype. reflexivity. }
    unfold link. cbn [Nat.eqb]. rewrite Hlen0.
    erewrite bind_ok; cycle 1.
    { apply updateFiber_ok. cbn. by rewrite lookup_app_l by lia. }
    rewrite Hsibc. reflexivity. }
  assert (H1 : performUnitOfWork C 20 L s = Ok (Some (S L), s1)).
  { unfold performUnitOfWork.
    erewrite bind_ok; [|by apply readFiber_ok]. cbn [type root rootFiber].
    unfold updateHostComponent.
    erewrite bind_assoc, bind_ok; [|by apply readFiber_ok].
    cbn [dom root rootFiber container].
    erewrite bind_assoc, bind_ok; [|reflexivity].
    erewrite bind_assoc, bind_ok; [|by apply readFiber_ok].
    erewrite bind_assoc, bind_ok; [|reflexivity].
    erewrite bind_ok; [|exact Hrec1].
    erewrite bind_ok; cycle 1.
    { apply readFiber_ok. subst s1 F1. cbn.
      apply list_lookup_insert_eq. rewrite length_app. lia. }
    reflexivity. }
  (* the component *)
  assert (HF1L : F1 !! L = Some (set_child (Some (S L)) root)).
  { subst F1. apply list_lookup_insert_eq. rewrite length_app. lia. }
  assert (HF1S : F1 !! S L = Some cw).
  { subst F1. rewrite list_lookup_insert_ne by lia.
    rewrite lookup_app_r by lia. by rewrite Hlen0, Nat.sub_diag. }
  assert (HF1old : forall l, l < L -> F1 !! l = fibers s !! l).
  { intros l Hl. subst F1. rewrite list_lookup_insert_ne by lia.
    by rewrite lookup_app_l by lia. }
  assert (HlenF1 : length F1 = S (S L)).
  { subst F1. rewrite length_insert, length_app, Hlen0. simpl. lia. }
  set (K := length (cells s)).
  set (cw1 := set_hooks (Some [K]) (set_hooks (Some []) cw)).
  set (F2 := <[S L := cw1]> (<[S L := set_hooks (Some []) cw]> F1)).
  set (cells1 := cells s ++ [{| state := v1; queue := [] |}]).
  set (sb := with_hookIndex (Some 1)
               (with_fibers F2
                  (with_cells cells1
                     (with_wipFiber (Some (S L))
                        (with_nextUnitOfWork (Some (S L)) s1))))).
  set (next := counterForest K v1).
  set (sa := with_fibers (<[S L := set_hooks (Some []) cw]> F1)
               (with_hookIndex (Some 0)
                  (with_wipFiber (Some (S L))
                     (with_nextUnitOfWork (Some (S L)) s1)))).
  assert (Hcall :
    callComponent C (set_hooks (Some []) cw) sa =
    Ok (treeElement "h1"
          [("onClick", VFun (FClosure "() => setState(c => c + 1)"
                               [VFun (FSetState K)]))]
          (Host "TEXT_ELEMENT" [("nodeValue", VStr "Count: ")] NoMore
             (Host "TEXT_ELEMENT" [("nodeValue", v1)] NoMore
                (Host "TEXT_ELEMENT" [("nodeValue", VStr " ")] NoMore NoMore))),
        sb)).
  { unfold callComponent. cbn [type set_hooks cw reused]. rewrite Htype.
    cbn [C counterApp String.eqb Ascii.eqb Bool.eqb CounterFrom runProg].
    erewrite bind_ok; cycle 1.
    { apply (useState_run _ _ (S L) (set_hooks (Some []) cw) [] (Some c));
        try done.
      - cbn. apply list_lookup_insert_eq. lia.
      - exists (Some h). split; [|by eauto].
        unfold oldHookOf. cbn [alternate set_hooks cw reused].
        erewrite bind_ok; cycle 1.
        { apply readFiber_ok. cbn. rewrite list_lookup_insert_ne by lia.
          by rewrite HF1old. }
        rewrite Hhooks. reflexivity. }
    subst sa. fields. subst s1. fields. cbn [fst snd runProg ret].
    unfold treeElement, createElement. cbn [map describe spread].
    fold v1. rewrite (wrapChild_text v1) by done. reflexivity. }
  assert (HF2S : F2 !! S L = Some cw1).
  { subst F2. apply list_lookup_insert_eq. rewrite length_insert. lia. }
  assert (HF2ne : forall l, l <> S L -> F2 !! l = F1 !! l).
  { intros l Hl. subst F2. by rewrite !list_lookup_insert_ne. }
  assert (HlenF2 : length F2 = S (S L)).
  { subst F2. by rewrite !length_insert. }
  destruct (reconcileChildren_awaiting true L 20 (S L) cw1 next sb G n)
    as (X2 & Hrec2 & HlenX2 & HsameX2 & HX2S & Hpend2);
    [done|lia|cbn; lia| |].
  { exists cf, fc. split; [done|]. fields.
    split; [rewrite HF2ne, HF1old by lia; done|].
    split; [|done].
    eapply standing_frame; [|exact Hst].
    intros l Hl. rewrite HF2ne, HF1old by lia. done. }
  change (fibers sb) with F2 in HlenX2, HsameX2, HX2S, Hpend2.
  rewrite HlenF2 in HlenX2, HsameX2, HX2S, Hpend2.
  set (s2 := with_fibers X2 sb) in *.
  assert (H2 : performUnitOfWork C 20 (S L) (with_nextUnitOfWork (Some (S L)) s1)
               = Ok (Some (S (S L)), s2)).
  { unfold performUnitOfWork.
    erewrite bind_ok; [|by apply readFiber_ok].
    cbn [type cw reused]. rewrite Htype.
    unfold updateFunctionComponent.
    erewrite bind_assoc, bind_ok; [|reflexivity].
    erewrite bind_assoc, bind_ok; [|reflexivity].
    erewrite bind_assoc, bind_ok; [|by apply updateFiber_ok].
    erewrite bind_assoc, bind_ok; cycle 1.
    { apply readFiber_ok. cbn. apply list_lookup_insert_eq. lia. }
    erewrite bind_assoc, bind_ok; [|exact Hcall].
    erewrite bind_ok; [|exact Hrec2].
    erewrite bind_ok; [|by apply readFiber_ok].
    reflexivity. }
  (* the heading and its texts *)
  cbn [next counterForest tree] in HX2S.
  set (cw2 := set_child (Some (S (S L))) cw1) in *.
  assert (HX2L : X2 !! L = Some (set_child (Some (S L)) root)).
  { rewrite HsameX2, HF2ne by lia. done. }
  assert (HX2old : forall l, l < L -> X2 !! l = fibers s !! l).
  { intros l Hl. rewrite HsameX2, HF2ne by lia. by apply HF1old. }
  set (s2' := with_nextUnitOfWork (Some (S (S L))) s2).
  destruct (forest_raised C true L 20 next s2' (S (S L)) (S L) None 2 G n)
    as (X3 & Hrun3 & HlenX3 & HsameX3 & Hbuilt3);
    [done|done|done|lia| |cbn; lia|done|].
  { eapply climbs_parent; [lia|exact HX2S|done|].
    eapply climbs_parent; [lia|exact HX2L|done|]. constructor. }
  change (fibers s2') with X2 in HlenX3, HsameX3.
  change (breadth next) with 1 in HsameX3.
  assert (HX3L : X3 !! L = Some (set_child (Some (S L)) root)).
  { rewrite HsameX3 by lia. done. }
  assert (HX3S : X3 !! S L = Some cw2).
  { rewrite HsameX3 by lia. done. }
  cbn [passLog] in Hrun3.
  set (s3 := with_nextUnitOfWork None
               (with_backend (nextNode s2') (log s2' ++ [])
                  (with_fibers X3 s2'))) in *.
  (* the commit *)
  assert (Hcommit4 :
    commitWork 19 (Some (S (S L))) s3 =
    Ok (tt, with_backend (nextNode s3) (log s3 ++ commitLog true 0 n G next) s3)).
  { apply (commitWork_raised true L (S (S L)) (length X3) X3 next
             (Some (S (S L))) (S L) 0 2); try done; try (cbn; lia).
    eapply anchored_above; [exact HX3S|done|done|].
    by eapply anchored_here. }
  set (lg4 := commitLog true 0 n G next) in *.
  set (s4 := with_wipRoot None
               (with_currentRoot (Some L)
                  (with_backend (nextNode s3) (log s3 ++ lg4) s3))).
  assert (H4 : commitRoot 20 s3 = Ok (tt, s4)).
  { unfold commitRoot.
    erewrite bind_ok; [|reflexivity]. cbn [deletions s3 s2' s2 sb s1
      with_nextUnitOfWork with_backend with_fibers with_hookIndex with_cells
      with_wipFiber with_deletions]. rewrite Hdel. cbn [forEach].
    erewrite bind_ok; [|reflexivity].
    erewrite bind_ok; [|reflexivity].
    cbn [wipRoot s3 s2' s2 sb s1
      with_nextUnitOfWork with_backend with_fibers with_hookIndex with_cells
      with_wipFiber with_deletions]. rewrite Hwip.
    erewrite bind_ok; [|reflexivity].
    erewrite bind_ok; [|by apply readFiber_ok].
    cbn [child set_child]. rewrite commitWork_unfold.
    erewrite bind_assoc, bind_ok; [|by apply readFiber_ok].
    erewrite bind_assoc, bind_ok; cycle 1.
    { eapply (domParentOf_anchored _ _ 0 1); [|lia]. by eapply anchored_here. }
    cbn [effectTag dom cw2 cw1 cw set_child set_hooks reused]. rewrite Hdomc.
    erewrite bind_assoc, bind_ok; [|reflexivity].
    cbn [child sibling cw2 cw1 cw set_child set_hooks reused].
    erewrite bind_assoc, bind_ok; [|exact Hcommit4].
    erewrite bind_ok; [|reflexivity].
    erewrite bind_ok; [|reflexivity].
    reflexivity. }
  exists s4. split; [|split; [|split; [done|split; [done|split]]]].
  - unfold tick, workLoop. fold C.
    erewrite bind_ok; cycle 1.
    { rewrite (workUnits_unit C 20 19 0 s L _ _ Hnext H1).
      rewrite (workUnits_unit C 20 18 1 (with_nextUnitOfWork (Some (S L)) s1)
                 (S L) _ _ eq_refl H2).
      change 18 with (nodes next + 14). fold s2'. rewrite Hrun3.
      by apply workUnits_idle. }
    erewrite bind_ok; [|reflexivity].
    erewrite bind_ok; [|reflexivity].
    cbn [nextUnitOfWork wipRoot s3 s2' s2 sb s1 with_nextUnitOfWork
         with_backend with_fibers with_hookIndex with_cells with_wipFiber
         with_deletions with_wipRoot]. rewrite Hwip.
    by rewrite H4.
  - exists L, (set_child (Some (S L)) root), (S L), cw2.
    cbn [currentRoot fibers cells s4 s3 s2' s2 sb s1 with_nextUnitOfWork
         with_backend with_fibers with_hookIndex with_cells with_wipFiber
         with_deletions with_wipRoot with_currentRoot].
    split; [done|]. split; [lia|]. repeat (split; [done|]).
    split; [lia|]. repeat (split; [done|]).
    split.
    { subst cells1. by rewrite lookup_app_r, Nat.sub_diag by lia. }
    eapply raised_standing. exact Hbuilt3.
  - subst s4 s3 s2' s2 sb s1. fields. by rewrite app_nil_r.
  - by subst s4 s3 s2' s2 sb s1.
Qed.

Lemma counter_refresh_calls h K z z' n :
  h <> K ->
  allNodeCalls (refreshes n (counterForest h (VNum z)) (counterForest K (VNum z'))) =
  Some ([(n, RemoveEventListener "click" (clickHandler h));
         (n, AddEventListener "click" (clickHandler K))]
        ++ if (z =? z')%Z then []
           else [(S (S n), SetProperty "nodeValue" (VNum z'))]).
Proof.
  intros Hne. apply Nat.eqb_neq in Hne.
  cbv -[Nat.eqb Z.eqb Nat.add]. rewrite Hne.
  rewrite Nat.add_0_r.
  by destruct (z =? z')%Z.
Qed.

(** X24.  What an update of the counter does to the page.  When the
    counter is committed with state [z], calling the [setState] of its
    hook with numeric updaters and ticking makes no node and attaches
    none; the commit calls [updateDom] once on each of the four nodes
    (the heading and its three texts), and on the nodes this amounts to
    exactly: the click listener of the heading is removed and the one
    over the [setState] of the new hook cell is added in its place (the
    handler is a new function at every evaluation), and the node of the
    count gets the new state as its [nodeValue], unless the state is
    the same number as before.  The
    counter is then committed with the new state on the same nodes, so
    that the same holds of the next update. *)
Theorem counter_update_calls (start : value) (actions : list (value -> value))
    (s : engine) (h : loc) (z : Z) (n : node)
    (Hon : counterOn (length (fibers s)) h {| state := VNum z; queue := [] |} n s)
    (Hsome : actions <> [])
    (Hnum : Forall numeric actions) :
  exists s' z',
    dispatch start actions s = Ok s' /\
    applyAll actions (VNum z) = VNum z' /\
    log s' = log s ++ refreshes n (counterForest h (VNum z))
                        (counterForest (length (cells s)) (VNum z')) /\
    allNodeCalls (refreshes n (counterForest h (VNum z))
                    (counterForest (length (cells s)) (VNum z'))) =
      Some ([(n, RemoveEventListener "click" (clickHandler h));
             (n, AddEventListener "click" (clickHandler (length (cells s))))]
            ++ if (z =? z')%Z then []
               else [(S (S n), SetProperty "nodeValue" (VNum z'))]) /\
    nextNode s' = nextNode s /\
    counterOn (length (fibers s')) (length (cells s))
      {| state := VNum z'; queue := [] |} n s'.
Proof.
  destruct (applyAll_numeric actions z Hnum) as [z' Hz'].
  pose proof (counterOn_under _ _ _ _ _ Hon) as Hunder.
  apply under_counting in Hunder as (_ & Hhook & _).
  pose proof Hon as (_ & _ & _ & _ & _ & _ & _ & _ & _ & _ & _ & _ & _ & _
                     & _ & _ & Hcell & _).
  destruct (forEach_setState_on _ h n actions _ s Hsome Hon (le_n _))
    as (sn & L & Hrun & Hcn & Hsn & HL & Hcells & Hlog).
  cbn [state queue app] in Hcn.
  destruct (counter_pass_calls start L h _ n sn (counterOn_mono _ _ _ _ _ _ HL Hcn)
              Hsn)
    as (s' & Htick & Hon' & _ & _ & Hlog' & Hnode').
  { cbn [state queue]. by rewrite Hz'. }
  cbn [state queue] in Hon', Hlog'. rewrite Hz', Hcells in Hon', Hlog'.
  exists s', z'. split; [|split; [done|split; [|split; [|split]]]].
  - unfold dispatch. rewrite Hhook. unfold exec.
    erewrite bind_ok; [|exact Hrun].
    unfold tick in Htick. by rewrite Htick.
  - by rewrite Hlog', Hlog.
  - apply counter_refresh_calls.
    apply lookup_lt_Some in Hcell. lia.
  - rewrite Hnode'.
    clear -Hrun Hsome.
    revert s Hrun. induction actions as [|a rest IH]; [done|]. intros s Hrun.
    cbn [forEach] in Hrun.
    apply bind_inv in Hrun as ([] & s0 & H0 & Hrest).
    apply setState_inv in H0.
    assert (nextNode s0 = nextNode s) as <-.
    { destruct H0 as (c & r & root & _ & _ & _ & ->). done. }
    destruct rest as [|a' rest]; [by injection Hrest as ->|].
    by apply IH.
  - done.
Qed.

Lemma counter_update_calls_witness :
  exists s' z',
    dispatch (VNum 1) [plus 1] mountedStore = Ok s' /\
    applyAll [plus 1] (VNum 1) = VNum z' /\
    log s' = log mountedStore
               ++ refreshes 1 (counterForest 0 (VNum 1))
                    (counterForest (length (cells mountedStore)) (VNum z')) /\
    allNodeCalls (refreshes 1 (counterForest 0 (VNum 1))
                    (counterForest (length (cells mountedStore)) (VNum z'))) =
      Some ([(1, RemoveEventListener "click" (clickHandler 0));
             (1, AddEventListener "click"
                   (clickHandler (length (cells mountedStore))))]
            ++ if (1 =? z')%Z then []
               else [(3, SetProperty "nodeValue" (VNum z'))]) /\
    nextNode s' = nextNode mountedStore /\
    counterOn (length (fibers s')) (length (cells mountedStore))
      {| state := VNum z'; queue := [] |} 1 s'.
Proof.
  apply (counter_update_calls (VNum 1) [plus 1] mountedStore 0 1 1).
  - unfold counterOn. cbn [fibers cells currentRoot mountedStore].
    by_evaluation. vm_compute. by_evaluation; lia.
  - done.
  - repeat constructor; intros n; eexists; reflexivity.
Defined.
